(** * The comment lifecycle and moderation engine of minisource/comment

    A shallow embedding of [internal/usecase/comment_usecase.go] together with
    the parts of [internal/repository] and [internal/models] it calls, and the
    properties of the engine proved over that embedding.

    Conventions.
    - Go's [int] and [int64] are 64-bit: they are [Z] with the wrap-around of
      every arithmetic operation written out ([wrap_int]).
    - A Go [string] is a byte sequence: Rocq's [string], whose [String.length]
      is Go's [len].
    - A pointer that may be nil ([*primitive.ObjectID], [*time.Time], [*bool])
      is an [option].
    - The MongoDB collections, the clock, the driver's ObjectID counter, the
      outcome of every driver call and the process log are the fields of a
      [World] that every operation threads through the monad [M].
    - Go's [regexp] and [strings.ToLower] are an interface ([GoText]); the
      engine is embedded over any implementation of it, and [ascii_text]
      implements it for the patterns [checkBadWords] builds from plain ASCII
      words. *)

From Stdlib Require Import ZArith Lia String Ascii List Bool.
From stdpp Require Import base option list gmap strings sorting.

Local Open Scope Z_scope.
Local Open Scope string_scope.

(** ** Go integers *)

Definition int_min : Z := - 2 ^ 63.
Definition int_max : Z := 2 ^ 63 - 1.

(** The value a 64-bit two's complement register holds for [z]. *)
Definition wrap_int (z : Z) : Z := (z + 2 ^ 63) mod 2 ^ 64 - 2 ^ 63.

Definition in_int_range (z : Z) : Prop := int_min <= z <= int_max.

Definition int_add (a b : Z) : Z := wrap_int (a + b).
Definition int_sub (a b : Z) : Z := wrap_int (a - b).
Definition int_mul (a b : Z) : Z := wrap_int (a * b).
(** Go's [/] and [%] truncate toward zero. *)
Definition int_quot (a b : Z) : Z := wrap_int (Z.quot a b).
Definition int_rem (a b : Z) : Z := Z.rem a b.

(** [len(s)] *)
Definition len (s : string) : Z := Z.of_nat (String.length s).

(** ** Identifiers and time *)

(** [primitive.ObjectID] is twelve bytes, read here as the number they spell
    in base 256; [primitive.NilObjectID] is zero. *)
Abbreviation ObjectID := N (only parsing).
Definition NilObjectID : ObjectID := 0%N.

Definition hex_digit (a : ascii) : option N :=
  let n := N_of_ascii a in
  if (48 <=? n)%N && (n <=? 57)%N then Some (n - 48)%N
  else if (97 <=? n)%N && (n <=? 102)%N then Some (n - 87)%N
  else if (65 <=? n)%N && (n <=? 70)%N then Some (n - 55)%N
  else None.

Fixpoint hex_value (acc : N) (s : string) : option N :=
  match s with
  | EmptyString => Some acc
  | String a rest =>
      match hex_digit a with
      | Some d => hex_value (16 * acc + d)%N rest
      | None => None
      end
  end.

(** [primitive.ObjectIDFromHex]: exactly 24 hexadecimal digits, of either
    case; anything else is [ErrInvalidHex] ([None]). *)
Definition ObjectIDFromHex (s : string) : option ObjectID :=
  if Nat.eqb (String.length s) 24 then hex_value 0%N s else None.

(** [ObjectID.Hex]: the twelve bytes as 24 lower-case hexadecimal digits. *)
Definition hex_char (d : N) : ascii :=
  if (d <? 10)%N then ascii_of_N (48 + d) else ascii_of_N (87 + d).

Fixpoint hex_digits (n : nat) (v : N) (rest : string) : string :=
  match n with
  | O => rest
  | S n' => hex_digits n' (v / 16)%N (String (hex_char (v mod 16)%N) rest)
  end.

Definition ObjectID_Hex (id : ObjectID) : string := hex_digits 24 id "".

(** [time.Time], as an instant on the clock of the [World]. *)
Abbreviation Time := Z (only parsing).

(** ** internal/models *)

(** [type CommentStatus string] *)
Abbreviation CommentStatus := string (only parsing).
Definition StatusPending : CommentStatus := "pending".
Definition StatusApproved : CommentStatus := "approved".
Definition StatusRejected : CommentStatus := "rejected".
Definition StatusSpam : CommentStatus := "spam".

(** [type ReactionType string] *)
Abbreviation ReactionType := string (only parsing).
Definition ReactionLike : ReactionType := "like".
Definition ReactionDislike : ReactionType := "dislike".
Definition ReactionLove : ReactionType := "love".
Definition ReactionHaha : ReactionType := "haha".
Definition ReactionWow : ReactionType := "wow".
Definition ReactionSad : ReactionType := "sad".
Definition ReactionAngry : ReactionType := "angry".

(** Attachment represents a file attached to a comment. *)
Module Attachment.

Record t := mk {
  ID : string;
  Type_ : string;
  URL : string;
  Filename : string;
  Size : Z;
  MimeType : string;
  UploadedAt : Time
}.

End Attachment.

(** EditRecord tracks edit history. *)
Module EditRecord.

Record t := mk {
  Content : string;
  EditedAt : Time;
  EditedBy : string
}.

End EditRecord.

(** Comment represents a comment in the system. *)
Module Comment.

Record t := mk {
  ID : ObjectID;
  TenantID : string;
  ResourceType : string;
  ResourceID : string;
  ParentID : option ObjectID;
  RootID : option ObjectID;
  AuthorID : string;
  AuthorName : string;
  AuthorEmail : string;
  AuthorAvatar : string;
  IsAnonymous : bool;
  Content : string;
  ContentHTML : string;
  Attachments : list Attachment.t;
  Status : CommentStatus;
  ModeratedBy : string;
  ModeratedAt : option Time;
  RejectionReason : string;
  FlaggedWords : list string;
  ReportCount : Z;
  IsPinned : bool;
  PinnedBy : string;
  PinnedAt : option Time;
  IsEdited : bool;
  EditHistory : list EditRecord.t;
  ReplyCount : Z;
  LikeCount : Z;
  DislikeCount : Z;
  ReactionCounts : gmap string Z;
  IPAddress : string;
  UserAgent : string;
  Metadata : gmap string string;
  CreatedAt : Time;
  UpdatedAt : Time;
  DeletedAt : option Time;
  IsDeleted : bool;
  DeletedBy : string;
  Depth : Z
}.

Definition set_ID (v : ObjectID) (c : t) : t :=
  {| ID := v; TenantID := TenantID c; ResourceType := ResourceType c;
     ResourceID := ResourceID c; ParentID := ParentID c; RootID := RootID c;
     AuthorID := AuthorID c; AuthorName := AuthorName c; AuthorEmail := AuthorEmail c;
     AuthorAvatar := AuthorAvatar c; IsAnonymous := IsAnonymous c; Content := Content c;
     ContentHTML := ContentHTML c; Attachments := Attachments c; Status := Status c;
     ModeratedBy := ModeratedBy c; ModeratedAt := ModeratedAt c;
     RejectionReason := RejectionReason c; FlaggedWords := FlaggedWords c;
     ReportCount := ReportCount c; IsPinned := IsPinned c; PinnedBy := PinnedBy c;
     PinnedAt := PinnedAt c; IsEdited := IsEdited c; EditHistory := EditHistory c;
     ReplyCount := ReplyCount c; LikeCount := LikeCount c; DislikeCount := DislikeCount c;
     ReactionCounts := ReactionCounts c; IPAddress := IPAddress c;
     UserAgent := UserAgent c; Metadata := Metadata c; CreatedAt := CreatedAt c;
     UpdatedAt := UpdatedAt c; DeletedAt := DeletedAt c; IsDeleted := IsDeleted c;
     DeletedBy := DeletedBy c; Depth := Depth c |}.

Definition set_CreatedAt (v : Time) (c : t) : t :=
  {| ID := ID c; TenantID := TenantID c; ResourceType := ResourceType c;
     ResourceID := ResourceID c; ParentID := ParentID c; RootID := RootID c;
     AuthorID := AuthorID c; AuthorName := AuthorName c; AuthorEmail := AuthorEmail c;
     AuthorAvatar := AuthorAvatar c; IsAnonymous := IsAnonymous c; Content := Content c;
     ContentHTML := ContentHTML c; Attachments := Attachments c; Status := Status c;
     ModeratedBy := ModeratedBy c; ModeratedAt := ModeratedAt c;
     RejectionReason := RejectionReason c; FlaggedWords := FlaggedWords c;
     ReportCount := ReportCount c; IsPinned := IsPinned c; PinnedBy := PinnedBy c;
     PinnedAt := PinnedAt c; IsEdited := IsEdited c; EditHistory := EditHistory c;
     ReplyCount := ReplyCount c; LikeCount := LikeCount c; DislikeCount := DislikeCount c;
     ReactionCounts := ReactionCounts c; IPAddress := IPAddress c;
     UserAgent := UserAgent c; Metadata := Metadata c; CreatedAt := v;
     UpdatedAt := UpdatedAt c; DeletedAt := DeletedAt c; IsDeleted := IsDeleted c;
     DeletedBy := DeletedBy c; Depth := Depth c |}.

Definition set_UpdatedAt (v : Time) (c : t) : t :=
  {| ID := ID c; TenantID := TenantID c; ResourceType := ResourceType c;
     ResourceID := ResourceID c; ParentID := ParentID c; RootID := RootID c;
     AuthorID := AuthorID c; AuthorName := AuthorName c; AuthorEmail := AuthorEmail c;
     AuthorAvatar := AuthorAvatar c; IsAnonymous := IsAnonymous c; Content := Content c;
     ContentHTML := ContentHTML c; Attachments := Attachments c; Status := Status c;
     ModeratedBy := ModeratedBy c; ModeratedAt := ModeratedAt c;
     RejectionReason := RejectionReason c; FlaggedWords := FlaggedWords c;
     ReportCount := ReportCount c; IsPinned := IsPinned c; PinnedBy := PinnedBy c;
     PinnedAt := PinnedAt c; IsEdited := IsEdited c; EditHistory := EditHistory c;
     ReplyCount := ReplyCount c; LikeCount := LikeCount c; DislikeCount := DislikeCount c;
     ReactionCounts := ReactionCounts c; IPAddress := IPAddress c;
     UserAgent := UserAgent c; Metadata := Metadata c; CreatedAt := CreatedAt c;
     UpdatedAt := v; DeletedAt := DeletedAt c; IsDeleted := IsDeleted c;
     DeletedBy := DeletedBy c; Depth := Depth c |}.

Definition set_Content (v : string) (c : t) : t :=
  {| ID := ID c; TenantID := TenantID c; ResourceType := ResourceType c;
     ResourceID := ResourceID c; ParentID := ParentID c; RootID := RootID c;
     AuthorID := AuthorID c; AuthorName := AuthorName c; AuthorEmail := AuthorEmail c;
     AuthorAvatar := AuthorAvatar c; IsAnonymous := IsAnonymous c; Content := v;
     ContentHTML := ContentHTML c; Attachments := Attachments c; Status := Status c;
     ModeratedBy := ModeratedBy c; ModeratedAt := ModeratedAt c;
     RejectionReason := RejectionReason c; FlaggedWords := FlaggedWords c;
     ReportCount := ReportCount c; IsPinned := IsPinned c; PinnedBy := PinnedBy c;
     PinnedAt := PinnedAt c; IsEdited := IsEdited c; EditHistory := EditHistory c;
     ReplyCount := ReplyCount c; LikeCount := LikeCount c; DislikeCount := DislikeCount c;
     ReactionCounts := ReactionCounts c; IPAddress := IPAddress c;
     UserAgent := UserAgent c; Metadata := Metadata c; CreatedAt := CreatedAt c;
     UpdatedAt := UpdatedAt c; DeletedAt := DeletedAt c; IsDeleted := IsDeleted c;
     DeletedBy := DeletedBy c; Depth := Depth c |}.

Definition set_Attachments (v : (list Attachment.t)) (c : t) : t :=
  {| ID := ID c; TenantID := TenantID c; ResourceType := ResourceType c;
     ResourceID := ResourceID c; ParentID := ParentID c; RootID := RootID c;
     AuthorID := AuthorID c; AuthorName := AuthorName c; AuthorEmail := AuthorEmail c;
     AuthorAvatar := AuthorAvatar c; IsAnonymous := IsAnonymous c; Content := Content c;
     ContentHTML := ContentHTML c; Attachments := v; Status := Status c;
     ModeratedBy := ModeratedBy c; ModeratedAt := ModeratedAt c;
     RejectionReason := RejectionReason c; FlaggedWords := FlaggedWords c;
     ReportCount := ReportCount c; IsPinned := IsPinned c; PinnedBy := PinnedBy c;
     PinnedAt := PinnedAt c; IsEdited := IsEdited c; EditHistory := EditHistory c;
     ReplyCount := ReplyCount c; LikeCount := LikeCount c; DislikeCount := DislikeCount c;
     ReactionCounts := ReactionCounts c; IPAddress := IPAddress c;
     UserAgent := UserAgent c; Metadata := Metadata c; CreatedAt := CreatedAt c;
     UpdatedAt := UpdatedAt c; DeletedAt := DeletedAt c; IsDeleted := IsDeleted c;
     DeletedBy := DeletedBy c; Depth := Depth c |}.

Definition set_Status (v : CommentStatus) (c : t) : t :=
  {| ID := ID c; TenantID := TenantID c; ResourceType := ResourceType c;
     ResourceID := ResourceID c; ParentID := ParentID c; RootID := RootID c;
     AuthorID := AuthorID c; AuthorName := AuthorName c; AuthorEmail := AuthorEmail c;
     AuthorAvatar := AuthorAvatar c; IsAnonymous := IsAnonymous c; Content := Content c;
     ContentHTML := ContentHTML c; Attachments := Attachments c; Status := v;
     ModeratedBy := ModeratedBy c; ModeratedAt := ModeratedAt c;
     RejectionReason := RejectionReason c; FlaggedWords := FlaggedWords c;
     ReportCount := ReportCount c; IsPinned := IsPinned c; PinnedBy := PinnedBy c;
     PinnedAt := PinnedAt c; IsEdited := IsEdited c; EditHistory := EditHistory c;
     ReplyCount := ReplyCount c; LikeCount := LikeCount c; DislikeCount := DislikeCount c;
     ReactionCounts := ReactionCounts c; IPAddress := IPAddress c;
     UserAgent := UserAgent c; Metadata := Metadata c; CreatedAt := CreatedAt c;
     UpdatedAt := UpdatedAt c; DeletedAt := DeletedAt c; IsDeleted := IsDeleted c;
     DeletedBy := DeletedBy c; Depth := Depth c |}.

Definition set_ModeratedBy (v : string) (c : t) : t :=
  {| ID := ID c; TenantID := TenantID c; ResourceType := ResourceType c;
     ResourceID := ResourceID c; ParentID := ParentID c; RootID := RootID c;
     AuthorID := AuthorID c; AuthorName := AuthorName c; AuthorEmail := AuthorEmail c;
     AuthorAvatar := AuthorAvatar c; IsAnonymous := IsAnonymous c; Content := Content c;
     ContentHTML := ContentHTML c; Attachments := Attachments c; Status := Status c;
     ModeratedBy := v; ModeratedAt := ModeratedAt c; RejectionReason := RejectionReason c;
     FlaggedWords := FlaggedWords c; ReportCount := ReportCount c; IsPinned := IsPinned c;
     PinnedBy := PinnedBy c; PinnedAt := PinnedAt c; IsEdited := IsEdited c;
     EditHistory := EditHistory c; ReplyCount := ReplyCount c; LikeCount := LikeCount c;
     DislikeCount := DislikeCount c; ReactionCounts := ReactionCounts c;
     IPAddress := IPAddress c; UserAgent := UserAgent c; Metadata := Metadata c;
     CreatedAt := CreatedAt c; UpdatedAt := UpdatedAt c; DeletedAt := DeletedAt c;
     IsDeleted := IsDeleted c; DeletedBy := DeletedBy c; Depth := Depth c |}.

Definition set_ModeratedAt (v : (option Time)) (c : t) : t :=
  {| ID := ID c; TenantID := TenantID c; ResourceType := ResourceType c;
     ResourceID := ResourceID c; ParentID := ParentID c; RootID := RootID c;
     AuthorID := AuthorID c; AuthorName := AuthorName c; AuthorEmail := AuthorEmail c;
     AuthorAvatar := AuthorAvatar c; IsAnonymous := IsAnonymous c; Content := Content c;
     ContentHTML := ContentHTML c; Attachments := Attachments c; Status := Status c;
     ModeratedBy := ModeratedBy c; ModeratedAt := v; RejectionReason := RejectionReason c;
     FlaggedWords := FlaggedWords c; ReportCount := ReportCount c; IsPinned := IsPinned c;
     PinnedBy := PinnedBy c; PinnedAt := PinnedAt c; IsEdited := IsEdited c;
     EditHistory := EditHistory c; ReplyCount := ReplyCount c; LikeCount := LikeCount c;
     DislikeCount := DislikeCount c; ReactionCounts := ReactionCounts c;
     IPAddress := IPAddress c; UserAgent := UserAgent c; Metadata := Metadata c;
     CreatedAt := CreatedAt c; UpdatedAt := UpdatedAt c; DeletedAt := DeletedAt c;
     IsDeleted := IsDeleted c; DeletedBy := DeletedBy c; Depth := Depth c |}.

Definition set_RejectionReason (v : string) (c : t) : t :=
  {| ID := ID c; TenantID := TenantID c; ResourceType := ResourceType c;
     ResourceID := ResourceID c; ParentID := ParentID c; RootID := RootID c;
     AuthorID := AuthorID c; AuthorName := AuthorName c; AuthorEmail := AuthorEmail c;
     AuthorAvatar := AuthorAvatar c; IsAnonymous := IsAnonymous c; Content := Content c;
     ContentHTML := ContentHTML c; Attachments := Attachments c; Status := Status c;
     ModeratedBy := ModeratedBy c; ModeratedAt := ModeratedAt c; RejectionReason := v;
     FlaggedWords := FlaggedWords c; ReportCount := ReportCount c; IsPinned := IsPinned c;
     PinnedBy := PinnedBy c; PinnedAt := PinnedAt c; IsEdited := IsEdited c;
     EditHistory := EditHistory c; ReplyCount := ReplyCount c; LikeCount := LikeCount c;
     DislikeCount := DislikeCount c; ReactionCounts := ReactionCounts c;
     IPAddress := IPAddress c; UserAgent := UserAgent c; Metadata := Metadata c;
     CreatedAt := CreatedAt c; UpdatedAt := UpdatedAt c; DeletedAt := DeletedAt c;
     IsDeleted := IsDeleted c; DeletedBy := DeletedBy c; Depth := Depth c |}.

Definition set_FlaggedWords (v : (list string)) (c : t) : t :=
  {| ID := ID c; TenantID := TenantID c; ResourceType := ResourceType c;
     ResourceID := ResourceID c; ParentID := ParentID c; RootID := RootID c;
     AuthorID := AuthorID c; AuthorName := AuthorName c; AuthorEmail := AuthorEmail c;
     AuthorAvatar := AuthorAvatar c; IsAnonymous := IsAnonymous c; Content := Content c;
     ContentHTML := ContentHTML c; Attachments := Attachments c; Status := Status c;
     ModeratedBy := ModeratedBy c; ModeratedAt := ModeratedAt c;
     RejectionReason := RejectionReason c; FlaggedWords := v; ReportCount := ReportCount c;
     IsPinned := IsPinned c; PinnedBy := PinnedBy c; PinnedAt := PinnedAt c;
     IsEdited := IsEdited c; EditHistory := EditHistory c; ReplyCount := ReplyCount c;
     LikeCount := LikeCount c; DislikeCount := DislikeCount c;
     ReactionCounts := ReactionCounts c; IPAddress := IPAddress c;
     UserAgent := UserAgent c; Metadata := Metadata c; CreatedAt := CreatedAt c;
     UpdatedAt := UpdatedAt c; DeletedAt := DeletedAt c; IsDeleted := IsDeleted c;
     DeletedBy := DeletedBy c; Depth := Depth c |}.

Definition set_IsEdited (v : bool) (c : t) : t :=
  {| ID := ID c; TenantID := TenantID c; ResourceType := ResourceType c;
     ResourceID := ResourceID c; ParentID := ParentID c; RootID := RootID c;
     AuthorID := AuthorID c; AuthorName := AuthorName c; AuthorEmail := AuthorEmail c;
     AuthorAvatar := AuthorAvatar c; IsAnonymous := IsAnonymous c; Content := Content c;
     ContentHTML := ContentHTML c; Attachments := Attachments c; Status := Status c;
     ModeratedBy := ModeratedBy c; ModeratedAt := ModeratedAt c;
     RejectionReason := RejectionReason c; FlaggedWords := FlaggedWords c;
     ReportCount := ReportCount c; IsPinned := IsPinned c; PinnedBy := PinnedBy c;
     PinnedAt := PinnedAt c; IsEdited := v; EditHistory := EditHistory c;
     ReplyCount := ReplyCount c; LikeCount := LikeCount c; DislikeCount := DislikeCount c;
     ReactionCounts := ReactionCounts c; IPAddress := IPAddress c;
     UserAgent := UserAgent c; Metadata := Metadata c; CreatedAt := CreatedAt c;
     UpdatedAt := UpdatedAt c; DeletedAt := DeletedAt c; IsDeleted := IsDeleted c;
     DeletedBy := DeletedBy c; Depth := Depth c |}.

Definition set_EditHistory (v : (list EditRecord.t)) (c : t) : t :=
  {| ID := ID c; TenantID := TenantID c; ResourceType := ResourceType c;
     ResourceID := ResourceID c; ParentID := ParentID c; RootID := RootID c;
     AuthorID := AuthorID c; AuthorName := AuthorName c; AuthorEmail := AuthorEmail c;
     AuthorAvatar := AuthorAvatar c; IsAnonymous := IsAnonymous c; Content := Content c;
     ContentHTML := ContentHTML c; Attachments := Attachments c; Status := Status c;
     ModeratedBy := ModeratedBy c; ModeratedAt := ModeratedAt c;
     RejectionReason := RejectionReason c; FlaggedWords := FlaggedWords c;
     ReportCount := ReportCount c; IsPinned := IsPinned c; PinnedBy := PinnedBy c;
     PinnedAt := PinnedAt c; IsEdited := IsEdited c; EditHistory := v;
     ReplyCount := ReplyCount c; LikeCount := LikeCount c; DislikeCount := DislikeCount c;
     ReactionCounts := ReactionCounts c; IPAddress := IPAddress c;
     UserAgent := UserAgent c; Metadata := Metadata c; CreatedAt := CreatedAt c;
     UpdatedAt := UpdatedAt c; DeletedAt := DeletedAt c; IsDeleted := IsDeleted c;
     DeletedBy := DeletedBy c; Depth := Depth c |}.

Definition set_ReplyCount (v : Z) (c : t) : t :=
  {| ID := ID c; TenantID := TenantID c; ResourceType := ResourceType c;
     ResourceID := ResourceID c; ParentID := ParentID c; RootID := RootID c;
     AuthorID := AuthorID c; AuthorName := AuthorName c; AuthorEmail := AuthorEmail c;
     AuthorAvatar := AuthorAvatar c; IsAnonymous := IsAnonymous c; Content := Content c;
     ContentHTML := ContentHTML c; Attachments := Attachments c; Status := Status c;
     ModeratedBy := ModeratedBy c; ModeratedAt := ModeratedAt c;
     RejectionReason := RejectionReason c; FlaggedWords := FlaggedWords c;
     ReportCount := ReportCount c; IsPinned := IsPinned c; PinnedBy := PinnedBy c;
     PinnedAt := PinnedAt c; IsEdited := IsEdited c; EditHistory := EditHistory c;
     ReplyCount := v; LikeCount := LikeCount c; DislikeCount := DislikeCount c;
     ReactionCounts := ReactionCounts c; IPAddress := IPAddress c;
     UserAgent := UserAgent c; Metadata := Metadata c; CreatedAt := CreatedAt c;
     UpdatedAt := UpdatedAt c; DeletedAt := DeletedAt c; IsDeleted := IsDeleted c;
     DeletedBy := DeletedBy c; Depth := Depth c |}.

Definition set_DeletedAt (v : (option Time)) (c : t) : t :=
  {| ID := ID c; TenantID := TenantID c; ResourceType := ResourceType c;
     ResourceID := ResourceID c; ParentID := ParentID c; RootID := RootID c;
     AuthorID := AuthorID c; AuthorName := AuthorName c; AuthorEmail := AuthorEmail c;
     AuthorAvatar := AuthorAvatar c; IsAnonymous := IsAnonymous c; Content := Content c;
     ContentHTML := ContentHTML c; Attachments := Attachments c; Status := Status c;
     ModeratedBy := ModeratedBy c; ModeratedAt := ModeratedAt c;
     RejectionReason := RejectionReason c; FlaggedWords := FlaggedWords c;
     ReportCount := ReportCount c; IsPinned := IsPinned c; PinnedBy := PinnedBy c;
     PinnedAt := PinnedAt c; IsEdited := IsEdited c; EditHistory := EditHistory c;
     ReplyCount := ReplyCount c; LikeCount := LikeCount c; DislikeCount := DislikeCount c;
     ReactionCounts := ReactionCounts c; IPAddress := IPAddress c;
     UserAgent := UserAgent c; Metadata := Metadata c; CreatedAt := CreatedAt c;
     UpdatedAt := UpdatedAt c; DeletedAt := v; IsDeleted := IsDeleted c;
     DeletedBy := DeletedBy c; Depth := Depth c |}.

Definition set_IsDeleted (v : bool) (c : t) : t :=
  {| ID := ID c; TenantID := TenantID c; ResourceType := ResourceType c;
     ResourceID := ResourceID c; ParentID := ParentID c; RootID := RootID c;
     AuthorID := AuthorID c; AuthorName := AuthorName c; AuthorEmail := AuthorEmail c;
     AuthorAvatar := AuthorAvatar c; IsAnonymous := IsAnonymous c; Content := Content c;
     ContentHTML := ContentHTML c; Attachments := Attachments c; Status := Status c;
     ModeratedBy := ModeratedBy c; ModeratedAt := ModeratedAt c;
     RejectionReason := RejectionReason c; FlaggedWords := FlaggedWords c;
     ReportCount := ReportCount c; IsPinned := IsPinned c; PinnedBy := PinnedBy c;
     PinnedAt := PinnedAt c; IsEdited := IsEdited c; EditHistory := EditHistory c;
     ReplyCount := ReplyCount c; LikeCount := LikeCount c; DislikeCount := DislikeCount c;
     ReactionCounts := ReactionCounts c; IPAddress := IPAddress c;
     UserAgent := UserAgent c; Metadata := Metadata c; CreatedAt := CreatedAt c;
     UpdatedAt := UpdatedAt c; DeletedAt := DeletedAt c; IsDeleted := v;
     DeletedBy := DeletedBy c; Depth := Depth c |}.

Definition set_DeletedBy (v : string) (c : t) : t :=
  {| ID := ID c; TenantID := TenantID c; ResourceType := ResourceType c;
     ResourceID := ResourceID c; ParentID := ParentID c; RootID := RootID c;
     AuthorID := AuthorID c; AuthorName := AuthorName c; AuthorEmail := AuthorEmail c;
     AuthorAvatar := AuthorAvatar c; IsAnonymous := IsAnonymous c; Content := Content c;
     ContentHTML := ContentHTML c; Attachments := Attachments c; Status := Status c;
     ModeratedBy := ModeratedBy c; ModeratedAt := ModeratedAt c;
     RejectionReason := RejectionReason c; FlaggedWords := FlaggedWords c;
     ReportCount := ReportCount c; IsPinned := IsPinned c; PinnedBy := PinnedBy c;
     PinnedAt := PinnedAt c; IsEdited := IsEdited c; EditHistory := EditHistory c;
     ReplyCount := ReplyCount c; LikeCount := LikeCount c; DislikeCount := DislikeCount c;
     ReactionCounts := ReactionCounts c; IPAddress := IPAddress c;
     UserAgent := UserAgent c; Metadata := Metadata c; CreatedAt := CreatedAt c;
     UpdatedAt := UpdatedAt c; DeletedAt := DeletedAt c; IsDeleted := IsDeleted c;
     DeletedBy := v; Depth := Depth c |}.

Definition set_IsPinned (v : bool) (c : t) : t :=
  {| ID := ID c; TenantID := TenantID c; ResourceType := ResourceType c;
     ResourceID := ResourceID c; ParentID := ParentID c; RootID := RootID c;
     AuthorID := AuthorID c; AuthorName := AuthorName c; AuthorEmail := AuthorEmail c;
     AuthorAvatar := AuthorAvatar c; IsAnonymous := IsAnonymous c; Content := Content c;
     ContentHTML := ContentHTML c; Attachments := Attachments c; Status := Status c;
     ModeratedBy := ModeratedBy c; ModeratedAt := ModeratedAt c;
     RejectionReason := RejectionReason c; FlaggedWords := FlaggedWords c;
     ReportCount := ReportCount c; IsPinned := v; PinnedBy := PinnedBy c;
     PinnedAt := PinnedAt c; IsEdited := IsEdited c; EditHistory := EditHistory c;
     ReplyCount := ReplyCount c; LikeCount := LikeCount c; DislikeCount := DislikeCount c;
     ReactionCounts := ReactionCounts c; IPAddress := IPAddress c;
     UserAgent := UserAgent c; Metadata := Metadata c; CreatedAt := CreatedAt c;
     UpdatedAt := UpdatedAt c; DeletedAt := DeletedAt c; IsDeleted := IsDeleted c;
     DeletedBy := DeletedBy c; Depth := Depth c |}.

Definition set_PinnedBy (v : string) (c : t) : t :=
  {| ID := ID c; TenantID := TenantID c; ResourceType := ResourceType c;
     ResourceID := ResourceID c; ParentID := ParentID c; RootID := RootID c;
     AuthorID := AuthorID c; AuthorName := AuthorName c; AuthorEmail := AuthorEmail c;
     AuthorAvatar := AuthorAvatar c; IsAnonymous := IsAnonymous c; Content := Content c;
     ContentHTML := ContentHTML c; Attachments := Attachments c; Status := Status c;
     ModeratedBy := ModeratedBy c; ModeratedAt := ModeratedAt c;
     RejectionReason := RejectionReason c; FlaggedWords := FlaggedWords c;
     ReportCount := ReportCount c; IsPinned := IsPinned c; PinnedBy := v;
     PinnedAt := PinnedAt c; IsEdited := IsEdited c; EditHistory := EditHistory c;
     ReplyCount := ReplyCount c; LikeCount := LikeCount c; DislikeCount := DislikeCount c;
     ReactionCounts := ReactionCounts c; IPAddress := IPAddress c;
     UserAgent := UserAgent c; Metadata := Metadata c; CreatedAt := CreatedAt c;
     UpdatedAt := UpdatedAt c; DeletedAt := DeletedAt c; IsDeleted := IsDeleted c;
     DeletedBy := DeletedBy c; Depth := Depth c |}.

Definition set_PinnedAt (v : (option Time)) (c : t) : t :=
  {| ID := ID c; TenantID := TenantID c; ResourceType := ResourceType c;
     ResourceID := ResourceID c; ParentID := ParentID c; RootID := RootID c;
     AuthorID := AuthorID c; AuthorName := AuthorName c; AuthorEmail := AuthorEmail c;
     AuthorAvatar := AuthorAvatar c; IsAnonymous := IsAnonymous c; Content := Content c;
     ContentHTML := ContentHTML c; Attachments := Attachments c; Status := Status c;
     ModeratedBy := ModeratedBy c; ModeratedAt := ModeratedAt c;
     RejectionReason := RejectionReason c; FlaggedWords := FlaggedWords c;
     ReportCount := ReportCount c; IsPinned := IsPinned c; PinnedBy := PinnedBy c;
     PinnedAt := v; IsEdited := IsEdited c; EditHistory := EditHistory c;
     ReplyCount := ReplyCount c; LikeCount := LikeCount c; DislikeCount := DislikeCount c;
     ReactionCounts := ReactionCounts c; IPAddress := IPAddress c;
     UserAgent := UserAgent c; Metadata := Metadata c; CreatedAt := CreatedAt c;
     UpdatedAt := UpdatedAt c; DeletedAt := DeletedAt c; IsDeleted := IsDeleted c;
     DeletedBy := DeletedBy c; Depth := Depth c |}.

Definition set_LikeCount (v : Z) (c : t) : t :=
  {| ID := ID c; TenantID := TenantID c; ResourceType := ResourceType c;
     ResourceID := ResourceID c; ParentID := ParentID c; RootID := RootID c;
     AuthorID := AuthorID c; AuthorName := AuthorName c; AuthorEmail := AuthorEmail c;
     AuthorAvatar := AuthorAvatar c; IsAnonymous := IsAnonymous c; Content := Content c;
     ContentHTML := ContentHTML c; Attachments := Attachments c; Status := Status c;
     ModeratedBy := ModeratedBy c; ModeratedAt := ModeratedAt c;
     RejectionReason := RejectionReason c; FlaggedWords := FlaggedWords c;
     ReportCount := ReportCount c; IsPinned := IsPinned c; PinnedBy := PinnedBy c;
     PinnedAt := PinnedAt c; IsEdited := IsEdited c; EditHistory := EditHistory c;
     ReplyCount := ReplyCount c; LikeCount := v; DislikeCount := DislikeCount c;
     ReactionCounts := ReactionCounts c; IPAddress := IPAddress c;
     UserAgent := UserAgent c; Metadata := Metadata c; CreatedAt := CreatedAt c;
     UpdatedAt := UpdatedAt c; DeletedAt := DeletedAt c; IsDeleted := IsDeleted c;
     DeletedBy := DeletedBy c; Depth := Depth c |}.

Definition set_DislikeCount (v : Z) (c : t) : t :=
  {| ID := ID c; TenantID := TenantID c; ResourceType := ResourceType c;
     ResourceID := ResourceID c; ParentID := ParentID c; RootID := RootID c;
     AuthorID := AuthorID c; AuthorName := AuthorName c; AuthorEmail := AuthorEmail c;
     AuthorAvatar := AuthorAvatar c; IsAnonymous := IsAnonymous c; Content := Content c;
     ContentHTML := ContentHTML c; Attachments := Attachments c; Status := Status c;
     ModeratedBy := ModeratedBy c; ModeratedAt := ModeratedAt c;
     RejectionReason := RejectionReason c; FlaggedWords := FlaggedWords c;
     ReportCount := ReportCount c; IsPinned := IsPinned c; PinnedBy := PinnedBy c;
     PinnedAt := PinnedAt c; IsEdited := IsEdited c; EditHistory := EditHistory c;
     ReplyCount := ReplyCount c; LikeCount := LikeCount c; DislikeCount := v;
     ReactionCounts := ReactionCounts c; IPAddress := IPAddress c;
     UserAgent := UserAgent c; Metadata := Metadata c; CreatedAt := CreatedAt c;
     UpdatedAt := UpdatedAt c; DeletedAt := DeletedAt c; IsDeleted := IsDeleted c;
     DeletedBy := DeletedBy c; Depth := Depth c |}.

Definition set_ReactionCounts (v : (gmap string Z)) (c : t) : t :=
  {| ID := ID c; TenantID := TenantID c; ResourceType := ResourceType c;
     ResourceID := ResourceID c; ParentID := ParentID c; RootID := RootID c;
     AuthorID := AuthorID c; AuthorName := AuthorName c; AuthorEmail := AuthorEmail c;
     AuthorAvatar := AuthorAvatar c; IsAnonymous := IsAnonymous c; Content := Content c;
     ContentHTML := ContentHTML c; Attachments := Attachments c; Status := Status c;
     ModeratedBy := ModeratedBy c; ModeratedAt := ModeratedAt c;
     RejectionReason := RejectionReason c; FlaggedWords := FlaggedWords c;
     ReportCount := ReportCount c; IsPinned := IsPinned c; PinnedBy := PinnedBy c;
     PinnedAt := PinnedAt c; IsEdited := IsEdited c; EditHistory := EditHistory c;
     ReplyCount := ReplyCount c; LikeCount := LikeCount c; DislikeCount := DislikeCount c;
     ReactionCounts := v; IPAddress := IPAddress c; UserAgent := UserAgent c;
     Metadata := Metadata c; CreatedAt := CreatedAt c; UpdatedAt := UpdatedAt c;
     DeletedAt := DeletedAt c; IsDeleted := IsDeleted c; DeletedBy := DeletedBy c;
     Depth := Depth c |}.

End Comment.
(** CommentSettings represents tenant-specific comment settings. *)
Module CommentSettings.

Record t := mk {
  ID : ObjectID;
  TenantID : string;
  ResourceType : string;
  RequireApproval : bool;
  AllowAnonymous : bool;
  AllowReplies : bool;
  MaxReplyDepth : Z;
  AllowReactions : bool;
  AllowedReactions : list ReactionType;
  AllowAttachments : bool;
  MaxAttachments : Z;
  MaxCommentLength : Z;
  CommentsEnabled : bool;
  NotifyOnNewComment : bool;
  NotifyOnReply : bool;
  AutoApproveVerified : bool;
  BadWordsFilter : bool;
  CustomBadWords : list string;
  CreatedAt : Time;
  UpdatedAt : Time
}.

Definition set_ID (v : ObjectID) (c : t) : t :=
  {| ID := v; TenantID := TenantID c; ResourceType := ResourceType c;
     RequireApproval := RequireApproval c; AllowAnonymous := AllowAnonymous c;
     AllowReplies := AllowReplies c; MaxReplyDepth := MaxReplyDepth c;
     AllowReactions := AllowReactions c; AllowedReactions := AllowedReactions c;
     AllowAttachments := AllowAttachments c; MaxAttachments := MaxAttachments c;
     MaxCommentLength := MaxCommentLength c; CommentsEnabled := CommentsEnabled c;
     NotifyOnNewComment := NotifyOnNewComment c; NotifyOnReply := NotifyOnReply c;
     AutoApproveVerified := AutoApproveVerified c; BadWordsFilter := BadWordsFilter c;
     CustomBadWords := CustomBadWords c; CreatedAt := CreatedAt c;
     UpdatedAt := UpdatedAt c |}.

Definition set_BadWordsFilter (v : bool) (c : t) : t :=
  {| ID := ID c; TenantID := TenantID c; ResourceType := ResourceType c;
     RequireApproval := RequireApproval c; AllowAnonymous := AllowAnonymous c;
     AllowReplies := AllowReplies c; MaxReplyDepth := MaxReplyDepth c;
     AllowReactions := AllowReactions c; AllowedReactions := AllowedReactions c;
     AllowAttachments := AllowAttachments c; MaxAttachments := MaxAttachments c;
     MaxCommentLength := MaxCommentLength c; CommentsEnabled := CommentsEnabled c;
     NotifyOnNewComment := NotifyOnNewComment c; NotifyOnReply := NotifyOnReply c;
     AutoApproveVerified := AutoApproveVerified c; BadWordsFilter := v;
     CustomBadWords := CustomBadWords c; CreatedAt := CreatedAt c;
     UpdatedAt := UpdatedAt c |}.

Definition set_RequireApproval (v : bool) (c : t) : t :=
  {| ID := ID c; TenantID := TenantID c; ResourceType := ResourceType c;
     RequireApproval := v; AllowAnonymous := AllowAnonymous c;
     AllowReplies := AllowReplies c; MaxReplyDepth := MaxReplyDepth c;
     AllowReactions := AllowReactions c; AllowedReactions := AllowedReactions c;
     AllowAttachments := AllowAttachments c; MaxAttachments := MaxAttachments c;
     MaxCommentLength := MaxCommentLength c; CommentsEnabled := CommentsEnabled c;
     NotifyOnNewComment := NotifyOnNewComment c; NotifyOnReply := NotifyOnReply c;
     AutoApproveVerified := AutoApproveVerified c; BadWordsFilter := BadWordsFilter c;
     CustomBadWords := CustomBadWords c; CreatedAt := CreatedAt c;
     UpdatedAt := UpdatedAt c |}.

Definition set_MaxReplyDepth (v : Z) (c : t) : t :=
  {| ID := ID c; TenantID := TenantID c; ResourceType := ResourceType c;
     RequireApproval := RequireApproval c; AllowAnonymous := AllowAnonymous c;
     AllowReplies := AllowReplies c; MaxReplyDepth := v;
     AllowReactions := AllowReactions c; AllowedReactions := AllowedReactions c;
     AllowAttachments := AllowAttachments c; MaxAttachments := MaxAttachments c;
     MaxCommentLength := MaxCommentLength c; CommentsEnabled := CommentsEnabled c;
     NotifyOnNewComment := NotifyOnNewComment c; NotifyOnReply := NotifyOnReply c;
     AutoApproveVerified := AutoApproveVerified c; BadWordsFilter := BadWordsFilter c;
     CustomBadWords := CustomBadWords c; CreatedAt := CreatedAt c;
     UpdatedAt := UpdatedAt c |}.

Definition set_CustomBadWords (v : list string) (c : t) : t :=
  {| ID := ID c; TenantID := TenantID c; ResourceType := ResourceType c;
     RequireApproval := RequireApproval c; AllowAnonymous := AllowAnonymous c;
     AllowReplies := AllowReplies c; MaxReplyDepth := MaxReplyDepth c;
     AllowReactions := AllowReactions c; AllowedReactions := AllowedReactions c;
     AllowAttachments := AllowAttachments c; MaxAttachments := MaxAttachments c;
     MaxCommentLength := MaxCommentLength c; CommentsEnabled := CommentsEnabled c;
     NotifyOnNewComment := NotifyOnNewComment c; NotifyOnReply := NotifyOnReply c;
     AutoApproveVerified := AutoApproveVerified c; BadWordsFilter := BadWordsFilter c;
     CustomBadWords := v; CreatedAt := CreatedAt c; UpdatedAt := UpdatedAt c |}.

End CommentSettings.
(** ListCommentsRequest represents query parameters for listing comments. *)
Module ListCommentsRequest.

Record t := mk {
  TenantID : string;
  ResourceType : string;
  ResourceID : string;
  ParentID : string;
  Status : CommentStatus;
  AuthorID : string;
  IsPinned : option bool;
  SortBy : string;
  SortOrder : string;
  Page : Z;
  PageSize : Z;
  IncludeDeleted : bool
}.

Definition set_Status (v : CommentStatus) (c : t) : t :=
  {| TenantID := TenantID c; ResourceType := ResourceType c; ResourceID := ResourceID c;
     ParentID := ParentID c; Status := v; AuthorID := AuthorID c; IsPinned := IsPinned c;
     SortBy := SortBy c; SortOrder := SortOrder c; Page := Page c; PageSize := PageSize c;
     IncludeDeleted := IncludeDeleted c |}.

Definition set_Page (v : Z) (c : t) : t :=
  {| TenantID := TenantID c; ResourceType := ResourceType c; ResourceID := ResourceID c;
     ParentID := ParentID c; Status := Status c; AuthorID := AuthorID c;
     IsPinned := IsPinned c; SortBy := SortBy c; SortOrder := SortOrder c; Page := v;
     PageSize := PageSize c; IncludeDeleted := IncludeDeleted c |}.

Definition set_PageSize (v : Z) (c : t) : t :=
  {| TenantID := TenantID c; ResourceType := ResourceType c; ResourceID := ResourceID c;
     ParentID := ParentID c; Status := Status c; AuthorID := AuthorID c;
     IsPinned := IsPinned c; SortBy := SortBy c; SortOrder := SortOrder c; Page := Page c;
     PageSize := v; IncludeDeleted := IncludeDeleted c |}.

End ListCommentsRequest.
(** CreateCommentRequest represents the request to create a new comment. *)
Module CreateCommentRequest.

Record t := mk {
  TenantID : string;
  ResourceType : string;
  ResourceID : string;
  ParentID : string;
  Content : string;
  AuthorName : string;
  IsAnonymous : bool;
  Attachments : list Attachment.t;
  Metadata : gmap string string
}.

End CreateCommentRequest.

(** UpdateCommentRequest represents the request to update a comment. *)
Module UpdateCommentRequest.

Record t := mk {
  Content : string;
  Attachments : list Attachment.t
}.

End UpdateCommentRequest.

(** ModerateCommentRequest represents the request to moderate a comment. *)
Module ModerateCommentRequest.

Record t := mk {
  Status : CommentStatus;
  RejectionReason : string
}.

End ModerateCommentRequest.

(** ListCommentsResponse represents paginated comments response. *)
Module ListCommentsResponse.

Record t := mk {
  Comments : list Comment.t;
  Total : Z;
  Page : Z;
  PageSize : Z;
  TotalPages : Z
}.

End ListCommentsResponse.

(** Reaction represents a user reaction to a comment. *)
Module Reaction.

Record t := mk {
  ID : ObjectID;
  CommentID : ObjectID;
  UserID : string;
  Type_ : ReactionType;
  CreatedAt : Time
}.

End Reaction.

(** CommentStats represents statistics for a resource. The field
    [AverageRating], a float64 that no code assigns, is left out. *)
Module CommentStats.

Record t := mk {
  TotalComments : Z;
  ApprovedCount : Z;
  PendingCount : Z;
  RejectedCount : Z;
  TotalReactions : Z;
  ReactionBreakdown : gmap string Z
}.

End CommentStats.

(** SettingsRequest represents request to update tenant settings; a nil
    pointer or nil slice is [None]. *)
Module SettingsRequest.

Record t := mk {
  RequireApproval : option bool;
  AllowAnonymous : option bool;
  AllowReplies : option bool;
  MaxReplyDepth : option Z;
  AllowReactions : option bool;
  AllowedReactions : option (list ReactionType);
  AllowAttachments : option bool;
  MaxAttachments : option Z;
  MaxCommentLength : option Z;
  CommentsEnabled : option bool;
  NotifyOnNewComment : option bool;
  NotifyOnReply : option bool;
  AutoApproveVerified : option bool;
  BadWordsFilter : option bool;
  CustomBadWords : option (list string)
}.

End SettingsRequest.

(** NotificationRequest represents a notification to send. *)
Module NotificationRequest.

Record t := mk {
  Type_ : string;
  Recipients : list string;
  Title : string;
  Body : string;
  Data : gmap string string
}.

End NotificationRequest.

(** ** config *)

(** ModerationConfig holds content moderation settings. *)
Module ModerationConfig.

Record t := mk {
  RequireApproval : bool;
  BadWordsEnabled : bool;
  BadWordsList : list string;
  MaxCommentLength : Z;
  MaxReplyDepth : Z;
  AllowAnonymous : bool;
  RateLimitPerMinute : Z
}.

End ModerationConfig.

(** Config, restricted to the sections the usecase reads. *)
Module Config.

Record t := mk {
  Moderation : ModerationConfig.t;
  NotifierEnabled : bool
}.

End Config.

Definition getDefaultBadWords : list string := ["spam"; "scam"; "xxx"; "porn"].

(** ** Errors and results *)

(** A Go [error] value, by the call that built it. *)
Inductive error : Type :=
| Errorf (format : string)                      (* fmt.Errorf(format) *)
| Errorf_d (format : string) (arg : Z)          (* fmt.Errorf(format, n), one %d *)
| Errorf_w (format : string) (cause : error)    (* fmt.Errorf(format, err), one %w *)
| mongo_error.                                  (* an error of the MongoDB driver *)

Inductive result (A : Type) : Type :=
| Ok (a : A)
| Err (e : error).

Arguments Ok {A} a.
Arguments Err {A} e.

Definition is_Err {A : Type} (r : result A) : Prop :=
  match r with Ok _ => False | Err _ => True end.

(** ** The world outside the usecase *)

Record World := mkWorld {
  (** the documents of the collection "comments", by [_id]; the [_id] of a
      document is its key, whatever its field [Comment.ID] holds *)
  comments : gmap ObjectID Comment.t;
  (** the documents of the collection "settings", by (tenant_id, resource_type),
      on which the collection has its unique index *)
  settings : gmap (string * string) CommentSettings.t;
  (** what [time.Now()] returns next *)
  clock : Time;
  (** the last ObjectID the driver generated *)
  oid_counter : N;
  (** for each coming round trip to MongoDB, whether it fails; none fails
      once the list is used up *)
  outages : list bool;
  (** what [log.Printf] has written *)
  logs : list (string * error)
}.

Definition set_comments (v : gmap ObjectID Comment.t) (w : World) : World :=
  {| comments := v; settings := settings w; clock := clock w;
     oid_counter := oid_counter w; outages := outages w; logs := logs w |}.

Definition set_settings (v : gmap (string * string) CommentSettings.t) (w : World) : World :=
  {| comments := comments w; settings := v; clock := clock w;
     oid_counter := oid_counter w; outages := outages w; logs := logs w |}.

Definition set_clock (v : Time) (w : World) : World :=
  {| comments := comments w; settings := settings w; clock := v;
     oid_counter := oid_counter w; outages := outages w; logs := logs w |}.

Definition set_oid_counter (v : N) (w : World) : World :=
  {| comments := comments w; settings := settings w; clock := clock w;
     oid_counter := v; outages := outages w; logs := logs w |}.

Definition set_outages (v : list bool) (w : World) : World :=
  {| comments := comments w; settings := settings w; clock := clock w;
     oid_counter := oid_counter w; outages := v; logs := logs w |}.

Definition set_logs (v : list (string * error)) (w : World) : World :=
  {| comments := comments w; settings := settings w; clock := clock w;
     oid_counter := oid_counter w; outages := outages w; logs := v |}.

(** A computation that reads and changes the world and returns a value or a
    Go error. *)
Definition M (A : Type) : Type := World → World * result A.

#[global] Instance M_ret : MRet M := λ A a w, (w, Ok a).

#[global] Instance M_bind : MBind M := λ A B k m w,
  match m w with
  | (w', Ok a) => k a w'
  | (w', Err e) => (w', Err e)
  end.

(** [return ..., err] *)
Definition throw {A : Type} (e : error) : M A := λ w, (w, Err e).

(** [if cond { return ..., err }] *)
Definition fail_if (cond : bool) (e : error) : M unit :=
  if cond then throw e else mret tt.

(** [if err := m; err != nil { return ..., fmt.Errorf(format, err) }] *)
Definition wrap_err {A : Type} (format : string) (m : M A) : M A := λ w,
  match m w with
  | (w', Ok a) => (w', Ok a)
  | (w', Err e) => (w', Err (Errorf_w format e))
  end.

(** [if err := m; err != nil { log.Printf(format, err) }] *)
Definition log_err (format : string) (m : M unit) : M unit := λ w,
  match m w with
  | (w', Ok _) => (w', Ok tt)
  | (w', Err e) => (set_logs (logs w' ++ [(format, e)])%list w', Ok tt)
  end.

Definition get_world : M World := λ w, (w, Ok w).

Definition modify (f : World → World) : M unit := λ w, (f w, Ok tt).

(** [time.Now()]: reads the clock, which then moves on. *)
Definition time_Now : M Time := λ w, (set_clock (clock w + 1) w, Ok (clock w)).

(** [primitive.NewObjectID()] *)
Definition NewObjectID : M ObjectID := λ w,
  (set_oid_counter (N.succ (oid_counter w)) w, Ok (N.succ (oid_counter w))).

(** One round trip to MongoDB. *)
Definition round_trip : M unit := λ w,
  match outages w with
  | [] => (w, Ok tt)
  | down :: rest => (set_outages rest w, if down : bool then Err mongo_error else Ok tt)
  end.

(** ** The collection "comments" as the driver sees it *)

(** A [bson.M] filter over comments: for each field the repository ever
    filters on, the value it must have, if any. [parent_id = Some None] is
    the filter [{"parent_id": nil}], matched by documents without parent. *)
Module Filter.

Record t := mk {
  tenant_id : option string;
  resource_type : option string;
  resource_id : option string;
  parent_id : option (option ObjectID);
  status : option CommentStatus;
  author_id : option string;
  is_pinned : option bool;
  is_deleted : option bool
}.

Definition holds {A : Type} `{EqDecision A} (want : option A) (have : A) : bool :=
  match want with
  | None => true
  | Some v => bool_decide (have = v)
  end.

Definition matches (f : t) (c : Comment.t) : bool :=
  holds (tenant_id f) (Comment.TenantID c)
  && holds (resource_type f) (Comment.ResourceType c)
  && holds (resource_id f) (Comment.ResourceID c)
  && holds (parent_id f) (Comment.ParentID c)
  && holds (status f) (Comment.Status c)
  && holds (author_id f) (Comment.AuthorID c)
  && holds (is_pinned f) (Comment.IsPinned c)
  && holds (is_deleted f) (Comment.IsDeleted c).

End Filter.

(** What the struct tag [omitempty] leaves in place when a struct is the
    operand of [$set]: an empty field is not marshalled, so the stored value
    stays. *)
Definition omitempty_string (new old : string) : string :=
  if decide (new = "") then old else new.

Definition omitempty_ptr {A : Type} (new old : option A) : option A :=
  match new with None => old | Some _ => new end.

Definition omitempty_slice {A : Type} (new old : list A) : list A :=
  match new with [] => old | _ :: _ => new end.

Definition omitempty_map {A : Type} (new old : gmap string A) : gmap string A :=
  if decide (size new = 0%nat) then old else new.

Definition omitempty_oid (new old : ObjectID) : ObjectID :=
  if decide (new = NilObjectID) then old else new.

(** [{"$set": comment}] applied to the stored document [old], following the
    bson tags of [models.Comment]. *)
Definition bson_set_comment (new old : Comment.t) : Comment.t :=
  {| Comment.ID := omitempty_oid (Comment.ID new) (Comment.ID old);
     Comment.TenantID := Comment.TenantID new;
     Comment.ResourceType := Comment.ResourceType new;
     Comment.ResourceID := Comment.ResourceID new;
     Comment.ParentID := omitempty_ptr (Comment.ParentID new) (Comment.ParentID old);
     Comment.RootID := omitempty_ptr (Comment.RootID new) (Comment.RootID old);
     Comment.AuthorID := Comment.AuthorID new;
     Comment.AuthorName := Comment.AuthorName new;
     Comment.AuthorEmail := omitempty_string (Comment.AuthorEmail new) (Comment.AuthorEmail old);
     Comment.AuthorAvatar :=
       omitempty_string (Comment.AuthorAvatar new) (Comment.AuthorAvatar old);
     Comment.IsAnonymous := Comment.IsAnonymous new;
     Comment.Content := Comment.Content new;
     Comment.ContentHTML := omitempty_string (Comment.ContentHTML new) (Comment.ContentHTML old);
     Comment.Attachments := omitempty_slice (Comment.Attachments new) (Comment.Attachments old);
     Comment.Status := Comment.Status new;
     Comment.ModeratedBy := omitempty_string (Comment.ModeratedBy new) (Comment.ModeratedBy old);
     Comment.ModeratedAt := omitempty_ptr (Comment.ModeratedAt new) (Comment.ModeratedAt old);
     Comment.RejectionReason :=
       omitempty_string (Comment.RejectionReason new) (Comment.RejectionReason old);
     Comment.FlaggedWords :=
       omitempty_slice (Comment.FlaggedWords new) (Comment.FlaggedWords old);
     Comment.ReportCount := Comment.ReportCount new;
     Comment.IsPinned := Comment.IsPinned new;
     Comment.PinnedBy := omitempty_string (Comment.PinnedBy new) (Comment.PinnedBy old);
     Comment.PinnedAt := omitempty_ptr (Comment.PinnedAt new) (Comment.PinnedAt old);
     Comment.IsEdited := Comment.IsEdited new;
     Comment.EditHistory := omitempty_slice (Comment.EditHistory new) (Comment.EditHistory old);
     Comment.ReplyCount := Comment.ReplyCount new;
     Comment.LikeCount := Comment.LikeCount new;
     Comment.DislikeCount := Comment.DislikeCount new;
     Comment.ReactionCounts :=
       omitempty_map (Comment.ReactionCounts new) (Comment.ReactionCounts old);
     Comment.IPAddress := omitempty_string (Comment.IPAddress new) (Comment.IPAddress old);
     Comment.UserAgent := omitempty_string (Comment.UserAgent new) (Comment.UserAgent old);
     Comment.Metadata := omitempty_map (Comment.Metadata new) (Comment.Metadata old);
     Comment.CreatedAt := Comment.CreatedAt new;
     Comment.UpdatedAt := Comment.UpdatedAt new;
     Comment.DeletedAt := omitempty_ptr (Comment.DeletedAt new) (Comment.DeletedAt old);
     Comment.IsDeleted := Comment.IsDeleted new;
     Comment.DeletedBy := omitempty_string (Comment.DeletedBy new) (Comment.DeletedBy old);
     Comment.Depth := Comment.Depth new |}.

(** [collection.InsertOne(ctx, comment)]: a document without [_id] gets a
    new ObjectID from the driver; an [_id] already stored is a duplicate-key
    error. Returns [result.InsertedID]. *)
Definition comments_InsertOne (doc : Comment.t) : M ObjectID :=
  id ← (if decide (Comment.ID doc = NilObjectID) then NewObjectID
        else mret (Comment.ID doc));
  _ ← round_trip;
  w ← get_world;
  match comments w !! id with
  | Some _ => throw mongo_error
  | None =>
      _ ← modify (λ w, set_comments (<[id := Comment.set_ID id doc]> (comments w)) w);
      mret id
  end.

(** The struct a stored document decodes into. *)
Definition decode (id : ObjectID) (doc : Comment.t) : Comment.t := Comment.set_ID id doc.

(** [collection.FindOne(ctx, bson.M{"_id": id}).Decode(&comment)]; the inner
    [None] is [mongo.ErrNoDocuments]. *)
Definition comments_FindOne (id : ObjectID) : M (option Comment.t) :=
  _ ← round_trip;
  w ← get_world;
  mret (decode id <$> comments w !! id).

(** [collection.UpdateOne(ctx, bson.M{"_id": id}, update)]: [update] is the
    effect of the update document on the matched document, or the error the
    server answers with. No matching document is not an error. *)
Definition comments_UpdateOne (id : ObjectID) (update : Comment.t → result Comment.t)
  : M unit :=
  _ ← round_trip;
  w ← get_world;
  match comments w !! id with
  | None => mret tt
  | Some doc =>
      match update doc with
      | Ok doc' => modify (λ w, set_comments (<[id := doc']> (comments w)) w)
      | Err e => throw e
      end
  end.

(** The documents of the collection, in the order the server scans them. *)
Definition scan (w : World) : list Comment.t :=
  (λ kd : ObjectID * Comment.t, decode kd.1 kd.2) <$> map_to_list (comments w).

(** [collection.CountDocuments(ctx, filter)] *)
Definition comments_CountDocuments (filter : Filter.t) : M Z :=
  _ ← round_trip;
  w ← get_world;
  mret (Z.of_nat (length (List.filter (Filter.matches filter) (scan w)))).

(** The value of the sort key [sortField]. *)
Definition sort_value (sortField : string) (c : Comment.t) : Z :=
  if decide (sortField = "like_count") then Comment.LikeCount c
  else if decide (sortField = "reply_count") then Comment.ReplyCount c
  else Comment.CreatedAt c.

(** Whether [a] may come before [b] under
    [bson.D{{"is_pinned", -1}, {sortField, sortOrder}}]. *)
Definition sort_before (sortField : string) (sortOrder : Z) (a b : Comment.t) : bool :=
  if bool_decide (Comment.IsPinned a = Comment.IsPinned b)
  then (if (sortOrder =? 1)%Z
        then (sort_value sortField a <=? sort_value sortField b)%Z
        else (sort_value sortField b <=? sort_value sortField a)%Z)
  else Comment.IsPinned a.

Fixpoint sort_insert (before : Comment.t → Comment.t → bool) (x : Comment.t)
  (l : list Comment.t) : list Comment.t :=
  match l with
  | [] => [x]
  | y :: l' => if before x y then x :: y :: l' else y :: sort_insert before x l'
  end.

(** Sorts by insertion; documents the sort keys do not tell apart stay in
    scan order (the server leaves their order open). *)
Definition sort_by (before : Comment.t → Comment.t → bool) (l : list Comment.t)
  : list Comment.t :=
  foldr (sort_insert before) [] l.

(** [collection.Find(ctx, filter, options.Find().SetSort(...).SetSkip(skip).SetLimit(limit))]
    followed by [cursor.All]. The server refuses a negative skip; each of the
    two calls is a round trip. *)
Definition comments_Find (filter : Filter.t) (before : Comment.t → Comment.t → bool)
  (skip limit : Z) : M (list Comment.t) :=
  _ ← round_trip;
  _ ← fail_if (skip <? 0)%Z mongo_error;
  w ← get_world;
  _ ← round_trip;
  mret (take (Z.to_nat limit)
          (drop (Z.to_nat skip) (sort_by before (List.filter (Filter.matches filter) (scan w))))).

(** [collection.Aggregate(ctx, pipeline)] followed by [cursor.All]: the
    documents the [$match] stage lets through. *)
Definition comments_Aggregate_match (filter : Filter.t) : M (list Comment.t) :=
  _ ← round_trip;
  w ← get_world;
  _ ← round_trip;
  mret (List.filter (Filter.matches filter) (scan w)).

(** ** internal/repository: CommentRepository *)

Module CommentRepository.

(** Create inserts a new comment. The comment is passed by pointer: the
    result is the comment as the caller holds it afterwards. *)
Definition Create (comment : Comment.t) : M Comment.t :=
  now ← time_Now;
  let comment := Comment.set_CreatedAt now comment in
  now ← time_Now;
  let comment := Comment.set_UpdatedAt now comment in
  insertedID ← comments_InsertOne comment;
  mret (Comment.set_ID insertedID comment).

(** GetByID retrieves a comment by ID; [None] is Go's [nil, nil]. *)
Definition GetByID (id : ObjectID) : M (option Comment.t) :=
  comments_FindOne id.

(** Update updates a comment ([$set] of the whole struct). *)
Definition Update (comment : Comment.t) : M Comment.t :=
  now ← time_Now;
  let comment := Comment.set_UpdatedAt now comment in
  _ ← comments_UpdateOne (Comment.ID comment) (λ doc, Ok (bson_set_comment comment doc));
  mret comment.

(** SoftDelete marks a comment as deleted. *)
Definition SoftDelete (id : ObjectID) (deletedBy : string) : M unit :=
  now ← time_Now;
  comments_UpdateOne id (λ doc,
    Ok (Comment.set_UpdatedAt now
          (Comment.set_DeletedBy deletedBy
             (Comment.set_DeletedAt (Some now)
                (Comment.set_IsDeleted true doc))))).

(** The filter [List] builds from the request. *)
Definition nonempty (s : string) : option string :=
  if decide (s = "") then None else Some s.

Definition list_filter (req : ListCommentsRequest.t) : Filter.t :=
  {| Filter.tenant_id := nonempty (ListCommentsRequest.TenantID req);
     Filter.resource_type := nonempty (ListCommentsRequest.ResourceType req);
     Filter.resource_id := nonempty (ListCommentsRequest.ResourceID req);
     Filter.parent_id :=
       if decide (ListCommentsRequest.ParentID req = "") then Some None
       else match ObjectIDFromHex (ListCommentsRequest.ParentID req) with
            | Some parentID => Some (Some parentID)
            | None => None
            end;
     Filter.status := nonempty (ListCommentsRequest.Status req);
     Filter.author_id := nonempty (ListCommentsRequest.AuthorID req);
     Filter.is_pinned := ListCommentsRequest.IsPinned req;
     Filter.is_deleted :=
       if ListCommentsRequest.IncludeDeleted req then None else Some false |}.

(** The defaults [List] sets on its copy of the request. *)
Definition list_page (req : ListCommentsRequest.t) : Z :=
  if (ListCommentsRequest.Page req <? 1)%Z then 1 else ListCommentsRequest.Page req.

Definition list_page_size (req : ListCommentsRequest.t) : Z :=
  if (ListCommentsRequest.PageSize req <? 1)%Z || (100 <? ListCommentsRequest.PageSize req)%Z
  then 20 else ListCommentsRequest.PageSize req.

Definition list_sort_field (req : ListCommentsRequest.t) : string :=
  let sortBy := ListCommentsRequest.SortBy req in
  if decide (sortBy = "created_at") then sortBy
  else if decide (sortBy = "like_count") then sortBy
  else if decide (sortBy = "reply_count") then sortBy
  else "created_at".

Definition list_sort_order (req : ListCommentsRequest.t) : Z :=
  if decide (ListCommentsRequest.SortOrder req = "asc") then 1 else -1.

(** List retrieves comments with filters. The request is passed by value:
    the defaults set here are not seen by the caller. *)
Definition List (req : ListCommentsRequest.t) : M (list Comment.t * Z) :=
  let filter := list_filter req in
  total ← comments_CountDocuments filter;
  let req := ListCommentsRequest.set_Page (list_page req) req in
  let req := ListCommentsRequest.set_PageSize (list_page_size req) req in
  let sortField := list_sort_field req in
  let sortOrder := list_sort_order req in
  comments ← comments_Find filter (sort_before sortField sortOrder)
    (int_mul (int_sub (ListCommentsRequest.Page req) 1) (ListCommentsRequest.PageSize req))
    (ListCommentsRequest.PageSize req);
  mret (comments, total).

(** IncrementReplyCount increments the reply count of a comment. The server
    refuses an [$inc] whose result leaves the 64-bit range. *)
Definition IncrementReplyCount (id : ObjectID) (delta : Z) : M unit :=
  now ← time_Now;
  comments_UpdateOne id (λ doc,
    let n := (Comment.ReplyCount doc + delta)%Z in
    if (int_min <=? n)%Z && (n <=? int_max)%Z
    then Ok (Comment.set_UpdatedAt now (Comment.set_ReplyCount n doc))
    else Err mongo_error).

(** [bson.D{{"created_at", 1}}]: oldest first. *)
Definition oldest_first (a b : Comment.t) : bool :=
  (Comment.CreatedAt a <=? Comment.CreatedAt b)%Z.

(** The defaults [GetReplies], [GetPending] and [Search] set on [page] and
    [pageSize]. *)
Definition default_page (page : Z) : Z := if (page <? 1)%Z then 1 else page.

Definition default_page_size (pageSize : Z) : Z :=
  if (pageSize <? 1)%Z || (100 <? pageSize)%Z then 20 else pageSize.

Definition replies_filter (parentID : ObjectID) : Filter.t :=
  {| Filter.tenant_id := None;
     Filter.resource_type := None;
     Filter.resource_id := None;
     Filter.parent_id := Some (Some parentID);
     Filter.status := Some StatusApproved;
     Filter.author_id := None;
     Filter.is_pinned := None;
     Filter.is_deleted := Some false |}.

(** GetReplies retrieves replies for a comment. *)
Definition GetReplies (parentID : ObjectID) (page pageSize : Z) : M (list Comment.t * Z) :=
  let filter := replies_filter parentID in
  total ← comments_CountDocuments filter;
  let page := default_page page in
  let pageSize := default_page_size pageSize in
  replies ← comments_Find filter oldest_first (int_mul (int_sub page 1) pageSize) pageSize;
  mret (replies, total).

Definition pending_filter (tenantID : string) : Filter.t :=
  {| Filter.tenant_id := nonempty tenantID;
     Filter.resource_type := None;
     Filter.resource_id := None;
     Filter.parent_id := None;
     Filter.status := Some StatusPending;
     Filter.author_id := None;
     Filter.is_pinned := None;
     Filter.is_deleted := Some false |}.

(** GetPending retrieves pending comments for moderation. *)
Definition GetPending (tenantID : string) (page pageSize : Z) : M (list Comment.t * Z) :=
  let filter := pending_filter tenantID in
  total ← comments_CountDocuments filter;
  let page := default_page page in
  let pageSize := default_page_size pageSize in
  comments ← comments_Find filter oldest_first (int_mul (int_sub page 1) pageSize) pageSize;
  mret (comments, total).

Definition stats_filter (tenantID resourceType resourceID : string) : Filter.t :=
  {| Filter.tenant_id := Some tenantID;
     Filter.resource_type := Some resourceType;
     Filter.resource_id := Some resourceID;
     Filter.parent_id := None;
     Filter.status := None;
     Filter.author_id := None;
     Filter.is_pinned := None;
     Filter.is_deleted := Some false |}.

(** [{"$sum": {"$cond": [{"$eq": ["$status", status]}, 1, 0]}}] *)
Definition count_status (status : CommentStatus) (docs : list Comment.t) : Z :=
  Z.of_nat (length (List.filter (λ c, bool_decide (Comment.Status c = status)) docs)).

(** What the type assertion [.(int32)] on a sum does past the 32-bit range,
    where the server answers with an int64: the goroutine panics. *)
Definition int32_assertion_panic : error :=
  Errorf "panic: interface conversion: interface {} is int64, not int32".

(** GetStats retrieves statistics for a resource. The [$group] stage yields
    no result when no document matches, and the stats stay zero. *)
Definition GetStats (tenantID resourceType resourceID : string) : M CommentStats.t :=
  docs ← comments_Aggregate_match (stats_filter tenantID resourceType resourceID);
  let total := Z.of_nat (length docs) in
  if bool_decide (docs = []) then
    mret {| CommentStats.TotalComments := 0;
            CommentStats.ApprovedCount := 0;
            CommentStats.PendingCount := 0;
            CommentStats.RejectedCount := 0;
            CommentStats.TotalReactions := 0;
            CommentStats.ReactionBreakdown := ∅ |}
  else
    _ ← fail_if (2 ^ 31 <=? total)%Z int32_assertion_panic;
    mret {| CommentStats.TotalComments := total;
            CommentStats.ApprovedCount := count_status StatusApproved docs;
            CommentStats.PendingCount := count_status StatusPending docs;
            CommentStats.RejectedCount := count_status StatusRejected docs;
            CommentStats.TotalReactions := 0;
            CommentStats.ReactionBreakdown := ∅ |}.

(** UpdateReactionCounts updates the reaction counts of a comment. *)
Definition UpdateReactionCounts (id : ObjectID) (likeCount dislikeCount : Z)
  (reactionCounts : gmap string Z) : M unit :=
  now ← time_Now;
  comments_UpdateOne id (λ doc,
    Ok (Comment.set_UpdatedAt now
          (Comment.set_ReactionCounts reactionCounts
             (Comment.set_DislikeCount dislikeCount
                (Comment.set_LikeCount likeCount doc))))).

End CommentRepository.

(** ** internal/repository: SettingsRepository *)

Module SettingsRepository.

Definition default_settings (tenantID resourceType : string) (createdAt updatedAt : Time)
  : CommentSettings.t :=
  {| CommentSettings.ID := NilObjectID;
     CommentSettings.TenantID := tenantID;
     CommentSettings.ResourceType := resourceType;
     CommentSettings.RequireApproval := true;
     CommentSettings.AllowAnonymous := false;
     CommentSettings.AllowReplies := true;
     CommentSettings.MaxReplyDepth := 5;
     CommentSettings.AllowReactions := true;
     CommentSettings.AllowedReactions :=
       [ReactionLike; ReactionDislike; ReactionLove; ReactionHaha; ReactionWow;
        ReactionSad; ReactionAngry];
     CommentSettings.AllowAttachments := false;
     CommentSettings.MaxAttachments := 3;
     CommentSettings.MaxCommentLength := 5000;
     CommentSettings.CommentsEnabled := true;
     CommentSettings.NotifyOnNewComment := true;
     CommentSettings.NotifyOnReply := true;
     CommentSettings.AutoApproveVerified := false;
     CommentSettings.BadWordsFilter := true;
     CommentSettings.CustomBadWords := [];
     CommentSettings.CreatedAt := createdAt;
     CommentSettings.UpdatedAt := updatedAt |}.

(** GetOrCreate retrieves settings or creates default ones. The branch on
    [mongo.IsDuplicateKeyError] needs another writer between [FindOne] and
    [InsertOne]; one world has none, so the insert of a key just found
    missing succeeds or fails with the round trip. *)
Definition GetOrCreate (tenantID resourceType : string) : M CommentSettings.t :=
  _ ← round_trip;
  w ← get_world;
  match settings w !! (tenantID, resourceType) with
  | Some found => mret found
  | None =>
      createdAt ← time_Now;
      updatedAt ← time_Now;
      let created := default_settings tenantID resourceType createdAt updatedAt in
      insertedID ← NewObjectID;
      _ ← round_trip;
      let created := CommentSettings.set_ID insertedID created in
      _ ← modify (λ w, set_settings (<[(tenantID, resourceType) := created]> (settings w)) w);
      mret created
  end.

(** The document an upsert inserts when the filter matches nothing: the
    equality fields of the filter; every other field decodes to its zero
    value. *)
Definition upsert_base (tenantID resourceType : string) : CommentSettings.t :=
  {| CommentSettings.ID := NilObjectID;
     CommentSettings.TenantID := tenantID;
     CommentSettings.ResourceType := resourceType;
     CommentSettings.RequireApproval := false;
     CommentSettings.AllowAnonymous := false;
     CommentSettings.AllowReplies := false;
     CommentSettings.MaxReplyDepth := 0;
     CommentSettings.AllowReactions := false;
     CommentSettings.AllowedReactions := [];
     CommentSettings.AllowAttachments := false;
     CommentSettings.MaxAttachments := 0;
     CommentSettings.MaxCommentLength := 0;
     CommentSettings.CommentsEnabled := false;
     CommentSettings.NotifyOnNewComment := false;
     CommentSettings.NotifyOnReply := false;
     CommentSettings.AutoApproveVerified := false;
     CommentSettings.BadWordsFilter := false;
     CommentSettings.CustomBadWords := [];
     CommentSettings.CreatedAt := 0;
     CommentSettings.UpdatedAt := 0 |}.

(** [{"$set": update}] for the [update] that [Update] builds from the
    request: a nil field of the request is not in it. *)
Definition apply_request (now : Time) (req : SettingsRequest.t) (s : CommentSettings.t)
  : CommentSettings.t :=
  {| CommentSettings.ID := CommentSettings.ID s;
     CommentSettings.TenantID := CommentSettings.TenantID s;
     CommentSettings.ResourceType := CommentSettings.ResourceType s;
     CommentSettings.RequireApproval :=
       default (CommentSettings.RequireApproval s) (SettingsRequest.RequireApproval req);
     CommentSettings.AllowAnonymous :=
       default (CommentSettings.AllowAnonymous s) (SettingsRequest.AllowAnonymous req);
     CommentSettings.AllowReplies :=
       default (CommentSettings.AllowReplies s) (SettingsRequest.AllowReplies req);
     CommentSettings.MaxReplyDepth :=
       default (CommentSettings.MaxReplyDepth s) (SettingsRequest.MaxReplyDepth req);
     CommentSettings.AllowReactions :=
       default (CommentSettings.AllowReactions s) (SettingsRequest.AllowReactions req);
     CommentSettings.AllowedReactions :=
       default (CommentSettings.AllowedReactions s) (SettingsRequest.AllowedReactions req);
     CommentSettings.AllowAttachments :=
       default (CommentSettings.AllowAttachments s) (SettingsRequest.AllowAttachments req);
     CommentSettings.MaxAttachments :=
       default (CommentSettings.MaxAttachments s) (SettingsRequest.MaxAttachments req);
     CommentSettings.MaxCommentLength :=
       default (CommentSettings.MaxCommentLength s) (SettingsRequest.MaxCommentLength req);
     CommentSettings.CommentsEnabled :=
       default (CommentSettings.CommentsEnabled s) (SettingsRequest.CommentsEnabled req);
     CommentSettings.NotifyOnNewComment :=
       default (CommentSettings.NotifyOnNewComment s) (SettingsRequest.NotifyOnNewComment req);
     CommentSettings.NotifyOnReply :=
       default (CommentSettings.NotifyOnReply s) (SettingsRequest.NotifyOnReply req);
     CommentSettings.AutoApproveVerified :=
       default (CommentSettings.AutoApproveVerified s) (SettingsRequest.AutoApproveVerified req);
     CommentSettings.BadWordsFilter :=
       default (CommentSettings.BadWordsFilter s) (SettingsRequest.BadWordsFilter req);
     CommentSettings.CustomBadWords :=
       default (CommentSettings.CustomBadWords s) (SettingsRequest.CustomBadWords req);
     CommentSettings.CreatedAt := CommentSettings.CreatedAt s;
     CommentSettings.UpdatedAt := now |}.

(** Update updates settings: [FindOneAndUpdate] with
    [SetReturnDocument(options.After)] and [SetUpsert(true)]. *)
Definition Update (tenantID resourceType : string) (req : SettingsRequest.t)
  : M CommentSettings.t :=
  now ← time_Now;
  _ ← round_trip;
  w ← get_world;
  match settings w !! (tenantID, resourceType) with
  | Some found =>
      let updated := apply_request now req found in
      _ ← modify (λ w, set_settings (<[(tenantID, resourceType) := updated]> (settings w)) w);
      mret updated
  | None =>
      insertedID ← NewObjectID;
      let created :=
        CommentSettings.set_ID insertedID
          (apply_request now req (upsert_base tenantID resourceType)) in
      _ ← modify (λ w, set_settings (<[(tenantID, resourceType) := created]> (settings w)) w);
      mret created
  end.

End SettingsRepository.

(** ** The text functions of Go's standard library the usecase calls *)

(** [regexp.Compile], [Regexp.FindAllString(s, -1)] and [strings.ToLower].
    [regexp_Compile] is [None] when Go returns an error. *)
Class GoText := {
  Regexp : Type;
  regexp_Compile : string → option Regexp;
  FindAllString : Regexp → string → list string;
  strings_ToLower : string → string
}.

(** [strings.Join] *)
Fixpoint strings_Join (elems : list string) (sep : string) : string :=
  match elems with
  | [] => ""
  | [a] => a
  | a :: rest => a ++ sep ++ strings_Join rest sep
  end.

(** The pattern both word lists are compiled into. *)
Definition bad_words_pattern (words : list string) : string :=
  "(?i)\b(" ++ strings_Join words "|" ++ ")\b".

(** ** internal/usecase: CommentUsecase *)

Module CommentUsecase.

Section Usecase.

Context `{GoText}.

(** The usecase, without the repositories and the notifier: the collections
    are in the [World], and notifications are sent from a goroutine of their
    own, whose outcome neither the result nor the collections depend on. *)
Record t := mk {
  cfg : Config.t;
  badWordsRegex : option Regexp
}.

(** NewCommentUsecase creates a new comment usecase. *)
Definition NewCommentUsecase (cfg : Config.t) : t :=
  let moderation := Config.Moderation cfg in
  (* Build bad words regex *)
  let badWordsRegex :=
    if ModerationConfig.BadWordsEnabled moderation
       && bool_decide (0 < length (ModerationConfig.BadWordsList moderation))%nat
    then regexp_Compile (bad_words_pattern (ModerationConfig.BadWordsList moderation))
    else None in
  {| cfg := cfg; badWordsRegex := badWordsRegex |}.

(** One turn of the loop that removes duplicates. *)
Definition dedup_step (acc : gmap string bool * list string) (word : string)
  : gmap string bool * list string :=
  let '(seen, unique) := acc in
  let lower := strings_ToLower word in
  if negb (default false (seen !! lower))
  then (<[lower := true]> seen, (unique ++ [word])%list)
  else (seen, unique).

(** checkBadWords checks content for bad words. *)
Definition checkBadWords (u : t) (content : string) (customBadWords : list string)
  : list string :=
  let flagged := [] in
  (* Check with default regex *)
  let flagged :=
    match badWordsRegex u with
    | Some re => (flagged ++ FindAllString re content)%list
    | None => flagged
    end in
  (* Check custom bad words *)
  let flagged :=
    if bool_decide (0 < length customBadWords)%nat
    then match regexp_Compile (bad_words_pattern customBadWords) with
         | Some customRegex => (flagged ++ FindAllString customRegex content)%list
         | None => flagged
         end
    else flagged in
  (* Remove duplicates *)
  (foldl dedup_step (∅, []) flagged).2.

(** The status a new comment starts in. *)
Definition initial_status (settings : CommentSettings.t) (flaggedWords : list string)
  : CommentStatus :=
  let status := StatusPending in
  if negb (CommentSettings.RequireApproval settings) then StatusApproved
  else if bool_decide (0 < length flaggedWords)%nat
  then StatusPending (* Force pending if bad words detected *)
  else status.

(** The part of [CreateComment] that places a reply in its thread:
    [(parentID, rootID, depth)]. *)
Definition resolve_parent (req : CreateCommentRequest.t) (settings : CommentSettings.t)
  : M (option ObjectID * option ObjectID * Z) :=
  if decide (CreateCommentRequest.ParentID req = "") then mret (None, None, 0)
  else
    match ObjectIDFromHex (CreateCommentRequest.ParentID req) with
    | None => throw (Errorf "invalid parent ID")
    | Some pid =>
        parent ← wrap_err "failed to get parent comment: %w" (CommentRepository.GetByID pid);
        match parent with
        | None => throw (Errorf "parent comment not found")
        | Some parent =>
            (* Check if replies are allowed *)
            _ ← fail_if (negb (CommentSettings.AllowReplies settings))
                  (Errorf "replies are not allowed");
            (* Check max reply depth *)
            let depth := int_add (Comment.Depth parent) 1 in
            _ ← fail_if (CommentSettings.MaxReplyDepth settings <? depth)%Z
                  (Errorf "maximum reply depth exceeded");
            let rootID :=
              match Comment.RootID parent with
              | Some root => Some root
              | None => Some pid
              end in
            mret (Some pid, rootID, depth)
        end
    end.

(** CreateComment creates a new comment. *)
Definition CreateComment (u : t) (req : CreateCommentRequest.t)
  (authorID authorName authorEmail ipAddress userAgent : string) : M Comment.t :=
  (* Get settings *)
  settings ← wrap_err "failed to get settings: %w"
    (SettingsRepository.GetOrCreate (CreateCommentRequest.TenantID req)
       (CreateCommentRequest.ResourceType req));
  (* Check if comments are enabled *)
  _ ← fail_if (negb (CommentSettings.CommentsEnabled settings))
        (Errorf "comments are disabled for this resource type");
  (* Check anonymous permissions *)
  _ ← fail_if (CreateCommentRequest.IsAnonymous req
               && negb (CommentSettings.AllowAnonymous settings))
        (Errorf "anonymous comments are not allowed");
  (* Validate content length *)
  _ ← fail_if (CommentSettings.MaxCommentLength settings
               <? len (CreateCommentRequest.Content req))%Z
        (Errorf_d "comment exceeds maximum length of %d characters"
           (CommentSettings.MaxCommentLength settings));
  (* Check for parent comment (reply) *)
  '(parentID, rootID, depth) ← resolve_parent req settings;
  (* Check for bad words *)
  let flaggedWords :=
    checkBadWords u (CreateCommentRequest.Content req)
      (CommentSettings.CustomBadWords settings) in
  (* Determine initial status *)
  let status := initial_status settings flaggedWords in
  (* Set author info *)
  let displayName := authorName in
  let displayName :=
    if decide (CreateCommentRequest.AuthorName req = "") then displayName
    else CreateCommentRequest.AuthorName req in
  let displayName :=
    if CreateCommentRequest.IsAnonymous req then "Anonymous" else displayName in
  let authorEmail := if CreateCommentRequest.IsAnonymous req then "" else authorEmail in
  let comment :=
    {| Comment.ID := NilObjectID;
       Comment.TenantID := CreateCommentRequest.TenantID req;
       Comment.ResourceType := CreateCommentRequest.ResourceType req;
       Comment.ResourceID := CreateCommentRequest.ResourceID req;
       Comment.ParentID := parentID;
       Comment.RootID := rootID;
       Comment.AuthorID := authorID;
       Comment.AuthorName := displayName;
       Comment.AuthorEmail := authorEmail;
       Comment.AuthorAvatar := "";
       Comment.IsAnonymous := CreateCommentRequest.IsAnonymous req;
       Comment.Content := CreateCommentRequest.Content req;
       Comment.ContentHTML := "";
       Comment.Attachments := CreateCommentRequest.Attachments req;
       Comment.Status := status;
       Comment.ModeratedBy := "";
       Comment.ModeratedAt := None;
       Comment.RejectionReason := "";
       Comment.FlaggedWords := flaggedWords;
       Comment.ReportCount := 0;
       Comment.IsPinned := false;
       Comment.PinnedBy := "";
       Comment.PinnedAt := None;
       Comment.IsEdited := false;
       Comment.EditHistory := [];
       Comment.ReplyCount := 0;
       Comment.LikeCount := 0;
       Comment.DislikeCount := 0;
       Comment.ReactionCounts := ∅;
       Comment.IPAddress := ipAddress;
       Comment.UserAgent := userAgent;
       Comment.Metadata := CreateCommentRequest.Metadata req;
       Comment.CreatedAt := 0;
       Comment.UpdatedAt := 0;
       Comment.DeletedAt := None;
       Comment.IsDeleted := false;
       Comment.DeletedBy := "";
       Comment.Depth := depth |} in
  comment ← wrap_err "failed to create comment: %w" (CommentRepository.Create comment);
  (* Increment parent reply count *)
  _ ← match parentID with
      | Some parentID =>
          log_err "Failed to increment reply count: %v"
            (CommentRepository.IncrementReplyCount parentID 1)
      | None => mret tt
      end;
  mret comment.

(** The lookup the other operations start with: the id in hexadecimal, then
    the comment it names. *)
Definition fetch (id : string) : M (ObjectID * Comment.t) :=
  match ObjectIDFromHex id with
  | None => throw (Errorf "invalid comment ID")
  | Some oid =>
      comment ← CommentRepository.GetByID oid;
      match comment with
      | None => throw (Errorf "comment not found")
      | Some comment => mret (oid, comment)
      end
  end.

(** UpdateComment updates a comment. *)
Definition UpdateComment (u : t) (id : string) (req : UpdateCommentRequest.t)
  (userID : string) (isAdmin : bool) : M Comment.t :=
  '(oid, comment) ← fetch id;
  (* Check ownership *)
  _ ← fail_if (bool_decide (Comment.AuthorID comment ≠ userID) && negb isAdmin)
        (Errorf "you can only edit your own comments");
  (* Check if deleted *)
  _ ← fail_if (Comment.IsDeleted comment) (Errorf "cannot edit deleted comment");
  (* Get settings *)
  settings ← wrap_err "failed to get settings: %w"
    (SettingsRepository.GetOrCreate (Comment.TenantID comment) (Comment.ResourceType comment));
  (* Validate content length *)
  _ ← fail_if (CommentSettings.MaxCommentLength settings
               <? len (UpdateCommentRequest.Content req))%Z
        (Errorf_d "comment exceeds maximum length of %d characters"
           (CommentSettings.MaxCommentLength settings));
  (* Save edit history *)
  now ← time_Now;
  let editRecord :=
    {| EditRecord.Content := Comment.Content comment;
       EditRecord.EditedAt := now;
       EditRecord.EditedBy := userID |} in
  let comment := Comment.set_EditHistory (Comment.EditHistory comment ++ [editRecord])%list comment in
  (* Check for bad words in new content *)
  let flaggedWords :=
    checkBadWords u (UpdateCommentRequest.Content req)
      (CommentSettings.CustomBadWords settings) in
  (* Update fields *)
  let comment := Comment.set_Content (UpdateCommentRequest.Content req) comment in
  let comment := Comment.set_Attachments (UpdateCommentRequest.Attachments req) comment in
  let comment := Comment.set_IsEdited true comment in
  let comment := Comment.set_FlaggedWords flaggedWords comment in
  (* If bad words found, set back to pending *)
  let comment :=
    if bool_decide (0 < length flaggedWords)%nat && CommentSettings.RequireApproval settings
    then Comment.set_Status StatusPending comment
    else comment in
  comment ← wrap_err "failed to update comment: %w" (CommentRepository.Update comment);
  mret comment.

(** DeleteComment soft deletes a comment. *)
Definition DeleteComment (u : t) (id : string) (userID : string) (isAdmin : bool) : M unit :=
  '(oid, comment) ← fetch id;
  (* Check ownership *)
  _ ← fail_if (bool_decide (Comment.AuthorID comment ≠ userID) && negb isAdmin)
        (Errorf "you can only delete your own comments");
  _ ← wrap_err "failed to delete comment: %w" (CommentRepository.SoftDelete oid userID);
  (* Decrement parent reply count *)
  _ ← match Comment.ParentID comment with
      | Some parentID =>
          log_err "Failed to decrement reply count: %v"
            (CommentRepository.IncrementReplyCount parentID (-1))
      | None => mret tt
      end;
  mret tt.

(** ListComments retrieves comments with filters. *)
Definition ListComments (u : t) (req : ListCommentsRequest.t) (userID : string)
  (isAdmin : bool) : M ListCommentsResponse.t :=
  (* Non-admins can only see approved comments *)
  let req :=
    if negb isAdmin && bool_decide (ListCommentsRequest.Status req = "")
    then ListCommentsRequest.set_Status StatusApproved req
    else req in
  '(comments, total) ← CommentRepository.List req;
  let pageSize := ListCommentsRequest.PageSize req in
  let pageSize := if (pageSize <? 1)%Z then 20 else pageSize in
  let totalPages := int_quot total pageSize in
  let totalPages :=
    if (0 <? int_rem total pageSize)%Z then int_add totalPages 1 else totalPages in
  mret {| ListCommentsResponse.Comments := comments;
          ListCommentsResponse.Total := total;
          ListCommentsResponse.Page := ListCommentsRequest.Page req;
          ListCommentsResponse.PageSize := pageSize;
          ListCommentsResponse.TotalPages := totalPages |}.

(** ModerateComment approves or rejects a comment. *)
Definition ModerateComment (u : t) (id : string) (req : ModerateCommentRequest.t)
  (moderatorID : string) : M Comment.t :=
  '(oid, comment) ← fetch id;
  now ← time_Now;
  let comment := Comment.set_Status (ModerateCommentRequest.Status req) comment in
  let comment := Comment.set_ModeratedBy moderatorID comment in
  let comment := Comment.set_ModeratedAt (Some now) comment in
  let comment :=
    if bool_decide (ModerateCommentRequest.Status req = StatusRejected)
    then Comment.set_RejectionReason (ModerateCommentRequest.RejectionReason req) comment
    else comment in
  comment ← wrap_err "failed to moderate comment: %w" (CommentRepository.Update comment);
  mret comment.

(** GetComment retrieves a comment by ID. *)
Definition GetComment (u : t) (id : string) : M Comment.t :=
  match ObjectIDFromHex id with
  | None => throw (Errorf "invalid comment ID")
  | Some oid =>
      comment ← CommentRepository.GetByID oid;
      match comment with
      | None => throw (Errorf "comment not found")
      | Some comment => mret comment
      end
  end.

(** GetReplies retrieves replies for a comment. *)
Definition GetReplies (u : t) (commentID : string) (page pageSize : Z)
  : M (list Comment.t * Z) :=
  match ObjectIDFromHex commentID with
  | None => throw (Errorf "invalid comment ID")
  | Some oid => CommentRepository.GetReplies oid page pageSize
  end.

(** PinComment pins or unpins a comment. *)
Definition PinComment (u : t) (id : string) (isPinned : bool) (userID : string)
  : M Comment.t :=
  '(oid, comment) ← fetch id;
  now ← time_Now;
  let comment := Comment.set_IsPinned isPinned comment in
  let comment :=
    if isPinned
    then Comment.set_PinnedAt (Some now) (Comment.set_PinnedBy userID comment)
    else Comment.set_PinnedAt None (Comment.set_PinnedBy "" comment) in
  comment ← wrap_err "failed to pin comment: %w" (CommentRepository.Update comment);
  mret comment.

(** GetPendingComments retrieves comments pending moderation. *)
Definition GetPendingComments (u : t) (tenantID : string) (page pageSize : Z)
  : M (list Comment.t * Z) :=
  CommentRepository.GetPending tenantID page pageSize.

(** GetCommentStats retrieves comment statistics. *)
Definition GetCommentStats (u : t) (tenantID resourceType resourceID : string)
  : M CommentStats.t :=
  CommentRepository.GetStats tenantID resourceType resourceID.

(** [s[:n]] on the bytes of [s], for [0 <= n <= len(s)]. *)
Fixpoint slice_to (n : nat) (s : string) : string :=
  match n, s with
  | S n', String c s' => String c (slice_to n' s')
  | _, _ => ""
  end.

(** [truncateString]; [None] is the run-time panic of a slice bound out of
    range. *)
Definition truncateString (s : string) (maxLen : Z) : option string :=
  if (len s <=? maxLen)%Z then Some s
  else if (maxLen - 3 <? 0)%Z then None
  else Some (slice_to (Z.to_nat (maxLen - 3)) s ++ "...").

(** sendNewCommentNotification sends notification for new comments: the
    request handed to the notifier, [None] when nothing is sent.
    [hasNotifier] is [u.notifier != nil]. *)
Definition sendNewCommentNotification (u : t) (hasNotifier : bool) (comment : Comment.t)
  (settings : CommentSettings.t) : option NotificationRequest.t :=
  if negb hasNotifier || negb (Config.NotifierEnabled (cfg u)) then None
  else if negb (CommentSettings.NotifyOnNewComment settings)
          && bool_decide (Comment.ParentID comment = None) then None
  else if negb (CommentSettings.NotifyOnReply settings)
          && bool_decide (Comment.ParentID comment ≠ None) then None
  else
    let notificationType := "comment.new" in
    let notificationType :=
      if bool_decide (Comment.ParentID comment ≠ None) then "comment.reply"
      else notificationType in
    let title := "New Comment" in
    let title :=
      if bool_decide (Comment.ParentID comment ≠ None) then "New Reply to Your Comment"
      else title in
    let '(title, notificationType) :=
      if bool_decide (Comment.Status comment = StatusPending)
      then ("Comment Pending Approval", "comment.pending")
      else (title, notificationType) in
    body ← truncateString (Comment.Content comment) 100;
    Some {| NotificationRequest.Type_ := notificationType;
            NotificationRequest.Recipients := ["admin"];
            NotificationRequest.Title := title;
            NotificationRequest.Body := body;
            NotificationRequest.Data :=
              <["comment_id" := ObjectID_Hex (Comment.ID comment)]>
              (<["tenant_id" := Comment.TenantID comment]>
              (<["resource_type" := Comment.ResourceType comment]>
              (<["resource_id" := Comment.ResourceID comment]>
              (<["author_id" := Comment.AuthorID comment]>
              (<["status" := Comment.Status comment]> ∅))))) |}.

(** sendModerationNotification sends notification when comment is
    moderated: the request handed to the notifier. *)
Definition sendModerationNotification (u : t) (hasNotifier : bool) (comment : Comment.t)
  : option NotificationRequest.t :=
  if negb hasNotifier || negb (Config.NotifierEnabled (cfg u)) then None
  else
    let title := "Your Comment Was Approved" in
    let body := "Your comment has been approved and is now visible." in
    let '(title, body) :=
      if bool_decide (Comment.Status comment = StatusRejected)
      then
        let title := "Your Comment Was Rejected" in
        let body := "Your comment has been rejected." in
        let body :=
          if bool_decide (Comment.RejectionReason comment ≠ "")
          then body ++ " Reason: " ++ Comment.RejectionReason comment
          else body in
        (title, body)
      else (title, body) in
    Some {| NotificationRequest.Type_ := "comment.moderated";
            NotificationRequest.Recipients := [Comment.AuthorID comment];
            NotificationRequest.Title := title;
            NotificationRequest.Body := body;
            NotificationRequest.Data :=
              <["comment_id" := ObjectID_Hex (Comment.ID comment)]>
              (<["status" := Comment.Status comment]> ∅) |}.

End Usecase.

End CommentUsecase.

(** ** The collection "reactions" *)

(** The world with the collection "reactions" beside it: its documents in
    the order the server scans them. *)
Record Store := mkStore {
  world : World;
  reactions : list Reaction.t
}.

Definition set_world (v : World) (s : Store) : Store :=
  {| world := v; reactions := reactions s |}.

Definition set_reactions (v : list Reaction.t) (s : Store) : Store :=
  {| world := world s; reactions := v |}.

(** A computation of the reaction usecase and its repository. *)
Definition RM (A : Type) : Type := Store → Store * result A.

#[global] Instance RM_ret : MRet RM := λ A a s, (s, Ok a).

#[global] Instance RM_bind : MBind RM := λ A B k m s,
  match m s with
  | (s', Ok a) => k a s'
  | (s', Err e) => (s', Err e)
  end.

(** A computation on the [World], run in the store. *)
Definition lift {A : Type} (m : M A) : RM A := λ s,
  let '(w', r) := m (world s) in (set_world w' s, r).

(** [return ..., err] *)
Definition throw_r {A : Type} (e : error) : RM A := λ s, (s, Err e).

(** [if cond { return ..., err }] *)
Definition fail_if_r (cond : bool) (e : error) : RM unit :=
  if cond then throw_r e else mret tt.

(** [if err := m; err != nil { return ..., fmt.Errorf(format, err) }] *)
Definition wrap_err_r {A : Type} (format : string) (m : RM A) : RM A := λ s,
  match m s with
  | (s', Ok a) => (s', Ok a)
  | (s', Err e) => (s', Err (Errorf_w format e))
  end.

(** [if err := m; err != nil { log.Printf(format, err) }] *)
Definition log_err_r (format : string) (m : RM unit) : RM unit := λ s,
  match m s with
  | (s', Ok _) => (s', Ok tt)
  | (s', Err e) =>
      (set_world (set_logs (logs (world s') ++ [(format, e)])%list (world s')) s', Ok tt)
  end.

Definition get_store : RM Store := λ s, (s, Ok s).

Definition modify_store (f : Store → Store) : RM unit := λ s, (f s, Ok tt).

(** The filter [bson.M{"comment_id": commentID, "user_id": userID}]. *)
Definition by_comment_and_user (commentID : ObjectID) (userID : string) (r : Reaction.t)
  : bool :=
  bool_decide (Reaction.CommentID r = commentID) && bool_decide (Reaction.UserID r = userID).

(** The collection after [update] of the first document [filter] lets
    through; [None] when it lets none through. *)
Fixpoint update_first (filter : Reaction.t → bool) (update : Reaction.t → Reaction.t)
  (docs : list Reaction.t) : option (list Reaction.t) :=
  match docs with
  | [] => None
  | r :: rest =>
      if filter r then Some (update r :: rest)
      else cons r <$> update_first filter update rest
  end.

(** The collection without the first document [filter] lets through. *)
Fixpoint delete_first (filter : Reaction.t → bool) (docs : list Reaction.t)
  : list Reaction.t :=
  match docs with
  | [] => []
  | r :: rest => if filter r then rest else r :: delete_first filter rest
  end.

(** ** internal/repository: ReactionRepository *)

Module ReactionRepository.

(** Upsert creates or updates a reaction: [UpdateOne] with
    [SetUpsert(true)]. The reaction is passed by pointer: the result is the
    reaction as the caller holds it afterwards, with its [ID] set when a
    document was inserted. *)
Definition Upsert (reaction : Reaction.t) : RM Reaction.t :=
  now ← lift time_Now;
  _ ← lift round_trip;
  s ← get_store;
  let filter := by_comment_and_user (Reaction.CommentID reaction) (Reaction.UserID reaction) in
  match update_first filter
          (λ doc, {| Reaction.ID := Reaction.ID doc;
                     Reaction.CommentID := Reaction.CommentID doc;
                     Reaction.UserID := Reaction.UserID doc;
                     Reaction.Type_ := Reaction.Type_ reaction;
                     Reaction.CreatedAt := now |})
          (reactions s) with
  | Some updated =>
      _ ← modify_store (set_reactions updated);
      mret reaction
  | None =>
      upsertedID ← lift NewObjectID;
      let inserted :=
        {| Reaction.ID := upsertedID;
           Reaction.CommentID := Reaction.CommentID reaction;
           Reaction.UserID := Reaction.UserID reaction;
           Reaction.Type_ := Reaction.Type_ reaction;
           Reaction.CreatedAt := now |} in
      _ ← modify_store (λ s, set_reactions (reactions s ++ [inserted])%list s);
      mret {| Reaction.ID := upsertedID;
              Reaction.CommentID := Reaction.CommentID reaction;
              Reaction.UserID := Reaction.UserID reaction;
              Reaction.Type_ := Reaction.Type_ reaction;
              Reaction.CreatedAt := Reaction.CreatedAt reaction |}
  end.

(** GetByUserAndComment retrieves a user's reaction to a comment; [None] is
    Go's [nil, nil]. *)
Definition GetByUserAndComment (userID : string) (commentID : ObjectID)
  : RM (option Reaction.t) :=
  _ ← lift round_trip;
  s ← get_store;
  mret (head (List.filter (by_comment_and_user commentID userID) (reactions s))).

(** Delete removes a reaction; no matching document is not an error. *)
Definition Delete (userID : string) (commentID : ObjectID) : RM unit :=
  _ ← lift round_trip;
  modify_store (λ s,
    set_reactions (delete_first (by_comment_and_user commentID userID) (reactions s)) s).

(** The result of the pipeline [$match] on [comment_id], [$group] by
    [$type] with [{"$sum": 1}]: one pair of a type and its count for each
    type that occurs. *)
Definition group_by_type (commentID : ObjectID) (docs : list Reaction.t)
  : list (string * Z) :=
  map_to_list
    (foldr (λ r (groups : gmap string Z),
              <[Reaction.Type_ r := (default 0 (groups !! Reaction.Type_ r) + 1)%Z]> groups)
       ∅
       (List.filter (λ r, bool_decide (Reaction.CommentID r = commentID)) docs)).

(** One turn of the loop over the results, on [counts], [likeCount] and
    [dislikeCount]. *)
Definition counts_step (acc : gmap string Z * Z * Z) (result : string * Z)
  : gmap string Z * Z * Z :=
  let '(counts, likeCount, dislikeCount) := acc in
  let '(reactionType, count) := result in
  let counts := <[reactionType := count]> counts in
  if decide (reactionType = ReactionLike) then (counts, count, dislikeCount)
  else if decide (reactionType = ReactionDislike) then (counts, likeCount, count)
  else (counts, likeCount, dislikeCount).

(** GetReactionCounts retrieves reaction counts for a comment. The type
    assertion [.(int32)] panics on a count the server sends as int64. *)
Definition GetReactionCounts (commentID : ObjectID) : RM (gmap string Z * Z * Z) :=
  _ ← lift round_trip;
  s ← get_store;
  _ ← lift round_trip;
  let results := group_by_type commentID (reactions s) in
  _ ← fail_if_r (existsb (λ result : string * Z, (2 ^ 31 <=? result.2)%Z) results)
        CommentRepository.int32_assertion_panic;
  mret (foldl counts_step (∅, 0, 0) results).

End ReactionRepository.

(** ** usecase: ReactionUsecase *)

Module ReactionUsecase.

(** updateReactionCounts updates the reaction counts on a comment. *)
Definition updateReactionCounts (commentID : ObjectID) : RM unit :=
  '(counts, likeCount, dislikeCount) ← ReactionRepository.GetReactionCounts commentID;
  lift (CommentRepository.UpdateReactionCounts commentID likeCount dislikeCount counts).

(** AddReaction adds or updates a reaction to a comment. *)
Definition AddReaction (commentID : string) (reactionType : ReactionType) (userID : string)
  : RM unit :=
  match ObjectIDFromHex commentID with
  | None => throw_r (Errorf "invalid comment ID")
  | Some oid =>
      (* Check if comment exists *)
      comment ← lift (CommentRepository.GetByID oid);
      match comment with
      | None => throw_r (Errorf "comment not found")
      | Some comment =>
          (* Cannot react to deleted comments *)
          _ ← fail_if_r (Comment.IsDeleted comment)
                (Errorf "cannot react to deleted comment");
          (* Upsert reaction *)
          let reaction :=
            {| Reaction.ID := NilObjectID;
               Reaction.CommentID := oid;
               Reaction.UserID := userID;
               Reaction.Type_ := reactionType;
               Reaction.CreatedAt := 0 |} in
          _ ← wrap_err_r "failed to add reaction: %w" (ReactionRepository.Upsert reaction);
          (* Update reaction counts *)
          _ ← log_err_r "Failed to update reaction counts: %v" (updateReactionCounts oid);
          mret tt
      end
  end.

(** RemoveReaction removes a reaction from a comment. *)
Definition RemoveReaction (commentID : string) (userID : string) : RM unit :=
  match ObjectIDFromHex commentID with
  | None => throw_r (Errorf "invalid comment ID")
  | Some oid =>
      _ ← wrap_err_r "failed to remove reaction: %w" (ReactionRepository.Delete userID oid);
      (* Update reaction counts *)
      _ ← log_err_r "Failed to update reaction counts: %v" (updateReactionCounts oid);
      mret tt
  end.

(** GetUserReaction gets the current user's reaction to a comment. *)
Definition GetUserReaction (commentID : string) (userID : string)
  : RM (option ReactionType) :=
  match ObjectIDFromHex commentID with
  | None => throw_r (Errorf "invalid comment ID")
  | Some oid =>
      reaction ← ReactionRepository.GetByUserAndComment userID oid;
      match reaction with
      | None => mret None
      | Some reaction => mret (Some (Reaction.Type_ reaction))
      end
  end.

End ReactionUsecase.

(** ** handler: the HTTP layer over the usecase *)

(** The message of a response: a fixed text or the text of an error,
    [err.Error()]. *)
Inductive Message :=
  | Text (text : string)
  | ErrorText (err : error).

(** The responses of package [response] the handlers answer with. *)
Inductive Response (A : Type) :=
  | response_OK (data : A)
  | response_Created (data : A)
  | response_NoContent
  | response_BadRequest (code : string) (message : Message)
  | response_NotFound (message : Message)
  | response_Forbidden (message : Message)
  | response_InternalError (message : Message).

Arguments response_OK {A} data.
Arguments response_Created {A} data.
Arguments response_NoContent {A}.
Arguments response_BadRequest {A} code message.
Arguments response_NotFound {A} message.
Arguments response_Forbidden {A} message.
Arguments response_InternalError {A} message.

(** [err.Error() == message], for the three messages the handlers compare
    with: "comment not found" and the two "you can only ..." messages. An
    error made of a constant has its text; a wrapped error and a formatted
    one begin with other words, and the texts of the driver's errors are not
    those of the usecase. *)
Definition error_is (err : error) (message : string) : bool :=
  match err with
  | Errorf format => bool_decide (format = message)
  | _ => false
  end.

(** BulkModerateRequest represents bulk moderation request. *)
Module BulkModerateRequest.

Record t := mk {
  CommentIDs : list string;
  Status : CommentStatus;
  RejectionReason : string
}.

End BulkModerateRequest.

(** BulkModerateResponse represents bulk moderation response. *)
Module BulkModerateResponse.

Record t := mk {
  SuccessCount : Z;
  FailedCount : Z;
  FailedIDs : list string
}.

End BulkModerateResponse.

(** A handler reads the request from the [fiber.Ctx]: the path parameter
    [id], the locals the middleware has set, and the body, which is [None]
    when [c.BodyParser] fails. It answers with a response after its calls
    to the usecase. *)
Module CommentHandler.

Section Handlers.

Context `{GoText}.

(** Get gets a comment by ID. *)
Definition Get (h : CommentUsecase.t) (id : string) : World → World * Response Comment.t :=
  λ w,
    match CommentUsecase.GetComment h id w with
    | (w', Err err) =>
        if error_is err "comment not found"
        then (w', response_NotFound (Text "Comment not found"))
        else (w', response_InternalError (ErrorText err))
    | (w', Ok comment) => (w', response_OK comment)
    end.

(** Update updates a comment. *)
Definition Update (h : CommentUsecase.t) (id userID : string)
  (body : option UpdateCommentRequest.t) : World → World * Response Comment.t :=
  λ w,
    match body with
    | None => (w, response_BadRequest "invalid_request" (Text "Invalid request body"))
    | Some req =>
        match CommentUsecase.UpdateComment h id req userID false w with
        | (w', Err err) =>
            if error_is err "comment not found"
            then (w', response_NotFound (ErrorText err))
            else if error_is err "you can only edit your own comments"
            then (w', response_Forbidden (ErrorText err))
            else (w', response_BadRequest "update_failed" (ErrorText err))
        | (w', Ok comment) => (w', response_OK comment)
        end
    end.

(** Delete soft deletes a comment. *)
Definition Delete (h : CommentUsecase.t) (id userID : string)
  : World → World * Response unit :=
  λ w,
    match CommentUsecase.DeleteComment h id userID false w with
    | (w', Err err) =>
        if error_is err "comment not found"
        then (w', response_NotFound (ErrorText err))
        else if error_is err "you can only delete your own comments"
        then (w', response_Forbidden (ErrorText err))
        else (w', response_InternalError (ErrorText err))
    | (w', Ok _) => (w', response_NoContent)
    end.

End Handlers.

End CommentHandler.

Module AdminHandler.

Section Handlers.

Context `{GoText}.

(** ModerateComment approves or rejects a comment. *)
Definition ModerateComment (h : CommentUsecase.t) (id moderatorID : string)
  (body : option ModerateCommentRequest.t) : World → World * Response Comment.t :=
  λ w,
    match body with
    | None => (w, response_BadRequest "invalid_request" (Text "Invalid request body"))
    | Some req =>
        (* Validate status *)
        if bool_decide (ModerateCommentRequest.Status req ≠ StatusApproved)
           && bool_decide (ModerateCommentRequest.Status req ≠ StatusRejected)
           && bool_decide (ModerateCommentRequest.Status req ≠ StatusSpam)
        then (w, response_BadRequest "invalid_status"
                   (Text "Status must be 'approved', 'rejected', or 'spam'"))
        else
          match CommentUsecase.ModerateComment h id req moderatorID w with
          | (w', Err err) => (w', response_BadRequest "moderate_failed" (ErrorText err))
          | (w', Ok comment) => (w', response_OK comment)
          end
    end.

(** PinComment pins or unpins a comment; the body is the [IsPinned] of the
    [PinCommentRequest]. *)
Definition PinComment (h : CommentUsecase.t) (id userID : string) (body : option bool)
  : World → World * Response Comment.t :=
  λ w,
    match body with
    | None => (w, response_BadRequest "invalid_request" (Text "Invalid request body"))
    | Some isPinned =>
        match CommentUsecase.PinComment h id isPinned userID w with
        | (w', Err err) => (w', response_BadRequest "pin_failed" (ErrorText err))
        | (w', Ok comment) => (w', response_OK comment)
        end
    end.

(** HardDelete permanently deletes a comment. *)
Definition HardDelete (h : CommentUsecase.t) (id userID : string)
  : World → World * Response unit :=
  λ w,
    (* Use DeleteComment with isAdmin=true *)
    match CommentUsecase.DeleteComment h id userID true w with
    | (w', Err err) => (w', response_BadRequest "delete_failed" (ErrorText err))
    | (w', Ok _) => (w', response_NoContent)
    end.

(** One turn of the loop of [BulkModerate], on the world, [successCount]
    and [failedIDs]. *)
Definition bulk_step (h : CommentUsecase.t) (req : BulkModerateRequest.t)
  (moderatorID : string) (acc : World * (Z * list string)) (commentID : string)
  : World * (Z * list string) :=
  let '(w, (successCount, failedIDs)) := acc in
  match CommentUsecase.ModerateComment h commentID
          {| ModerateCommentRequest.Status := BulkModerateRequest.Status req;
             ModerateCommentRequest.RejectionReason :=
               BulkModerateRequest.RejectionReason req |}
          moderatorID w with
  | (w', Err _) => (w', (successCount, (failedIDs ++ [commentID])%list))
  | (w', Ok _) => (w', (int_add successCount 1, failedIDs))
  end.

(** BulkModerate moderates multiple comments at once. *)
Definition BulkModerate (h : CommentUsecase.t) (moderatorID : string)
  (body : option BulkModerateRequest.t) : World → World * Response BulkModerateResponse.t :=
  λ w,
    match body with
    | None => (w, response_BadRequest "invalid_request" (Text "Invalid request body"))
    | Some req =>
        if bool_decide (length (BulkModerateRequest.CommentIDs req) = 0%nat)
        then (w, response_BadRequest "invalid_request" (Text "No comment IDs provided"))
        else
          let '(w', (successCount, failedIDs)) :=
            foldl (bulk_step h req moderatorID) (w, (0, []))
              (BulkModerateRequest.CommentIDs req) in
          (w', response_OK
                 {| BulkModerateResponse.SuccessCount := successCount;
                    BulkModerateResponse.FailedCount := Z.of_nat (length failedIDs);
                    BulkModerateResponse.FailedIDs := failedIDs |})
    end.

End Handlers.

End AdminHandler.

(** ** Go's text functions on plain ASCII words *)

(** An implementation of [GoText] for the patterns [bad_words_pattern]
    builds from words without regular-expression syntax, on ASCII text:
    [(?i)\b(w1|...|wn)\b] finds, from left to right and without overlap, the
    first alternative that is spelled at the position in either case between
    two word boundaries. [regexp_Compile] is [None] on every other pattern,
    also on those Go compiles. *)
Module AsciiText.

Definition is_upper (a : ascii) : bool :=
  let n := N_of_ascii a in (65 <=? n)%N && (n <=? 90)%N.

Definition to_lower (a : ascii) : ascii :=
  if is_upper a then ascii_of_N (N_of_ascii a + 32) else a.

(** [\w]: [0-9A-Za-z_] *)
Definition is_word_char (a : ascii) : bool :=
  let n := N_of_ascii a in
  (48 <=? n)%N && (n <=? 57)%N || (65 <=? n)%N && (n <=? 90)%N
  || (97 <=? n)%N && (n <=? 122)%N || (n =? 95)%N.

(** The characters that are syntax in a Go regular expression. *)
Definition is_meta (a : ascii) : bool :=
  bool_decide (a ∈ list_ascii_of_string "\.+*?()|[]{}^$").

Definition is_plain (a : ascii) : bool :=
  (N_of_ascii a <? 128)%N && negb (is_meta a).

(** A word the pattern spells literally. *)
Definition plain_word (w : list ascii) : bool :=
  negb (bool_decide (w = [])) && forallb is_plain w.

Definition ToLower (s : string) : string :=
  string_of_list_ascii (to_lower <$> list_ascii_of_string s).

(** [\b] between the characters [prev] and [next], if any. *)
Definition is_word (a : option ascii) : bool :=
  match a with Some c => is_word_char c | None => false end.

Definition boundary (prev next : option ascii) : bool := xorb (is_word prev) (is_word next).

(** The prefix of [s] that spells [w] in either case. *)
Fixpoint spelled (w s : list ascii) : option (list ascii) :=
  match w, s with
  | [], _ => Some []
  | a :: w', c :: s' =>
      if bool_decide (to_lower a = to_lower c) then cons c <$> spelled w' s' else None
  | _ :: _, [] => None
  end.

(** The text the first fitting alternative matches at the start of [s],
    which [prev] precedes. *)
Fixpoint first_match (alts : list (list ascii)) (prev : option ascii) (s : list ascii)
  : option (list ascii) :=
  match alts with
  | [] => None
  | w :: alts' =>
      match spelled w s with
      | Some m =>
          if boundary (last (prev :: (Some <$> m)) ≫= id) (head (drop (length m) s))
          then Some m else first_match alts' prev s
      | None => first_match alts' prev s
      end
  end.

(** The matches in [s], which [prev] precedes and whose first [skip]
    characters belong to the match before. *)
Fixpoint find_all (alts : list (list ascii)) (prev : option ascii) (s : list ascii)
  (skip : nat) : list (list ascii) :=
  match s with
  | [] => []
  | c :: s' =>
      match skip with
      | S skip' => find_all alts (Some c) s' skip'
      | O =>
          match (if boundary prev (Some c) then first_match alts prev s else None) with
          | Some m => m :: find_all alts (Some c) s' (length m - 1)
          | None => find_all alts (Some c) s' 0
          end
      end
  end.

Fixpoint strip_prefix (p s : list ascii) : option (list ascii) :=
  match p, s with
  | [], _ => Some s
  | a :: p', c :: s' => if bool_decide (a = c) then strip_prefix p' s' else None
  | _ :: _, [] => None
  end.

Definition strip_suffix (p s : list ascii) : option (list ascii) :=
  reverse <$> strip_prefix (reverse p) (reverse s).

(** The pieces of [s] between the occurrences of [sep]. *)
Fixpoint split_on (sep : ascii) (s : list ascii) : list (list ascii) :=
  match s with
  | [] => [[]]
  | c :: s' =>
      if bool_decide (c = sep) then [] :: split_on sep s'
      else match split_on sep s' with
           | piece :: pieces => (c :: piece) :: pieces
           | [] => [[c]]
           end
  end.

(** The alternatives of a pattern [(?i)\b(w1|...|wn)\b] of plain words. *)
Definition Compile (pattern : string) : option (list (list ascii)) :=
  body ← strip_prefix (list_ascii_of_string "(?i)\b(") (list_ascii_of_string pattern);
  body ← strip_suffix (list_ascii_of_string ")\b") body;
  let alts := split_on "|"%char body in
  if forallb plain_word alts then Some alts else None.

Definition FindAll (alts : list (list ascii)) (s : string) : list string :=
  string_of_list_ascii <$> find_all alts None (list_ascii_of_string s) 0.

End AsciiText.

#[global] Instance ascii_text : GoText := {|
  Regexp := list (list ascii);
  regexp_Compile := AsciiText.Compile;
  FindAllString := AsciiText.FindAll;
  strings_ToLower := AsciiText.ToLower
|}.

Definition default_config : Config.t :=
  {| Config.Moderation :=
       {| ModerationConfig.RequireApproval := true;
          ModerationConfig.BadWordsEnabled := true;
          ModerationConfig.BadWordsList := getDefaultBadWords;
          ModerationConfig.MaxCommentLength := 5000;
          ModerationConfig.MaxReplyDepth := 5;
          ModerationConfig.AllowAnonymous := false;
          ModerationConfig.RateLimitPerMinute := 10 |};
     Config.NotifierEnabled := true |}.

(** ** Example data *)

(** The usecase as [main] builds it from the default configuration. *)
Definition default_usecase : CommentUsecase.t :=
  CommentUsecase.NewCommentUsecase default_config.

(** A root comment of user u1 on product p1 of tenant shop, waiting for
    moderation. *)
Definition great_product : Comment.t :=
  {| Comment.ID := 1%N;
     Comment.TenantID := "shop";
     Comment.ResourceType := "product";
     Comment.ResourceID := "p1";
     Comment.ParentID := None;
     Comment.RootID := None;
     Comment.AuthorID := "u1";
     Comment.AuthorName := "Ann";
     Comment.AuthorEmail := "ann@example.com";
     Comment.AuthorAvatar := "";
     Comment.IsAnonymous := false;
     Comment.Content := "Great product!";
     Comment.ContentHTML := "";
     Comment.Attachments := [];
     Comment.Status := StatusPending;
     Comment.ModeratedBy := "";
     Comment.ModeratedAt := None;
     Comment.RejectionReason := "";
     Comment.FlaggedWords := [];
     Comment.ReportCount := 0;
     Comment.IsPinned := false;
     Comment.PinnedBy := "";
     Comment.PinnedAt := None;
     Comment.IsEdited := false;
     Comment.EditHistory := [];
     Comment.ReplyCount := 0;
     Comment.LikeCount := 0;
     Comment.DislikeCount := 0;
     Comment.ReactionCounts := ∅;
     Comment.IPAddress := "203.0.113.7";
     Comment.UserAgent := "curl";
     Comment.Metadata := ∅;
     Comment.CreatedAt := 10;
     Comment.UpdatedAt := 10;
     Comment.DeletedAt := None;
     Comment.IsDeleted := false;
     Comment.DeletedBy := "";
     Comment.Depth := 0 |}.

Definition great_product_id : string := "000000000000000000000001".

(** The settings of (shop, product), as [GetOrCreate] created them. *)
Definition shop_settings : CommentSettings.t :=
  CommentSettings.set_ID 7%N (SettingsRepository.default_settings "shop" "product" 1 2).

(** A world in which MongoDB answers every call. *)
Definition shop_world : World :=
  {| comments := {[1%N := great_product]};
     settings := {[("shop", "product") := shop_settings]};
     clock := 100;
     oid_counter := 7;
     outages := [];
     logs := [] |}.

(** The same shop once it has switched approval off. *)
Definition open_shop_world : World :=
  set_settings {[("shop", "product") := CommentSettings.set_RequireApproval false shop_settings]}
    shop_world.

Definition spam_request : CreateCommentRequest.t :=
  {| CreateCommentRequest.TenantID := "shop";
     CreateCommentRequest.ResourceType := "product";
     CreateCommentRequest.ResourceID := "p1";
     CreateCommentRequest.ParentID := "";
     CreateCommentRequest.Content := "This is SPAM, buy now";
     CreateCommentRequest.AuthorName := "";
     CreateCommentRequest.IsAnonymous := false;
     CreateCommentRequest.Attachments := [];
     CreateCommentRequest.Metadata := ∅ |}.

Definition reject_off_topic : ModerateCommentRequest.t :=
  {| ModerateCommentRequest.Status := StatusRejected;
     ModerateCommentRequest.RejectionReason := "off-topic" |}.

Definition approve : ModerateCommentRequest.t :=
  {| ModerateCommentRequest.Status := StatusApproved;
     ModerateCommentRequest.RejectionReason := "" |}.

(** [shop_world] after moderator m1 has rejected the comment as off-topic. *)
Definition rejected_world : World :=
  (CommentUsecase.ModerateComment default_usecase great_product_id reject_off_topic "m1"
     shop_world).1.

Definition thanks_reply_request : CreateCommentRequest.t :=
  {| CreateCommentRequest.TenantID := "shop";
     CreateCommentRequest.ResourceType := "product";
     CreateCommentRequest.ResourceID := "p1";
     CreateCommentRequest.ParentID := great_product_id;
     CreateCommentRequest.Content := "Thanks, I agree";
     CreateCommentRequest.AuthorName := "";
     CreateCommentRequest.IsAnonymous := false;
     CreateCommentRequest.Attachments := [];
     CreateCommentRequest.Metadata := ∅ |}.

(** [shop_world] after user u2 has replied to the comment; the driver
    numbers the reply 8. *)
Definition thread_world : World :=
  (CommentUsecase.CreateComment default_usecase thanks_reply_request
     "u2" "Bob" "bob@example.com" "198.51.100.1" "curl" shop_world).1.

Definition thanks_reply_id : string := "000000000000000000000008".

(** [shop_world] when the next call to MongoDB fails. *)
Definition offline_world : World := set_outages [true] shop_world.

(** The shop when it allows no replies below the first level at all. *)
Definition flat_shop_world : World :=
  set_settings {[("shop", "product") := CommentSettings.set_MaxReplyDepth 0 shop_settings]}
    shop_world.

(** A reply whose content holds a word of the global list. *)
Definition spam_reply_request : CreateCommentRequest.t :=
  {| CreateCommentRequest.TenantID := "shop";
     CreateCommentRequest.ResourceType := "product";
     CreateCommentRequest.ResourceID := "p1";
     CreateCommentRequest.ParentID := great_product_id;
     CreateCommentRequest.Content := "not a scam";
     CreateCommentRequest.AuthorName := "";
     CreateCommentRequest.IsAnonymous := false;
     CreateCommentRequest.Attachments := [];
     CreateCommentRequest.Metadata := ∅ |}.

(** Twenty-one approved root comments on product p1. *)
Definition approved_copy (i : nat) : ObjectID * Comment.t :=
  (N.of_nat i, Comment.set_Status StatusApproved (Comment.set_ID (N.of_nat i) great_product)).

Definition crowded_world : World :=
  set_comments (list_to_map (approved_copy <$> seq 1 21)) shop_world.

(** A request for the first page of 150 comments. *)
Definition oversized_page_request : ListCommentsRequest.t :=
  {| ListCommentsRequest.TenantID := "shop";
     ListCommentsRequest.ResourceType := "product";
     ListCommentsRequest.ResourceID := "p1";
     ListCommentsRequest.ParentID := "";
     ListCommentsRequest.Status := "";
     ListCommentsRequest.AuthorID := "";
     ListCommentsRequest.IsPinned := None;
     ListCommentsRequest.SortBy := "";
     ListCommentsRequest.SortOrder := "";
     ListCommentsRequest.Page := 1;
     ListCommentsRequest.PageSize := 150;
     ListCommentsRequest.IncludeDeleted := false |}.

(** [shop_world] with the bad-word filter of its settings switched off. *)
Definition unfiltered_shop_world : World :=
  set_settings
    (<[("shop", "product") := CommentSettings.set_BadWordsFilter false shop_settings]>
       (settings shop_world))
    shop_world.

Definition spam_edit : UpdateCommentRequest.t :=
  {| UpdateCommentRequest.Content := "Great product, no scam!";
     UpdateCommentRequest.Attachments := [] |}.

(** A listing whose parent id is not an id. *)
Definition malformed_parent_request : ListCommentsRequest.t :=
  {| ListCommentsRequest.TenantID := "shop";
     ListCommentsRequest.ResourceType := "product";
     ListCommentsRequest.ResourceID := "p1";
     ListCommentsRequest.ParentID := "not-an-id";
     ListCommentsRequest.Status := "";
     ListCommentsRequest.AuthorID := "";
     ListCommentsRequest.IsPinned := None;
     ListCommentsRequest.SortBy := "";
     ListCommentsRequest.SortOrder := "";
     ListCommentsRequest.Page := 1;
     ListCommentsRequest.PageSize := 20;
     ListCommentsRequest.IncludeDeleted := false |}.

(** [open_shop_world] after user u2 has replied to the comment: the reply,
    numbered 8, is approved at once. *)
Definition open_thread_world : World :=
  (CommentUsecase.CreateComment default_usecase thanks_reply_request
     "u2" "Bob" "bob@example.com" "198.51.100.1" "curl" open_shop_world).1.

(** [shop_world] after its author has edited the comment into [spam_edit],
    which has a flagged word. *)
Definition flagged_world : World :=
  (CommentUsecase.UpdateComment default_usecase great_product_id spam_edit "u1" false
     shop_world).1.

Definition clean_edit : UpdateCommentRequest.t :=
  {| UpdateCommentRequest.Content := "Great product.";
     UpdateCommentRequest.Attachments := [] |}.

(** [shop_world] after moderator m1 has pinned the comment. *)
Definition pinned_world : World :=
  (CommentUsecase.PinComment default_usecase great_product_id true "m1" shop_world).1.

(** A first comment on a post of tenant blog, for which no settings are
    stored. *)
Definition blog_request : CreateCommentRequest.t :=
  {| CreateCommentRequest.TenantID := "blog";
     CreateCommentRequest.ResourceType := "post";
     CreateCommentRequest.ResourceID := "hello-world";
     CreateCommentRequest.ParentID := "";
     CreateCommentRequest.Content := "First!";
     CreateCommentRequest.AuthorName := "";
     CreateCommentRequest.IsAnonymous := false;
     CreateCommentRequest.Attachments := [];
     CreateCommentRequest.Metadata := ∅ |}.

(** A settings update that switches approval off and says nothing else. *)
Definition approval_off : SettingsRequest.t :=
  {| SettingsRequest.RequireApproval := Some false;
     SettingsRequest.AllowAnonymous := None;
     SettingsRequest.AllowReplies := None;
     SettingsRequest.MaxReplyDepth := None;
     SettingsRequest.AllowReactions := None;
     SettingsRequest.AllowedReactions := None;
     SettingsRequest.AllowAttachments := None;
     SettingsRequest.MaxAttachments := None;
     SettingsRequest.MaxCommentLength := None;
     SettingsRequest.CommentsEnabled := None;
     SettingsRequest.NotifyOnNewComment := None;
     SettingsRequest.NotifyOnReply := None;
     SettingsRequest.AutoApproveVerified := None;
     SettingsRequest.BadWordsFilter := None;
     SettingsRequest.CustomBadWords := None |}.

(** A moderation to spam, and one to a status that is none of the three
    the moderation endpoint lets through. *)
Definition mark_as_spam : ModerateCommentRequest.t :=
  {| ModerateCommentRequest.Status := StatusSpam;
     ModerateCommentRequest.RejectionReason := "" |}.

Definition archive : ModerateCommentRequest.t :=
  {| ModerateCommentRequest.Status := "archived";
     ModerateCommentRequest.RejectionReason := "" |}.

(** A bulk moderation of the comment and of an id that is none, to a status
    the endpoint for one comment refuses. *)
Definition bulk_archive : BulkModerateRequest.t :=
  {| BulkModerateRequest.CommentIDs := [great_product_id; "17"];
     BulkModerateRequest.Status := "archived";
     BulkModerateRequest.RejectionReason := "" |}.

(** The shop with no reaction stored, and after user u2 has liked the
    comment. *)
Definition shop_store : Store := {| world := shop_world; reactions := [] |}.

Definition liked_store : Store :=
  (ReactionUsecase.AddReaction great_product_id ReactionLike "u2" shop_store).1.

(** ** Vocabulary of the properties *)

(** The comment as [SoftDelete] leaves it at time [now]. *)
Definition marked_deleted (deletedBy : string) (now : Time) (doc : Comment.t) : Comment.t :=
  Comment.set_UpdatedAt now
    (Comment.set_DeletedBy deletedBy
       (Comment.set_DeletedAt (Some now) (Comment.set_IsDeleted true doc))).

(** The document after [$inc] of [reply_count] by [delta] at [now]. *)
Definition bumped (delta : Z) (now : Time) (doc : Comment.t) : Comment.t :=
  Comment.set_UpdatedAt now (Comment.set_ReplyCount (Comment.ReplyCount doc + delta) doc).

(** The collection after [$inc] of [reply_count] by [delta] on [id] at [now]. *)
Definition reply_count_bumped (id : ObjectID) (delta : Z) (now : Time)
  (docs : gmap ObjectID Comment.t) : gmap ObjectID Comment.t :=
  match docs !! id with
  | Some doc => <[id := bumped delta now doc]> docs
  | None => docs
  end.

(** The page [List] cuts out of the documents that match [filter]. *)
Definition page_of (req : ListCommentsRequest.t) (filter : Filter.t) (w : World)
  : list Comment.t :=
  take (Z.to_nat (CommentRepository.list_page_size req))
    (drop (Z.to_nat (int_mul (int_sub (CommentRepository.list_page req) 1)
                       (CommentRepository.list_page_size req)))
       (sort_by (sort_before (CommentRepository.list_sort_field req)
                   (CommentRepository.list_sort_order req))
          (List.filter (Filter.matches filter) (scan w)))).

(** Two settings records that differ at most in [BadWordsFilter]. *)
Definition settings_agree (s1 s2 : CommentSettings.t) : Prop :=
  CommentSettings.set_BadWordsFilter false s1 = CommentSettings.set_BadWordsFilter false s2.

(** Two worlds that differ at most in the [BadWordsFilter] of their settings
    records. *)
Definition world_agree (w1 w2 : World) : Prop :=
  comments w1 = comments w2
  ∧ clock w1 = clock w2
  ∧ oid_counter w1 = oid_counter w2
  ∧ outages w1 = outages w2
  ∧ logs w1 = logs w2
  ∧ ∀ key, option_Forall2 settings_agree (settings w1 !! key) (settings w2 !! key).

Definition result_agree {A : Type} (R : A → A → Prop) (r1 r2 : result A) : Prop :=
  match r1, r2 with
  | Ok a1, Ok a2 => R a1 a2
  | Err e1, Err e2 => e1 = e2
  | _, _ => False
  end.

(** Two computations that, started in worlds that agree, end in worlds that
    agree with results related by [R]. *)
Definition run_agree {A : Type} (R : A → A → Prop) (m1 m2 : M A) : Prop :=
  ∀ w1 w2, world_agree w1 w2 →
    world_agree (m1 w1).1 (m2 w2).1 ∧ result_agree R (m1 w1).2 (m2 w2).2.

(** [m] stands in [content] between two word boundaries. *)
Definition occurs_at_word_boundaries (m content : list ascii) : Prop :=
  ∃ pre post,
    content = (pre ++ m ++ post)%list
    ∧ AsciiText.boundary (last pre) (head m) = true
    ∧ AsciiText.boundary (last m) (head post) = true.

(** [m] spells [w] up to the case of its letters. *)
Definition same_word (m w : list ascii) : Prop :=
  AsciiText.to_lower <$> m = AsciiText.to_lower <$> w.

(** What the pattern built from [words] finds in [content]. *)
Definition word_matches (words : list string) (content : string) : list string :=
  AsciiText.FindAll (list_ascii_of_string <$> words) content.

(** The words of [words] in the casing each is first seen in, a word being
    seen once its lower-case form is in [seen]. *)
Fixpoint first_casings `{GoText} (seen : list string) (words : list string) : list string :=
  match words with
  | [] => []
  | word :: rest =>
      if bool_decide (strings_ToLower word ∈ seen) then first_casings seen rest
      else word :: first_casings (strings_ToLower word :: seen) rest
  end.

(** A text of ASCII characters only, on which [ascii_text] is Go. *)
Definition ascii_only (s : string) : bool :=
  forallb (λ a, (N_of_ascii a <? 128)%N) (list_ascii_of_string s).

(** A word list the pattern spells literally. *)
Definition plain_words (words : list string) : Prop :=
  Forall (λ w, AsciiText.plain_word (list_ascii_of_string w) = true) words.

(** A word list of letters, digits and underscores only. *)
Definition word_character_words (words : list string) : Prop :=
  Forall (λ w, forallb AsciiText.is_word_char (list_ascii_of_string w) = true) words.

(** ** The claims as they are worded, where the code differs *)

(** Moderation as worded: the status, the moderator and the time are set,
    and a comment moderated to anything but rejected carries no rejection
    reason. *)
Definition moderation_as_worded `{GoText} (u : CommentUsecase.t) (id : string)
  (req : ModerateCommentRequest.t) (moderatorID : string) (w : World) : Prop :=
  ∀ w' c,
    CommentUsecase.ModerateComment u id req moderatorID w = (w', Ok c) →
    Comment.Status c = ModerateCommentRequest.Status req
    ∧ Comment.ModeratedBy c = moderatorID
    ∧ is_Some (Comment.ModeratedAt c)
    ∧ (ModerateCommentRequest.Status req ≠ StatusRejected → Comment.RejectionReason c = "").

(** The errors of [DeleteComment] as worded: an error exactly when the id
    is malformed, the comment does not exist, or the caller is neither the
    author nor an admin. *)
Definition delete_errors_as_worded `{GoText} (u : CommentUsecase.t) (id userID : string)
  (isAdmin : bool) (w : World) : Prop :=
  is_Err (CommentUsecase.DeleteComment u id userID isAdmin w).2
  ↔ (ObjectIDFromHex id = None
     ∨ (∃ oid, ObjectIDFromHex id = Some oid ∧ comments w !! oid = None)
     ∨ (∃ oid doc, ObjectIDFromHex id = Some oid ∧ comments w !! oid = Some doc
                   ∧ Comment.AuthorID doc ≠ userID ∧ isAdmin = false)).

(** The scan as worded, for any content and any custom list: every entry
    of the result is a word of the enabled global list or of the custom
    list, in some casing, that stands in the content between two word
    boundaries; every such word that so stands in the content, in any
    casing, has an entry equal to it up to case; and no two entries are
    equal up to case. *)
Definition scan_as_worded (cfg : Config.t) (content : string)
  (customBadWords : list string) : Prop :=
  let moderation := Config.Moderation cfg in
  let found :=
    CommentUsecase.checkBadWords (CommentUsecase.NewCommentUsecase cfg) content
      customBadWords in
  let listed (w : string) :=
    (ModerationConfig.BadWordsEnabled moderation = true
     ∧ w ∈ ModerationConfig.BadWordsList moderation)
    ∨ w ∈ customBadWords in
  (∀ y, y ∈ found →
     ∃ w, listed w ∧ AsciiText.ToLower y = AsciiText.ToLower w
          ∧ occurs_at_word_boundaries (list_ascii_of_string y)
              (list_ascii_of_string content))
  ∧ (∀ w m, listed w →
       same_word m (list_ascii_of_string w) →
       occurs_at_word_boundaries m (list_ascii_of_string content) →
       ∃ y, y ∈ found ∧ AsciiText.ToLower y = AsciiText.ToLower w)
  ∧ NoDup (AsciiText.ToLower <$> found).

(** * Properties *)

Local Open Scope list_scope.

(** ** Running computations *)

Lemma bind_run {A B : Type} (m : M A) (k : A → M B) (w : World) :
  (m ≫= k) w = match m w with
               | (w1, Ok a) => k a w1
               | (w1, Err e) => (w1, Err e)
               end.
Proof. reflexivity. Qed.

Lemma bind_Ok_inv {A B : Type} (m : M A) (k : A → M B) (w w' : World) (b : B) :
  (m ≫= k) w = (w', Ok b) → ∃ a w1, m w = (w1, Ok a) ∧ k a w1 = (w', Ok b).
Proof.
  rewrite bind_run. destruct (m w) as [w1 [a|e]]; [eauto | discriminate].
Qed.

Lemma mret_inv {A : Type} (a b : A) (w w' : World) :
  (mret a : M A) w = (w', Ok b) → w' = w ∧ b = a.
Proof. intros E. injection E as <- <-. done. Qed.

Lemma wrap_err_Ok_inv {A : Type} (format : string) (m : M A) (w w' : World) (a : A) :
  wrap_err format m w = (w', Ok a) → m w = (w', Ok a).
Proof.
  unfold wrap_err. destruct (m w) as [w1 [x|e]]; intros E; [exact E | discriminate].
Qed.

Lemma fail_if_Ok_inv (cond : bool) (e : error) (w w' : World) (x : unit) :
  fail_if cond e w = (w', Ok x) → cond = false ∧ w' = w.
Proof.
  destruct cond; simpl; intros E; [discriminate | injection E as <-; done].
Qed.

Lemma time_Now_inv (w w' : World) (r : result Time) :
  time_Now w = (w', r) → r = Ok (clock w) ∧ w' = set_clock (clock w + 1) w.
Proof. intros E. injection E as <- <-. done. Qed.

Lemma get_world_inv (w w' : World) (r : result World) :
  get_world w = (w', r) → w' = w ∧ r = Ok w.
Proof. intros E. injection E as <- <-. done. Qed.

Lemma modify_inv (f : World → World) (w w' : World) (r : result unit) :
  modify f w = (w', r) → w' = f w ∧ r = Ok tt.
Proof. intros E. injection E as <- <-. done. Qed.

Lemma round_trip_inv (w w' : World) (r : result unit) :
  round_trip w = (w', r) →
  w' = set_outages (tail (outages w)) w
  ∧ r = (if default false (head (outages w)) then Err mongo_error else Ok tt).
Proof.
  unfold round_trip. destruct w as [c s k o out l]; simpl.
  destruct out as [|[] rest]; simpl; intros E; injection E as <- <-; done.
Qed.

(** Reads fields through the setters of the world. *)
Ltac world_simpl :=
  cbn [comments settings clock oid_counter outages logs
       set_comments set_settings set_clock set_oid_counter set_outages set_logs] in *.

Lemma throw_inv {A : Type} (e : error) (w w' : World) (a : A) :
  throw e w = (w', Ok a) → False.
Proof. discriminate. Qed.

Lemma NewObjectID_inv (w w' : World) (r : result ObjectID) :
  NewObjectID w = (w', r) →
  r = Ok (N.succ (oid_counter w)) ∧ w' = set_oid_counter (N.succ (oid_counter w)) w.
Proof. intros E. injection E as <- <-. done. Qed.

(** Takes apart a hypothesis that says a sequence of steps ended well. *)
Ltac run_inv :=
  repeat match goal with
  | H : (_ ≫= _) _ = (_, Ok _) |- _ =>
      apply bind_Ok_inv in H; destruct H as (? & ? & ? & H)
  | H : mbind _ _ _ = (_, Ok _) |- _ =>
      apply bind_Ok_inv in H; destruct H as (? & ? & ? & H)
  | H : mret _ _ = (_, Ok _) |- _ => apply mret_inv in H; destruct H as [? ?]; subst
  | H : wrap_err _ _ _ = (_, Ok _) |- _ => apply wrap_err_Ok_inv in H
  | H : fail_if _ _ _ = (_, Ok _) |- _ =>
      apply fail_if_Ok_inv in H; destruct H as [? ?]; subst
  | H : time_Now _ = (_, _) |- _ => apply time_Now_inv in H; destruct H as [? ?]; subst
  | H : get_world _ = (_, _) |- _ => apply get_world_inv in H; destruct H as [? ?]; subst
  | H : modify _ _ = (_, _) |- _ => apply modify_inv in H; destruct H as [? ?]; subst
  | H : round_trip _ = (_, _) |- _ => apply round_trip_inv in H; destruct H as [? ?]; subst
  | H : Ok _ = Ok _ |- _ => injection H as H; subst
  | H : NewObjectID _ = (_, _) |- _ =>
      apply NewObjectID_inv in H; destruct H as [? ?]; subst
  | H : throw _ _ = (_, Ok _) |- _ => apply throw_inv in H; destruct H
  end.

(** ** What the repository calls do to the collection "comments" *)

Lemma FindOne_inv (id : ObjectID) (w w' : World) (found : option Comment.t) :
  comments_FindOne id w = (w', Ok found) →
  found = decode id <$> comments w !! id ∧ w' = set_outages (tail (outages w)) w.
Proof.
  unfold comments_FindOne. intros E. run_inv. done.
Qed.

Lemma UpdateOne_inv (id : ObjectID) (update : Comment.t → result Comment.t)
  (w w' : World) (x : unit) :
  comments_UpdateOne id update w = (w', Ok x) →
  match comments w !! id with
  | None => w' = set_outages (tail (outages w)) w
  | Some doc =>
      ∃ doc', update doc = Ok doc'
              ∧ w' = set_comments (<[id := doc']> (comments w))
                       (set_outages (tail (outages w)) w)
  end.
Proof.
  unfold comments_UpdateOne. intros E. run_inv. simpl in E.
  destruct (comments w !! id) as [doc|] eqn:Hdoc.
  - destruct (update doc) as [doc'|e] eqn:Hup.
    + run_inv. eauto.
    + discriminate.
  - run_inv. done.
Qed.

Lemma GetOrCreate_comments (tenantID resourceType : string) (w w' : World)
  (r : result CommentSettings.t) :
  SettingsRepository.GetOrCreate tenantID resourceType w = (w', r) →
  comments w' = comments w ∧ logs w' = logs w ∧ (clock w <= clock w')%Z.
Proof.
  unfold SettingsRepository.GetOrCreate, mbind, M_bind, round_trip, get_world, time_Now,
    NewObjectID, modify, mret, M_ret.
  destruct w as [c s k o out l]; simpl.
  destruct out as [|[] [|[] rest]]; simpl;
    destruct (s !! (tenantID, resourceType)); simpl; intros E; injection E as <- <-;
    simpl; repeat split; lia.
Qed.

Lemma Update_inv (c c' : Comment.t) (w w' : World) :
  CommentRepository.Update c w = (w', Ok c') →
  c' = Comment.set_UpdatedAt (clock w) c
  ∧ logs w' = logs w
  ∧ clock w' = (clock w + 1)%Z
  ∧ comments w' = match comments w !! Comment.ID c with
                  | Some doc => <[Comment.ID c := bson_set_comment c' doc]> (comments w)
                  | None => comments w
                  end.
Proof.
  unfold CommentRepository.Update. intros E. run_inv.
  match goal with H : comments_UpdateOne _ _ _ = _ |- _ => apply UpdateOne_inv in H; rename H into Hup end.
  simpl in Hup. split; [done|].
  destruct (comments w !! Comment.ID c) as [doc|].
  - destruct Hup as (doc' & Hdoc' & ->). injection Hdoc' as <-. done.
  - subst. done.
Qed.

Lemma omitempty_slice_snoc {A : Type} (l old : list A) (x : A) :
  omitempty_slice (l ++ [x]) old = l ++ [x].
Proof. destruct l; reflexivity. Qed.

Lemma InsertOne_inv (doc : Comment.t) (w w' : World) (id : ObjectID) :
  comments_InsertOne doc w = (w', Ok id) →
  comments w !! id = None
  ∧ comments w' = <[id := Comment.set_ID id doc]> (comments w)
  ∧ logs w' = logs w ∧ clock w' = clock w.
Proof.
  unfold comments_InsertOne. intros E. run_inv.
  match goal with H : (if decide _ then _ else _) _ = _ |- _ => rename H into Hid end.
  destruct (decide (Comment.ID doc = NilObjectID)); run_inv; world_simpl;
    match type of E with context [comments w !! ?k] =>
      destruct (comments w !! k) eqn:Hfree; try rewrite Hfree in E end; run_inv; done.
Qed.

Lemma Create_inv (c c' : Comment.t) (w w' : World) :
  CommentRepository.Create c w = (w', Ok c') →
  c' = Comment.set_ID (Comment.ID c')
         (Comment.set_UpdatedAt (clock w + 1) (Comment.set_CreatedAt (clock w) c))
  ∧ comments w !! Comment.ID c' = None
  ∧ comments w' = <[Comment.ID c' := c']> (comments w)
  ∧ logs w' = logs w.
Proof.
  unfold CommentRepository.Create. intros E. run_inv.
  match goal with H : comments_InsertOne _ _ = _ |- _ =>
    apply InsertOne_inv in H as (Hfree & Hst & Hl & _) end.
  simpl in *. done.
Qed.

Lemma SoftDelete_inv (id : ObjectID) (deletedBy : string) (w w' : World) (x : unit) :
  CommentRepository.SoftDelete id deletedBy w = (w', Ok x) →
  logs w' = logs w
  ∧ clock w' = (clock w + 1)%Z
  ∧ outages w' = tail (outages w)
  ∧ comments w' = match comments w !! id with
                  | Some doc =>
                      <[id := Comment.set_UpdatedAt (clock w)
                                (Comment.set_DeletedBy deletedBy
                                   (Comment.set_DeletedAt (Some (clock w))
                                      (Comment.set_IsDeleted true doc)))]> (comments w)
                  | None => comments w
                  end.
Proof.
  unfold CommentRepository.SoftDelete, comments_UpdateOne. intros E.
  apply bind_Ok_inv in E as (now & w1 & Hnow & E). apply time_Now_inv in Hnow as [Hnow ->].
  injection Hnow as ->.
  apply bind_Ok_inv in E as ([] & w2 & Hrt & E). apply round_trip_inv in Hrt as [-> Hrt].
  run_inv. simpl in *.
  split; [|split; [|split]].
  all: destruct (comments w !! id); run_inv; done.
Qed.

Lemma IncrementReplyCount_frame (id : ObjectID) (delta : Z) (w w' : World) (r : result unit) :
  CommentRepository.IncrementReplyCount id delta w = (w', r) →
  logs w' = logs w ∧ outages w' = tail (outages w)
  ∧ (is_Err r → comments w' = comments w).
Proof.
  unfold CommentRepository.IncrementReplyCount, comments_UpdateOne, mbind, M_bind, time_Now,
    round_trip, get_world, modify, mret, M_ret, throw.
  destruct w as [c s k o out l]; simpl.
  destruct out as [|[] rest]; simpl; destruct (c !! id) as [doc|]; simpl;
    try (intros E; injection E as <- <-; simpl; done);
    destruct ((int_min <=? Comment.ReplyCount doc + delta)%Z
              && (Comment.ReplyCount doc + delta <=? int_max)%Z);
    intros E; injection E as <- <-; simpl; done.
Qed.

Lemma IncrementReplyCount_inv (id : ObjectID) (delta : Z) (w w' : World) (x : unit) :
  CommentRepository.IncrementReplyCount id delta w = (w', Ok x) →
  comments w' = match comments w !! id with
                | Some doc =>
                    <[id := Comment.set_UpdatedAt (clock w)
                              (Comment.set_ReplyCount (Comment.ReplyCount doc + delta) doc)]>
                      (comments w)
                | None => comments w
                end.
Proof.
  unfold CommentRepository.IncrementReplyCount. intros E. run_inv.
  match goal with H : comments_UpdateOne _ _ _ = _ |- _ => apply UpdateOne_inv in H; rename H into Hup end.
  simpl in Hup. destruct (comments w !! id) as [doc|]; [|subst; done].
  destruct Hup as (doc' & Hdoc' & ->).
  destruct ((int_min <=? Comment.ReplyCount doc + delta)%Z
            && (Comment.ReplyCount doc + delta <=? int_max)%Z); [|discriminate].
  injection Hdoc' as <-. done.
Qed.

Lemma IncrementReplyCount_Err_inv (id : ObjectID) (delta : Z) (w w' : World) (e : error) :
  CommentRepository.IncrementReplyCount id delta w = (w', Err e) →
  head (outages w) = Some true
  ∨ ∃ doc, comments w !! id = Some doc ∧ ¬ in_int_range (Comment.ReplyCount doc + delta).
Proof.
  unfold CommentRepository.IncrementReplyCount, comments_UpdateOne, mbind, M_bind, time_Now,
    round_trip, get_world, modify, mret, M_ret, throw.
  destruct w as [c s k o out l]; simpl.
  destruct out as [|[] rest]; simpl; auto; destruct (c !! id) as [doc|]; simpl;
    try discriminate;
    destruct (int_min <=? Comment.ReplyCount doc + delta)%Z eqn:Hlo;
    destruct (Comment.ReplyCount doc + delta <=? int_max)%Z eqn:Hhi; simpl;
    try discriminate; intros _; right; exists doc; (split; [done|]);
    unfold in_int_range; lia.
Qed.

Lemma log_err_inv (format : string) (m : M unit) (w w' : World) (r : result unit) :
  log_err format m w = (w', r) →
  r = Ok tt
  ∧ ((∃ x, m w = (w', Ok x))
     ∨ (∃ w1 e, m w = (w1, Err e) ∧ w' = set_logs (logs w1 ++ [(format, e)]) w1)).
Proof.
  unfold log_err. destruct (m w) as [w1 [x|e]] eqn:Hm; intros E; injection E as <- <-.
  - eauto.
  - split; [done|]. right. eauto.
Qed.

Lemma snoc_neq {A : Type} (l : list A) (x : A) : l ++ [x] ≠ l.
Proof.
  intros E. apply (f_equal length) in E. rewrite length_app in E. simpl in E. lia.
Qed.

Lemma elem_of_sort_insert (before : Comment.t → Comment.t → bool) (x y : Comment.t)
  (l : list Comment.t) :
  y ∈ sort_insert before x l ↔ y = x ∨ y ∈ l.
Proof.
  induction l as [|z l IH]; simpl.
  - rewrite list_elem_of_singleton, elem_of_nil. tauto.
  - destruct (before x z).
    + rewrite !elem_of_cons. tauto.
    + rewrite !elem_of_cons, IH. tauto.
Qed.

Lemma elem_of_sort_by (before : Comment.t → Comment.t → bool) (y : Comment.t)
  (l : list Comment.t) :
  y ∈ sort_by before l ↔ y ∈ l.
Proof.
  unfold sort_by. induction l as [|x l IH]; simpl; [done|].
  rewrite elem_of_sort_insert, IH, elem_of_cons. tauto.
Qed.

Lemma elem_of_page_of (req : ListCommentsRequest.t) (filter : Filter.t) (w : World)
  (c : Comment.t) :
  c ∈ page_of req filter w → Filter.matches filter c = true ∧ c ∈ scan w.
Proof.
  unfold page_of. intros Hc.
  apply subseteq_take, subseteq_drop, elem_of_sort_by, list_elem_of_In, filter_In in Hc.
  rewrite list_elem_of_In. tauto.
Qed.

Lemma List_Ok_inv (req : ListCommentsRequest.t) (w w' : World) (found : list Comment.t)
  (total : Z) :
  CommentRepository.List req w = (w', Ok (found, total)) →
  total = Z.of_nat (length (List.filter (Filter.matches (CommentRepository.list_filter req))
                              (scan w)))
  ∧ found = page_of req (CommentRepository.list_filter req) w.
Proof.
  unfold CommentRepository.List, comments_CountDocuments, comments_Find. intros E. run_inv.
  match goal with H : (_, _) = (_, _) |- _ => injection H as -> -> end.
  split; reflexivity.
Qed.

Lemma list_page_at_least_1 (req : ListCommentsRequest.t) :
  (1 <= CommentRepository.list_page req)%Z.
Proof.
  unfold CommentRepository.list_page.
  destruct (ListCommentsRequest.Page req <? 1)%Z eqn:Hp; lia.
Qed.

Lemma list_page_size_in_range (req : ListCommentsRequest.t) :
  (1 <= CommentRepository.list_page_size req <= 100)%Z.
Proof.
  unfold CommentRepository.list_page_size.
  destruct (ListCommentsRequest.PageSize req <? 1)%Z eqn:Hlo;
    destruct (100 <? ListCommentsRequest.PageSize req)%Z eqn:Hhi; simpl; lia.
Qed.

Lemma list_page_size_default (req : ListCommentsRequest.t) :
  (ListCommentsRequest.PageSize req < 1 ∨ 100 < ListCommentsRequest.PageSize req)%Z →
  CommentRepository.list_page_size req = 20%Z.
Proof.
  unfold CommentRepository.list_page_size. intros [Hlo|Hhi].
  - apply Z.ltb_lt in Hlo. rewrite Hlo. reflexivity.
  - apply Z.ltb_lt in Hhi. rewrite Hhi, orb_true_r. reflexivity.
Qed.

(** ** The matcher on plain ASCII words *)

Lemma spelled_inv (w s m : list ascii) :
  AsciiText.spelled w s = Some m →
  s = m ++ drop (length m) s ∧ length m = length w ∧ same_word m w.
Proof.
  unfold same_word. revert s m. induction w as [|a w IH]; intros s m; simpl.
  - intros E. injection E as <-. done.
  - destruct s as [|c s]; [discriminate|].
    destruct (bool_decide (AsciiText.to_lower a = AsciiText.to_lower c)) eqn:Hac; [|discriminate].
    apply bool_decide_eq_true_1 in Hac.
    destruct (AsciiText.spelled w s) as [m'|] eqn:Hm'; [|discriminate].
    intros E. injection E as <-. destruct (IH s m' Hm') as (Hs & Hl & Hw).
    split; [simpl; by rewrite <- Hs|]. split; [simpl; by rewrite Hl|].
    rewrite !fmap_cons, Hw, Hac. done.
Qed.

Lemma spelled_same_word (w m post : list ascii) :
  same_word m w → AsciiText.spelled w (m ++ post) = Some m.
Proof.
  unfold same_word. revert m. induction w as [|a w IH]; intros m Hm.
  - destruct m; [reflexivity|discriminate].
  - destruct m as [|c m]; [discriminate|]. simpl in Hm. injection Hm as Hc Hm.
    simpl. rewrite bool_decide_eq_true_2 by done. rewrite (IH m Hm). reflexivity.
Qed.

Lemma last_of_match (prev : option ascii) (m : list ascii) :
  m ≠ [] → last (prev :: (Some <$> m)) ≫= id = last m.
Proof.
  intros Hm. destruct m as [|c m]; [done|].
  rewrite last_cons. rewrite fmap_last.
  destruct (last (c :: m)) as [x|] eqn:Hlast; [reflexivity|].
  apply last_None in Hlast. discriminate.
Qed.

Lemma first_match_inv (alts : list (list ascii)) (prev : option ascii) (s m : list ascii) :
  AsciiText.first_match alts prev s = Some m →
  ∃ w, w ∈ alts ∧ AsciiText.spelled w s = Some m
       ∧ AsciiText.boundary (last (prev :: (Some <$> m)) ≫= id)
           (head (drop (length m) s)) = true.
Proof.
  induction alts as [|w alts IH]; simpl; [discriminate|].
  destruct (AsciiText.spelled w s) as [m'|] eqn:Hm'.
  - match goal with |- (if ?b then _ else _) = _ → _ => destruct b eqn:Hb end.
    + intros E. injection E as <-. exists w. split; [left|]. done.
    + intros E. destruct (IH E) as (w' & Hin & Hrest). exists w'. split; [right|]; done.
  - intros E. destruct (IH E) as (w' & Hin & Hrest). exists w'. split; [right|]; done.
Qed.

Lemma first_match_some (alts : list (list ascii)) (prev : option ascii)
  (s w m : list ascii) :
  w ∈ alts → AsciiText.spelled w s = Some m →
  AsciiText.boundary (last (prev :: (Some <$> m)) ≫= id) (head (drop (length m) s)) = true →
  is_Some (AsciiText.first_match alts prev s).
Proof.
  intros Hin Hm Hb. induction alts as [|w' alts IH]; [by apply elem_of_nil in Hin|].
  simpl. apply elem_of_cons in Hin as [<-|Hin].
  - rewrite Hm, Hb. eauto.
  - destruct (AsciiText.spelled w' s) as [m'|]; [|auto].
    match goal with |- is_Some (if ?b then _ else _) => destruct b end; [eauto|auto].
Qed.

Lemma find_all_sound (alts : list (list ascii)) :
  Forall (λ w, w ≠ []) alts →
  ∀ s pre skip m,
    m ∈ AsciiText.find_all alts (last pre) s skip →
    ∃ w, w ∈ alts ∧ same_word m w
         ∧ ∃ pre' post,
             pre ++ s = pre' ++ m ++ post
             ∧ AsciiText.boundary (last pre') (head m) = true
             ∧ AsciiText.boundary (last m) (head post) = true.
Proof.
  intros Hne. induction s as [|c s IH]; intros pre skip m; simpl.
  { intros Hm. by apply elem_of_nil in Hm. }
  assert (Hstep : ∀ k, m ∈ AsciiText.find_all alts (Some c) s k →
            ∃ w, w ∈ alts ∧ same_word m w
                 ∧ ∃ pre' post, pre ++ c :: s = pre' ++ m ++ post
                     ∧ AsciiText.boundary (last pre') (head m) = true
                     ∧ AsciiText.boundary (last m) (head post) = true).
  { intros k Hm. specialize (IH (pre ++ [c]) k m).
    rewrite last_snoc, <- app_assoc in IH. exact (IH Hm). }
  destruct skip as [|skip]; [|apply Hstep].
  destruct (AsciiText.boundary (last pre) (Some c)) eqn:Hb; [|apply Hstep].
  destruct (AsciiText.first_match alts (last pre) (c :: s)) as [m0|] eqn:Hm0; [|apply Hstep].
  intros Hm. apply elem_of_cons in Hm as [->|Hm]; [|eapply Hstep; exact Hm].
  apply first_match_inv in Hm0 as (w & Hin & Hsp & Hend).
  apply spelled_inv in Hsp as (Hs & Hlen & Hsame).
  assert (m0 ≠ []) as Hm0.
  { rewrite Forall_forall in Hne. specialize (Hne w Hin).
    destruct m0; [|done]. destruct w; [done|discriminate]. }
  exists w. split; [done|]. split; [done|].
  exists pre, (drop (length m0) (c :: s)). split; [by rewrite <- Hs|].
  rewrite last_of_match in Hend by done. split; [|done].
  destruct m0 as [|c0 m0]; [done|]. simpl in Hs. injection Hs as <- _. exact Hb.
Qed.

Lemma find_all_complete (alts : list (list ascii)) (w m : list ascii) :
  w ∈ alts → m ≠ [] → same_word m w →
  ∀ s pre skip before post,
    s = before ++ m ++ post →
    (skip <= length before)%nat →
    AsciiText.boundary (last (pre ++ before)) (head m) = true →
    AsciiText.boundary (last m) (head post) = true →
    AsciiText.find_all alts (last pre) s skip ≠ [].
Proof.
  intros Hin Hm Hsame. induction s as [|c s IH]; intros pre skip before post Hs Hskip Hb He.
  { destruct before, m; done. }
  simpl.
  assert (Hstep : ∀ k before', before = c :: before' → (k <= length before')%nat →
            AsciiText.find_all alts (Some c) s k ≠ []).
  { intros k before' -> Hk. simpl in Hs. injection Hs as Hs.
    specialize (IH (pre ++ [c]) k before' post Hs Hk).
    rewrite last_snoc, <- app_assoc in IH. apply IH; done. }
  destruct skip as [|skip].
  - destruct before as [|c' before'].
    + simpl in Hs. rewrite app_nil_r in Hb.
      assert (head m = Some c) as Hhead by (destruct m; [done|]; injection Hs as -> _; done).
      rewrite Hhead in Hb. rewrite Hb.
      destruct (first_match_some alts (last pre) (c :: s) w m Hin) as [m0 ->]; [| |done].
      * rewrite Hs. apply spelled_same_word. exact Hsame.
      * rewrite last_of_match by done. rewrite Hs, drop_app_length. exact He.
    + simpl in Hs. injection Hs as <- Hs.
      assert (AsciiText.find_all alts (Some c) s 0 ≠ []) as Hrec
        by (eapply (Hstep 0%nat before'); [done|simpl; lia]).
      destruct (AsciiText.boundary (last pre) (Some c)); [|exact Hrec].
      destruct (AsciiText.first_match alts (last pre) (c :: s)); [done|exact Hrec].
  - destruct before as [|c' before']; [simpl in Hskip; lia|].
    simpl in Hs. injection Hs as <- Hs. eapply Hstep; [done|simpl in Hskip; lia].
Qed.

Lemma list_ascii_of_string_app (a b : string) :
  list_ascii_of_string (a ++ b)%string = list_ascii_of_string a ++ list_ascii_of_string b.
Proof. induction a as [|c a IH]; simpl; [done|]. by rewrite IH. Qed.

Lemma strip_prefix_app (p x : list ascii) : AsciiText.strip_prefix p (p ++ x) = Some x.
Proof.
  induction p as [|a p IH]; simpl; [by destruct x|].
  rewrite bool_decide_eq_true_2 by done. exact IH.
Qed.

Lemma strip_suffix_app (p x : list ascii) : AsciiText.strip_suffix p (x ++ p) = Some x.
Proof.
  unfold AsciiText.strip_suffix. rewrite reverse_app, strip_prefix_app. simpl.
  by rewrite reverse_involutive.
Qed.

Lemma split_on_no_sep (sep : ascii) (w : list ascii) :
  sep ∉ w → AsciiText.split_on sep w = [w].
Proof.
  induction w as [|c w IH]; intros Hsep; simpl; [done|].
  apply not_elem_of_cons in Hsep as [Hc Hw].
  rewrite bool_decide_eq_false_2 by done. rewrite (IH Hw). done.
Qed.

Lemma split_on_app (sep : ascii) (w rest : list ascii) :
  sep ∉ w → AsciiText.split_on sep (w ++ sep :: rest) = w :: AsciiText.split_on sep rest.
Proof.
  induction w as [|c w IH]; intros Hsep; simpl.
  - rewrite bool_decide_eq_true_2 by done. done.
  - apply not_elem_of_cons in Hsep as [Hc Hw].
    rewrite bool_decide_eq_false_2 by done. rewrite (IH Hw). done.
Qed.

Lemma split_on_join (sep : ascii) (words : list string) :
  words ≠ [] →
  Forall (λ w, sep ∉ list_ascii_of_string w) words →
  AsciiText.split_on sep (list_ascii_of_string (strings_Join words (String sep "")))
  = list_ascii_of_string <$> words.
Proof.
  intros Hne Hsep. induction words as [|a words IH]; [done|].
  apply Forall_cons in Hsep as [Ha Hrest].
  destruct words as [|b words].
  - simpl. by apply split_on_no_sep.
  - change (strings_Join (a :: b :: words) (String sep ""))
      with (a ++ String sep "" ++ strings_Join (b :: words) (String sep ""))%string.
    rewrite !list_ascii_of_string_app. cbn [list_ascii_of_string app].
    rewrite split_on_app by done. rewrite IH by done. done.
Qed.

Lemma plain_word_no_bar (w : list ascii) :
  AsciiText.plain_word w = true → "|"%char ∉ w.
Proof.
  unfold AsciiText.plain_word. intros Hw Hbar.
  apply andb_true_iff in Hw as [_ Hw]. rewrite forallb_forall in Hw.
  apply list_elem_of_In in Hbar. specialize (Hw _ Hbar). discriminate.
Qed.

Lemma plain_word_nonempty (w : list ascii) : AsciiText.plain_word w = true → w ≠ [].
Proof.
  unfold AsciiText.plain_word. intros Hw ->. discriminate.
Qed.

Lemma Compile_bad_words_pattern (words : list string) :
  words ≠ [] → plain_words words →
  AsciiText.Compile (bad_words_pattern words) = Some (list_ascii_of_string <$> words).
Proof.
  intros Hne Hplain. unfold AsciiText.Compile, bad_words_pattern.
  rewrite !list_ascii_of_string_app, strip_prefix_app. simpl mbind.
  rewrite strip_suffix_app. simpl mbind. cbv zeta.
  rewrite (split_on_join "|"%char) by
    (first [done | eapply Forall_impl; [exact Hplain|]; intros w; apply plain_word_no_bar]).
  assert (forallb AsciiText.plain_word (list_ascii_of_string <$> words) = true) as ->; [|done].
  apply forallb_forall. intros w Hw. apply list_elem_of_In, list_elem_of_fmap in Hw as (x & -> & Hx).
  unfold plain_words in Hplain. rewrite Forall_forall in Hplain. by apply Hplain.
Qed.

Lemma find_all_nil (prev : option ascii) (s : list ascii) (skip : nat) :
  AsciiText.find_all [] prev s skip = [].
Proof.
  revert prev skip. induction s as [|c s IH]; intros prev skip; simpl; [done|].
  destruct skip; [|apply IH]. destruct (AsciiText.boundary prev (Some c)); apply IH.
Qed.

Lemma ToLower_same_word (m w : string) :
  same_word (list_ascii_of_string m) (list_ascii_of_string w) →
  AsciiText.ToLower m = AsciiText.ToLower w.
Proof. unfold same_word, AsciiText.ToLower. by intros ->. Qed.

(** Every match is one of the words, in some casing, standing between two
    word boundaries. *)
Lemma word_matches_sound (words : list string) (content m : string) :
  plain_words words →
  m ∈ word_matches words content →
  ∃ w, w ∈ words
       ∧ AsciiText.ToLower m = AsciiText.ToLower w
       ∧ occurs_at_word_boundaries (list_ascii_of_string m) (list_ascii_of_string content).
Proof.
  intros Hplain Hm. unfold word_matches, AsciiText.FindAll in Hm.
  apply list_elem_of_fmap in Hm as (m' & -> & Hm').
  apply (find_all_sound _ ) with (pre := []) in Hm'.
  - destruct Hm' as (w' & Hw' & Hsame & pre' & post & Hc & Hb & He).
    apply list_elem_of_fmap in Hw' as (w & -> & Hw).
    rewrite list_ascii_of_string_of_list_ascii.
    exists w. split; [done|]. split.
    + apply ToLower_same_word. by rewrite list_ascii_of_string_of_list_ascii.
    + exists pre', post. done.
  - apply Forall_fmap. eapply Forall_impl; [exact Hplain|].
    intros w. apply plain_word_nonempty.
Qed.

(** A word of the list that stands in the content between two word
    boundaries, in any casing, leaves the matches non-empty. *)
Lemma word_matches_complete (words : list string) (content w : string) (m : list ascii) :
  plain_words words → w ∈ words →
  same_word m (list_ascii_of_string w) →
  occurs_at_word_boundaries m (list_ascii_of_string content) →
  word_matches words content ≠ [].
Proof.
  intros Hplain Hw Hsame (pre & post & Hc & Hb & He).
  unfold word_matches, AsciiText.FindAll. intros Hnil. apply fmap_nil_inv in Hnil.
  revert Hnil.
  eapply (find_all_complete _ (list_ascii_of_string w) m) with (pre := []) (before := pre)
    (post := post); try done.
  - apply list_elem_of_fmap. eauto.
  - unfold plain_words in Hplain. rewrite Forall_forall in Hplain.
    specialize (Hplain w Hw). apply plain_word_nonempty in Hplain.
    intros ->. unfold same_word in Hsame. simpl in Hsame.
    destruct (list_ascii_of_string w); [done|discriminate].
  - simpl. lia.
Qed.

(** *** Words of word characters *)

Lemma is_word_char_to_lower (a : ascii) :
  AsciiText.is_word_char (AsciiText.to_lower a) = AsciiText.is_word_char a.
Proof. by destruct a as [[] [] [] [] [] [] [] []]. Qed.

Lemma same_word_word_chars (m w : list ascii) :
  same_word m w →
  forallb AsciiText.is_word_char w = true → forallb AsciiText.is_word_char m = true.
Proof.
  unfold same_word. revert w. induction m as [|c m IH]; intros w Hsame Hw; [done|].
  destruct w as [|a w]; [discriminate|]. simpl in Hsame. injection Hsame as Hc Hm.
  simpl in Hw |- *. apply andb_true_iff in Hw as [Ha Hw].
  rewrite <- is_word_char_to_lower, Hc, is_word_char_to_lower, Ha. simpl.
  by apply (IH w).
Qed.

Lemma word_chars_last (m : list ascii) :
  m ≠ [] → forallb AsciiText.is_word_char m = true → AsciiText.is_word (last m) = true.
Proof.
  intros Hm Hall. destruct (last m) as [c|] eqn:Hlast; [|by apply last_None in Hlast].
  simpl. rewrite forallb_forall in Hall. apply Hall, list_elem_of_In.
  apply last_Some in Hlast as [l' ->]. apply elem_of_app. right. by left.
Qed.

Lemma word_chars_head (m : list ascii) :
  m ≠ [] → forallb AsciiText.is_word_char m = true → AsciiText.is_word (head m) = true.
Proof.
  intros Hm Hall. destruct m as [|c m]; [done|]. simpl in Hall |- *.
  by apply andb_true_iff in Hall as [-> _].
Qed.

(** Two runs of word characters that start at the same place and end at a
    word boundary each are the same run. *)
Lemma word_run_unique (m1 post1 m2 post2 : list ascii) :
  m1 ++ post1 = m2 ++ post2 →
  m1 ≠ [] → m2 ≠ [] →
  forallb AsciiText.is_word_char m1 = true →
  forallb AsciiText.is_word_char m2 = true →
  AsciiText.boundary (last m1) (head post1) = true →
  AsciiText.boundary (last m2) (head post2) = true →
  m1 = m2.
Proof.
  revert m2. induction m1 as [|c m1 IH]; intros m2 Heq Hne1 Hne2 H1 H2 Hb1 Hb2; [done|].
  destruct m2 as [|c' m2]; [done|]. simpl in Heq. injection Heq as <- Heq.
  simpl in H1, H2. apply andb_true_iff in H1 as [Hc H1]. apply andb_true_iff in H2 as [_ H2].
  destruct m1 as [|c1 m1], m2 as [|c2 m2].
  - done.
  - simpl in Heq. subst post1. simpl in Hb1, H2. unfold AsciiText.boundary in Hb1.
    simpl in Hb1. apply andb_true_iff in H2 as [H2 _]. by rewrite Hc, H2 in Hb1.
  - simpl in Heq. subst post2. simpl in Hb2, H1. unfold AsciiText.boundary in Hb2.
    simpl in Hb2. apply andb_true_iff in H1 as [H1 _]. by rewrite Hc, H1 in Hb2.
  - f_equal. apply IH; try done.
Qed.

(** A run of word characters that starts before a word boundary ends there
    at the latest. *)
Lemma word_run_stops_at_boundary (pre before m post m0 post0 : list ascii) :
  before ++ m ++ post = m0 ++ post0 →
  before ≠ [] → m ≠ [] →
  forallb AsciiText.is_word_char m = true →
  forallb AsciiText.is_word_char m0 = true →
  AsciiText.boundary (last (pre ++ before)) (head m) = true →
  (length m0 <= length before)%nat.
Proof.
  intros Heq Hbefore Hm Hword Hword0 Hb.
  apply app_eq_inv in Heq as [(k & -> & _)|(k & -> & Hk)].
  - rewrite length_app. lia.
  - destruct k as [|x k]; [rewrite app_nil_r; lia|exfalso].
    rewrite forallb_app in Hword0. apply andb_true_iff in Hword0 as [Hword0 _].
    assert (last (pre ++ before) = last before) as Hlast.
    { destruct before as [|b before] using rev_ind; [done|].
      by rewrite app_assoc, !last_snoc. }
    rewrite Hlast in Hb. unfold AsciiText.boundary in Hb.
    rewrite (word_chars_last before), (word_chars_head m) in Hb; done.
Qed.

(** With words of word characters only, the matcher finds every place where
    one of them stands between two word boundaries. *)
Lemma find_all_complete_words (alts : list (list ascii)) (w m : list ascii) :
  Forall (λ a, a ≠ []) alts →
  Forall (λ a, forallb AsciiText.is_word_char a = true) alts →
  w ∈ alts → m ≠ [] → same_word m w →
  ∀ s pre skip before post,
    s = before ++ m ++ post →
    (skip <= length before)%nat →
    AsciiText.boundary (last (pre ++ before)) (head m) = true →
    AsciiText.boundary (last m) (head post) = true →
    m ∈ AsciiText.find_all alts (last pre) s skip.
Proof.
  intros Hne Hwords Hin Hm Hsame.
  assert (forallb AsciiText.is_word_char m = true) as Hword.
  { apply (same_word_word_chars m w Hsame). rewrite Forall_forall in Hwords. by apply Hwords. }
  induction s as [|c s IH]; intros pre skip before post Hs Hskip Hb He.
  { destruct before, m; done. }
  simpl.
  assert (Hstep : ∀ k before', before = c :: before' → (k <= length before')%nat →
            m ∈ AsciiText.find_all alts (Some c) s k).
  { intros k before' -> Hk. simpl in Hs. injection Hs as Hs.
    specialize (IH (pre ++ [c]) k before' post Hs Hk).
    rewrite last_snoc, <- app_assoc in IH. apply IH; done. }
  destruct skip as [|skip].
  - destruct (AsciiText.boundary (last pre) (Some c)) eqn:Hstart.
    + destruct (AsciiText.first_match alts (last pre) (c :: s)) as [m0|] eqn:Hm0.
      * pose proof Hm0 as Hinv.
        apply first_match_inv in Hinv as (w0 & Hin0 & Hsp & Hend).
        apply spelled_inv in Hsp as (Hs0 & Hlen0 & Hsame0).
        assert (forallb AsciiText.is_word_char m0 = true) as Hword0.
        { apply (same_word_word_chars m0 w0 Hsame0).
          rewrite Forall_forall in Hwords. by apply Hwords. }
        assert (m0 ≠ []) as Hne0.
        { rewrite Forall_forall in Hne. specialize (Hne w0 Hin0).
          destruct m0; [|done]. destruct w0; [done|discriminate]. }
        destruct before as [|c' before'].
        -- simpl in Hs. rewrite last_of_match in Hend by done.
           rewrite (word_run_unique m post m0 (drop (length m0) (c :: s))); try done.
           ++ left.
           ++ by rewrite <- Hs0, <- Hs.
        -- right. simpl in Hs. injection Hs as <- Hs.
           apply (Hstep _ before' eq_refl).
           assert (length m0 <= length (c :: before'))%nat; [|simpl in *; lia].
           apply (word_run_stops_at_boundary pre (c :: before') m post m0
                    (drop (length m0) (c :: s))); try done.
           rewrite <- Hs0. simpl. by rewrite Hs.
      * destruct before as [|c' before'].
        -- exfalso. simpl in Hs.
           destruct (first_match_some alts (last pre) (c :: s) w m Hin) as [m0 E];
             [| |by rewrite E in Hm0].
           ++ rewrite Hs. apply spelled_same_word. exact Hsame.
           ++ rewrite last_of_match by done. rewrite Hs, drop_app_length. exact He.
        -- simpl in Hs. injection Hs as <- Hs. apply (Hstep _ before' eq_refl). lia.
    + destruct before as [|c' before'].
      * exfalso. simpl in Hs. rewrite app_nil_r in Hb.
        destruct m as [|c0 m]; [done|]. simpl in Hs. injection Hs as -> _.
        simpl in Hb. by rewrite Hb in Hstart.
      * simpl in Hs. injection Hs as <- Hs. apply (Hstep _ before' eq_refl). lia.
  - destruct before as [|c' before']; [simpl in Hskip; lia|].
    simpl in Hs. injection Hs as <- Hs. eapply Hstep; [done|simpl in Hskip; lia].
Qed.

(** A word of a list of words of word characters that stands in the content
    between two word boundaries, in any casing, is a match in that
    casing. *)
Lemma word_matches_complete_words (words : list string) (content w : string)
  (m : list ascii) :
  plain_words words → word_character_words words → w ∈ words →
  same_word m (list_ascii_of_string w) →
  occurs_at_word_boundaries m (list_ascii_of_string content) →
  string_of_list_ascii m ∈ word_matches words content.
Proof.
  intros Hplain Hwords Hw Hsame (pre & post & Hc & Hb & He).
  unfold word_matches, AsciiText.FindAll. apply list_elem_of_fmap. exists m. split; [done|].
  eapply (find_all_complete_words _ (list_ascii_of_string w) m) with (pre := []) (before := pre)
    (post := post); try done.
  - apply Forall_fmap. eapply Forall_impl; [exact Hplain|].
    intros x. apply plain_word_nonempty.
  - apply Forall_fmap. exact Hwords.
  - apply list_elem_of_fmap. eauto.
  - unfold plain_words in Hplain. rewrite Forall_forall in Hplain.
    specialize (Hplain w Hw). apply plain_word_nonempty in Hplain.
    intros ->. unfold same_word in Hsame. simpl in Hsame.
    destruct (list_ascii_of_string w); [done|discriminate].
  - simpl. lia.
Qed.

(** ** Worlds that differ in [BadWordsFilter] only *)

Lemma settings_agree_refl (s : CommentSettings.t) : settings_agree s s.
Proof. reflexivity. Qed.

Lemma world_agree_refl (w : World) : world_agree w w.
Proof.
  repeat split. intros key. destruct (settings w !! key); constructor. reflexivity.
Qed.

Lemma result_agree_eq {A : Type} (r1 r2 : result A) : result_agree eq r1 r2 ↔ r1 = r2.
Proof.
  destruct r1, r2; simpl; split; intros E; try done; try congruence.
Qed.

Lemma run_agree_bind {A B : Type} (R : A → A → Prop) (S : B → B → Prop)
  (m1 m2 : M A) (k1 k2 : A → M B) :
  run_agree R m1 m2 →
  (∀ a1 a2, R a1 a2 → run_agree S (k1 a1) (k2 a2)) →
  run_agree S (m1 ≫= k1) (m2 ≫= k2).
Proof.
  intros Hm Hk w1 w2 Hw. rewrite !bind_run.
  destruct (Hm w1 w2 Hw) as [Hw' Hr].
  destruct (m1 w1) as [w1' [a1|e1]], (m2 w2) as [w2' [a2|e2]]; simpl in *; try done.
  apply Hk; done.
Qed.

Lemma run_agree_ret {A : Type} (R : A → A → Prop) (a1 a2 : A) :
  R a1 a2 → run_agree R (mret a1) (mret a2).
Proof. intros Ha w1 w2 Hw. done. Qed.

Lemma run_agree_throw {A : Type} (R : A → A → Prop) (e : error) :
  run_agree R (throw e) (throw e).
Proof. intros w1 w2 Hw. done. Qed.

Lemma run_agree_fail_if (cond : bool) (e : error) :
  run_agree eq (fail_if cond e) (fail_if cond e).
Proof. destruct cond; [apply run_agree_throw | apply run_agree_ret; done]. Qed.

Lemma run_agree_wrap_err {A : Type} (R : A → A → Prop) (format : string) (m1 m2 : M A) :
  run_agree R m1 m2 → run_agree R (wrap_err format m1) (wrap_err format m2).
Proof.
  intros Hm w1 w2 Hw. unfold wrap_err. destruct (Hm w1 w2 Hw) as [Hw' Hr].
  destruct (m1 w1) as [w1' [a1|e1]], (m2 w2) as [w2' [a2|e2]]; simpl in *; try done.
  subst. done.
Qed.

Lemma run_agree_log_err (format : string) (m1 m2 : M unit) :
  run_agree eq m1 m2 → run_agree eq (log_err format m1) (log_err format m2).
Proof.
  intros Hm w1 w2 Hw. unfold log_err. destruct (Hm w1 w2 Hw) as [Hw' Hr].
  destruct (m1 w1) as [w1' [a1|e1]], (m2 w2) as [w2' [a2|e2]]; simpl in *; try done.
  subst. destruct Hw' as (? & ? & ? & ? & Hl & ?). rewrite Hl. done.
Qed.

Lemma run_agree_time_Now : run_agree eq time_Now time_Now.
Proof.
  intros w1 w2 (? & Hk & ? & ? & ? & ?). unfold time_Now. simpl. rewrite Hk. done.
Qed.

Lemma run_agree_NewObjectID : run_agree eq NewObjectID NewObjectID.
Proof.
  intros w1 w2 (? & ? & Ho & ? & ? & ?). unfold NewObjectID. simpl. rewrite Ho. done.
Qed.

Lemma run_agree_round_trip : run_agree eq round_trip round_trip.
Proof.
  intros w1 w2 Hw. pose proof Hw as (? & ? & ? & Ho & ? & ?). unfold round_trip. rewrite Ho.
  destruct (outages w2) as [|[] rest] eqn:Hout; simpl; [done| |];
    unfold world_agree; simpl; done.
Qed.

Lemma run_agree_get_world : run_agree world_agree get_world get_world.
Proof. intros w1 w2 Hw. done. Qed.

Lemma run_agree_set_comments (f : gmap ObjectID Comment.t → gmap ObjectID Comment.t) :
  run_agree eq (modify (λ w, set_comments (f (comments w)) w))
    (modify (λ w, set_comments (f (comments w)) w)).
Proof.
  intros w1 w2 (Hc & ? & ? & ? & ? & ?). unfold modify. simpl. rewrite Hc. done.
Qed.

Lemma run_agree_FindOne (id : ObjectID) :
  run_agree eq (comments_FindOne id) (comments_FindOne id).
Proof.
  unfold comments_FindOne.
  eapply run_agree_bind; [apply run_agree_round_trip|]. intros _ _ _.
  eapply run_agree_bind; [apply run_agree_get_world|]. intros wa wb (Hc & _).
  rewrite Hc. apply run_agree_ret. done.
Qed.

Lemma run_agree_UpdateOne (id : ObjectID) (update : Comment.t → result Comment.t) :
  run_agree eq (comments_UpdateOne id update) (comments_UpdateOne id update).
Proof.
  unfold comments_UpdateOne.
  eapply run_agree_bind; [apply run_agree_round_trip|]. intros _ _ _.
  eapply run_agree_bind; [apply run_agree_get_world|]. intros wa wb (Hc & _).
  rewrite Hc. destruct (comments wb !! id) as [doc|]; [|apply run_agree_ret; done].
  destruct (update doc); [|apply run_agree_throw].
  apply (run_agree_set_comments (λ docs, <[id := _]> docs)).
Qed.

Lemma run_agree_InsertOne (doc : Comment.t) :
  run_agree eq (comments_InsertOne doc) (comments_InsertOne doc).
Proof.
  unfold comments_InsertOne.
  eapply run_agree_bind.
  { destruct (decide (Comment.ID doc = NilObjectID));
      [apply run_agree_NewObjectID | apply run_agree_ret; done]. }
  intros id ? <-.
  eapply run_agree_bind; [apply run_agree_round_trip|]. intros _ _ _.
  eapply run_agree_bind; [apply run_agree_get_world|]. intros wa wb (Hc & _).
  rewrite Hc. destruct (comments wb !! id); [apply run_agree_throw|].
  eapply run_agree_bind;
    [apply (run_agree_set_comments (λ docs, <[id := _]> docs))|].
  intros _ _ _. apply run_agree_ret. done.
Qed.

Lemma run_agree_Create (c : Comment.t) :
  run_agree eq (CommentRepository.Create c) (CommentRepository.Create c).
Proof.
  unfold CommentRepository.Create.
  eapply run_agree_bind; [apply run_agree_time_Now|]. intros t1 ? <-.
  eapply run_agree_bind; [apply run_agree_time_Now|]. intros t2 ? <-.
  eapply run_agree_bind; [apply run_agree_InsertOne|]. intros id ? <-.
  apply run_agree_ret. done.
Qed.

Lemma run_agree_Update (c : Comment.t) :
  run_agree eq (CommentRepository.Update c) (CommentRepository.Update c).
Proof.
  unfold CommentRepository.Update.
  eapply run_agree_bind; [apply run_agree_time_Now|]. intros t1 ? <-.
  eapply run_agree_bind; [apply run_agree_UpdateOne|]. intros _ _ _.
  apply run_agree_ret. done.
Qed.

Lemma run_agree_IncrementReplyCount (id : ObjectID) (delta : Z) :
  run_agree eq (CommentRepository.IncrementReplyCount id delta)
    (CommentRepository.IncrementReplyCount id delta).
Proof.
  unfold CommentRepository.IncrementReplyCount.
  eapply run_agree_bind; [apply run_agree_time_Now|]. intros t1 ? <-.
  apply run_agree_UpdateOne.
Qed.

Lemma run_agree_GetOrCreate (tenantID resourceType : string) :
  run_agree settings_agree (SettingsRepository.GetOrCreate tenantID resourceType)
    (SettingsRepository.GetOrCreate tenantID resourceType).
Proof.
  unfold SettingsRepository.GetOrCreate.
  eapply run_agree_bind; [apply run_agree_round_trip|]. intros _ _ _.
  eapply run_agree_bind; [apply run_agree_get_world|]. intros wa wb Hw.
  destruct Hw as (_ & _ & _ & _ & _ & Hs). specialize (Hs (tenantID, resourceType)).
  destruct Hs as [s1 s2 Hs|]; [apply run_agree_ret; exact Hs|].
  eapply run_agree_bind; [apply run_agree_time_Now|]. intros t1 ? <-.
  eapply run_agree_bind; [apply run_agree_time_Now|]. intros t2 ? <-.
  eapply run_agree_bind; [apply run_agree_NewObjectID|]. intros id ? <-.
  eapply run_agree_bind; [apply run_agree_round_trip|]. intros _ _ _.
  eapply (run_agree_bind eq); [|intros _ _ _; apply run_agree_ret; reflexivity].
  intros w1 w2 (Hc & Hk & Ho & Hout & Hl & Hs). unfold modify. simpl.
  repeat split; try done. intros key. world_simpl.
  destruct (decide (key = (tenantID, resourceType))) as [->|Hne].
  - rewrite !lookup_insert_eq. constructor. reflexivity.
  - rewrite !lookup_insert_ne by done. apply Hs.
Qed.

Lemma ceil_div (t p : Z) :
  (0 <= t)%Z → (1 <= p)%Z →
  ((t + p - 1) / p = if 0 <? t mod p then t / p + 1 else t / p)%Z.
Proof.
  intros Ht Hp.
  pose proof (Z.div_mod t p ltac:(lia)) as Hdiv.
  pose proof (Z.mod_pos_bound t p ltac:(lia)) as Hmod.
  destruct (0 <? t mod p)%Z eqn:Hrem; symmetry.
  - apply Z.ltb_lt in Hrem. apply (Z.div_unique _ _ _ (t mod p - 1)); lia.
  - apply Z.ltb_ge in Hrem. apply (Z.div_unique _ _ _ (p - 1)); lia.
Qed.

Section Engine.

Context `{GoText}.

Lemma fetch_Ok_inv (id : string) (w w' : World) (oid : ObjectID) (c : Comment.t) :
  CommentUsecase.fetch id w = (w', Ok (oid, c)) →
  ObjectIDFromHex id = Some oid
  ∧ (∃ doc, comments w !! oid = Some doc ∧ c = decode oid doc)
  ∧ w' = set_outages (tail (outages w)) w.
Proof.
  unfold CommentUsecase.fetch. destruct (ObjectIDFromHex id) as [oid'|]; [|discriminate].
  intros E. run_inv.
  match goal with H : CommentRepository.GetByID _ _ = _ |- _ =>
    apply FindOne_inv in H; destruct H as [-> ->] end.
  destruct (comments w !! oid') as [doc|] eqn:Hdoc; simpl in E; [|discriminate].
  run_inv. match goal with H : (_, _) = (_, _) |- _ => injection H as -> -> end. eauto.
Qed.

(** What a [DeleteComment] that returned nil has done. *)
Lemma delete_ok_inv (u : CommentUsecase.t) (id userID : string) (isAdmin : bool)
  (w w' : World) (x : unit) :
  CommentUsecase.DeleteComment u id userID isAdmin w = (w', Ok x) →
  ∃ (oid : ObjectID) (before : Comment.t),
    ObjectIDFromHex id = Some oid
    ∧ comments w !! oid = Some before
    ∧ bool_decide (Comment.AuthorID before ≠ userID) && negb isAdmin = false
    ∧ (outages w' = tail (tail (tail (outages w)))
       ∨ Comment.ParentID before = None ∧ outages w' = tail (tail (outages w)))
    ∧ let docs := <[oid := marked_deleted userID (clock w) before]> (comments w) in
      match Comment.ParentID before with
      | None => comments w' = docs ∧ logs w' = logs w
      | Some parentID =>
          (logs w' = logs w
           ∧ comments w' = reply_count_bumped parentID (-1) (clock w + 1) docs)
          ∨ (logs w' ≠ logs w ∧ comments w' = docs
             ∧ (outages w !! 2%nat = Some true
                ∨ ∃ parent, docs !! parentID = Some parent
                            ∧ ¬ in_int_range (Comment.ReplyCount parent + -1)))
      end.
Proof.
  unfold CommentUsecase.DeleteComment. intros E. run_inv.
  match goal with x : (ObjectID * Comment.t)%type |- _ => destruct x as [oid c] end.
  run_inv.
  match goal with H : CommentUsecase.fetch _ _ = _ |- _ =>
    apply fetch_Ok_inv in H as (Hoid & (doc & Hdoc & ->) & ->) end.
  match goal with H : CommentRepository.SoftDelete _ _ _ = _ |- _ =>
    apply SoftDelete_inv in H as (Hl1 & Hk1 & Ho1 & Hc1) end.
  world_simpl. rewrite Hdoc in Hc1.
  exists oid, doc. split; [done|]. split; [done|]. split; [done|].
  change (Comment.ParentID (decode oid doc)) with (Comment.ParentID doc) in *.
  destruct (Comment.ParentID doc) as [parentID|].
  - match goal with H : log_err _ _ _ = _ |- _ =>
      apply log_err_inv in H as [_ [[y Hinc]|(w2 & e & Hinc & ->)]] end.
    + pose proof (IncrementReplyCount_frame _ _ _ _ _ Hinc) as (Hl2 & Ho2 & _).
      apply IncrementReplyCount_inv in Hinc.
      split; [left; congruence|]. left. split; [congruence|].
      rewrite Hinc, Hc1, Hk1. reflexivity.
    + pose proof (IncrementReplyCount_frame _ _ _ _ _ Hinc) as (Hl2 & Ho2 & Hc2).
      world_simpl. split; [left; congruence|]. right. split; [|split].
      * rewrite Hl2, Hl1. apply snoc_neq.
      * rewrite (Hc2 I), Hc1. reflexivity.
      * apply IncrementReplyCount_Err_inv in Hinc as [Hout|Hrange].
        -- left. rewrite Ho1, head_lookup, !lookup_tail in Hout. exact Hout.
        -- right. rewrite Hc1 in Hrange. exact Hrange.
  - run_inv. split; [right; done|]. done.
Qed.

(** The outcome of the lookup the operations start with. *)
Lemma fetch_run (id : string) (w : World) :
  CommentUsecase.fetch id w
  = match ObjectIDFromHex id with
    | None => (w, Err (Errorf "invalid comment ID"))
    | Some oid =>
        let w1 := set_outages (tail (outages w)) w in
        if default false (head (outages w)) then (w1, Err mongo_error)
        else match comments w !! oid with
             | None => (w1, Err (Errorf "comment not found"))
             | Some doc => (w1, Ok (oid, decode oid doc))
             end
    end.
Proof.
  unfold CommentUsecase.fetch. destruct (ObjectIDFromHex id) as [oid|]; [|reflexivity].
  unfold CommentRepository.GetByID, comments_FindOne.
  rewrite !bind_run. destruct (round_trip w) as [w1 r] eqn:Hrt.
  apply round_trip_inv in Hrt as [-> ->].
  destruct (default false (head (outages w))); [reflexivity|].
  rewrite bind_run. unfold get_world. cbv beta iota. world_simpl.
  destruct (comments w !! oid); reflexivity.
Qed.

Lemma SoftDelete_run (id : ObjectID) (deletedBy : string) (w : World) :
  ∃ w', CommentRepository.SoftDelete id deletedBy w
        = (w', if default false (head (outages w)) then Err mongo_error else Ok tt).
Proof.
  unfold CommentRepository.SoftDelete, comments_UpdateOne.
  rewrite bind_run. unfold time_Now at 1. rewrite bind_run.
  match goal with |- context [round_trip ?v] =>
    destruct (round_trip v) as [w1 r] eqn:Hrt; apply round_trip_inv in Hrt as [-> ->] end.
  world_simpl. destruct (default false (head (outages w))); [eauto|].
  rewrite bind_run. unfold get_world. world_simpl.
  match goal with |- context [comments w !! id] => destruct (comments w !! id) end;
    eexists; reflexivity.
Qed.

Lemma log_err_run (format : string) (m : M unit) (w : World) :
  ∃ w', log_err format m w = (w', Ok tt).
Proof. unfold log_err. destruct (m w) as [w1 [[]|e]]; eauto. Qed.

(** The value [DeleteComment] returns, case by case. *)
Lemma delete_result (u : CommentUsecase.t) (id userID : string) (isAdmin : bool) (w : World) :
  (CommentUsecase.DeleteComment u id userID isAdmin w).2
  = match ObjectIDFromHex id with
    | None => Err (Errorf "invalid comment ID")
    | Some oid =>
        if default false (outages w !! 0%nat) then Err mongo_error
        else match comments w !! oid with
             | None => Err (Errorf "comment not found")
             | Some doc =>
                 if bool_decide (Comment.AuthorID doc ≠ userID) && negb isAdmin
                 then Err (Errorf "you can only delete your own comments")
                 else if default false (outages w !! 1%nat)
                      then Err (Errorf_w "failed to delete comment: %w" mongo_error)
                      else Ok tt
             end
    end.
Proof.
  unfold CommentUsecase.DeleteComment. rewrite bind_run, fetch_run.
  destruct (ObjectIDFromHex id) as [oid|]; [|reflexivity].
  cbv zeta. rewrite <- head_lookup.
  destruct (default false (head (outages w))); [reflexivity|].
  destruct (comments w !! oid) as [doc|]; [|reflexivity].
  rewrite bind_run. change (Comment.AuthorID (decode oid doc)) with (Comment.AuthorID doc).
  destruct (bool_decide (Comment.AuthorID doc ≠ userID) && negb isAdmin); [reflexivity|].
  cbn [fail_if]. unfold mret at 1, M_ret at 1. rewrite bind_run.
  unfold wrap_err.
  destruct (SoftDelete_run oid userID (set_outages (tail (outages w)) w)) as [w2 ->].
  world_simpl. rewrite head_lookup, lookup_tail.
  destruct (default false (outages w !! 1%nat)); [reflexivity|].
  rewrite bind_run.
  match goal with |- context [match ?p with Some _ => _ | None => _ end w2] =>
    destruct p as [parentID|] end.
  - match goal with |- context [log_err ?f ?m w2] =>
      destruct (log_err_run f m w2) as [w3 ->] end. reflexivity.
  - reflexivity.
Qed.

Lemma lookup_reply_count_bumped (id k : ObjectID) (delta : Z) (now : Time)
  (docs : gmap ObjectID Comment.t) :
  reply_count_bumped id delta now docs !! k
  = if decide (id = k) then bumped delta now <$> docs !! k else docs !! k.
Proof.
  unfold reply_count_bumped. destruct (decide (id = k)) as [->|Hne].
  - destruct (docs !! k) eqn:Hk; [rewrite lookup_insert_eq|rewrite Hk]; done.
  - destruct (docs !! id); [rewrite lookup_insert_ne|]; done.
Qed.

(** Every document after a [DeleteComment] that returned nil and whose
    counter update went through. *)
Lemma delete_ok_lookup (u : CommentUsecase.t) (id userID : string) (isAdmin : bool)
  (w w' : World) (x : unit) (oid : ObjectID) (before : Comment.t) :
  CommentUsecase.DeleteComment u id userID isAdmin w = (w', Ok x) →
  ObjectIDFromHex id = Some oid →
  comments w !! oid = Some before →
  let docs := <[oid := marked_deleted userID (clock w) before]> (comments w) in
  (logs w' = logs w
   ∨ (outages w !! 2%nat ≠ Some true
      ∧ ∀ p parent, Comment.ParentID before = Some p → docs !! p = Some parent →
                    in_int_range (Comment.ReplyCount parent + -1))) →
  ∀ k, comments w' !! k
       = if decide (Comment.ParentID before = Some k)
         then bumped (-1) (clock w + 1) <$> docs !! k
         else docs !! k.
Proof.
  intros Hrun Hoid Hdoc docs Hfine k.
  apply delete_ok_inv in Hrun as (oid' & before' & Hoid' & Hdoc' & _ & _ & Hrun).
  rewrite Hoid in Hoid'. injection Hoid' as <-.
  rewrite Hdoc in Hdoc'. injection Hdoc' as <-.
  cbv zeta in Hrun. fold docs in Hrun.
  destruct (Comment.ParentID before) as [p|].
  - assert (comments w' = reply_count_bumped p (-1) (clock w + 1) docs) as ->.
    { destruct Hrun as [[_ Hc]|(Hlog & _ & Hwhy)]; [exact Hc|].
      destruct Hfine as [Hl|[Hout Hrange]]; [contradiction|].
      destruct Hwhy as [Hout'|(parent & Hp & Hbad)]; [contradiction|].
      destruct Hbad. eapply Hrange; eauto. }
    rewrite lookup_reply_count_bumped.
    destruct (decide (p = k)) as [->|Hne].
    + rewrite decide_True by done. done.
    + rewrite decide_False by congruence. done.
  - destruct Hrun as [-> _]. rewrite decide_False by done. done.
Qed.

Lemma wrap_int_in_range (z : Z) : in_int_range z → wrap_int z = z.
Proof.
  unfold in_int_range, int_min, int_max, wrap_int. intros Hz.
  rewrite Z.mod_small; lia.
Qed.

Lemma initial_status_ignores_flagged_words (settings : CommentSettings.t)
  (flaggedWords : list string) :
  CommentUsecase.initial_status settings flaggedWords
  = if CommentSettings.RequireApproval settings then StatusPending else StatusApproved.
Proof.
  unfold CommentUsecase.initial_status.
  destruct (CommentSettings.RequireApproval settings); simpl; [|reflexivity].
  destruct (bool_decide (0 < length flaggedWords)%nat); reflexivity.
Qed.

Lemma resolve_parent_Ok_inv (req : CreateCommentRequest.t) (settings : CommentSettings.t)
  (w w' : World) (parentID rootID : option ObjectID) (depth : Z) :
  CommentUsecase.resolve_parent req settings w = (w', Ok (parentID, rootID, depth)) →
  comments w' = comments w
  ∧ if decide (CreateCommentRequest.ParentID req = "")
    then parentID = None ∧ rootID = None ∧ depth = 0%Z
    else ∃ pid parent,
           ObjectIDFromHex (CreateCommentRequest.ParentID req) = Some pid
           ∧ comments w !! pid = Some parent
           ∧ CommentSettings.AllowReplies settings = true
           ∧ depth = int_add (Comment.Depth parent) 1
           ∧ (depth <= CommentSettings.MaxReplyDepth settings)%Z
           ∧ parentID = Some pid
           ∧ rootID = Some (default pid (Comment.RootID parent)).
Proof.
  unfold CommentUsecase.resolve_parent.
  destruct (decide (CreateCommentRequest.ParentID req = "")) as [Hroot|Hreply].
  - intros E. run_inv. match goal with H : (_, _) = (_, _) |- _ => injection H as -> -> -> end.
    done.
  - destruct (ObjectIDFromHex (CreateCommentRequest.ParentID req)) as [pid|];
      [|intros E; run_inv].
    intros E. run_inv.
    match goal with H : CommentRepository.GetByID _ _ = _ |- _ =>
      apply FindOne_inv in H as [-> ->] end.
    destruct (comments w !! pid) as [parent|] eqn:Hparent; simpl in E; [|run_inv].
    run_inv. match goal with H : (_, _) = (_, _) |- _ => injection H as -> -> -> end.
    split; [done|]. exists pid, parent.
    match goal with H : negb _ = false |- _ => apply negb_false_iff in H end.
    match goal with H : (_ <? _)%Z = false |- _ => apply Z.ltb_ge in H end.
    repeat split; try done.
    simpl. destruct (Comment.RootID parent); done.
Qed.

Lemma run_agree_fetch (id : string) :
  run_agree eq (CommentUsecase.fetch id) (CommentUsecase.fetch id).
Proof.
  unfold CommentUsecase.fetch, CommentRepository.GetByID.
  destruct (ObjectIDFromHex id) as [oid|]; [|apply run_agree_throw].
  eapply run_agree_bind; [apply run_agree_FindOne|]. intros found ? <-.
  destruct found; [apply run_agree_ret; done | apply run_agree_throw].
Qed.

Lemma run_agree_resolve_parent (req : CreateCommentRequest.t)
  (settings : CommentSettings.t) :
  run_agree eq (CommentUsecase.resolve_parent req settings)
    (CommentUsecase.resolve_parent req settings).
Proof.
  unfold CommentUsecase.resolve_parent, CommentRepository.GetByID.
  destruct (decide (CreateCommentRequest.ParentID req = "")); [apply run_agree_ret; done|].
  destruct (ObjectIDFromHex (CreateCommentRequest.ParentID req)) as [pid|];
    [|apply run_agree_throw].
  eapply run_agree_bind; [apply run_agree_wrap_err, run_agree_FindOne|]. intros found ? <-.
  destruct found as [parent|]; [|apply run_agree_throw].
  eapply run_agree_bind; [apply run_agree_fail_if|]. intros _ _ _.
  eapply run_agree_bind; [apply run_agree_fail_if|]. intros _ _ _.
  apply run_agree_ret. done.
Qed.

(** Rewrites a continuation of [GetOrCreate] run on two settings records
    that agree into one run on the same record: the continuation reads its
    record through fields other than [BadWordsFilter] only. *)
Ltac same_settings s1 s2 Hs :=
  match goal with
  | |- run_agree ?R ?m1 ?m2 =>
      match eval pattern s1 in m1 with
      | ?K _ =>
          change (run_agree R (K (CommentSettings.set_BadWordsFilter false s1))
                    (K (CommentSettings.set_BadWordsFilter false s2)));
          unfold settings_agree in Hs; rewrite Hs; cbv beta
      end
  end.

Lemma run_agree_CreateComment (u : CommentUsecase.t) (req : CreateCommentRequest.t)
  (authorID authorName authorEmail ipAddress userAgent : string) :
  run_agree eq
    (CommentUsecase.CreateComment u req authorID authorName authorEmail ipAddress userAgent)
    (CommentUsecase.CreateComment u req authorID authorName authorEmail ipAddress userAgent).
Proof.
  unfold CommentUsecase.CreateComment.
  eapply run_agree_bind; [apply run_agree_wrap_err, run_agree_GetOrCreate|].
  intros s1 s2 Hs. same_settings s1 s2 Hs.
  eapply run_agree_bind; [apply run_agree_fail_if|]. intros _ _ _.
  eapply run_agree_bind; [apply run_agree_fail_if|]. intros _ _ _.
  eapply run_agree_bind; [apply run_agree_fail_if|]. intros _ _ _.
  eapply run_agree_bind; [apply run_agree_resolve_parent|].
  intros [[parentID rootID] depth] ? <-.
  eapply run_agree_bind; [apply run_agree_wrap_err, run_agree_Create|].
  intros created ? <-.
  eapply (run_agree_bind eq);
    [|intros _ _ _; apply run_agree_ret; reflexivity].
  destruct parentID; [|apply run_agree_ret; done].
  apply run_agree_log_err, run_agree_IncrementReplyCount.
Qed.

Lemma run_agree_UpdateComment (u : CommentUsecase.t) (id : string)
  (req : UpdateCommentRequest.t) (userID : string) (isAdmin : bool) :
  run_agree eq (CommentUsecase.UpdateComment u id req userID isAdmin)
    (CommentUsecase.UpdateComment u id req userID isAdmin).
Proof.
  unfold CommentUsecase.UpdateComment.
  eapply run_agree_bind; [apply run_agree_fetch|]. intros [oid comment] ? <-.
  eapply run_agree_bind; [apply run_agree_fail_if|]. intros _ _ _.
  eapply run_agree_bind; [apply run_agree_fail_if|]. intros _ _ _.
  eapply run_agree_bind; [apply run_agree_wrap_err, run_agree_GetOrCreate|].
  intros s1 s2 Hs. same_settings s1 s2 Hs.
  eapply run_agree_bind; [apply run_agree_fail_if|]. intros _ _ _.
  eapply run_agree_bind; [apply run_agree_time_Now|]. intros now ? <-.
  eapply run_agree_bind; [apply run_agree_wrap_err, run_agree_Update|].
  intros updated ? <-. apply run_agree_ret. done.
Qed.

Lemma world_agree_flip (w : World) (key : string * string) (s : CommentSettings.t)
  (filter : bool) :
  settings w !! key = Some s →
  world_agree w
    (set_settings (<[key := CommentSettings.set_BadWordsFilter filter s]> (settings w)) w).
Proof.
  intros Hkey. repeat split. intros key'. world_simpl.
  destruct (decide (key' = key)) as [->|Hne].
  - rewrite lookup_insert_eq, Hkey. constructor. reflexivity.
  - rewrite lookup_insert_ne by done. destruct (settings w !! key'); constructor.
    reflexivity.
Qed.

(** *** The loop that removes duplicates *)

Lemma foldl_dedup_step (seen_map : gmap string bool) (seen unique flagged : list string) :
  (∀ key, default false (seen_map !! key) = true ↔ key ∈ seen) →
  (foldl CommentUsecase.dedup_step (seen_map, unique) flagged).2
  = unique ++ first_casings seen flagged.
Proof.
  revert seen_map seen unique.
  induction flagged as [|word rest IH]; intros seen_map seen unique Hseen; simpl.
  { by rewrite app_nil_r. }
  destruct (default false (seen_map !! strings_ToLower word)) eqn:Hword; simpl.
  - rewrite bool_decide_eq_true_2 by (by apply Hseen). by apply IH.
  - rewrite bool_decide_eq_false_2 by (rewrite <- Hseen, Hword; done).
    rewrite (IH _ (strings_ToLower word :: seen)).
    + by rewrite <- app_assoc.
    + intros key. rewrite elem_of_cons, <- Hseen.
      destruct (decide (key = strings_ToLower word)) as [->|Hne].
      * rewrite lookup_insert_eq. simpl. tauto.
      * rewrite lookup_insert_ne by done. split; [tauto|]. intros [?|?]; done.
Qed.

Lemma first_casings_sublist (seen words : list string) :
  first_casings seen words `sublist_of` words.
Proof.
  revert seen. induction words as [|word rest IH]; intros seen; simpl; [done|].
  destruct (bool_decide (strings_ToLower word ∈ seen));
    [apply sublist_cons | apply sublist_skip]; apply IH.
Qed.

Lemma first_casings_unseen (seen words : list string) (y : string) :
  y ∈ first_casings seen words → strings_ToLower y ∉ seen.
Proof.
  revert seen. induction words as [|word rest IH]; intros seen; simpl.
  { intros Hy. by apply elem_of_nil in Hy. }
  destruct (bool_decide (strings_ToLower word ∈ seen)) eqn:Hword; [apply IH|].
  apply bool_decide_eq_false_1 in Hword.
  intros Hy. apply elem_of_cons in Hy as [->|Hy]; [done|].
  apply IH in Hy. intros Hin. apply Hy. by right.
Qed.

Lemma first_casings_NoDup (seen words : list string) :
  NoDup (strings_ToLower <$> first_casings seen words).
Proof.
  revert seen. induction words as [|word rest IH]; intros seen; simpl; [constructor|].
  destruct (bool_decide (strings_ToLower word ∈ seen)); [apply IH|].
  rewrite fmap_cons. constructor; [|apply IH].
  intros Hin. apply list_elem_of_fmap in Hin as (y & Hy & Hin).
  apply first_casings_unseen in Hin. apply Hin. rewrite Hy. by left.
Qed.

Lemma first_casings_covers (seen words : list string) (x : string) :
  x ∈ words →
  strings_ToLower x ∈ seen
  ∨ ∃ y, y ∈ first_casings seen words ∧ strings_ToLower y = strings_ToLower x.
Proof.
  revert seen. induction words as [|word rest IH]; intros seen Hx.
  { by apply elem_of_nil in Hx. }
  simpl. destruct (bool_decide (strings_ToLower word ∈ seen)) eqn:Hword.
  - apply bool_decide_eq_true_1 in Hword.
    apply elem_of_cons in Hx as [->|Hx]; [by left|]. by apply IH.
  - apply elem_of_cons in Hx as [->|Hx]; [right; exists word; split; [left|]; done|].
    destruct (IH (strings_ToLower word :: seen) Hx) as [Hseen|(y & Hy & Hsame)].
    + apply elem_of_cons in Hseen as [Hsame|Hseen]; [|by left].
      right. exists word. split; [by left|done].
    + right. exists y. split; [by right|done].
Qed.

Lemma first_casings_first (seen words : list string) (y : string) :
  y ∈ first_casings seen words →
  ∃ i, words !! i = Some y
       ∧ ∀ j z, (j < i)%nat → words !! j = Some z → strings_ToLower z ≠ strings_ToLower y.
Proof.
  revert seen. induction words as [|word rest IH]; intros seen; simpl.
  { intros Hy. by apply elem_of_nil in Hy. }
  destruct (bool_decide (strings_ToLower word ∈ seen)) eqn:Hword.
  - apply bool_decide_eq_true_1 in Hword. intros Hy.
    pose proof (first_casings_unseen _ _ _ Hy) as Hunseen.
    destruct (IH _ Hy) as (i & Hi & Hfirst). exists (S i). split; [done|].
    intros [|j] z Hj Hz; simpl in Hz.
    + injection Hz as <-. intros Hsame. apply Hunseen. by rewrite <- Hsame.
    + apply (Hfirst j); [lia|done].
  - intros Hy. apply elem_of_cons in Hy as [->|Hy].
    + exists 0%nat. split; [done|]. intros j z Hj. lia.
    + pose proof (first_casings_unseen _ _ _ Hy) as Hunseen.
      destruct (IH _ Hy) as (i & Hi & Hfirst). exists (S i). split; [done|].
      intros [|j] z Hj Hz; simpl in Hz.
      * injection Hz as <-. intros Hsame. apply Hunseen. rewrite <- Hsame. by left.
      * apply (Hfirst j); [lia|done].
Qed.

(** The scan is the first casings of the global matches followed by the
    custom matches. *)
Lemma checkBadWords_first_casings (u : CommentUsecase.t) (content : string)
  (customBadWords : list string) :
  CommentUsecase.checkBadWords u content customBadWords
  = first_casings []
      (match CommentUsecase.badWordsRegex u with
       | Some re => FindAllString re content
       | None => []
       end
       ++ (if bool_decide (0 < length customBadWords)%nat
           then match regexp_Compile (bad_words_pattern customBadWords) with
                | Some customRegex => FindAllString customRegex content
                | None => []
                end
           else [])).
Proof.
  unfold CommentUsecase.checkBadWords.
  rewrite (foldl_dedup_step ∅ [] []).
  - simpl. f_equal.
    destruct (CommentUsecase.badWordsRegex u); simpl;
      destruct (bool_decide (0 < length customBadWords)%nat);
      try destruct (regexp_Compile (bad_words_pattern customBadWords));
      rewrite ?app_nil_r; done.
  - intros key. rewrite lookup_empty. simpl. rewrite elem_of_nil. split; [done|tauto].
Qed.

(** A custom list whose pattern [regexp.Compile] refuses is skipped: the
    scan is that of the global list alone. *)
Lemma checkBadWords_skips_refused_pattern (u : CommentUsecase.t) (content : string)
  (customBadWords : list string) :
  regexp_Compile (bad_words_pattern customBadWords) = None →
  CommentUsecase.checkBadWords u content customBadWords
  = CommentUsecase.checkBadWords u content [].
Proof.
  intros Hrefused. rewrite !checkBadWords_first_casings, Hrefused. simpl.
  by destruct (bool_decide (0 < length customBadWords)%nat).
Qed.

(** What does hold of the pages: for a requested page size of at most 100,
    the response carries the page size the page was fetched with and the
    number of pages of that size. *)
Lemma list_total_pages_within_limit (u : CommentUsecase.t) (req : ListCommentsRequest.t)
  (userID : string) (isAdmin : bool) (w w' : World) (resp : ListCommentsResponse.t) :
  CommentUsecase.ListComments u req userID isAdmin w = (w', Ok resp) →
  (ListCommentsRequest.PageSize req <= 100)%Z →
  (ListCommentsResponse.Total resp <= int_max)%Z →
  ListCommentsResponse.PageSize resp = CommentRepository.list_page_size req
  ∧ ListCommentsResponse.TotalPages resp
    = ((ListCommentsResponse.Total resp + ListCommentsResponse.PageSize resp - 1)
       / ListCommentsResponse.PageSize resp)%Z.
Proof.
  unfold CommentUsecase.ListComments. intros E Hsize Hmax. run_inv.
  match goal with x : (list Comment.t * Z)%type |- _ => destruct x as [found total] end.
  run_inv.
  match goal with H : CommentRepository.List _ _ = _ |- _ =>
    apply List_Ok_inv in H as [Htotal _] end.
  cbn [ListCommentsResponse.PageSize ListCommentsResponse.TotalPages
       ListCommentsResponse.Total] in *.
  assert (0 <= total)%Z as Hnonneg by lia. clear Htotal.
  assert (∀ b : bool,
            ListCommentsRequest.PageSize
              (if b then ListCommentsRequest.set_Status StatusApproved req else req)
            = ListCommentsRequest.PageSize req) as Hsame by (intros []; reflexivity).
  rewrite !Hsame. clear Hsame.
  set (size := ListCommentsRequest.PageSize req) in *.
  set (pageSize := if (size <? 1)%Z then 20%Z else size).
  assert (pageSize = CommentRepository.list_page_size req) as Hpage.
  { unfold pageSize, CommentRepository.list_page_size. fold size.
    destruct (size <? 1)%Z eqn:Hlo; [reflexivity|].
    destruct (100 <? size)%Z eqn:Hhi; [lia|reflexivity]. }
  split; [exact Hpage|].
  assert (1 <= pageSize)%Z as Hpos
    by (rewrite Hpage; apply list_page_size_in_range).
  unfold int_quot, int_rem, int_add.
  rewrite Z.quot_div_nonneg, Z.rem_mod_nonneg by lia.
  rewrite ceil_div by lia.
  pose proof (Z.div_mod total pageSize ltac:(lia)) as Hdiv.
  pose proof (Z.mod_pos_bound total pageSize ltac:(lia)) as Hmod.
  assert (0 <= total / pageSize)%Z as Hq by (apply Z.div_pos; lia).
  assert (total / pageSize <= total)%Z as Hle by (apply Z.div_le_upper_bound; nia).
  rewrite (wrap_int_in_range (total / pageSize)) by (unfold in_int_range, int_min; lia).
  destruct (0 <? total mod pageSize)%Z eqn:Hrem; [|reflexivity].
  apply Z.ltb_lt in Hrem. apply wrap_int_in_range.
  unfold in_int_range, int_min. split; [lia|].
  assert (total / pageSize + 1 <= total)%Z; [|lia]. nia.
Qed.

(** ** The claims that hold of every implementation of [GoText] *)

(** C2. A comment created without parent has depth 0 and no root id; a
    reply has the depth of its parent plus 1 and the root id of its parent,
    or the id of the parent when the parent has none. No reply is created
    with a depth above [MaxReplyDepth] of the resolved settings: once the
    parent is fetched and replies are allowed, such a depth ends the
    creation with "maximum reply depth exceeded", whatever the content and
    the word lists. *)
Theorem create_places_comment_in_thread (u : CommentUsecase.t)
  (req : CreateCommentRequest.t) (authorID authorName authorEmail ipAddress userAgent : string)
  (w w' : World) (r : result Comment.t) :
  CommentUsecase.CreateComment u req authorID authorName authorEmail ipAddress userAgent w
  = (w', r) →
  (∀ created, r = Ok created →
     if decide (CreateCommentRequest.ParentID req = "")
     then Comment.Depth created = 0%Z
          ∧ Comment.RootID created = None
          ∧ Comment.ParentID created = None
     else ∃ pid parent,
            ObjectIDFromHex (CreateCommentRequest.ParentID req) = Some pid
            ∧ comments w !! pid = Some parent
            ∧ Comment.ParentID created = Some pid
            ∧ Comment.Depth created = int_add (Comment.Depth parent) 1
            ∧ (in_int_range (Comment.Depth parent + 1) →
               Comment.Depth created = (Comment.Depth parent + 1)%Z)
            ∧ Comment.RootID created = Some (default pid (Comment.RootID parent)))
  ∧ (∀ created settings w1,
       r = Ok created →
       SettingsRepository.GetOrCreate (CreateCommentRequest.TenantID req)
         (CreateCommentRequest.ResourceType req) w = (w1, Ok settings) →
       CreateCommentRequest.ParentID req ≠ "" →
       (Comment.Depth created <= CommentSettings.MaxReplyDepth settings)%Z)
  ∧ (∀ settings w1 pid parent w2,
       SettingsRepository.GetOrCreate (CreateCommentRequest.TenantID req)
         (CreateCommentRequest.ResourceType req) w = (w1, Ok settings) →
       CommentSettings.CommentsEnabled settings = true →
       CreateCommentRequest.IsAnonymous req && negb (CommentSettings.AllowAnonymous settings)
       = false →
       (len (CreateCommentRequest.Content req)
        <= CommentSettings.MaxCommentLength settings)%Z →
       CreateCommentRequest.ParentID req ≠ "" →
       ObjectIDFromHex (CreateCommentRequest.ParentID req) = Some pid →
       CommentRepository.GetByID pid w1 = (w2, Ok (Some parent)) →
       CommentSettings.AllowReplies settings = true →
       (CommentSettings.MaxReplyDepth settings < int_add (Comment.Depth parent) 1)%Z →
       r = Err (Errorf "maximum reply depth exceeded") ∧ comments w' = comments w).
Proof.
  intros Hrun. split; [|split].
  - intros created ->. unfold CommentUsecase.CreateComment in Hrun. run_inv.
    match goal with x : (option N * option N * Z)%type |- _ => destruct x as [[parentID rootID] depth] end.
    run_inv.
    match goal with H : SettingsRepository.GetOrCreate _ _ _ = _ |- _ =>
      apply GetOrCreate_comments in H as (Hc & _ & _) end.
    match goal with H : CommentUsecase.resolve_parent _ _ _ = _ |- _ =>
      apply resolve_parent_Ok_inv in H as (Hc' & Hthread) end.
    match goal with H : CommentRepository.Create _ _ = _ |- _ =>
      apply Create_inv in H as (Hcreated & _) end.
    rewrite Hcreated. cbn.
    destruct (decide (CreateCommentRequest.ParentID req = "")).
    + destruct Hthread as (-> & -> & ->). done.
    + destruct Hthread as (pid & parent & Hpid & Hparent & _ & -> & _ & -> & ->).
      exists pid, parent. rewrite Hc in Hparent.
      repeat split; try done. intros Hrange. unfold int_add.
      apply wrap_int_in_range. exact Hrange.
  - intros created settings w1 -> Hset Hreply.
    unfold CommentUsecase.CreateComment in Hrun. run_inv.
    match goal with x : (option N * option N * Z)%type |- _ => destruct x as [[parentID rootID] depth] end.
    run_inv.
    match goal with H : SettingsRepository.GetOrCreate _ _ _ = _ |- _ =>
      rewrite Hset in H; injection H as <- <- end.
    match goal with H : CommentUsecase.resolve_parent _ _ _ = _ |- _ =>
      apply resolve_parent_Ok_inv in H as (_ & Hthread) end.
    match goal with H : CommentRepository.Create _ _ = _ |- _ =>
      apply Create_inv in H as (Hcreated & _) end.
    rewrite Hcreated. cbn.
    destruct (decide (CreateCommentRequest.ParentID req = "")); [done|].
    destruct Hthread as (pid & parent & _ & _ & _ & _ & Hmax & _). exact Hmax.
  - intros settings w1 pid parent w2 Hset Hen Hanon Hlen Hreply Hpid Hget Hallow Hdeep.
    unfold CommentUsecase.CreateComment in Hrun.
    rewrite bind_run in Hrun. unfold wrap_err at 1 in Hrun. rewrite Hset in Hrun.
    rewrite Hen, Hanon in Hrun. cbn [negb fail_if] in Hrun.
    rewrite bind_run in Hrun. unfold mret at 1, M_ret at 1 in Hrun.
    rewrite bind_run in Hrun. unfold mret at 1, M_ret at 1 in Hrun.
    apply Z.ltb_ge in Hlen. rewrite Hlen in Hrun. cbn [fail_if] in Hrun.
    rewrite bind_run in Hrun. unfold mret at 1, M_ret at 1 in Hrun.
    rewrite bind_run in Hrun. unfold CommentUsecase.resolve_parent in Hrun.
    rewrite decide_False in Hrun by done. rewrite Hpid in Hrun.
    rewrite bind_run in Hrun. unfold wrap_err at 1 in Hrun. rewrite Hget in Hrun.
    rewrite Hallow in Hrun. cbn [negb fail_if] in Hrun.
    rewrite bind_run in Hrun. unfold mret at 1, M_ret at 1 in Hrun.
    apply Z.ltb_lt in Hdeep. rewrite Hdeep in Hrun. cbn [fail_if] in Hrun.
    rewrite bind_run in Hrun. unfold throw in Hrun.
    injection Hrun as <- <-. split; [reflexivity|].
    apply GetOrCreate_comments in Hset as (Hc & _ & _).
    apply FindOne_inv in Hget as [_ ->]. world_simpl. exact Hc.
Qed.


(** C5. Every successful [UpdateComment] appends exactly one entry to the
    edit history, made of the content the comment had before the update, the
    editor and the time of the edit, and sets [IsEdited]; this holds of the
    comment returned and of the document stored. *)
Theorem update_appends_one_edit_record (u : CommentUsecase.t) (id : string)
  (req : UpdateCommentRequest.t) (userID : string) (isAdmin : bool)
  (w w' : World) (updated : Comment.t) :
  CommentUsecase.UpdateComment u id req userID isAdmin w = (w', Ok updated) →
  ∃ (oid : ObjectID) (before : Comment.t) (editedAt : Time),
    ObjectIDFromHex id = Some oid
    ∧ comments w !! oid = Some before
    ∧ (clock w <= editedAt < clock w')%Z
    ∧ let entry := {| EditRecord.Content := Comment.Content before;
                      EditRecord.EditedAt := editedAt;
                      EditRecord.EditedBy := userID |} in
      Comment.EditHistory updated = (Comment.EditHistory before ++ [entry])%list
      ∧ Comment.IsEdited updated = true
      ∧ Comment.Content updated = UpdateCommentRequest.Content req
      ∧ ∃ stored, comments w' !! oid = Some stored
                  ∧ Comment.EditHistory stored = (Comment.EditHistory before ++ [entry])%list
                  ∧ Comment.IsEdited stored = true
                  ∧ Comment.Content stored = UpdateCommentRequest.Content req.
Proof.
  unfold CommentUsecase.UpdateComment. intros E. run_inv.
  destruct x as [oid c]. run_inv.
  match goal with H : CommentUsecase.fetch _ _ = _ |- _ =>
    apply fetch_Ok_inv in H as (Hoid & (doc & Hdoc & ->) & ->) end.
  match goal with H : SettingsRepository.GetOrCreate _ _ _ = _ |- _ =>
    apply GetOrCreate_comments in H as (Hc & _ & Hclk) end.
  match goal with H : CommentRepository.Update _ _ = _ |- _ =>
    apply Update_inv in H as (-> & _ & Hclk' & Hst) end.
  simpl in Hc, Hclk, Hclk', Hst.
  match type of Hst with context [if ?b then _ else _] => destruct b end;
    simpl in Hst; rewrite Hc, Hdoc in Hst;
    (match type of Hclk with (_ <= clock ?w5)%Z => exists oid, doc, (clock w5) end;
     split; [done|]; split; [done|]; split; [lia|];
     simpl; repeat split; try done;
     eexists; split; [rewrite Hst; apply lookup_insert_eq|];
     simpl; rewrite omitempty_slice_snoc; done).
Qed.

(** C6. A [DeleteComment] that returns nil, and whose counter update was
    not logged as failed, keeps the record of the comment and marks it
    deleted (flag, deleted-by, deleted-at); it lowers the reply count of the
    parent of the comment by exactly 1 and leaves the reply count of every
    other comment as it was; for a root comment no reply count changes. *)
Theorem soft_delete_reply_counts (u : CommentUsecase.t) (id userID : string)
  (isAdmin : bool) (w w' : World) :
  CommentUsecase.DeleteComment u id userID isAdmin w = (w', Ok tt) →
  logs w' = logs w →
  ∃ (oid : ObjectID) (before : Comment.t),
    ObjectIDFromHex id = Some oid
    ∧ comments w !! oid = Some before
    ∧ (∃ after, comments w' !! oid = Some after
                ∧ Comment.IsDeleted after = true
                ∧ Comment.DeletedBy after = userID
                ∧ Comment.DeletedAt after = Some (clock w)
                ∧ Comment.set_UpdatedAt (Comment.UpdatedAt after)
                    (Comment.set_ReplyCount (Comment.ReplyCount after)
                       (marked_deleted userID (clock w) before)) = after)
    ∧ (∀ k, is_Some (comments w' !! k) ↔ is_Some (comments w !! k))
    ∧ (∀ k doc, comments w !! k = Some doc →
         ∃ doc', comments w' !! k = Some doc'
                 ∧ Comment.ReplyCount doc'
                   = if decide (Comment.ParentID before = Some k)
                     then (Comment.ReplyCount doc - 1)%Z
                     else Comment.ReplyCount doc).
Proof.
  intros Hrun Hlogs.
  pose proof Hrun as Hinv.
  apply delete_ok_inv in Hinv as (oid & before & Hoid & Hdoc & _).
  pose proof (delete_ok_lookup _ _ _ _ _ _ _ _ _ Hrun Hoid Hdoc (or_introl Hlogs)) as Hlook.
  cbv zeta in Hlook.
  exists oid, before. split; [done|]. split; [done|]. split; [|split].
  - rewrite Hlook, lookup_insert_eq.
    destruct (decide (Comment.ParentID before = Some oid)); eexists; (split; [reflexivity|]);
      done.
  - intros k. rewrite Hlook, lookup_insert.
    destruct (decide (oid = k)) as [<-|Hne];
      destruct (decide (Comment.ParentID before = Some _)); rewrite ?Hdoc; simpl;
      rewrite ?fmap_is_Some; split; eauto.
  - intros k doc Hk. rewrite Hlook, lookup_insert.
    destruct (decide (oid = k)) as [<-|Hne].
    + rewrite Hdoc in Hk. injection Hk as <-.
      destruct (decide (Comment.ParentID before = Some oid)); eexists;
        (split; [reflexivity|]); simpl; lia.
    + rewrite Hk.
      destruct (decide (Comment.ParentID before = Some k)); eexists;
        (split; [reflexivity|]); simpl; lia.
Qed.

(** C7, as the code has it. A successful [ModerateComment] sets the status
    to the requested one, the moderator and the time of moderation; it
    writes the rejection reason of the request when the new status is
    rejected, and otherwise leaves the rejection reason the comment had. *)
Theorem moderate_sets_outcome (u : CommentUsecase.t) (id : string)
  (req : ModerateCommentRequest.t) (moderatorID : string) (w w' : World)
  (moderated : Comment.t) :
  CommentUsecase.ModerateComment u id req moderatorID w = (w', Ok moderated) →
  ∃ (oid : ObjectID) (before : Comment.t),
    ObjectIDFromHex id = Some oid
    ∧ comments w !! oid = Some before
    ∧ Comment.Status moderated = ModerateCommentRequest.Status req
    ∧ Comment.ModeratedBy moderated = moderatorID
    ∧ Comment.ModeratedAt moderated = Some (clock w)
    ∧ Comment.RejectionReason moderated
      = (if decide (ModerateCommentRequest.Status req = StatusRejected)
         then ModerateCommentRequest.RejectionReason req
         else Comment.RejectionReason before)
    ∧ Comment.Content moderated = Comment.Content before
    ∧ ∃ stored, comments w' !! oid = Some stored
                ∧ Comment.Status stored = ModerateCommentRequest.Status req
                ∧ Comment.ModeratedAt stored = Some (clock w)
                ∧ Comment.ModeratedBy stored
                  = omitempty_string moderatorID (Comment.ModeratedBy before)
                ∧ Comment.RejectionReason stored
                  = omitempty_string (Comment.RejectionReason moderated)
                      (Comment.RejectionReason before).
Proof.
  unfold CommentUsecase.ModerateComment. intros E. run_inv.
  match goal with x : (ObjectID * Comment.t)%type |- _ => destruct x as [oid c] end.
  run_inv.
  match goal with H : CommentUsecase.fetch _ _ = _ |- _ =>
    apply fetch_Ok_inv in H as (Hoid & (doc & Hdoc & ->) & ->) end.
  match goal with H : CommentRepository.Update _ _ = _ |- _ =>
    apply Update_inv in H as (-> & _ & _ & Hst) end.
  exists oid, doc. split; [done|]. split; [done|].
  destruct (decide (ModerateCommentRequest.Status req = StatusRejected)) as [Hrej|Hrej];
    [rewrite (bool_decide_eq_true_2 _ Hrej) in *
    |rewrite (bool_decide_eq_false_2 _ Hrej) in *];
    simpl in Hst; rewrite Hdoc in Hst;
    simpl; repeat split; try done;
    (eexists; split; [rewrite Hst; apply lookup_insert_eq|]; simpl; done).
Qed.

(** C9. [CreateComment] and [UpdateComment] never read [BadWordsFilter]:
    run in two worlds that differ at most in the [BadWordsFilter] of their
    settings records, each returns the same comment or the same error,
    flagged words and status included, and leaves worlds that again differ
    at most there. *)
Theorem bad_words_filter_is_never_consulted (u : CommentUsecase.t)
  (creq : CreateCommentRequest.t)
  (authorID authorName authorEmail ipAddress userAgent : string)
  (id : string) (ureq : UpdateCommentRequest.t) (userID : string) (isAdmin : bool)
  (w1 w2 : World) :
  world_agree w1 w2 →
  let create :=
    CommentUsecase.CreateComment u creq authorID authorName authorEmail ipAddress userAgent in
  let update := CommentUsecase.UpdateComment u id ureq userID isAdmin in
  (create w1).2 = (create w2).2
  ∧ world_agree (create w1).1 (create w2).1
  ∧ (update w1).2 = (update w2).2
  ∧ world_agree (update w1).1 (update w2).1.
Proof.
  intros Hw create update.
  destruct (run_agree_CreateComment u creq authorID authorName authorEmail ipAddress
              userAgent w1 w2 Hw) as [Hcw Hcr].
  destruct (run_agree_UpdateComment u id ureq userID isAdmin w1 w2 Hw) as [Huw Hur].
  apply result_agree_eq in Hcr, Hur. done.
Qed.

(** C10, as the code has it. [DeleteComment] returns an error exactly when
    the id is malformed, the lookup fails at the driver, the comment does
    not exist, the caller is neither the author nor an admin, or the write
    of the deletion marks fails at the driver. A comment that is already
    soft-deleted is deleted again without error while MongoDB answers, and
    the parent's reply count goes down by 1 once more. *)
Theorem delete_fails_exactly_when (u : CommentUsecase.t) (id userID : string)
  (isAdmin : bool) (w : World) :
  (is_Err (CommentUsecase.DeleteComment u id userID isAdmin w).2
   ↔ (ObjectIDFromHex id = None
      ∨ ∃ oid, ObjectIDFromHex id = Some oid
               ∧ (outages w !! 0%nat = Some true
                  ∨ comments w !! oid = None
                  ∨ ∃ doc, comments w !! oid = Some doc
                           ∧ ((Comment.AuthorID doc ≠ userID ∧ isAdmin = false)
                              ∨ outages w !! 1%nat = Some true))))
  ∧ ∀ w1,
      CommentUsecase.DeleteComment u id userID isAdmin w = (w1, Ok tt) →
      outages w1 = [] →
      ∃ (oid : ObjectID) (deleted : Comment.t) (w2 : World),
        ObjectIDFromHex id = Some oid
        ∧ comments w1 !! oid = Some deleted
        ∧ Comment.IsDeleted deleted = true
        ∧ CommentUsecase.DeleteComment u id userID isAdmin w1 = (w2, Ok tt)
        ∧ ∀ p parent,
            Comment.ParentID deleted = Some p →
            comments w1 !! p = Some parent →
            in_int_range (Comment.ReplyCount parent - 1) →
            ∃ parent', comments w2 !! p = Some parent'
                       ∧ Comment.ReplyCount parent' = (Comment.ReplyCount parent - 1)%Z.
Proof.
  split.
  - rewrite delete_result.
    destruct (ObjectIDFromHex id) as [oid|]; [|simpl; split; [auto|done]].
    assert (∀ P : Prop, (P ↔ outages w !! 0%nat = Some true
                             ∨ comments w !! oid = None
                             ∨ ∃ doc, comments w !! oid = Some doc
                                      ∧ ((Comment.AuthorID doc ≠ userID ∧ isAdmin = false)
                                         ∨ outages w !! 1%nat = Some true)) →
            (P ↔ Some oid = None ∨ ∃ oid0, Some oid = Some oid0 ∧
                   (outages w !! 0%nat = Some true
                    ∨ comments w !! oid0 = None
                    ∨ ∃ doc, comments w !! oid0 = Some doc
                             ∧ ((Comment.AuthorID doc ≠ userID ∧ isAdmin = false)
                                ∨ outages w !! 1%nat = Some true)))) as Hshape.
    { intros P ->. split; [intros Hc; right; exists oid; auto|].
      intros [Hn|(oid0 & Ho & Hc)]; [discriminate|]. injection Ho as <-. exact Hc. }
    apply Hshape. clear Hshape.
    destruct (outages w !! 0%nat) as [[]|]; simpl; [split; auto| |].
    all: destruct (comments w !! oid) as [doc|]; simpl; [|split; auto].
    all: destruct (decide (Comment.AuthorID doc = userID)) as [Ha|Ha];
      [rewrite bool_decide_eq_false_2 by (intros Hn; contradiction)
      |rewrite bool_decide_eq_true_2 by done];
      destruct isAdmin; simpl;
      destruct (outages w !! 1%nat) as [[]|]; simpl;
      (split; [intros Herr; try (destruct Herr); right; right; exists doc; auto|]);
      try (intros _; exact I);
      intros [Hc|[Hc|(doc' & Hd & [[Hx Hy]|Hc])]];
      try discriminate; try (injection Hd as <-); try contradiction; try discriminate.
  - intros w1 Hrun Hout.
    pose proof Hrun as Hinv.
    apply delete_ok_inv in Hinv as (oid & before & Hoid & Hdoc & Hauth & _ & Hst).
    cbv zeta in Hst.
    assert (∃ deleted, comments w1 !! oid = Some deleted
                       ∧ Comment.IsDeleted deleted = true
                       ∧ Comment.AuthorID deleted = Comment.AuthorID before)
      as (deleted & Hdel & Hflag & Hsame).
    { destruct (Comment.ParentID before) as [p|].
      - destruct Hst as [[_ ->]|(_ & -> & _)].
        + rewrite lookup_reply_count_bumped, lookup_insert_eq.
          destruct (decide (p = oid)); eexists; (split; [reflexivity|]); done.
        + rewrite lookup_insert_eq. eexists. split; [reflexivity|]. done.
      - destruct Hst as [-> _]. rewrite lookup_insert_eq. eexists.
        split; [reflexivity|]. done. }
    destruct (CommentUsecase.DeleteComment u id userID isAdmin w1) as [w2 r] eqn:Hagain.
    pose proof (delete_result u id userID isAdmin w1) as Hres.
    rewrite Hagain, Hoid, Hout, Hdel, Hsame, Hauth in Hres. simpl in Hres. subst r.
    exists oid, deleted, w2. split; [done|]. split; [done|]. split; [done|].
    split; [reflexivity|].
    intros p parent Hp Hparent Hrange.
    assert (Hlook := delete_ok_lookup _ _ _ _ _ _ _ _ _ Hagain Hoid Hdel).
    cbv zeta in Hlook. rewrite Hlook.
    + rewrite decide_True by done. rewrite lookup_insert.
      destruct (decide (oid = p)) as [->|Hne].
      * rewrite Hdel in Hparent. injection Hparent as ->.
        eexists. split; [reflexivity|]. simpl. lia.
      * rewrite Hparent. eexists. split; [reflexivity|]. simpl. lia.
    + right. split; [rewrite Hout; done|].
      intros p' parent' Hp' Hparent'. rewrite Hp in Hp'. injection Hp' as <-.
      rewrite lookup_insert in Hparent'.
      destruct (decide (oid = p)) as [->|Hne].
      * injection Hparent' as <-. rewrite Hdel in Hparent. injection Hparent as ->.
        simpl. replace (Comment.ReplyCount parent + -1)%Z
          with (Comment.ReplyCount parent - 1)%Z by lia. done.
      * rewrite Hparent in Hparent'. injection Hparent' as <-.
        replace (Comment.ReplyCount parent + -1)%Z
          with (Comment.ReplyCount parent - 1)%Z by lia. done.
Qed.

End Engine.

(** ** The claims on the example data and on [ascii_text] *)

(** C1, where the code departs from it: with approval switched off, a
    comment in which the scan flags "SPAM" is created approved. *)
Theorem create_approves_flagged_comment :
  ∃ w' created,
    CommentUsecase.CreateComment default_usecase spam_request
      "u2" "Bob" "bob@example.com" "198.51.100.1" "curl" open_shop_world
    = (w', Ok created)
    ∧ Comment.FlaggedWords created = ["SPAM"]
    ∧ Comment.Status created = StatusApproved
    ∧ (Comment.Status <$> comments w' !! Comment.ID created) = Some StatusApproved.
Proof.
  eexists _, _. split; [vm_compute; reflexivity|].
  split; [reflexivity|]. split; [reflexivity|]. vm_compute. reflexivity.
Qed.

(** C2, witness: user u2 replies to the root comment of [shop_world], and
    the same reply is refused in [flat_shop_world], whose settings allow no
    depth above 0. *)
Lemma create_places_comment_in_thread_witness :
  (∃ w' created,
     CommentUsecase.CreateComment default_usecase thanks_reply_request
       "u2" "Bob" "bob@example.com" "198.51.100.1" "curl" shop_world = (w', Ok created)
     ∧ Comment.ParentID created = Some 1%N
     ∧ Comment.Depth created = 1%Z
     ∧ Comment.RootID created = Some 1%N)
  ∧ (CommentUsecase.CreateComment default_usecase spam_reply_request
       "u2" "Bob" "bob@example.com" "198.51.100.1" "curl" flat_shop_world).2
    = Err (Errorf "maximum reply depth exceeded").
Proof.
  split.
  - assert (∃ w' created,
       CommentUsecase.CreateComment default_usecase thanks_reply_request
         "u2" "Bob" "bob@example.com" "198.51.100.1" "curl" shop_world = (w', Ok created))
      as (w' & created & Hrun) by (eexists _, _; vm_compute; reflexivity).
    exists w', created. split; [exact Hrun|].
    destruct (create_places_comment_in_thread _ _ _ _ _ _ _ _ _ _ Hrun) as [Hok _].
    specialize (Hok created eq_refl).
    destruct (decide (CreateCommentRequest.ParentID thanks_reply_request = ""))
      as [Hempty|_]; [vm_compute in Hempty; discriminate|].
    destruct Hok as (pid & parent & Hpid & Hparent & Hp & Hd & _ & Hr).
    vm_compute in Hpid. injection Hpid as <-.
    vm_compute in Hparent. injection Hparent as <-.
    split; [exact Hp|]. split; [exact Hd|]. exact Hr.
  - destruct (CommentUsecase.CreateComment default_usecase spam_reply_request
                "u2" "Bob" "bob@example.com" "198.51.100.1" "curl" flat_shop_world)
      as [w' r] eqn:Hrun.
    destruct (create_places_comment_in_thread _ _ _ _ _ _ _ _ _ _ Hrun) as (_ & _ & Hdeep).
    simpl. eapply Hdeep.
    + vm_compute. reflexivity.
    + reflexivity.
    + reflexivity.
    + vm_compute. discriminate.
    + vm_compute. discriminate.
    + vm_compute. reflexivity.
    + vm_compute. reflexivity.
    + reflexivity.
    + vm_compute. reflexivity.
Defined.


(** C4, where the code departs from it: asked for pages of 150, [List]
    fetches a page of 20 of the 21 comments, and [ListComments] reports a
    page size of 150 and 1 page in total. *)
Theorem list_total_pages_ignore_fetch_size :
  ∃ w' resp,
    CommentUsecase.ListComments default_usecase oversized_page_request "u9" false
      crowded_world = (w', Ok resp)
    ∧ CommentRepository.list_page_size oversized_page_request = 20%Z
    ∧ length (ListCommentsResponse.Comments resp) = 20%nat
    ∧ ListCommentsResponse.Total resp = 21%Z
    ∧ ListCommentsResponse.PageSize resp = 150%Z
    ∧ ListCommentsResponse.TotalPages resp = 1%Z.
Proof.
  eexists _, _. split; [vm_compute; reflexivity|].
  split; [vm_compute; reflexivity|]. split; [vm_compute; reflexivity|].
  split; [vm_compute; reflexivity|]. split; vm_compute; reflexivity.
Qed.

(** C5, witness: user u1 edits the comment of [shop_world]. *)
Lemma update_appends_one_edit_record_witness :
  ∃ w' updated,
    CommentUsecase.UpdateComment default_usecase great_product_id spam_edit "u1" false
      shop_world = (w', Ok updated)
    ∧ Comment.IsEdited updated = true
    ∧ (EditRecord.Content <$> Comment.EditHistory updated) = ["Great product!"]
    ∧ (EditRecord.EditedBy <$> Comment.EditHistory updated) = ["u1"].
Proof.
  assert (∃ w' updated,
    CommentUsecase.UpdateComment default_usecase great_product_id spam_edit "u1" false
      shop_world = (w', Ok updated)) as (w' & updated & Hrun)
    by (eexists _, _; vm_compute; reflexivity).
  exists w', updated. split; [exact Hrun|].
  destruct (update_appends_one_edit_record _ _ _ _ _ _ _ _ Hrun)
    as (oid & before & editedAt & Hoid & Hbefore & _ & Hhistory & Hedited & _).
  vm_compute in Hoid. injection Hoid as <-.
  vm_compute in Hbefore. injection Hbefore as <-.
  split; [exact Hedited|]. rewrite Hhistory. split; reflexivity.
Defined.

(** C6, witness: user u2 deletes the reply of [thread_world]; the reply
    count of the comment replied to goes from 1 to 0. *)
Lemma soft_delete_reply_counts_witness :
  ∃ w',
    CommentUsecase.DeleteComment default_usecase thanks_reply_id "u2" false thread_world
    = (w', Ok tt)
    ∧ logs w' = logs thread_world
    ∧ (Comment.ReplyCount <$> comments thread_world !! 1%N) = Some 1%Z
    ∧ ∃ parent', comments w' !! 1%N = Some parent' ∧ Comment.ReplyCount parent' = 0%Z.
Proof.
  set (w' := (CommentUsecase.DeleteComment default_usecase thanks_reply_id "u2" false
                thread_world).1).
  assert (CommentUsecase.DeleteComment default_usecase thanks_reply_id "u2" false
            thread_world = (w', Ok tt)) as Hrun by (vm_compute; reflexivity).
  assert (logs w' = logs thread_world) as Hlogs by (vm_compute; reflexivity).
  exists w'. split; [exact Hrun|]. split; [exact Hlogs|].
  split; [vm_compute; reflexivity|].
  destruct (soft_delete_reply_counts _ _ _ _ _ _ Hrun Hlogs)
    as (oid & before & Hoid & Hdoc & _ & _ & Hcounts).
  vm_compute in Hoid. injection Hoid as <-.
  vm_compute in Hdoc. injection Hdoc as <-.
  destruct (Hcounts 1%N _ ltac:(vm_compute; reflexivity)) as (parent' & Hp & Hc).
  exists parent'. split; [exact Hp|]. vm_compute in Hc. exact Hc.
Defined.

(** C7, witness: moderator m1 rejects the pending comment of [shop_world]
    as off-topic. *)
Lemma moderate_sets_outcome_witness :
  ∃ w' moderated,
    CommentUsecase.ModerateComment default_usecase great_product_id reject_off_topic "m1"
      shop_world = (w', Ok moderated)
    ∧ Comment.Status moderated = StatusRejected
    ∧ Comment.RejectionReason moderated = "off-topic".
Proof.
  assert (∃ w' moderated,
    CommentUsecase.ModerateComment default_usecase great_product_id reject_off_topic "m1"
      shop_world = (w', Ok moderated)) as (w' & moderated & Hrun)
    by (eexists _, _; vm_compute; reflexivity).
  exists w', moderated. split; [exact Hrun|].
  destruct (moderate_sets_outcome _ _ _ _ _ _ _ Hrun)
    as (oid & before & _ & _ & Hs & _ & _ & Hr & _).
  split; [exact Hs | exact Hr].
Defined.

(** C7, as worded, fails: a comment rejected as off-topic and then approved
    still carries the reason it was rejected for. *)
Lemma moderate_keeps_old_rejection_reason :
  ¬ moderation_as_worded default_usecase great_product_id approve "m2" rejected_world.
Proof.
  intros Hclaim.
  edestruct Hclaim as (_ & _ & _ & Hreason); [vm_compute; reflexivity|].
  specialize (Hreason ltac:(discriminate)). vm_compute in Hreason. discriminate.
Qed.

(** C8, as the code has it. The words of a list are joined into a regular
    expression as they are, so the claim holds of the words that spell
    themselves there. For a global and a custom list of non-empty ASCII
    words without regular-expression syntax and an ASCII content, the scan
    returns the matches of the global list followed by those of the custom
    list, without the entries whose lower-case form was seen before: no two
    entries are equal up to case, every match is represented by the entry
    equal to it up to case, and that entry is the earliest such match, in
    its own casing. A match is a word of its list, in any casing, that
    stands in the content between two word boundaries. A listed word that
    so stands in the content leaves the result non-empty, and when the
    words of its list are of letters, digits and underscores only, it has
    an entry equal to it up to case. With the global filter disabled or the
    global list empty, no match is global. *)
Theorem scan_is_deduplicated_union (cfg : Config.t) (content : string)
  (customBadWords : list string) :
  let moderation := Config.Moderation cfg in
  let words := ModerationConfig.BadWordsList moderation in
  plain_words words →
  plain_words customBadWords →
  ascii_only content = true →
  let global :=
    if ModerationConfig.BadWordsEnabled moderation then word_matches words content else [] in
  let custom := word_matches customBadWords content in
  let found :=
    CommentUsecase.checkBadWords (CommentUsecase.NewCommentUsecase cfg) content
      customBadWords in
  found = first_casings [] (global ++ custom)
  ∧ NoDup (AsciiText.ToLower <$> found)
  ∧ found `sublist_of` (global ++ custom)
  ∧ (∀ x, x ∈ global ++ custom →
       ∃ y, y ∈ found ∧ AsciiText.ToLower y = AsciiText.ToLower x)
  ∧ (∀ y, y ∈ found →
       ∃ i, (global ++ custom) !! i = Some y
            ∧ ∀ j z, (j < i)%nat → (global ++ custom) !! j = Some z →
                     AsciiText.ToLower z ≠ AsciiText.ToLower y)
  ∧ (∀ m, m ∈ global →
       ∃ w, w ∈ words ∧ AsciiText.ToLower m = AsciiText.ToLower w
            ∧ occurs_at_word_boundaries (list_ascii_of_string m)
                (list_ascii_of_string content))
  ∧ (∀ m, m ∈ custom →
       ∃ w, w ∈ customBadWords ∧ AsciiText.ToLower m = AsciiText.ToLower w
            ∧ occurs_at_word_boundaries (list_ascii_of_string m)
                (list_ascii_of_string content))
  ∧ (∀ w m,
       (ModerationConfig.BadWordsEnabled moderation = true ∧ w ∈ words)
       ∨ w ∈ customBadWords →
       same_word m (list_ascii_of_string w) →
       occurs_at_word_boundaries m (list_ascii_of_string content) →
       found ≠ [])
  ∧ (∀ w m,
       (ModerationConfig.BadWordsEnabled moderation = true ∧ w ∈ words
        ∧ word_character_words words)
       ∨ (w ∈ customBadWords ∧ word_character_words customBadWords) →
       same_word m (list_ascii_of_string w) →
       occurs_at_word_boundaries m (list_ascii_of_string content) →
       ∃ y, y ∈ found ∧ AsciiText.ToLower y = AsciiText.ToLower w)
  ∧ (ModerationConfig.BadWordsEnabled moderation = false ∨ words = [] → global = []).
Proof.
  intros moderation words Hwords Hcustom _ global custom found.
  assert (found = first_casings [] (global ++ custom)) as Hfound.
  { unfold found. rewrite checkBadWords_first_casings. f_equal. f_equal.
    - unfold CommentUsecase.NewCommentUsecase, global. cbn [CommentUsecase.badWordsRegex].
      fold moderation. fold words.
      destruct (ModerationConfig.BadWordsEnabled moderation); simpl; [|done].
      destruct words as [|w ws] eqn:Hw.
      + simpl. unfold word_matches, AsciiText.FindAll. simpl. by rewrite find_all_nil.
      + rewrite bool_decide_eq_true_2 by (simpl; lia).
        rewrite Compile_bad_words_pattern by done. done.
    - unfold custom. destruct customBadWords as [|w ws] eqn:Hw.
      + simpl. unfold word_matches, AsciiText.FindAll. simpl. by rewrite find_all_nil.
      + rewrite bool_decide_eq_true_2 by (simpl; lia). simpl.
        rewrite Compile_bad_words_pattern by done. done. }
  assert (∀ x, x ∈ global ++ custom →
            ∃ y, y ∈ found ∧ AsciiText.ToLower y = AsciiText.ToLower x) as Hcovers.
  { intros x Hx. rewrite Hfound.
    destruct (first_casings_covers [] _ x Hx) as [Hnil|Hy]; [|exact Hy].
    by apply elem_of_nil in Hnil. }
  split; [exact Hfound|].
  split; [rewrite Hfound; exact (first_casings_NoDup [] (global ++ custom))|].
  split; [rewrite Hfound; apply first_casings_sublist|].
  split; [exact Hcovers|].
  split; [intros y Hy; rewrite Hfound in Hy; exact (first_casings_first [] _ y Hy)|].
  split.
  { intros m Hm. unfold global in Hm.
    destruct (ModerationConfig.BadWordsEnabled moderation); [|by apply elem_of_nil in Hm].
    by apply word_matches_sound. }
  split; [intros m Hm; by apply word_matches_sound|].
  split.
  - intros w m Hw Hsame Hoccurs Hnil.
    assert (global ++ custom ≠ []) as Hsome.
    { intros Happ. apply app_eq_nil in Happ as [Hg Hc].
      destruct Hw as [[Hon Hw]|Hw].
      - unfold global in Hg. rewrite Hon in Hg.
        by apply (word_matches_complete words content w m).
      - by apply (word_matches_complete customBadWords content w m). }
    destruct (global ++ custom) as [|x rest] eqn:Hall; [done|].
    destruct (Hcovers x) as (y & Hy & _); [by left|].
    rewrite Hnil in Hy. by apply elem_of_nil in Hy.
  - split.
    { intros w m Hw Hsame Hoccurs.
      destruct (Hcovers (string_of_list_ascii m)) as (y & Hy & Hcase).
      - apply elem_of_app. destruct Hw as [(Hon & Hw & Hchars)|[Hw Hchars]].
        + left. unfold global. rewrite Hon.
          by apply (word_matches_complete_words words content w m).
        + right. by apply (word_matches_complete_words customBadWords content w m).
      - exists y. split; [exact Hy|]. rewrite Hcase. apply ToLower_same_word.
        by rewrite list_ascii_of_string_of_list_ascii. }
    intros [Hoff|Hempty]; unfold global.
    + by rewrite Hoff.
    + destruct (ModerationConfig.BadWordsEnabled moderation); [|done].
      unfold words in Hempty |- *. rewrite Hempty. unfold word_matches, AsciiText.FindAll.
      simpl. by rewrite find_all_nil.
Qed.

(** The custom word [bad] alone is reported; next to the word [(] it is
    not. *)
Example scan_of_bad_with_and_without_parenthesis :
  CommentUsecase.checkBadWords (CommentUsecase.NewCommentUsecase default_config)
    "this is bad" ["bad"] = ["bad"]
  ∧ CommentUsecase.checkBadWords (CommentUsecase.NewCommentUsecase default_config)
      "this is bad" ["bad"; "("] = [].
Proof. split; vm_compute; reflexivity. Qed.

(** C8, as worded, fails: the custom words [bad] and [(] join into the
    pattern [(?i)\b(bad|()\b], whose first group is not closed;
    [regexp.Compile] refuses it, the scan skips the custom list, and the
    listed word [bad] of "this is bad" is not reported. *)
Lemma scan_skips_custom_list_with_regexp_syntax :
  ¬ scan_as_worded default_config "this is bad" ["bad"; "("].
Proof.
  intros (_ & Hreported & _).
  destruct (Hreported "bad" (list_ascii_of_string "bad")) as (y & Hy & _).
  - right. left.
  - reflexivity.
  - exists (list_ascii_of_string "this is "), []. by vm_compute.
  - vm_compute in Hy. by apply elem_of_nil in Hy.
Qed.

(** C8, witness: the default configuration and two custom words. *)
Lemma scan_is_deduplicated_union_witness :
  plain_words (ModerationConfig.BadWordsList (Config.Moderation default_config))
  ∧ plain_words ["buy-now"; "no"]
  ∧ ascii_only "Spam, spam and SCAM; no spammer, a scam. Buy-Now!" = true
  ∧ NoDup (AsciiText.ToLower
             <$> CommentUsecase.checkBadWords (CommentUsecase.NewCommentUsecase default_config)
                   "Spam, spam and SCAM; no spammer, a scam. Buy-Now!" ["buy-now"; "no"])
  ∧ CommentUsecase.checkBadWords (CommentUsecase.NewCommentUsecase default_config)
      "Spam, spam and SCAM; no spammer, a scam. Buy-Now!" ["buy-now"; "no"]
    = ["Spam"; "SCAM"; "no"; "Buy-Now"].
Proof.
  assert (plain_words (ModerationConfig.BadWordsList (Config.Moderation default_config)))
    as Hglobal by (repeat constructor).
  assert (plain_words ["buy-now"; "no"]) as Hcustom by (repeat constructor).
  split; [exact Hglobal|]. split; [exact Hcustom|]. split; [reflexivity|].
  split; [|vm_compute; reflexivity].
  destruct (scan_is_deduplicated_union default_config
              "Spam, spam and SCAM; no spammer, a scam. Buy-Now!" ["buy-now"; "no"]
              Hglobal Hcustom eq_refl) as (_ & Hnodup & _).
  exact Hnodup.
Defined.

(** C9, witness: the shop with its bad-word filter on and off; the flagged
    comment is created pending with the same flagged words in both. *)
Lemma bad_words_filter_is_never_consulted_witness :
  world_agree shop_world unfiltered_shop_world
  ∧ (CommentUsecase.CreateComment default_usecase spam_request
       "u2" "Bob" "bob@example.com" "198.51.100.1" "curl" shop_world).2
    = (CommentUsecase.CreateComment default_usecase spam_request
         "u2" "Bob" "bob@example.com" "198.51.100.1" "curl" unfiltered_shop_world).2
  ∧ (CommentUsecase.UpdateComment default_usecase great_product_id spam_edit "u1" false
       shop_world).2
    = (CommentUsecase.UpdateComment default_usecase great_product_id spam_edit "u1" false
         unfiltered_shop_world).2.
Proof.
  assert (world_agree shop_world unfiltered_shop_world) as Hw
    by (apply world_agree_flip; reflexivity).
  split; [exact Hw|].
  destruct (bad_words_filter_is_never_consulted default_usecase spam_request
              "u2" "Bob" "bob@example.com" "198.51.100.1" "curl"
              great_product_id spam_edit "u1" false _ _ Hw) as (Hc & _ & Hu & _).
  split; [exact Hc | exact Hu].
Defined.

(** C10, witness: user u2 deletes the reply of [thread_world] twice; both
    calls return nil and the reply count of the comment replied to, 1 at
    first, is 0 and then -1. *)
Lemma delete_fails_exactly_when_witness :
  ∃ w1 w2 parent',
    CommentUsecase.DeleteComment default_usecase thanks_reply_id "u2" false thread_world
    = (w1, Ok tt)
    ∧ CommentUsecase.DeleteComment default_usecase thanks_reply_id "u2" false w1
      = (w2, Ok tt)
    ∧ comments w2 !! 1%N = Some parent'
    ∧ Comment.ReplyCount parent' = (-1)%Z.
Proof.
  set (w1 := (CommentUsecase.DeleteComment default_usecase thanks_reply_id "u2" false
                thread_world).1).
  assert (CommentUsecase.DeleteComment default_usecase thanks_reply_id "u2" false
            thread_world = (w1, Ok tt)) as Hrun by (vm_compute; reflexivity).
  destruct (delete_fails_exactly_when default_usecase thanks_reply_id "u2" false
              thread_world) as [_ Hagain].
  destruct (Hagain w1 Hrun ltac:(vm_compute; reflexivity))
    as (oid & deleted & w2 & Hoid & Hdel & _ & Hrun2 & Hcount).
  vm_compute in Hoid. injection Hoid as <-.
  vm_compute in Hdel. injection Hdel as <-.
  destruct (Hcount 1%N _ ltac:(vm_compute; reflexivity) ltac:(vm_compute; reflexivity))
    as (parent' & Hp & Hc).
  { vm_compute. split; discriminate. }
  exists w1, w2, parent'. split; [exact Hrun|]. split; [exact Hrun2|].
  split; [exact Hp|]. vm_compute in Hc. exact Hc.
Defined.

(** C10, as worded, fails: when MongoDB does not answer the lookup, user u1
    gets an error for the well-formed id of their own, existing comment. *)
Lemma delete_fails_when_mongo_is_down :
  ¬ delete_errors_as_worded default_usecase great_product_id "u1" false offline_world.
Proof.
  intros [Hif _].
  destruct Hif as [Hbad|[(oid & Ho & Hn)|(oid & doc & Ho & Hd & Ha & _)]].
  - vm_compute. exact I.
  - vm_compute in Hbad. discriminate.
  - vm_compute in Ho. injection Ho as <-. vm_compute in Hn. discriminate.
  - vm_compute in Ho. injection Ho as <-. vm_compute in Hd. injection Hd as <-.
    apply Ha. reflexivity.
Qed.

(** * Further properties of the code *)

(** ** The order of a page *)

Lemma sort_insert_sorted (before : Comment.t → Comment.t → bool) (x : Comment.t)
  (l : list Comment.t) :
  (∀ a b, before a b = false → before b a = true) →
  (∀ a b c, before a b = true → before b c = true → before a c = true) →
  StronglySorted (λ a b, before a b = true) l →
  StronglySorted (λ a b, before a b = true) (sort_insert before x l).
Proof.
  intros Htotal Htrans. induction l as [|y l IH]; simpl; intros Hl.
  - repeat constructor.
  - apply StronglySorted_cons in Hl as [Hy Hl].
    destruct (before x y) eqn:Hxy.
    + apply StronglySorted_cons. split.
      * constructor; [exact Hxy|]. eapply Forall_impl; [exact Hy|].
        intros z Hz. simpl in Hz. eauto.
      * apply StronglySorted_cons. done.
    + apply StronglySorted_cons. split; [|auto].
      apply Forall_forall. intros z Hz. apply elem_of_sort_insert in Hz as [->|Hz].
      * auto.
      * rewrite Forall_forall in Hy. auto.
Qed.

Lemma sort_by_sorted (before : Comment.t → Comment.t → bool) (l : list Comment.t) :
  (∀ a b, before a b = false → before b a = true) →
  (∀ a b c, before a b = true → before b c = true → before a c = true) →
  StronglySorted (λ a b, before a b = true) (sort_by before l).
Proof.
  intros Htotal Htrans. unfold sort_by. induction l as [|x l IH]; simpl.
  - constructor.
  - apply sort_insert_sorted; done.
Qed.

Lemma sorted_take_drop {A : Type} (R : A → A → Prop) (n k : nat) (l : list A) :
  StronglySorted R l → StronglySorted R (take n (drop k l)).
Proof.
  intros Hl. rewrite <- (take_drop k l) in Hl. apply StronglySorted_app_1_r in Hl.
  rewrite <- (take_drop n (drop k l)) in Hl. apply StronglySorted_app_1_l in Hl. exact Hl.
Qed.

Lemma sorted_lookup {A : Type} (R : A → A → Prop) (l : list A) (i j : nat) (a b : A) :
  StronglySorted R l → (i < j)%nat → l !! i = Some a → l !! j = Some b → R a b.
Proof.
  intros Hl. revert i j. induction Hl as [|x l Hl IH Hx]; intros i j Hij Hi Hj.
  - rewrite lookup_nil in Hi. discriminate.
  - destruct j as [|j]; [lia|]. simpl in Hj. destruct i as [|i].
    + simpl in Hi. injection Hi as <-. rewrite Forall_forall in Hx.
      apply Hx. eapply list_elem_of_lookup_2. exact Hj.
    + simpl in Hi. apply (IH i j); [lia|done|done].
Qed.

Lemma sort_before_total (sortField : string) (sortOrder : Z) (a b : Comment.t) :
  sort_before sortField sortOrder a b = false → sort_before sortField sortOrder b a = true.
Proof.
  unfold sort_before.
  destruct (Comment.IsPinned a), (Comment.IsPinned b); simpl; try done;
    destruct (sortOrder =? 1)%Z; lia.
Qed.

Lemma sort_before_trans (sortField : string) (sortOrder : Z) (a b c : Comment.t) :
  sort_before sortField sortOrder a b = true →
  sort_before sortField sortOrder b c = true →
  sort_before sortField sortOrder a c = true.
Proof.
  unfold sort_before.
  destruct (Comment.IsPinned a), (Comment.IsPinned b), (Comment.IsPinned c); simpl; try done;
    destruct (sortOrder =? 1)%Z; lia.
Qed.

Lemma page_of_sorted (req : ListCommentsRequest.t) (filter : Filter.t) (w : World) :
  StronglySorted
    (λ a b, sort_before (CommentRepository.list_sort_field req)
              (CommentRepository.list_sort_order req) a b = true)
    (page_of req filter w).
Proof.
  unfold page_of. apply sorted_take_drop, sort_by_sorted.
  - apply sort_before_total.
  - apply sort_before_trans.
Qed.

Lemma elem_of_scan (w : World) (c : Comment.t) :
  c ∈ scan w ↔ ∃ id doc, comments w !! id = Some doc ∧ c = decode id doc.
Proof.
  unfold scan. rewrite list_elem_of_fmap. split.
  - intros ([id doc] & -> & Hin). apply elem_of_map_to_list in Hin. eauto.
  - intros (id & doc & Hdoc & ->). exists (id, doc). split; [done|].
    apply elem_of_map_to_list. done.
Qed.

(** ** Ids in hexadecimal *)

Lemma hex_digit_char (d : N) : (d < 16)%N → hex_digit (hex_char d) = Some d.
Proof.
  intros Hd. rewrite <- (N2Nat.id d). assert (N.to_nat d < 16)%nat as Hn by lia.
  clear Hd. generalize dependent (N.to_nat d). intros n Hn.
  do 16 (destruct n as [|n]; [reflexivity|]). lia.
Qed.

Lemma length_hex_digits (n : nat) (v : N) (rest : string) :
  String.length (hex_digits n v rest) = (n + String.length rest)%nat.
Proof.
  revert v rest. induction n as [|n IH]; intros v rest; simpl; [done|].
  rewrite IH. simpl. lia.
Qed.

Lemma hex_value_hex_digits (n : nat) (v acc : N) (rest : string) :
  hex_value acc (hex_digits n v rest)
  = hex_value (acc * 16 ^ N.of_nat n + v mod 16 ^ N.of_nat n)%N rest.
Proof.
  revert v acc rest. induction n as [|n IH]; intros v acc rest.
  - simpl. rewrite N.mod_1_r. f_equal. lia.
  - cbn [hex_digits]. rewrite IH. cbn [hex_value].
    rewrite hex_digit_char by (apply N.mod_lt; lia). f_equal.
    rewrite Nat2N.inj_succ, N.pow_succ_r by lia.
    rewrite (N.Div0.mod_mul_r v 16 (16 ^ N.of_nat n)). lia.
Qed.

Lemma ObjectIDFromHex_Hex (id : ObjectID) :
  (id < 2 ^ 96)%N → ObjectIDFromHex (ObjectID_Hex id) = Some id.
Proof.
  intros Hid. unfold ObjectIDFromHex, ObjectID_Hex.
  rewrite length_hex_digits. cbn [String.length Nat.add Nat.eqb].
  rewrite hex_value_hex_digits. cbn [hex_value]. f_equal.
  rewrite N.mul_0_l, N.add_0_l. apply N.mod_small.
  change (16 ^ N.of_nat 24)%N with (2 ^ 96)%N. exact Hid.
Qed.

Lemma holds_nonempty (s have : string) :
  Filter.holds (CommentRepository.nonempty s) have = true → s ≠ "" → have = s.
Proof.
  unfold CommentRepository.nonempty. intros Hh Hs.
  rewrite decide_False in Hh by done. simpl in Hh. apply bool_decide_eq_true_1 in Hh. done.
Qed.

Section More.

Context `{GoText}.

(** What [ListComments] hands to the repository. *)
Lemma list_ok_inv (u : CommentUsecase.t) (req : ListCommentsRequest.t) (userID : string)
  (isAdmin : bool) (w w' : World) (resp : ListCommentsResponse.t) :
  CommentUsecase.ListComments u req userID isAdmin w = (w', Ok resp) →
  let req' := if negb isAdmin && bool_decide (ListCommentsRequest.Status req = "")
              then ListCommentsRequest.set_Status StatusApproved req else req in
  ListCommentsResponse.Comments resp = page_of req (CommentRepository.list_filter req') w
  ∧ ListCommentsResponse.Total resp
    = Z.of_nat (length (List.filter (Filter.matches (CommentRepository.list_filter req'))
                          (scan w)))
  ∧ comments w' = comments w.
Proof.
  unfold CommentUsecase.ListComments. intros E. run_inv.
  match goal with x : (list Comment.t * Z)%type |- _ => destruct x as [found total] end.
  run_inv.
  match goal with H : CommentRepository.List _ _ = _ |- _ => rename H into Hlist end.
  pose proof Hlist as Hw.
  apply List_Ok_inv in Hlist as [-> ->].
  cbn [ListCommentsResponse.Comments ListCommentsResponse.Total].
  split; [|split; [reflexivity|]].
  - destruct (negb isAdmin && bool_decide (ListCommentsRequest.Status req = ""));
      reflexivity.
  - unfold CommentRepository.List, comments_CountDocuments, comments_Find in Hw.
    run_inv. reflexivity.
Qed.

(** X11. [ListComments] returns stored comments only, and only those the request
    asks for: every non-empty field of the request is matched exactly,
    without [ParentID] only root comments are returned, and a soft-deleted
    comment is returned only when [IncludeDeleted] is set. A status given in
    the request is matched for every caller, admin or not. The collection is
    left as it was. *)
Theorem list_returns_what_was_asked (u : CommentUsecase.t) (req : ListCommentsRequest.t)
  (userID : string) (isAdmin : bool) (w w' : World) (resp : ListCommentsResponse.t) :
  CommentUsecase.ListComments u req userID isAdmin w = (w', Ok resp) →
  comments w' = comments w
  ∧ ∀ c, c ∈ ListCommentsResponse.Comments resp →
      (∃ id doc, comments w !! id = Some doc ∧ c = decode id doc)
      ∧ (ListCommentsRequest.IncludeDeleted req = false → Comment.IsDeleted c = false)
      ∧ (ListCommentsRequest.ParentID req = "" → Comment.ParentID c = None)
      ∧ (∀ p, ListCommentsRequest.ParentID req ≠ "" →
              ObjectIDFromHex (ListCommentsRequest.ParentID req) = Some p →
              Comment.ParentID c = Some p)
      ∧ (ListCommentsRequest.TenantID req ≠ "" →
         Comment.TenantID c = ListCommentsRequest.TenantID req)
      ∧ (ListCommentsRequest.ResourceType req ≠ "" →
         Comment.ResourceType c = ListCommentsRequest.ResourceType req)
      ∧ (ListCommentsRequest.ResourceID req ≠ "" →
         Comment.ResourceID c = ListCommentsRequest.ResourceID req)
      ∧ (ListCommentsRequest.AuthorID req ≠ "" →
         Comment.AuthorID c = ListCommentsRequest.AuthorID req)
      ∧ (ListCommentsRequest.Status req ≠ "" →
         Comment.Status c = ListCommentsRequest.Status req)
      ∧ (∀ pinned, ListCommentsRequest.IsPinned req = Some pinned →
                   Comment.IsPinned c = pinned).
Proof.
  intros E. apply list_ok_inv in E as (Hfound & _ & Hsame). split; [exact Hsame|].
  intros c Hc. rewrite Hfound in Hc. apply elem_of_page_of in Hc as [Hmatch Hscan].
  split; [apply elem_of_scan; exact Hscan|].
  unfold Filter.matches in Hmatch. rewrite !andb_true_iff in Hmatch.
  destruct Hmatch as (((((((Ht & Hrt) & Hri) & Hp) & Hs) & Ha) & Hpin) & Hdel).
  assert (∀ b : bool,
            CommentRepository.list_filter
              (if b then ListCommentsRequest.set_Status StatusApproved req else req)
            = {| Filter.tenant_id := Filter.tenant_id (CommentRepository.list_filter req);
                 Filter.resource_type := Filter.resource_type (CommentRepository.list_filter req);
                 Filter.resource_id := Filter.resource_id (CommentRepository.list_filter req);
                 Filter.parent_id := Filter.parent_id (CommentRepository.list_filter req);
                 Filter.status :=
                   if b then Some StatusApproved
                   else Filter.status (CommentRepository.list_filter req);
                 Filter.author_id := Filter.author_id (CommentRepository.list_filter req);
                 Filter.is_pinned := Filter.is_pinned (CommentRepository.list_filter req);
                 Filter.is_deleted := Filter.is_deleted (CommentRepository.list_filter req) |})
    as Hfilter by (intros []; reflexivity).
  rewrite Hfilter in Ht, Hrt, Hri, Hp, Hs, Ha, Hpin, Hdel.
  cbn [Filter.tenant_id Filter.resource_type Filter.resource_id Filter.parent_id
       Filter.status Filter.author_id Filter.is_pinned Filter.is_deleted
       CommentRepository.list_filter] in Ht, Hrt, Hri, Hp, Hs, Ha, Hpin, Hdel.
  repeat split.
  - intros Hinc. rewrite Hinc in Hdel. simpl in Hdel.
    apply bool_decide_eq_true_1 in Hdel. exact Hdel.
  - intros Hroot. rewrite decide_True in Hp by done. simpl in Hp.
    apply bool_decide_eq_true_1 in Hp. exact Hp.
  - intros p Hreply Hhex. rewrite decide_False, Hhex in Hp by done. simpl in Hp.
    apply bool_decide_eq_true_1 in Hp. exact Hp.
  - intros Hne. eapply holds_nonempty; done.
  - intros Hne. eapply holds_nonempty; done.
  - intros Hne. eapply holds_nonempty; done.
  - intros Hne. eapply holds_nonempty; done.
  - intros Hne. rewrite (bool_decide_eq_false_2 _ Hne), andb_false_r in Hs.
    eapply holds_nonempty; done.
  - intros pinned Hpinned. rewrite Hpinned in Hpin. simpl in Hpin.
    apply bool_decide_eq_true_1 in Hpin. exact Hpin.
Qed.

(** X12. A page of [ListComments] holds at most the page size the repository
    settles on, which is at most 100, and is in order: a pinned comment
    never comes after one that is not pinned, and comments with the same pin
    state are ordered by the sort key, ascending when the request says "asc"
    and descending otherwise. *)
Theorem list_page_is_bounded_and_ordered (u : CommentUsecase.t)
  (req : ListCommentsRequest.t) (userID : string) (isAdmin : bool) (w w' : World)
  (resp : ListCommentsResponse.t) :
  CommentUsecase.ListComments u req userID isAdmin w = (w', Ok resp) →
  (Z.of_nat (length (ListCommentsResponse.Comments resp))
   <= CommentRepository.list_page_size req <= 100)%Z
  ∧ ∀ (i j : nat) (a b : Comment.t),
      (i < j)%nat →
      ListCommentsResponse.Comments resp !! i = Some a →
      ListCommentsResponse.Comments resp !! j = Some b →
      (Comment.IsPinned b = true → Comment.IsPinned a = true)
      ∧ (Comment.IsPinned a = Comment.IsPinned b →
         let key := sort_value (CommentRepository.list_sort_field req) in
         if decide (ListCommentsRequest.SortOrder req = "asc")
         then (key a <= key b)%Z else (key b <= key a)%Z).
Proof.
  intros E. apply list_ok_inv in E as (Hfound & _ & _). rewrite Hfound. split.
  - pose proof (list_page_size_in_range req) as Hsize. split; [|lia].
    unfold page_of. rewrite length_take. lia.
  - intros i j a b Hij Ha Hb.
    pose proof (sorted_lookup _ _ _ _ _ _ (page_of_sorted req _ w) Hij Ha Hb) as Hab.
    simpl in Hab. unfold sort_before, CommentRepository.list_sort_order in Hab. split.
    + intros Hpb. rewrite Hpb in Hab. destruct (Comment.IsPinned a); [done|].
      rewrite bool_decide_eq_false_2 in Hab by done. done.
    + intros Hsame. rewrite (bool_decide_eq_true_2 _ Hsame) in Hab. cbv zeta.
      destruct (decide (ListCommentsRequest.SortOrder req = "asc")); simpl in Hab; lia.
Qed.

(** X13. A [ParentID] that is not empty and not a valid id puts no condition on
    the parent at all: the listing runs over root comments and replies
    alike. *)
Theorem list_ignores_malformed_parent (u : CommentUsecase.t) (req : ListCommentsRequest.t)
  (userID : string) (isAdmin : bool) (w w' : World) (resp : ListCommentsResponse.t) :
  CommentUsecase.ListComments u req userID isAdmin w = (w', Ok resp) →
  ListCommentsRequest.ParentID req ≠ "" →
  ObjectIDFromHex (ListCommentsRequest.ParentID req) = None →
  let filter :=
    {| Filter.tenant_id := CommentRepository.nonempty (ListCommentsRequest.TenantID req);
       Filter.resource_type :=
         CommentRepository.nonempty (ListCommentsRequest.ResourceType req);
       Filter.resource_id := CommentRepository.nonempty (ListCommentsRequest.ResourceID req);
       Filter.parent_id := None;
       Filter.status :=
         if negb isAdmin && bool_decide (ListCommentsRequest.Status req = "")
         then Some StatusApproved
         else CommentRepository.nonempty (ListCommentsRequest.Status req);
       Filter.author_id := CommentRepository.nonempty (ListCommentsRequest.AuthorID req);
       Filter.is_pinned := ListCommentsRequest.IsPinned req;
       Filter.is_deleted :=
         if ListCommentsRequest.IncludeDeleted req then None else Some false |} in
  ListCommentsResponse.Comments resp = page_of req filter w
  ∧ ListCommentsResponse.Total resp
    = Z.of_nat (length (List.filter (Filter.matches filter) (scan w))).
Proof.
  intros E Hne Hbad filter. apply list_ok_inv in E as (Hfound & Htotal & _).
  cbv zeta in Hfound, Htotal.
  assert (CommentRepository.list_filter
            (if negb isAdmin && bool_decide (ListCommentsRequest.Status req = "")
             then ListCommentsRequest.set_Status StatusApproved req else req) = filter)
    as Hfilter.
  { unfold filter, CommentRepository.list_filter.
    destruct (negb isAdmin && bool_decide (ListCommentsRequest.Status req = ""));
      cbn; rewrite decide_False by done; rewrite Hbad; reflexivity. }
  rewrite Hfilter in Hfound, Htotal. done.
Qed.

(** ** Replies and the moderation queue *)

Lemma Find_Ok_inv (filter : Filter.t) (before : Comment.t → Comment.t → bool)
  (skip limit : Z) (w w' : World) (found : list Comment.t) :
  comments_Find filter before skip limit w = (w', Ok found) →
  found = take (Z.to_nat limit)
            (drop (Z.to_nat skip) (sort_by before (List.filter (Filter.matches filter) (scan w))))
  ∧ (0 <= skip)%Z
  ∧ comments w' = comments w.
Proof.
  unfold comments_Find. intros E. run_inv.
  match goal with H : (_ <? _)%Z = false |- _ => apply Z.ltb_ge in H end. done.
Qed.

Lemma CountDocuments_Ok_inv (filter : Filter.t) (w w' : World) (total : Z) :
  comments_CountDocuments filter w = (w', Ok total) →
  total = Z.of_nat (length (List.filter (Filter.matches filter) (scan w)))
  ∧ scan w' = scan w ∧ comments w' = comments w.
Proof. unfold comments_CountDocuments. intros E. run_inv. done. Qed.

Lemma length_sort_insert (before : Comment.t → Comment.t → bool) (x : Comment.t)
  (l : list Comment.t) :
  length (sort_insert before x l) = S (length l).
Proof.
  induction l as [|y l IH]; simpl; [done|]. destruct (before x y); simpl; congruence.
Qed.

Lemma length_sort_by (before : Comment.t → Comment.t → bool) (l : list Comment.t) :
  length (sort_by before l) = length l.
Proof.
  unfold sort_by. induction l as [|x l IH]; simpl; [done|].
  rewrite length_sort_insert. congruence.
Qed.

Lemma oldest_first_sorted (l : list Comment.t) :
  StronglySorted (λ a b, CommentRepository.oldest_first a b = true)
    (sort_by CommentRepository.oldest_first l).
Proof.
  apply sort_by_sorted; unfold CommentRepository.oldest_first; intros; lia.
Qed.

Lemma default_page_size_in_range (pageSize : Z) :
  (1 <= CommentRepository.default_page_size pageSize <= 100)%Z.
Proof.
  unfold CommentRepository.default_page_size.
  destruct (pageSize <? 1)%Z eqn:Hlo; destruct (100 <? pageSize)%Z eqn:Hhi; simpl; lia.
Qed.

(** A page cut oldest first out of the documents that match [filter], by
    [GetReplies] and [GetPending] alike. *)
Lemma oldest_first_page (filter : Filter.t) (page pageSize : Z) (w : World)
  (found : list Comment.t) (total : Z) :
  total = Z.of_nat (length (List.filter (Filter.matches filter) (scan w))) →
  found = take (Z.to_nat (CommentRepository.default_page_size pageSize))
            (drop (Z.to_nat (int_mul (int_sub (CommentRepository.default_page page) 1)
                               (CommentRepository.default_page_size pageSize)))
               (sort_by CommentRepository.oldest_first
                  (List.filter (Filter.matches filter) (scan w)))) →
  (∀ c, c ∈ found →
     Filter.matches filter c = true
     ∧ ∃ id doc, comments w !! id = Some doc ∧ c = decode id doc)
  ∧ (Z.of_nat (length found) <= CommentRepository.default_page_size pageSize <= 100)%Z
  ∧ (Z.of_nat (length found) <= total)%Z
  ∧ (∀ (i j : nat) (a b : Comment.t),
       (i < j)%nat → found !! i = Some a → found !! j = Some b →
       (Comment.CreatedAt a <= Comment.CreatedAt b)%Z)
  ∧ ((page <= 1)%Z → (total <= CommentRepository.default_page_size pageSize)%Z →
     ∀ id doc, comments w !! id = Some doc →
               Filter.matches filter (decode id doc) = true →
               decode id doc ∈ found).
Proof.
  intros -> ->. pose proof (default_page_size_in_range pageSize) as Hsize.
  split; [|split; [|split; [|split]]].
  - intros c Hc.
    apply subseteq_take, subseteq_drop, elem_of_sort_by, list_elem_of_In, filter_In in Hc.
    destruct Hc as [Hc Hm]. split; [exact Hm|]. apply elem_of_scan, list_elem_of_In, Hc.
  - rewrite length_take. lia.
  - rewrite length_take, length_drop, length_sort_by. lia.
  - intros i j a b Hij Ha Hb.
    pose proof (sorted_lookup _ _ _ _ _ _
                  (sorted_take_drop _ _ _ _ (oldest_first_sorted _)) Hij Ha Hb) as Hab.
    unfold CommentRepository.oldest_first in Hab. simpl in Hab. lia.
  - intros Hpage Hall id doc Hdoc Hmatch.
    assert (CommentRepository.default_page page = 1%Z) as ->.
    { unfold CommentRepository.default_page. destruct (page <? 1)%Z eqn:Hp; lia. }
    change (int_sub 1 1) with 0%Z. unfold int_mul. rewrite Z.mul_0_l.
    change (Z.to_nat (wrap_int 0)) with 0%nat. rewrite drop_0.
    rewrite take_ge by (rewrite length_sort_by; lia).
    apply elem_of_sort_by, list_elem_of_In, filter_In. split; [|exact Hmatch].
    apply list_elem_of_In, elem_of_scan. eauto.
Qed.

Lemma repo_GetReplies_inv (parentID : ObjectID) (page pageSize : Z) (w w' : World)
  (found : list Comment.t) (total : Z) :
  CommentRepository.GetReplies parentID page pageSize w = (w', Ok (found, total)) →
  comments w' = comments w
  ∧ total = Z.of_nat (length (List.filter
                                (Filter.matches (CommentRepository.replies_filter parentID))
                                (scan w)))
  ∧ found = take (Z.to_nat (CommentRepository.default_page_size pageSize))
              (drop (Z.to_nat (int_mul (int_sub (CommentRepository.default_page page) 1)
                                 (CommentRepository.default_page_size pageSize)))
                 (sort_by CommentRepository.oldest_first
                    (List.filter (Filter.matches (CommentRepository.replies_filter parentID))
                       (scan w)))).
Proof.
  unfold CommentRepository.GetReplies. intros E. run_inv.
  match goal with H : (_, _) = (_, _) |- _ => injection H as -> -> end.
  match goal with H : comments_CountDocuments _ _ = _ |- _ =>
    apply CountDocuments_Ok_inv in H as (-> & Hscan & Hc) end.
  match goal with H : comments_Find _ _ _ _ _ = _ |- _ =>
    apply Find_Ok_inv in H as (-> & _ & Hc') end.
  rewrite Hscan. split; [congruence|]. done.
Qed.

Lemma repo_GetPending_inv (tenantID : string) (page pageSize : Z) (w w' : World)
  (found : list Comment.t) (total : Z) :
  CommentRepository.GetPending tenantID page pageSize w = (w', Ok (found, total)) →
  comments w' = comments w
  ∧ total = Z.of_nat (length (List.filter
                                (Filter.matches (CommentRepository.pending_filter tenantID))
                                (scan w)))
  ∧ found = take (Z.to_nat (CommentRepository.default_page_size pageSize))
              (drop (Z.to_nat (int_mul (int_sub (CommentRepository.default_page page) 1)
                                 (CommentRepository.default_page_size pageSize)))
                 (sort_by CommentRepository.oldest_first
                    (List.filter (Filter.matches (CommentRepository.pending_filter tenantID))
                       (scan w)))).
Proof.
  unfold CommentRepository.GetPending. intros E. run_inv.
  match goal with H : (_, _) = (_, _) |- _ => injection H as -> -> end.
  match goal with H : comments_CountDocuments _ _ = _ |- _ =>
    apply CountDocuments_Ok_inv in H as (-> & Hscan & Hc) end.
  match goal with H : comments_Find _ _ _ _ _ = _ |- _ =>
    apply Find_Ok_inv in H as (-> & _ & Hc') end.
  rewrite Hscan. split; [congruence|]. done.
Qed.

Lemma replies_filter_matches (parentID : ObjectID) (c : Comment.t) :
  Filter.matches (CommentRepository.replies_filter parentID) c = true
  ↔ Comment.ParentID c = Some parentID
    ∧ Comment.Status c = StatusApproved
    ∧ Comment.IsDeleted c = false.
Proof.
  unfold Filter.matches, CommentRepository.replies_filter. cbn.
  rewrite !andb_true_iff, !bool_decide_eq_true. tauto.
Qed.

Lemma pending_filter_matches (tenantID : string) (c : Comment.t) :
  Filter.matches (CommentRepository.pending_filter tenantID) c = true
  ↔ (tenantID ≠ "" → Comment.TenantID c = tenantID)
    ∧ Comment.Status c = StatusPending
    ∧ Comment.IsDeleted c = false.
Proof.
  unfold Filter.matches, CommentRepository.pending_filter, CommentRepository.nonempty. cbn.
  destruct (decide (tenantID = "")) as [->|Hne]; cbn;
    rewrite !andb_true_iff, !bool_decide_eq_true; tauto.
Qed.

(** X14. [GetReplies] returns the direct replies to the comment that are approved
    and not deleted, and nothing else; oldest first, at most a page of at
    most 100; the total counts at least the page. When the replies fit on
    the first page, all of them are returned. The collection is left as it
    was, and whether the comment itself exists is not looked at. *)
Theorem replies_are_approved_children_oldest_first (u : CommentUsecase.t)
  (commentID : string) (page pageSize : Z) (w w' : World) (replies : list Comment.t)
  (total : Z) :
  CommentUsecase.GetReplies u commentID page pageSize w = (w', Ok (replies, total)) →
  ∃ oid : ObjectID,
    ObjectIDFromHex commentID = Some oid
    ∧ comments w' = comments w
    ∧ (∀ c, c ∈ replies →
         Comment.ParentID c = Some oid
         ∧ Comment.Status c = StatusApproved
         ∧ Comment.IsDeleted c = false
         ∧ ∃ id doc, comments w !! id = Some doc ∧ c = decode id doc)
    ∧ (Z.of_nat (length replies) <= CommentRepository.default_page_size pageSize <= 100)%Z
    ∧ (Z.of_nat (length replies) <= total)%Z
    ∧ (∀ (i j : nat) (a b : Comment.t),
         (i < j)%nat → replies !! i = Some a → replies !! j = Some b →
         (Comment.CreatedAt a <= Comment.CreatedAt b)%Z)
    ∧ ((page <= 1)%Z → (total <= CommentRepository.default_page_size pageSize)%Z →
       ∀ id doc, comments w !! id = Some doc →
                 Comment.ParentID doc = Some oid →
                 Comment.Status doc = StatusApproved →
                 Comment.IsDeleted doc = false →
                 decode id doc ∈ replies).
Proof.
  unfold CommentUsecase.GetReplies.
  destruct (ObjectIDFromHex commentID) as [oid|]; [|discriminate].
  intros E. apply repo_GetReplies_inv in E as (Hsame & Htotal & Hfound).
  destruct (oldest_first_page _ _ _ _ _ _ Htotal Hfound)
    as (Hin & Hlen & Hle & Hord & Hall).
  exists oid. split; [done|]. split; [done|]. split; [|split; [|split; [|split]]]; try done.
  - intros c Hc. apply Hin in Hc as [Hm Hst]. apply replies_filter_matches in Hm. tauto.
  - intros Hpage Hfit id doc Hdoc Hp Hs Hd. apply (Hall Hpage Hfit id doc Hdoc).
    apply replies_filter_matches. done.
Qed.

(** X15. [GetPendingComments] returns the comments that are pending and not
    deleted, of the tenant when one is named and of every tenant otherwise,
    root comments and replies alike; oldest first, at most a page of at most
    100. When they fit on the first page, all of them are returned. *)
Theorem pending_queue_is_pending_oldest_first (u : CommentUsecase.t) (tenantID : string)
  (page pageSize : Z) (w w' : World) (pending : list Comment.t) (total : Z) :
  CommentUsecase.GetPendingComments u tenantID page pageSize w
  = (w', Ok (pending, total)) →
  comments w' = comments w
  ∧ (∀ c, c ∈ pending →
       (tenantID ≠ "" → Comment.TenantID c = tenantID)
       ∧ Comment.Status c = StatusPending
       ∧ Comment.IsDeleted c = false
       ∧ ∃ id doc, comments w !! id = Some doc ∧ c = decode id doc)
  ∧ (Z.of_nat (length pending) <= CommentRepository.default_page_size pageSize <= 100)%Z
  ∧ (Z.of_nat (length pending) <= total)%Z
  ∧ (∀ (i j : nat) (a b : Comment.t),
       (i < j)%nat → pending !! i = Some a → pending !! j = Some b →
       (Comment.CreatedAt a <= Comment.CreatedAt b)%Z)
  ∧ ((page <= 1)%Z → (total <= CommentRepository.default_page_size pageSize)%Z →
     ∀ id doc, comments w !! id = Some doc →
               (tenantID ≠ "" → Comment.TenantID doc = tenantID) →
               Comment.Status doc = StatusPending →
               Comment.IsDeleted doc = false →
               decode id doc ∈ pending).
Proof.
  unfold CommentUsecase.GetPendingComments.
  intros E. apply repo_GetPending_inv in E as (Hsame & Htotal & Hfound).
  destruct (oldest_first_page _ _ _ _ _ _ Htotal Hfound)
    as (Hin & Hlen & Hle & Hord & Hall).
  split; [done|]. split; [|split; [|split; [|split]]]; try done.
  - intros c Hc. apply Hin in Hc as [Hm Hst]. apply pending_filter_matches in Hm. tauto.
  - intros Hpage Hfit id doc Hdoc Ht Hs Hd. apply (Hall Hpage Hfit id doc Hdoc).
    apply pending_filter_matches. done.
Qed.

(** ** Statistics *)

Lemma filter_filter_andb {A : Type} (f g : A → bool) (l : list A) :
  List.filter f (List.filter g l) = List.filter (λ x, g x && f x) l.
Proof.
  induction l as [|x l IH]; simpl; [done|].
  destruct (g x); simpl; [destruct (f x)|]; congruence.
Qed.

Lemma stats_filter_matches (tenantID resourceType resourceID : string) (c : Comment.t) :
  Filter.matches (CommentRepository.stats_filter tenantID resourceType resourceID) c
  = bool_decide (Comment.TenantID c = tenantID)
    && bool_decide (Comment.ResourceType c = resourceType)
    && bool_decide (Comment.ResourceID c = resourceID)
    && negb (Comment.IsDeleted c).
Proof.
  unfold Filter.matches, CommentRepository.stats_filter. cbn.
  rewrite !andb_true_r. f_equal. destruct (Comment.IsDeleted c); reflexivity.
Qed.

Lemma status_partition (docs : list Comment.t) :
  Z.of_nat (length docs)
  = (CommentRepository.count_status StatusApproved docs
     + CommentRepository.count_status StatusPending docs
     + CommentRepository.count_status StatusRejected docs
     + Z.of_nat (length (List.filter
                           (λ c, negb (bool_decide (Comment.Status c = StatusApproved))
                                 && negb (bool_decide (Comment.Status c = StatusPending))
                                 && negb (bool_decide (Comment.Status c = StatusRejected)))
                           docs)))%Z.
Proof.
  unfold CommentRepository.count_status. induction docs as [|c docs IH]; [reflexivity|].
  cbn [List.filter length].
  destruct (decide (Comment.Status c = StatusApproved)) as [Ha|Ha].
  - rewrite (bool_decide_eq_true_2 _ Ha). rewrite Ha.
    rewrite !bool_decide_eq_false_2 by discriminate. cbn [negb andb length]. lia.
  - rewrite (bool_decide_eq_false_2 _ Ha).
    destruct (decide (Comment.Status c = StatusPending)) as [Hp|Hp].
    + rewrite (bool_decide_eq_true_2 _ Hp). rewrite Hp.
      rewrite !bool_decide_eq_false_2 by discriminate. cbn [negb andb length]. lia.
    + rewrite (bool_decide_eq_false_2 _ Hp).
      destruct (decide (Comment.Status c = StatusRejected)) as [Hr|Hr].
      * rewrite (bool_decide_eq_true_2 _ Hr). cbn [negb andb length]. lia.
      * rewrite (bool_decide_eq_false_2 _ Hr). cbn [negb andb length]. lia.
Qed.

Lemma GetStats_Ok_inv (tenantID resourceType resourceID : string) (w w' : World)
  (stats : CommentStats.t) :
  CommentRepository.GetStats tenantID resourceType resourceID w = (w', Ok stats) →
  let docs := List.filter
                (Filter.matches (CommentRepository.stats_filter tenantID resourceType resourceID))
                (scan w) in
  comments w' = comments w
  ∧ (Z.of_nat (length docs) < 2 ^ 31)%Z
  ∧ stats = {| CommentStats.TotalComments := Z.of_nat (length docs);
               CommentStats.ApprovedCount :=
                 CommentRepository.count_status StatusApproved docs;
               CommentStats.PendingCount :=
                 CommentRepository.count_status StatusPending docs;
               CommentStats.RejectedCount :=
                 CommentRepository.count_status StatusRejected docs;
               CommentStats.TotalReactions := 0;
               CommentStats.ReactionBreakdown := ∅ |}.
Proof.
  unfold CommentRepository.GetStats, comments_Aggregate_match. intros E. run_inv.
  change (scan (set_outages (tail (outages w)) w)) with (scan w) in E.
  match type of E with context [bool_decide (?l = [])] =>
    destruct (bool_decide (l = [])) eqn:Hnil end.
  - apply bool_decide_eq_true_1 in Hnil. run_inv. rewrite Hnil. done.
  - run_inv. match goal with H : (_ <=? _)%Z = false |- _ => apply Z.leb_gt in H end.
    done.
Qed.

(** X16. The statistics of a resource count its comments that are not deleted:
    [TotalComments] all of them, the three other counters those of one
    status each. A comment marked as spam is in the total and in none of the
    three, so the total is the three counters plus the comments of any other
    status. The reaction fields are never filled in. *)
Theorem stats_count_the_resource (u : CommentUsecase.t)
  (tenantID resourceType resourceID : string) (w w' : World) (stats : CommentStats.t) :
  CommentUsecase.GetCommentStats u tenantID resourceType resourceID w = (w', Ok stats) →
  let on_resource (c : Comment.t) :=
    bool_decide (Comment.TenantID c = tenantID)
    && bool_decide (Comment.ResourceType c = resourceType)
    && bool_decide (Comment.ResourceID c = resourceID)
    && negb (Comment.IsDeleted c) in
  let count (p : Comment.t → bool) :=
    Z.of_nat (length (List.filter (λ c, on_resource c && p c) (scan w))) in
  let other (c : Comment.t) :=
    negb (bool_decide (Comment.Status c = StatusApproved))
    && negb (bool_decide (Comment.Status c = StatusPending))
    && negb (bool_decide (Comment.Status c = StatusRejected)) in
  comments w' = comments w
  ∧ CommentStats.TotalComments stats = count (λ _, true)
  ∧ CommentStats.ApprovedCount stats
    = count (λ c, bool_decide (Comment.Status c = StatusApproved))
  ∧ CommentStats.PendingCount stats
    = count (λ c, bool_decide (Comment.Status c = StatusPending))
  ∧ CommentStats.RejectedCount stats
    = count (λ c, bool_decide (Comment.Status c = StatusRejected))
  ∧ CommentStats.TotalComments stats
    = (CommentStats.ApprovedCount stats + CommentStats.PendingCount stats
       + CommentStats.RejectedCount stats + count other)%Z
  ∧ CommentStats.TotalReactions stats = 0%Z
  ∧ CommentStats.ReactionBreakdown stats = ∅.
Proof.
  intros E on_resource count other. unfold CommentUsecase.GetCommentStats in E.
  apply GetStats_Ok_inv in E as (Hsame & _ & ->). cbv zeta.
  cbn [CommentStats.TotalComments CommentStats.ApprovedCount CommentStats.PendingCount
       CommentStats.RejectedCount CommentStats.TotalReactions CommentStats.ReactionBreakdown].
  assert (∀ p, Z.of_nat (length (List.filter p
                 (List.filter
                    (Filter.matches
                       (CommentRepository.stats_filter tenantID resourceType resourceID))
                    (scan w)))) = count p) as Hcount.
  { intros p. rewrite filter_filter_andb. unfold count. do 2 f_equal.
    apply List.filter_ext. intros c. rewrite stats_filter_matches. reflexivity. }
  split; [exact Hsame|].
  split.
  { rewrite <- Hcount. do 2 f_equal. clear. induction (List.filter _ _) as [|x l IH];
      simpl; congruence. }
  unfold CommentRepository.count_status at 1 2 3.
  rewrite !Hcount. split; [reflexivity|]. split; [reflexivity|]. split; [reflexivity|].
  split; [|done].
  rewrite <- !Hcount. apply status_partition.
Qed.

(** ** Creating a comment *)

Lemma GetByID_frame (id : ObjectID) (w w' : World) (r : result (option Comment.t)) :
  CommentRepository.GetByID id w = (w', r) →
  comments w' = comments w ∧ clock w' = clock w ∧ logs w' = logs w
  ∧ settings w' = settings w.
Proof.
  unfold CommentRepository.GetByID, comments_FindOne, mbind, M_bind, round_trip, get_world,
    mret, M_ret.
  destruct w as [c s k o out l]; simpl.
  destruct out as [|[] rest]; simpl; intros E; injection E as <- <-; done.
Qed.

Lemma resolve_parent_frame (req : CreateCommentRequest.t) (settings : CommentSettings.t)
  (w w' : World) (r : result (option ObjectID * option ObjectID * Z)) :
  CommentUsecase.resolve_parent req settings w = (w', r) →
  comments w' = comments w ∧ clock w' = clock w ∧ logs w' = logs w.
Proof.
  unfold CommentUsecase.resolve_parent.
  destruct (decide (CreateCommentRequest.ParentID req = "")).
  { intros E. injection E as <- <-. done. }
  destruct (ObjectIDFromHex (CreateCommentRequest.ParentID req)) as [pid|].
  2: { intros E. injection E as <- <-. done. }
  rewrite bind_run. unfold wrap_err.
  destruct (CommentRepository.GetByID pid w) as [w1 [parent|e]] eqn:Hget;
    apply GetByID_frame in Hget as (Hc & Hk & Hl & _).
  2: { intros E. injection E as <- <-. done. }
  destruct parent as [parent|]; [|intros E; injection E as <- <-; done].
  rewrite bind_run.
  destruct (negb (CommentSettings.AllowReplies settings)); cbn [fail_if];
    [intros E; injection E as <- <-; done|].
  unfold mret at 1, M_ret at 1. rewrite bind_run.
  destruct (CommentSettings.MaxReplyDepth settings <? int_add (Comment.Depth parent) 1)%Z;
    cbn [fail_if]; intros E; injection E as <- <-; done.
Qed.

Lemma Create_clock (c c' : Comment.t) (w w' : World) :
  CommentRepository.Create c w = (w', Ok c') → clock w' = (clock w + 2)%Z.
Proof.
  unfold CommentRepository.Create. intros E. run_inv.
  match goal with H : comments_InsertOne _ _ = _ |- _ =>
    apply InsertOne_inv in H as (_ & _ & _ & Hk) end.
  rewrite Hk. simpl. lia.
Qed.

Lemma Create_Err_frame (c : Comment.t) (w w' : World) (e : error) :
  CommentRepository.Create c w = (w', Err e) → comments w' = comments w.
Proof.
  unfold CommentRepository.Create, comments_InsertOne, mbind, M_bind, time_Now, NewObjectID,
    round_trip, get_world, modify, mret, M_ret, throw.
  destruct w as [docs s k o out l]; simpl.
  match goal with |- context [decide ?P] => destruct (decide P) end; simpl;
    destruct out as [|[] rest]; simpl;
    try (intros E; injection E as <- <-; done);
    match goal with |- context [docs !! ?i] => destruct (docs !! i) end;
    simpl; intros E; try discriminate; injection E as <- <-; done.
Qed.

(** What a [CreateComment] that returned a comment has done. *)
Lemma create_ok_inv (u : CommentUsecase.t) (req : CreateCommentRequest.t)
  (authorID authorName authorEmail ipAddress userAgent : string) (w w' : World)
  (created : Comment.t) :
  CommentUsecase.CreateComment u req authorID authorName authorEmail ipAddress userAgent w
  = (w', Ok created) →
  ∃ (settings : CommentSettings.t) (w1 : World) (parentID rootID : option ObjectID)
    (depth : Z) (createdAt : Time),
    SettingsRepository.GetOrCreate (CreateCommentRequest.TenantID req)
      (CreateCommentRequest.ResourceType req) w = (w1, Ok settings)
    ∧ CommentSettings.CommentsEnabled settings = true
    ∧ CreateCommentRequest.IsAnonymous req && negb (CommentSettings.AllowAnonymous settings)
      = false
    ∧ (len (CreateCommentRequest.Content req) <= CommentSettings.MaxCommentLength settings)%Z
    ∧ (if decide (CreateCommentRequest.ParentID req = "")
       then parentID = None
       else ∃ pid parent,
              ObjectIDFromHex (CreateCommentRequest.ParentID req) = Some pid
              ∧ comments w !! pid = Some parent
              ∧ CommentSettings.AllowReplies settings = true
              ∧ parentID = Some pid)
    ∧ (clock w <= createdAt)%Z
    ∧ created
      = {| Comment.ID := Comment.ID created;
           Comment.TenantID := CreateCommentRequest.TenantID req;
           Comment.ResourceType := CreateCommentRequest.ResourceType req;
           Comment.ResourceID := CreateCommentRequest.ResourceID req;
           Comment.ParentID := parentID;
           Comment.RootID := rootID;
           Comment.AuthorID := authorID;
           Comment.AuthorName :=
             if CreateCommentRequest.IsAnonymous req then "Anonymous"
             else if decide (CreateCommentRequest.AuthorName req = "") then authorName
                  else CreateCommentRequest.AuthorName req;
           Comment.AuthorEmail :=
             if CreateCommentRequest.IsAnonymous req then "" else authorEmail;
           Comment.AuthorAvatar := "";
           Comment.IsAnonymous := CreateCommentRequest.IsAnonymous req;
           Comment.Content := CreateCommentRequest.Content req;
           Comment.ContentHTML := "";
           Comment.Attachments := CreateCommentRequest.Attachments req;
           Comment.Status :=
             if CommentSettings.RequireApproval settings then StatusPending
             else StatusApproved;
           Comment.ModeratedBy := "";
           Comment.ModeratedAt := None;
           Comment.RejectionReason := "";
           Comment.FlaggedWords :=
             CommentUsecase.checkBadWords u (CreateCommentRequest.Content req)
               (CommentSettings.CustomBadWords settings);
           Comment.ReportCount := 0;
           Comment.IsPinned := false;
           Comment.PinnedBy := "";
           Comment.PinnedAt := None;
           Comment.IsEdited := false;
           Comment.EditHistory := [];
           Comment.ReplyCount := 0;
           Comment.LikeCount := 0;
           Comment.DislikeCount := 0;
           Comment.ReactionCounts := ∅;
           Comment.IPAddress := ipAddress;
           Comment.UserAgent := userAgent;
           Comment.Metadata := CreateCommentRequest.Metadata req;
           Comment.CreatedAt := createdAt;
           Comment.UpdatedAt := createdAt + 1;
           Comment.DeletedAt := None;
           Comment.IsDeleted := false;
           Comment.DeletedBy := "";
           Comment.Depth := depth |}
    ∧ comments w !! Comment.ID created = None
    ∧ let docs := <[Comment.ID created := created]> (comments w) in
      match parentID with
      | None => comments w' = docs ∧ logs w' = logs w
      | Some p =>
          (logs w' = logs w ∧ comments w' = reply_count_bumped p 1 (createdAt + 2) docs)
          ∨ (logs w' ≠ logs w ∧ comments w' = docs)
      end.
Proof.
  unfold CommentUsecase.CreateComment. intros Hrun. run_inv.
  match goal with x : (option N * option N * Z)%type |- _ =>
    destruct x as [[parentID rootID] depth] end.
  run_inv.
  match goal with H : SettingsRepository.GetOrCreate _ _ _ = (?w1, Ok ?s) |- _ =>
    rename H into Hset; exists s, w1, parentID, rootID, depth end.
  pose proof (GetOrCreate_comments _ _ _ _ _ Hset) as (Hc & Hl & Hk).
  match goal with H : CommentUsecase.resolve_parent _ _ _ = _ |- _ =>
    pose proof (resolve_parent_frame _ _ _ _ _ H) as (Hc1 & Hk1 & Hl1);
    apply resolve_parent_Ok_inv in H as (_ & Hthread) end.
  match goal with H : CommentRepository.Create _ ?w2 = _ |- _ =>
    exists (clock w2);
    pose proof (Create_clock _ _ _ _ H) as Hk2;
    apply Create_inv in H as (Hcreated & Hfree & Hst & Hl2) end.
  match goal with H : negb _ = false |- _ => apply negb_false_iff in H end.
  match goal with H : (_ <? _)%Z = false |- _ => apply Z.ltb_ge in H end.
  split; [exact Hset|]. split; [done|]. split; [done|]. split; [done|].
  split.
  { destruct (decide (CreateCommentRequest.ParentID req = "")).
    - tauto.
    - destruct Hthread as (pid & parent & Hpid & Hparent & Hallow & _ & _ & -> & _).
      exists pid, parent. rewrite Hc in Hparent. done. }
  split; [lia|].
  split.
  { rewrite Hcreated at 1. rewrite initial_status_ignores_flagged_words.
    cbn. f_equal. }
  rewrite Hc1, Hc in Hfree, Hst. split; [exact Hfree|]. cbv zeta.
  destruct parentID as [p|].
  - match goal with H : log_err _ _ _ = _ |- _ =>
      apply log_err_inv in H as [_ [[y Hinc]|(w3 & e & Hinc & ->)]] end.
    + pose proof (IncrementReplyCount_frame _ _ _ _ _ Hinc) as (Hl3 & _ & _).
      apply IncrementReplyCount_inv in Hinc. left. split; [congruence|].
      rewrite Hinc, Hst, Hk2. reflexivity.
    + pose proof (IncrementReplyCount_frame _ _ _ _ _ Hinc) as (Hl3 & _ & Hc3).
      world_simpl. right. split.
      * rewrite Hl3, Hl2, Hl1, Hl. apply snoc_neq.
      * rewrite (Hc3 I), Hst. reflexivity.
  - run_inv. split; [exact Hst|congruence].
Qed.

(** Every document after a [CreateComment] that returned a comment. *)
Lemma create_ok_lookup (u : CommentUsecase.t) (req : CreateCommentRequest.t)
  (authorID authorName authorEmail ipAddress userAgent : string) (w w' : World)
  (created : Comment.t) :
  CommentUsecase.CreateComment u req authorID authorName authorEmail ipAddress userAgent w
  = (w', Ok created) →
  comments w !! Comment.ID created = None
  ∧ comments w' !! Comment.ID created = Some created
  ∧ (∀ k, is_Some (comments w' !! k) ↔ k = Comment.ID created ∨ is_Some (comments w !! k))
  ∧ ∀ k doc, comments w !! k = Some doc →
      (logs w' = logs w →
       comments w' !! k
       = Some (if decide (Comment.ParentID created = Some k)
               then bumped 1 (Comment.UpdatedAt created + 1) doc else doc))
      ∧ (logs w' ≠ logs w → comments w' !! k = Some doc).
Proof.
  intros Hrun.
  apply create_ok_inv in Hrun
    as (settings & w1 & parentID & rootID & depth & createdAt & _ & _ & _ & _ & Hthread
        & _ & Hcreated & Hfree & Hst).
  cbv zeta in Hst.
  assert (Comment.ParentID created = parentID) as Hparent by (rewrite Hcreated; reflexivity).
  assert (Comment.UpdatedAt created + 1 = createdAt + 2)%Z as Htime
    by (rewrite Hcreated; simpl; lia).
  assert (∀ p, parentID = Some p → p ≠ Comment.ID created) as Hother.
  { intros p -> ->. destruct (decide (CreateCommentRequest.ParentID req = ""));
      [discriminate|].
    destruct Hthread as (pid & parent & _ & Hp & _ & Hpid). injection Hpid as <-. congruence. }
  set (docs := <[Comment.ID created := created]> (comments w)) in *.
  assert (∀ k, comments w' !! k
               = (if decide (parentID = Some k)
                  then bumped 1 (createdAt + 2) <$> docs !! k else docs !! k)
               ∧ logs w' = logs w
               ∨ comments w' !! k = docs !! k ∧ (logs w' ≠ logs w ∨ parentID = None))
    as Hlook.
  { intros k. destruct parentID as [p|].
    - destruct Hst as [[Hl ->]|[Hl ->]]; [left|right; auto].
      split; [|done]. rewrite lookup_reply_count_bumped.
      destruct (decide (p = k)) as [->|Hne];
        [rewrite decide_True by done|rewrite decide_False by congruence]; done.
    - destruct Hst as [-> Hl]. right. auto. }
  split; [exact Hfree|]. split; [|split].
  - destruct (Hlook (Comment.ID created)) as [[-> _]|[-> _]].
    + destruct (decide (parentID = Some (Comment.ID created))) as [Hp|_].
      * destruct (Hother _ Hp eq_refl).
      * apply lookup_insert_eq.
    + apply lookup_insert_eq.
  - intros k.
    assert (is_Some (comments w' !! k) ↔ is_Some (docs !! k)) as ->.
    { destruct (Hlook k) as [[-> _]|[-> _]]; [|done].
      destruct (decide (parentID = Some k)); [apply fmap_is_Some|done]. }
    unfold docs. rewrite lookup_insert_is_Some'. intuition congruence.
  - intros k doc Hk.
    assert (docs !! k = Some doc) as Hdocs.
    { unfold docs. rewrite lookup_insert_ne; [done|]. congruence. }
    rewrite Hparent, Htime. split; intros Hl.
    + destruct (Hlook k) as [[-> _]|[-> [Hl' | ->]]].
      * rewrite Hdocs. destruct (decide (parentID = Some k)); done.
      * contradiction.
      * rewrite decide_False by done. done.
    + destruct (Hlook k) as [[_ Hl']|[-> _]]; [contradiction|done].
Qed.

(** X1. A successful [CreateComment] stores the comment it returns under an id
    that was free, and keeps every document there was. Unless the counter
    update was logged as failed, the parent of a reply has its reply count
    raised by 1 and its update time set; every other document is left as it
    was. *)
Theorem create_stores_the_comment (u : CommentUsecase.t) (req : CreateCommentRequest.t)
  (authorID authorName authorEmail ipAddress userAgent : string) (w w' : World)
  (created : Comment.t) :
  CommentUsecase.CreateComment u req authorID authorName authorEmail ipAddress userAgent w
  = (w', Ok created) →
  comments w !! Comment.ID created = None
  ∧ comments w' !! Comment.ID created = Some created
  ∧ (∀ k, is_Some (comments w' !! k) ↔ k = Comment.ID created ∨ is_Some (comments w !! k))
  ∧ ∀ k doc, comments w !! k = Some doc →
      (logs w' = logs w →
       comments w' !! k
       = Some (if decide (Comment.ParentID created = Some k)
               then bumped 1 (Comment.UpdatedAt created + 1) doc else doc))
      ∧ (logs w' ≠ logs w → comments w' !! k = Some doc).
Proof. apply create_ok_lookup. Qed.

(** X2. A comment is created only within the settings of its resource type:
    comments are enabled, the content is not longer than the maximum, an
    anonymous comment needs anonymous comments allowed and a reply needs
    replies allowed. The settings are the ones [GetOrCreate] resolves for
    the tenant and resource type of the request. *)
Theorem create_respects_settings (u : CommentUsecase.t) (req : CreateCommentRequest.t)
  (authorID authorName authorEmail ipAddress userAgent : string) (w w' : World)
  (created : Comment.t) :
  CommentUsecase.CreateComment u req authorID authorName authorEmail ipAddress userAgent w
  = (w', Ok created) →
  ∃ (settings : CommentSettings.t) (w1 : World),
    SettingsRepository.GetOrCreate (CreateCommentRequest.TenantID req)
      (CreateCommentRequest.ResourceType req) w = (w1, Ok settings)
    ∧ CommentSettings.CommentsEnabled settings = true
    ∧ (len (Comment.Content created) <= CommentSettings.MaxCommentLength settings)%Z
    ∧ (Comment.IsAnonymous created = true → CommentSettings.AllowAnonymous settings = true)
    ∧ (Comment.ParentID created ≠ None → CommentSettings.AllowReplies settings = true).
Proof.
  intros Hrun.
  apply create_ok_inv in Hrun
    as (settings & w1 & parentID & rootID & depth & createdAt & Hset & Hen & Hanon & Hlen
        & Hthread & _ & Hcreated & _).
  exists settings, w1. rewrite Hcreated. cbn.
  split; [exact Hset|]. split; [exact Hen|]. split; [exact Hlen|]. split.
  - intros Ha. rewrite Ha in Hanon. simpl in Hanon. apply negb_false_iff in Hanon. exact Hanon.
  - intros Hp. destruct (decide (CreateCommentRequest.ParentID req = "")); [done|].
    destruct Hthread as (pid & parent & _ & _ & Hallow & _). exact Hallow.
Qed.

(** X3. The comment [CreateComment] returns carries the resource, content,
    attachments and metadata of the request and the caller's id, address
    and user agent. An anonymous comment is named "Anonymous" and carries
    no e-mail address, but still the caller's id; otherwise the name is the
    one of the request when it gives one, and the caller's name when not.
    The comment starts with all counters at zero and is not pinned, edited,
    moderated or deleted. *)
Theorem create_records_request_and_author (u : CommentUsecase.t)
  (req : CreateCommentRequest.t)
  (authorID authorName authorEmail ipAddress userAgent : string) (w w' : World)
  (created : Comment.t) :
  CommentUsecase.CreateComment u req authorID authorName authorEmail ipAddress userAgent w
  = (w', Ok created) →
  (Comment.TenantID created = CreateCommentRequest.TenantID req
   ∧ Comment.ResourceType created = CreateCommentRequest.ResourceType req
   ∧ Comment.ResourceID created = CreateCommentRequest.ResourceID req
   ∧ Comment.Content created = CreateCommentRequest.Content req
   ∧ Comment.Attachments created = CreateCommentRequest.Attachments req
   ∧ Comment.Metadata created = CreateCommentRequest.Metadata req)
  ∧ (Comment.AuthorID created = authorID
     ∧ Comment.IPAddress created = ipAddress
     ∧ Comment.UserAgent created = userAgent
     ∧ Comment.IsAnonymous created = CreateCommentRequest.IsAnonymous req
     ∧ Comment.AuthorName created
       = (if CreateCommentRequest.IsAnonymous req then "Anonymous"
          else if decide (CreateCommentRequest.AuthorName req = "") then authorName
               else CreateCommentRequest.AuthorName req)
     ∧ Comment.AuthorEmail created
       = (if CreateCommentRequest.IsAnonymous req then "" else authorEmail))
  ∧ (Comment.ReplyCount created = 0%Z
     ∧ Comment.LikeCount created = 0%Z
     ∧ Comment.DislikeCount created = 0%Z
     ∧ Comment.ReportCount created = 0%Z
     ∧ Comment.ReactionCounts created = ∅
     ∧ Comment.IsPinned created = false
     ∧ Comment.IsEdited created = false
     ∧ Comment.EditHistory created = []
     ∧ Comment.IsDeleted created = false
     ∧ Comment.DeletedAt created = None
     ∧ Comment.ModeratedBy created = ""
     ∧ Comment.ModeratedAt created = None).
Proof.
  intros Hrun.
  apply create_ok_inv in Hrun
    as (settings & w1 & parentID & rootID & depth & createdAt & _ & _ & _ & _ & _ & _
        & Hcreated & _).
  rewrite Hcreated. cbn. done.
Qed.

(** ** Operations that fail *)

Lemma fail_if_bind_run {B : Type} (cond : bool) (e : error) (k : unit → M B) (w : World) :
  (fail_if cond e ≫= k) w = if cond then (w, Err e) else k tt w.
Proof. destruct cond; reflexivity. Qed.

Lemma fetch_frame (id : string) (w w' : World) (r : result (ObjectID * Comment.t)) :
  CommentUsecase.fetch id w = (w', r) →
  comments w' = comments w ∧ clock w' = clock w ∧ logs w' = logs w
  ∧ settings w' = settings w.
Proof.
  rewrite fetch_run. destruct (ObjectIDFromHex id) as [oid|].
  - cbv zeta. destruct (default false (head (outages w)));
      [|destruct (comments w !! oid)]; intros E; injection E as <- <-; done.
  - intros E; injection E as <- <-; done.
Qed.

Lemma UpdateOne_Err_frame (id : ObjectID) (update : Comment.t → result Comment.t)
  (w w' : World) (e : error) :
  comments_UpdateOne id update w = (w', Err e) → comments w' = comments w.
Proof.
  unfold comments_UpdateOne, mbind, M_bind, round_trip, get_world, modify, mret, M_ret, throw.
  destruct w as [docs s k o out l]; simpl.
  destruct out as [|[] rest]; simpl; try (intros E; injection E as <- <-; done);
    (destruct (docs !! id) as [doc|]; [destruct (update doc)|]);
    intros E; try discriminate; injection E as <- <-; done.
Qed.

Lemma Update_Err_frame (c : Comment.t) (w w' : World) (e : error) :
  CommentRepository.Update c w = (w', Err e) → comments w' = comments w.
Proof.
  unfold CommentRepository.Update. rewrite bind_run. unfold time_Now at 1.
  rewrite bind_run.
  match goal with |- context [comments_UpdateOne ?i ?f ?v] =>
    destruct (comments_UpdateOne i f v) as [w1 [[]|e1]] eqn:Hup end.
  - discriminate.
  - apply UpdateOne_Err_frame in Hup. intros E. injection E as <- _. exact Hup.
Qed.

Lemma SoftDelete_Err_frame (id : ObjectID) (deletedBy : string) (w w' : World) (e : error) :
  CommentRepository.SoftDelete id deletedBy w = (w', Err e) → comments w' = comments w.
Proof.
  unfold CommentRepository.SoftDelete. rewrite bind_run. unfold time_Now at 1.
  intros E. apply UpdateOne_Err_frame in E. exact E.
Qed.

Lemma failed_operations_frame (u : CommentUsecase.t) (w w' : World)
  (e : error) :
  (∀ req authorID authorName authorEmail ipAddress userAgent,
     CommentUsecase.CreateComment u req authorID authorName authorEmail ipAddress userAgent w
     = (w', Err e) → comments w' = comments w)
  ∧ (∀ id req userID isAdmin,
       CommentUsecase.UpdateComment u id req userID isAdmin w = (w', Err e) →
       comments w' = comments w)
  ∧ (∀ id userID isAdmin,
       CommentUsecase.DeleteComment u id userID isAdmin w = (w', Err e) →
       comments w' = comments w)
  ∧ (∀ id req moderatorID,
       CommentUsecase.ModerateComment u id req moderatorID w = (w', Err e) →
       comments w' = comments w)
  ∧ (∀ id isPinned userID,
       CommentUsecase.PinComment u id isPinned userID w = (w', Err e) →
       comments w' = comments w).
Proof.
  split; [|split; [|split; [|split]]].
  - intros req authorID authorName authorEmail ipAddress userAgent.
    unfold CommentUsecase.CreateComment. rewrite bind_run. unfold wrap_err at 1.
    destruct (SettingsRepository.GetOrCreate _ _ w) as [w1 [settings|e1]] eqn:Hset;
      apply GetOrCreate_comments in Hset as (Hc & _ & _);
      [|intros E; injection E as <- _; exact Hc].
    rewrite !fail_if_bind_run.
    destruct (negb (CommentSettings.CommentsEnabled settings));
      [intros E; injection E as <- _; exact Hc|].
    destruct (CreateCommentRequest.IsAnonymous req
              && negb (CommentSettings.AllowAnonymous settings));
      [intros E; injection E as <- _; exact Hc|].
    destruct (CommentSettings.MaxCommentLength settings
              <? len (CreateCommentRequest.Content req))%Z;
      [intros E; injection E as <- _; exact Hc|].
    rewrite bind_run.
    destruct (CommentUsecase.resolve_parent req settings w1)
      as [w2 [[[parentID rootID] depth]|e2]] eqn:Hres;
      apply resolve_parent_frame in Hres as (Hc2 & _ & _);
      [|intros E; injection E as <- _; congruence].
    rewrite bind_run. unfold wrap_err at 1.
    match goal with |- context [CommentRepository.Create ?c w2] =>
      destruct (CommentRepository.Create c w2) as [w3 [c'|e3]] eqn:Hcr end.
    + rewrite bind_run. destruct parentID as [p|].
      * match goal with |- context [log_err ?f ?m w3] =>
          destruct (log_err_run f m w3) as [w4 ->] end. discriminate.
      * discriminate.
    + apply Create_Err_frame in Hcr. intros E. injection E as <- _. congruence.
  - intros id req userID isAdmin.
    unfold CommentUsecase.UpdateComment. rewrite bind_run.
    destruct (CommentUsecase.fetch id w) as [w1 [[oid c]|e1]] eqn:Hf;
      apply fetch_frame in Hf as (Hc & _);
      [|intros E; injection E as <- _; exact Hc].
    rewrite !fail_if_bind_run.
    destruct (bool_decide (Comment.AuthorID c ≠ userID) && negb isAdmin);
      [intros E; injection E as <- _; exact Hc|].
    destruct (Comment.IsDeleted c); [intros E; injection E as <- _; exact Hc|].
    rewrite bind_run. unfold wrap_err at 1.
    destruct (SettingsRepository.GetOrCreate _ _ w1) as [w2 [settings|e2]] eqn:Hset;
      apply GetOrCreate_comments in Hset as (Hc2 & _ & _);
      [|intros E; injection E as <- _; congruence].
    rewrite fail_if_bind_run.
    destruct (CommentSettings.MaxCommentLength settings
              <? len (UpdateCommentRequest.Content req))%Z;
      [intros E; injection E as <- _; congruence|].
    rewrite bind_run. unfold time_Now at 1. rewrite bind_run. unfold wrap_err at 1.
    match goal with |- context [CommentRepository.Update ?c' ?v] =>
      destruct (CommentRepository.Update c' v) as [w3 [c2|e3]] eqn:Hup end;
      [discriminate|].
    apply Update_Err_frame in Hup. intros E. injection E as <- _.
    rewrite Hup. simpl. congruence.
  - intros id userID isAdmin.
    unfold CommentUsecase.DeleteComment. rewrite bind_run.
    destruct (CommentUsecase.fetch id w) as [w1 [[oid c]|e1]] eqn:Hf;
      apply fetch_frame in Hf as (Hc & _);
      [|intros E; injection E as <- _; exact Hc].
    rewrite !fail_if_bind_run.
    destruct (bool_decide (Comment.AuthorID c ≠ userID) && negb isAdmin);
      [intros E; injection E as <- _; exact Hc|].
    rewrite bind_run. unfold wrap_err at 1.
    destruct (CommentRepository.SoftDelete oid userID w1) as [w2 [[]|e2]] eqn:Hdel.
    + rewrite bind_run. destruct (Comment.ParentID c) as [p|].
      * match goal with |- context [log_err ?f ?m w2] =>
          destruct (log_err_run f m w2) as [w3 ->] end. discriminate.
      * discriminate.
    + apply SoftDelete_Err_frame in Hdel. intros E. injection E as <- _. congruence.
  - intros id req moderatorID.
    unfold CommentUsecase.ModerateComment. rewrite bind_run.
    destruct (CommentUsecase.fetch id w) as [w1 [[oid c]|e1]] eqn:Hf;
      apply fetch_frame in Hf as (Hc & _);
      [|intros E; injection E as <- _; exact Hc].
    rewrite bind_run. unfold time_Now at 1. rewrite bind_run. unfold wrap_err at 1.
    match goal with |- context [CommentRepository.Update ?c' ?v] =>
      destruct (CommentRepository.Update c' v) as [w3 [c2|e3]] eqn:Hup end;
      [discriminate|].
    apply Update_Err_frame in Hup. intros E. injection E as <- _.
    rewrite Hup. simpl. congruence.
  - intros id isPinned userID.
    unfold CommentUsecase.PinComment. rewrite bind_run.
    destruct (CommentUsecase.fetch id w) as [w1 [[oid c]|e1]] eqn:Hf;
      apply fetch_frame in Hf as (Hc & _);
      [|intros E; injection E as <- _; exact Hc].
    rewrite bind_run. unfold time_Now at 1. rewrite bind_run. unfold wrap_err at 1.
    match goal with |- context [CommentRepository.Update ?c' ?v] =>
      destruct (CommentRepository.Update c' v) as [w3 [c2|e3]] eqn:Hup end;
      [discriminate|].
    apply Update_Err_frame in Hup. intros E. injection E as <- _.
    rewrite Hup. simpl. congruence.
Qed.

(** X4. No operation that changes comments leaves a trace in the collection
    when it returns an error: after a failed [CreateComment],
    [UpdateComment], [DeleteComment], [ModerateComment] or [PinComment] the
    collection holds what it held before. *)
Theorem failed_operations_change_no_comment (u : CommentUsecase.t) (w w' : World)
  (e : error) :
  (∀ req authorID authorName authorEmail ipAddress userAgent,
     CommentUsecase.CreateComment u req authorID authorName authorEmail ipAddress userAgent w
     = (w', Err e) → comments w' = comments w)
  ∧ (∀ id req userID isAdmin,
       CommentUsecase.UpdateComment u id req userID isAdmin w = (w', Err e) →
       comments w' = comments w)
  ∧ (∀ id userID isAdmin,
       CommentUsecase.DeleteComment u id userID isAdmin w = (w', Err e) →
       comments w' = comments w)
  ∧ (∀ id req moderatorID,
       CommentUsecase.ModerateComment u id req moderatorID w = (w', Err e) →
       comments w' = comments w)
  ∧ (∀ id isPinned userID,
       CommentUsecase.PinComment u id isPinned userID w = (w', Err e) →
       comments w' = comments w).
Proof. apply failed_operations_frame. Qed.

(** ** Editing and pinning *)

(** What an [UpdateComment] that returned a comment has done. *)
Lemma update_ok_inv (u : CommentUsecase.t) (id : string) (req : UpdateCommentRequest.t)
  (userID : string) (isAdmin : bool) (w w' : World) (updated : Comment.t) :
  CommentUsecase.UpdateComment u id req userID isAdmin w = (w', Ok updated) →
  ∃ (oid : ObjectID) (before : Comment.t) (settings : CommentSettings.t) (w1 : World)
    (editedAt : Time),
    ObjectIDFromHex id = Some oid
    ∧ comments w !! oid = Some before
    ∧ bool_decide (Comment.AuthorID before ≠ userID) && negb isAdmin = false
    ∧ Comment.IsDeleted before = false
    ∧ SettingsRepository.GetOrCreate (Comment.TenantID before) (Comment.ResourceType before)
        (set_outages (tail (outages w)) w) = (w1, Ok settings)
    ∧ (len (UpdateCommentRequest.Content req) <= CommentSettings.MaxCommentLength settings)%Z
    ∧ (clock w <= editedAt)%Z
    ∧ (let flaggedWords :=
         CommentUsecase.checkBadWords u (UpdateCommentRequest.Content req)
           (CommentSettings.CustomBadWords settings) in
       let edited :=
         Comment.set_FlaggedWords flaggedWords
           (Comment.set_IsEdited true
              (Comment.set_Attachments (UpdateCommentRequest.Attachments req)
                 (Comment.set_Content (UpdateCommentRequest.Content req)
                    (Comment.set_EditHistory
                       (Comment.EditHistory before
                        ++ [{| EditRecord.Content := Comment.Content before;
                               EditRecord.EditedAt := editedAt;
                               EditRecord.EditedBy := userID |}])
                       (decode oid before))))) in
       updated
       = Comment.set_UpdatedAt (editedAt + 1)
           (if bool_decide (0 < length flaggedWords)%nat
               && CommentSettings.RequireApproval settings
            then Comment.set_Status StatusPending edited else edited))
    ∧ comments w' = <[oid := bson_set_comment updated before]> (comments w).
Proof.
  unfold CommentUsecase.UpdateComment. intros E. run_inv.
  destruct x as [oid c]. run_inv.
  match goal with H : CommentUsecase.fetch _ _ = _ |- _ =>
    apply fetch_Ok_inv in H as (Hoid & (doc & Hdoc & ->) & ->) end.
  match goal with H : SettingsRepository.GetOrCreate _ _ _ = (?w1, Ok ?s) |- _ =>
    rename H into Hset; exists oid, doc, s, w1, (clock w1) end.
  pose proof (GetOrCreate_comments _ _ _ _ _ Hset) as (Hc & _ & Hclk).
  match goal with H : CommentRepository.Update _ _ = _ |- _ =>
    apply Update_inv in H as (-> & _ & _ & Hst) end.
  match goal with H : (_ <? _)%Z = false |- _ => apply Z.ltb_ge in H end.
  match goal with H : _ && negb isAdmin = false |- _ => rename H into Hauth end.
  split; [done|]. split; [done|]. split; [exact Hauth|]. split; [done|].
  split; [exact Hset|]. split; [done|]. split; [exact Hclk|].
  world_simpl. cbv zeta. split.
  - match goal with |- context [if ?b then _ else _] => destruct b end; reflexivity.
  - match type of Hst with context [if ?b then _ else _] => destruct b end;
      simpl in Hst; rewrite Hc, Hdoc in Hst; exact Hst.
Qed.

(** X5. [UpdateComment] edits a comment only for its author or an admin, only
    while it is not deleted and only with a content within the maximum
    length of the settings of the comment's resource type. It changes the
    content, the attachments, the flagged words, the edit history, the
    edited mark and the update time; the status becomes pending when a word
    is flagged and the settings require approval, and stays as it was
    otherwise. Nothing else differs between the comment returned and the
    one that was stored. *)
Theorem update_changes_only_the_edit (u : CommentUsecase.t) (id : string)
  (req : UpdateCommentRequest.t) (userID : string) (isAdmin : bool) (w w' : World)
  (updated : Comment.t) :
  CommentUsecase.UpdateComment u id req userID isAdmin w = (w', Ok updated) →
  ∃ (oid : ObjectID) (before : Comment.t) (settings : CommentSettings.t) (w1 : World),
    ObjectIDFromHex id = Some oid
    ∧ comments w !! oid = Some before
    ∧ (Comment.AuthorID before = userID ∨ isAdmin = true)
    ∧ Comment.IsDeleted before = false
    ∧ SettingsRepository.GetOrCreate (Comment.TenantID before) (Comment.ResourceType before)
        (set_outages (tail (outages w)) w) = (w1, Ok settings)
    ∧ (len (Comment.Content updated) <= CommentSettings.MaxCommentLength settings)%Z
    ∧ Comment.Status updated
      = (if bool_decide (Comment.FlaggedWords updated ≠ [])
            && CommentSettings.RequireApproval settings
         then StatusPending else Comment.Status before)
    ∧ Comment.set_UpdatedAt (Comment.UpdatedAt before)
        (Comment.set_Status (Comment.Status before)
           (Comment.set_FlaggedWords (Comment.FlaggedWords before)
              (Comment.set_IsEdited (Comment.IsEdited before)
                 (Comment.set_Attachments (Comment.Attachments before)
                    (Comment.set_Content (Comment.Content before)
                       (Comment.set_EditHistory (Comment.EditHistory before) updated))))))
      = decode oid before.
Proof.
  intros E.
  apply update_ok_inv in E
    as (oid & before & settings & w1 & editedAt & Hoid & Hdoc & Hauth & Hdel & Hset & Hlen
        & _ & Hupdated & _).
  exists oid, before, settings, w1. cbv zeta in Hupdated.
  split; [done|]. split; [done|]. split.
  { apply andb_false_iff in Hauth as [Ha|Ha].
    - left. apply bool_decide_eq_false_1 in Ha.
      destruct (decide (Comment.AuthorID before = userID)); [done|contradiction].
    - right. apply negb_false_iff in Ha. exact Ha. }
  split; [done|]. split; [exact Hset|].
  set (flagged := CommentUsecase.checkBadWords u (UpdateCommentRequest.Content req)
                    (CommentSettings.CustomBadWords settings)) in *.
  assert (bool_decide (0 < length flagged)%nat = bool_decide (flagged ≠ [])) as Hflag.
  { apply bool_decide_ext. clearbody flagged. destruct flagged; simpl; split; intros;
      try done; lia. }
  rewrite Hflag in Hupdated. rewrite Hupdated.
  destruct (bool_decide (flagged ≠ []) && CommentSettings.RequireApproval settings) eqn:Hb;
    cbn; rewrite ?Hb; (split; [exact Hlen|]); (split; [reflexivity|]);
    destruct before; reflexivity.
Qed.

Lemma omitempty_slice_decide {A : Type} (new old : list A) :
  omitempty_slice new old = if decide (new = []) then old else new.
Proof.
  destruct new; cbn [omitempty_slice];
    match goal with |- context [decide ?P] => destruct (decide P) end; done.
Qed.

(** X6. An edit cannot empty what is stored: the update leaves out of its
    [$set] every list that is empty, so when the request carries no
    attachment the stored comment keeps the attachments it had, and when no
    word of the new content is flagged it keeps the flagged words of the old
    content, while the comment returned to the caller shows neither. *)
Theorem update_cannot_empty_stored_lists (u : CommentUsecase.t) (id : string)
  (req : UpdateCommentRequest.t) (userID : string) (isAdmin : bool) (w w' : World)
  (updated : Comment.t) :
  CommentUsecase.UpdateComment u id req userID isAdmin w = (w', Ok updated) →
  ∃ (oid : ObjectID) (before stored : Comment.t),
    ObjectIDFromHex id = Some oid
    ∧ comments w !! oid = Some before
    ∧ comments w' !! oid = Some stored
    ∧ Comment.Attachments updated = UpdateCommentRequest.Attachments req
    ∧ Comment.Attachments stored
      = (if decide (UpdateCommentRequest.Attachments req = [])
         then Comment.Attachments before else UpdateCommentRequest.Attachments req)
    ∧ Comment.FlaggedWords stored
      = (if decide (Comment.FlaggedWords updated = [])
         then Comment.FlaggedWords before else Comment.FlaggedWords updated)
    ∧ Comment.Content stored = UpdateCommentRequest.Content req
    ∧ Comment.Status stored = Comment.Status updated.
Proof.
  intros E.
  apply update_ok_inv in E
    as (oid & before & settings & w1 & editedAt & Hoid & Hdoc & _ & _ & _ & _ & _
        & Hupdated & Hst).
  exists oid, before, (bson_set_comment updated before). cbv zeta in Hupdated.
  split; [done|]. split; [done|]. split; [rewrite Hst; apply lookup_insert_eq|].
  cbn [bson_set_comment Comment.Attachments Comment.FlaggedWords Comment.Content
       Comment.Status].
  rewrite !omitempty_slice_decide.
  assert (Comment.Attachments updated = UpdateCommentRequest.Attachments req) as Hatt.
  { rewrite Hupdated. match goal with |- context [if ?b then _ else _] => destruct b end;
      reflexivity. }
  assert (Comment.Content updated = UpdateCommentRequest.Content req) as Hcontent.
  { rewrite Hupdated. match goal with |- context [if ?b then _ else _] => destruct b end;
      reflexivity. }
  rewrite Hatt, Hcontent. done.
Qed.

(** X7. [PinComment] sets the pin state asked for, on the comment returned and
    on the one stored, for whatever caller and whether or not the comment
    is deleted. Pinning records who pinned and when. Unpinning clears both
    on the comment returned only: the update leaves empty fields out of its
    [$set], so the stored comment keeps the name and time of the last pin.
    Nothing else changes but the update time, and no other document is
    touched. *)
Theorem pin_sets_state_and_unpin_keeps_stored_pinner (u : CommentUsecase.t) (id : string)
  (isPinned : bool) (userID : string) (w w' : World) (pinned : Comment.t) :
  CommentUsecase.PinComment u id isPinned userID w = (w', Ok pinned) →
  ∃ (oid : ObjectID) (before stored : Comment.t),
    ObjectIDFromHex id = Some oid
    ∧ comments w !! oid = Some before
    ∧ comments w' !! oid = Some stored
    ∧ (∀ k, k ≠ oid → comments w' !! k = comments w !! k)
    ∧ Comment.IsPinned pinned = isPinned
    ∧ Comment.IsPinned stored = isPinned
    ∧ (if isPinned
       then Comment.PinnedBy pinned = userID
            ∧ Comment.PinnedAt pinned = Some (clock w)
            ∧ Comment.PinnedBy stored
              = (if decide (userID = "") then Comment.PinnedBy before else userID)
            ∧ Comment.PinnedAt stored = Some (clock w)
       else Comment.PinnedBy pinned = ""
            ∧ Comment.PinnedAt pinned = None
            ∧ Comment.PinnedBy stored = Comment.PinnedBy before
            ∧ Comment.PinnedAt stored = Comment.PinnedAt before)
    ∧ Comment.set_UpdatedAt (Comment.UpdatedAt before)
        (Comment.set_PinnedAt (Comment.PinnedAt before)
           (Comment.set_PinnedBy (Comment.PinnedBy before)
              (Comment.set_IsPinned (Comment.IsPinned before) pinned)))
      = decode oid before.
Proof.
  unfold CommentUsecase.PinComment. intros E. run_inv.
  destruct x as [oid c]. run_inv.
  match goal with H : CommentUsecase.fetch _ _ = _ |- _ =>
    apply fetch_Ok_inv in H as (Hoid & (before & Hdoc & ->) & ->) end.
  match goal with H : CommentRepository.Update _ _ = _ |- _ =>
    apply Update_inv in H as (-> & _ & _ & Hst) end.
  world_simpl.
  exists oid, before.
  destruct isPinned; simpl in Hst; rewrite Hdoc in Hst;
    (eexists; split; [done|]; split; [done|];
     split; [rewrite Hst; apply lookup_insert_eq|];
     split; [intros k Hk; rewrite Hst; apply lookup_insert_ne; congruence|]);
    cbn; unfold omitempty_string; repeat split; try done; destruct before; reflexivity.
Qed.

(** ** Operations one after the other *)

(** The outcome of [GetComment]. *)
Lemma GetComment_run (u : CommentUsecase.t) (id : string) (w : World) :
  CommentUsecase.GetComment u id w
  = match ObjectIDFromHex id with
    | None => (w, Err (Errorf "invalid comment ID"))
    | Some oid =>
        let w1 := set_outages (tail (outages w)) w in
        if default false (head (outages w)) then (w1, Err mongo_error)
        else match comments w !! oid with
             | None => (w1, Err (Errorf "comment not found"))
             | Some doc => (w1, Ok (decode oid doc))
             end
    end.
Proof.
  unfold CommentUsecase.GetComment. destruct (ObjectIDFromHex id) as [oid|]; [|reflexivity].
  unfold CommentRepository.GetByID, comments_FindOne.
  rewrite !bind_run. destruct (round_trip w) as [w1 r] eqn:Hrt.
  apply round_trip_inv in Hrt as [-> ->].
  destruct (default false (head (outages w))); [reflexivity|].
  rewrite bind_run. unfold get_world. cbv beta iota. world_simpl.
  destruct (comments w !! oid); reflexivity.
Qed.

(** X8. The comment [CreateComment] returns is the one [GetComment] finds under
    its id written in hexadecimal, as long as the store answers: with its
    id, its status and its times, and with no reply yet. *)
Theorem created_comment_is_found_by_its_id (u : CommentUsecase.t)
  (req : CreateCommentRequest.t)
  (authorID authorName authorEmail ipAddress userAgent : string) (w w' : World)
  (created : Comment.t) :
  CommentUsecase.CreateComment u req authorID authorName authorEmail ipAddress userAgent w
  = (w', Ok created) →
  (Comment.ID created < 2 ^ 96)%N →
  head (outages w') ≠ Some true →
  (CommentUsecase.GetComment u (ObjectID_Hex (Comment.ID created)) w').2 = Ok created.
Proof.
  intros Hrun Hid Hup. apply create_ok_lookup in Hrun as (_ & Hstored & _).
  rewrite GetComment_run, ObjectIDFromHex_Hex by exact Hid. cbv zeta.
  destruct (head (outages w')) as [[]|]; [done| |]; simpl; rewrite Hstored; simpl;
    f_equal; destruct created; reflexivity.
Qed.

Lemma bumped_back (t1 t2 : Time) (doc : Comment.t) :
  Comment.set_UpdatedAt (Comment.UpdatedAt doc) (bumped (-1) t2 (bumped 1 t1 doc)) = doc.
Proof.
  destruct doc. cbv -[Z.add].
  match goal with |- context [(?n + 1 + -1)%Z] =>
    replace (n + 1 + -1)%Z with n by lia end.
  reflexivity.
Qed.

(** X9. A reply that is created and then soft-deleted leaves the reply count of
    every comment there was as it found it, that of its parent included,
    when neither counter update was logged as failed; the reply itself stays
    in the collection, marked as deleted. *)
Theorem reply_then_delete_restores_reply_count (u : CommentUsecase.t)
  (req : CreateCommentRequest.t)
  (authorID authorName authorEmail ipAddress userAgent : string) (id userID : string)
  (isAdmin : bool) (w w1 w2 : World) (created : Comment.t) :
  CommentUsecase.CreateComment u req authorID authorName authorEmail ipAddress userAgent w
  = (w1, Ok created) →
  ObjectIDFromHex id = Some (Comment.ID created) →
  CommentUsecase.DeleteComment u id userID isAdmin w1 = (w2, Ok tt) →
  logs w1 = logs w →
  logs w2 = logs w1 →
  (∀ k doc, comments w !! k = Some doc →
     ∃ doc', comments w2 !! k = Some doc'
             ∧ Comment.ReplyCount doc' = Comment.ReplyCount doc
             ∧ Comment.set_UpdatedAt (Comment.UpdatedAt doc) doc' = doc)
  ∧ ∃ reply, comments w2 !! Comment.ID created = Some reply
             ∧ Comment.IsDeleted reply = true
             ∧ Comment.Content reply = CreateCommentRequest.Content req.
Proof.
  intros Hcreate Hid Hdelete Hl1 Hl2.
  assert (Comment.Content created = CreateCommentRequest.Content req) as Hcontent.
  { apply create_ok_inv in Hcreate
      as (? & ? & ? & ? & ? & ? & _ & _ & _ & _ & _ & _ & -> & _). reflexivity. }
  apply create_ok_lookup in Hcreate as (Hfree & Hstored & _ & Hkeep).
  pose proof (delete_ok_lookup _ _ _ _ _ _ _ _ _ Hdelete Hid Hstored (or_introl Hl2))
    as Hlook.
  cbv zeta in Hlook. split.
  - intros k doc Hk. destruct (Hkeep k doc Hk) as [Hk1 _]. specialize (Hk1 Hl1).
    assert (k ≠ Comment.ID created) as Hne by congruence.
    rewrite Hlook, lookup_insert_ne, Hk1 by congruence.
    destruct (decide (Comment.ParentID created = Some k)); simpl;
      eexists; (split; [reflexivity|]); simpl; (split; [lia|]).
    + apply bumped_back.
    + destruct doc; reflexivity.
  - rewrite Hlook, lookup_insert_eq.
    destruct (decide (Comment.ParentID created = Some (Comment.ID created)));
      eexists; (split; [reflexivity|]); simpl; done.
Qed.

(** X10. A soft-deleted comment stays in the collection: [GetComment] still
    returns it, marked as deleted by the caller of [DeleteComment]. It can
    no longer be edited, by its author or by an admin: [UpdateComment] on it
    returns an error and changes nothing. *)
Theorem deleted_comment_is_readable_not_editable (u : CommentUsecase.t) (id userID : string)
  (isAdmin : bool) (w w' : World) :
  CommentUsecase.DeleteComment u id userID isAdmin w = (w', Ok tt) →
  (head (outages w') ≠ Some true →
   ∃ c, (CommentUsecase.GetComment u id w').2 = Ok c
        ∧ Comment.IsDeleted c = true
        ∧ Comment.DeletedBy c = userID)
  ∧ ∀ req editor admin w2 r,
      CommentUsecase.UpdateComment u id req editor admin w' = (w2, r) →
      is_Err r
      ∧ comments w2 = comments w'
      ∧ (head (outages w') ≠ Some true → admin = true →
         r = Err (Errorf "cannot edit deleted comment")).
Proof.
  intros Hdelete.
  apply delete_ok_inv in Hdelete as (oid & before & Hoid & Hdoc & _ & _ & Hafter).
  cbv zeta in Hafter.
  assert (∃ after, comments w' !! oid = Some after
                   ∧ Comment.IsDeleted after = true
                   ∧ Comment.DeletedBy after = userID) as (after & Hstored & Hdel & Hby).
  { destruct (Comment.ParentID before) as [p|].
    - destruct Hafter as [[_ ->]|(_ & -> & _)].
      + rewrite lookup_reply_count_bumped, lookup_insert_eq.
        destruct (decide (p = oid)); eexists; (split; [reflexivity|]); done.
      + rewrite lookup_insert_eq. eexists; (split; [reflexivity|]); done.
    - destruct Hafter as [-> _]. rewrite lookup_insert_eq.
      eexists; (split; [reflexivity|]); done. }
  split.
  - intros Hup. rewrite GetComment_run, Hoid. cbv zeta.
    destruct (head (outages w')) as [[]|]; [done| |]; simpl; rewrite Hstored; simpl;
      eexists; (split; [reflexivity|]); done.
  - intros req editor admin w2 r. unfold CommentUsecase.UpdateComment.
    rewrite bind_run, fetch_run, Hoid. cbv zeta.
    destruct (default false (head (outages w'))) eqn:Hout.
    { intros E. injection E as <- <-. split; [done|]. split; [done|].
      intros Hup. destruct (head (outages w')) as [[]|]; done. }
    rewrite Hstored. rewrite fail_if_bind_run.
    change (Comment.AuthorID (decode oid after)) with (Comment.AuthorID after).
    destruct (bool_decide (Comment.AuthorID after ≠ editor) && negb admin) eqn:Hauth.
    { intros E. injection E as <- <-. split; [done|]. split; [done|].
      intros _ ->. rewrite andb_false_r in Hauth. discriminate. }
    rewrite fail_if_bind_run.
    change (Comment.IsDeleted (decode oid after)) with (Comment.IsDeleted after).
    rewrite Hdel. intros E. injection E as <- <-. done.
Qed.

(** ** Settings *)

Lemma GetOrCreate_found (tenantID resourceType : string) (w : World)
  (found : CommentSettings.t) :
  settings w !! (tenantID, resourceType) = Some found →
  head (outages w) ≠ Some true →
  SettingsRepository.GetOrCreate tenantID resourceType w
  = (set_outages (tail (outages w)) w, Ok found).
Proof.
  intros Hfound Hup. unfold SettingsRepository.GetOrCreate.
  rewrite bind_run. destruct (round_trip w) as [w1 r] eqn:Hrt.
  apply round_trip_inv in Hrt as [-> ->].
  destruct (head (outages w)) as [[]|]; [done| |]; simpl;
    rewrite bind_run; unfold get_world; world_simpl; rewrite Hfound; reflexivity.
Qed.

Lemma set_outages_nil (w : World) : outages w = [] → set_outages (tail (outages w)) w = w.
Proof. destruct w as [c s k o out l]. simpl. intros ->. reflexivity. Qed.

(** X17. [GetOrCreate] never answers "not found": while the store answers, it
    returns the settings stored for the tenant and resource type, and when
    there are none it stores and returns the defaults: approval required,
    replies allowed down to depth 5, at most 5000 bytes, comments enabled,
    the bad-word filter on, no anonymous comments and no attachments. A
    second call returns the same record and changes nothing. No other
    settings and no comment are touched. *)
Theorem settings_are_created_once_with_defaults (tenantID resourceType : string)
  (w : World) :
  outages w = [] →
  ∃ (s : CommentSettings.t) (w' : World),
    SettingsRepository.GetOrCreate tenantID resourceType w = (w', Ok s)
    ∧ settings w' !! (tenantID, resourceType) = Some s
    ∧ (∀ key, key ≠ (tenantID, resourceType) → settings w' !! key = settings w !! key)
    ∧ comments w' = comments w
    ∧ match settings w !! (tenantID, resourceType) with
      | Some found => s = found ∧ w' = w
      | None =>
          s = {| CommentSettings.ID := N.succ (oid_counter w);
                 CommentSettings.TenantID := tenantID;
                 CommentSettings.ResourceType := resourceType;
                 CommentSettings.RequireApproval := true;
                 CommentSettings.AllowAnonymous := false;
                 CommentSettings.AllowReplies := true;
                 CommentSettings.MaxReplyDepth := 5;
                 CommentSettings.AllowReactions := true;
                 CommentSettings.AllowedReactions :=
                   ["like"; "dislike"; "love"; "haha"; "wow"; "sad"; "angry"];
                 CommentSettings.AllowAttachments := false;
                 CommentSettings.MaxAttachments := 3;
                 CommentSettings.MaxCommentLength := 5000;
                 CommentSettings.CommentsEnabled := true;
                 CommentSettings.NotifyOnNewComment := true;
                 CommentSettings.NotifyOnReply := true;
                 CommentSettings.AutoApproveVerified := false;
                 CommentSettings.BadWordsFilter := true;
                 CommentSettings.CustomBadWords := [];
                 CommentSettings.CreatedAt := clock w;
                 CommentSettings.UpdatedAt := clock w + 1 |}
      end
    ∧ SettingsRepository.GetOrCreate tenantID resourceType w' = (w', Ok s).
Proof.
  intros Hup.
  destruct (settings w !! (tenantID, resourceType)) as [found|] eqn:Hfound.
  - exists found, w.
    assert (SettingsRepository.GetOrCreate tenantID resourceType w = (w, Ok found)) as Hrun.
    { rewrite (GetOrCreate_found _ _ _ _ Hfound) by (rewrite Hup; done).
      rewrite set_outages_nil by done. reflexivity. }
    done.
  - destruct w as [c s k o out l]. simpl in Hup, Hfound. subst out.
    eexists _, _. split.
    { unfold SettingsRepository.GetOrCreate, mbind, M_bind, round_trip, get_world, time_Now,
        NewObjectID, modify, mret, M_ret. simpl. rewrite Hfound. simpl. reflexivity. }
    simpl. split; [apply lookup_insert_eq|]. split.
    { intros key Hkey. apply lookup_insert_ne. congruence. }
    split; [reflexivity|]. split; [reflexivity|].
    unfold SettingsRepository.GetOrCreate, mbind, M_bind, round_trip, get_world, time_Now,
      NewObjectID, modify, mret, M_ret. simpl. rewrite lookup_insert_eq. reflexivity.
Qed.

(** What an [Update] of settings that returned a record has done; [base]
    is the record the [$set] was applied to. *)
Lemma settings_Update_inv (tenantID resourceType : string) (req : SettingsRequest.t)
  (w w' : World) (s : CommentSettings.t) :
  SettingsRepository.Update tenantID resourceType req w = (w', Ok s) →
  let base := default (SettingsRepository.upsert_base tenantID resourceType)
                (settings w !! (tenantID, resourceType)) in
  s = CommentSettings.set_ID (CommentSettings.ID s)
        (SettingsRepository.apply_request (clock w) req base)
  ∧ (is_Some (settings w !! (tenantID, resourceType)) →
     CommentSettings.ID s = CommentSettings.ID base)
  ∧ settings w' = <[(tenantID, resourceType) := s]> (settings w)
  ∧ comments w' = comments w
  ∧ outages w' = tail (outages w).
Proof.
  unfold SettingsRepository.Update. intros E. run_inv. world_simpl.
  destruct (settings w !! (tenantID, resourceType)) as [found|]; run_inv; simpl.
  - split; [destruct found; reflexivity|]. done.
  - split; [reflexivity|]. split; [intros [? ?]; discriminate|]. done.
Qed.

(** X18. [Update] of settings changes the fields the request carries and no
    other: a field the request leaves out keeps the value stored. When
    nothing is stored for the tenant and resource type, a record is
    inserted, and a field the request leaves out is then not the default of
    [GetOrCreate] but the zero value: comments disabled, maximum length 0,
    no replies. The record returned is the record stored, and the one a
    following [GetOrCreate] returns. *)
Theorem settings_update_is_partial (tenantID resourceType : string)
  (req : SettingsRequest.t) (w w' : World) (s : CommentSettings.t) :
  SettingsRepository.Update tenantID resourceType req w = (w', Ok s) →
  settings w' !! (tenantID, resourceType) = Some s
  ∧ (∀ key, key ≠ (tenantID, resourceType) → settings w' !! key = settings w !! key)
  ∧ comments w' = comments w
  ∧ (head (outages w') ≠ Some true →
     (SettingsRepository.GetOrCreate tenantID resourceType w').2 = Ok s)
  ∧ ∃ base : CommentSettings.t,
      match settings w !! (tenantID, resourceType) with
      | Some found => base = found
      | None =>
          base = {| CommentSettings.ID := NilObjectID;
                    CommentSettings.TenantID := tenantID;
                    CommentSettings.ResourceType := resourceType;
                    CommentSettings.RequireApproval := false;
                    CommentSettings.AllowAnonymous := false;
                    CommentSettings.AllowReplies := false;
                    CommentSettings.MaxReplyDepth := 0;
                    CommentSettings.AllowReactions := false;
                    CommentSettings.AllowedReactions := [];
                    CommentSettings.AllowAttachments := false;
                    CommentSettings.MaxAttachments := 0;
                    CommentSettings.MaxCommentLength := 0;
                    CommentSettings.CommentsEnabled := false;
                    CommentSettings.NotifyOnNewComment := false;
                    CommentSettings.NotifyOnReply := false;
                    CommentSettings.AutoApproveVerified := false;
                    CommentSettings.BadWordsFilter := false;
                    CommentSettings.CustomBadWords := [];
                    CommentSettings.CreatedAt := 0;
                    CommentSettings.UpdatedAt := 0 |}
      end
      ∧ CommentSettings.TenantID s = CommentSettings.TenantID base
      ∧ CommentSettings.ResourceType s = CommentSettings.ResourceType base
      ∧ CommentSettings.CreatedAt s = CommentSettings.CreatedAt base
      ∧ CommentSettings.UpdatedAt s = clock w
      ∧ CommentSettings.RequireApproval s
        = default (CommentSettings.RequireApproval base) (SettingsRequest.RequireApproval req)
      ∧ CommentSettings.AllowAnonymous s
        = default (CommentSettings.AllowAnonymous base) (SettingsRequest.AllowAnonymous req)
      ∧ CommentSettings.AllowReplies s
        = default (CommentSettings.AllowReplies base) (SettingsRequest.AllowReplies req)
      ∧ CommentSettings.MaxReplyDepth s
        = default (CommentSettings.MaxReplyDepth base) (SettingsRequest.MaxReplyDepth req)
      ∧ CommentSettings.AllowReactions s
        = default (CommentSettings.AllowReactions base) (SettingsRequest.AllowReactions req)
      ∧ CommentSettings.AllowedReactions s
        = default (CommentSettings.AllowedReactions base)
            (SettingsRequest.AllowedReactions req)
      ∧ CommentSettings.AllowAttachments s
        = default (CommentSettings.AllowAttachments base)
            (SettingsRequest.AllowAttachments req)
      ∧ CommentSettings.MaxAttachments s
        = default (CommentSettings.MaxAttachments base) (SettingsRequest.MaxAttachments req)
      ∧ CommentSettings.MaxCommentLength s
        = default (CommentSettings.MaxCommentLength base)
            (SettingsRequest.MaxCommentLength req)
      ∧ CommentSettings.CommentsEnabled s
        = default (CommentSettings.CommentsEnabled base)
            (SettingsRequest.CommentsEnabled req)
      ∧ CommentSettings.NotifyOnNewComment s
        = default (CommentSettings.NotifyOnNewComment base)
            (SettingsRequest.NotifyOnNewComment req)
      ∧ CommentSettings.NotifyOnReply s
        = default (CommentSettings.NotifyOnReply base) (SettingsRequest.NotifyOnReply req)
      ∧ CommentSettings.AutoApproveVerified s
        = default (CommentSettings.AutoApproveVerified base)
            (SettingsRequest.AutoApproveVerified req)
      ∧ CommentSettings.BadWordsFilter s
        = default (CommentSettings.BadWordsFilter base) (SettingsRequest.BadWordsFilter req)
      ∧ CommentSettings.CustomBadWords s
        = default (CommentSettings.CustomBadWords base) (SettingsRequest.CustomBadWords req).
Proof.
  intros E. apply settings_Update_inv in E as (Hs & _ & Hst & Hc & _). cbv zeta in Hs.
  assert (settings w' !! (tenantID, resourceType) = Some s) as Hstored
    by (rewrite Hst; apply lookup_insert_eq).
  split; [exact Hstored|]. split.
  { intros key Hkey. rewrite Hst. apply lookup_insert_ne. congruence. }
  split; [exact Hc|]. split.
  { intros Hup. rewrite (GetOrCreate_found _ _ _ _ Hstored Hup). reflexivity. }
  exists (default (SettingsRepository.upsert_base tenantID resourceType)
            (settings w !! (tenantID, resourceType))).
  split; [destruct (settings w !! (tenantID, resourceType)); reflexivity|].
  rewrite Hs. cbn. done.
Qed.

(** X19. Settings first written by [Update] for a tenant and resource type leave
    comments disabled unless the request enables them: while the store
    answers, [CreateComment] for that tenant and resource type is then
    refused, whereas the defaults of [GetOrCreate] would have allowed it. *)
Theorem first_update_of_settings_disables_comments (u : CommentUsecase.t)
  (sreq : SettingsRequest.t) (req : CreateCommentRequest.t)
  (authorID authorName authorEmail ipAddress userAgent : string) (w w1 : World)
  (s : CommentSettings.t) :
  settings w !! (CreateCommentRequest.TenantID req, CreateCommentRequest.ResourceType req)
  = None →
  SettingsRequest.CommentsEnabled sreq ≠ Some true →
  SettingsRepository.Update (CreateCommentRequest.TenantID req)
    (CreateCommentRequest.ResourceType req) sreq w = (w1, Ok s) →
  head (outages w1) ≠ Some true →
  (CommentUsecase.CreateComment u req authorID authorName authorEmail ipAddress userAgent
     w1).2
  = Err (Errorf "comments are disabled for this resource type").
Proof.
  intros Hnone Hreq E Hup. apply settings_Update_inv in E as (Hs & _ & Hst & _ & _).
  cbv zeta in Hs. rewrite Hnone in Hs. simpl in Hs.
  assert (CommentSettings.CommentsEnabled s = false) as Hoff.
  { rewrite Hs. cbn. destruct (SettingsRequest.CommentsEnabled sreq) as [[]|]; done. }
  assert (settings w1 !! (CreateCommentRequest.TenantID req,
                          CreateCommentRequest.ResourceType req) = Some s) as Hstored
    by (rewrite Hst; apply lookup_insert_eq).
  unfold CommentUsecase.CreateComment. rewrite bind_run. unfold wrap_err at 1.
  rewrite (GetOrCreate_found _ _ _ _ Hstored Hup). rewrite fail_if_bind_run, Hoff.
  reflexivity.
Qed.

(** ** Notifications *)

Lemma length_string_app (a b : string) :
  String.length (a ++ b)%string = (String.length a + String.length b)%nat.
Proof. induction a as [|c a IH]; simpl; [done|]. rewrite IH. done. Qed.

Lemma length_slice_to (n : nat) (s : string) :
  (n <= String.length s)%nat → String.length (CommentUsecase.slice_to n s) = n.
Proof.
  revert s. induction n as [|n IH]; intros [|c s]; simpl; intros Hn; try done; try lia.
  rewrite IH by lia. done.
Qed.

Lemma slice_to_prefix (n : nat) (s : string) :
  ∃ rest, s = (CommentUsecase.slice_to n s ++ rest)%string.
Proof.
  revert s. induction n as [|n IH]; intros [|c s]; simpl; eauto.
  destruct (IH s) as [rest Hrest]. exists rest.
  change (String c s = String c (CommentUsecase.slice_to n s ++ rest)%string).
  f_equal. exact Hrest.
Qed.

(** X20. [truncateString] with a limit of at least 3 returns a string of at most
    [maxLen] bytes: the string itself when it fits, and otherwise its first
    [maxLen - 3] bytes followed by three dots, which makes exactly [maxLen]
    bytes. With a limit below 3 it panics on every string longer than the
    limit. *)
Theorem truncate_fits_the_limit (s : string) (maxLen : Z) :
  ((3 <= maxLen)%Z →
   ∃ t, CommentUsecase.truncateString s maxLen = Some t
        ∧ (len t <= maxLen)%Z
        ∧ ((len s <= maxLen)%Z → t = s)
        ∧ ((maxLen < len s)%Z →
           len t = maxLen
           ∧ ∃ kept rest, s = (kept ++ rest)%string ∧ t = (kept ++ "...")%string
                          ∧ len kept = (maxLen - 3)%Z))
  ∧ ((maxLen < 3)%Z → (maxLen < len s)%Z → CommentUsecase.truncateString s maxLen = None).
Proof.
  unfold CommentUsecase.truncateString, len. split.
  - intros Hmax. destruct (Z.of_nat (String.length s) <=? maxLen)%Z eqn:Hfit.
    + apply Z.leb_le in Hfit. exists s. split; [done|]. split; [done|]. split; [done|]. lia.
    + apply Z.leb_gt in Hfit. destruct (maxLen - 3 <? 0)%Z eqn:Hneg; [lia|].
      assert (String.length (CommentUsecase.slice_to (Z.to_nat (maxLen - 3)) s)
              = Z.to_nat (maxLen - 3)) as Hlen by (apply length_slice_to; lia).
      eexists. split; [reflexivity|]. rewrite length_string_app, Hlen. simpl.
      split; [lia|]. split; [lia|]. intros _. split; [lia|].
      destruct (slice_to_prefix (Z.to_nat (maxLen - 3)) s) as [rest Hrest].
      exists (CommentUsecase.slice_to (Z.to_nat (maxLen - 3)) s), rest.
      split; [exact Hrest|]. split; [reflexivity|]. rewrite Hlen. lia.
  - intros Hmax Hlong.
    destruct (Z.of_nat (String.length s) <=? maxLen)%Z eqn:Hfit; [lia|].
    destruct (maxLen - 3 <? 0)%Z eqn:Hneg; [reflexivity|lia].
Qed.

Lemma truncate_100 (s : string) :
  ∃ t, CommentUsecase.truncateString s 100 = Some t
       ∧ (len t <= 100)%Z ∧ ((len s <= 100)%Z → t = s).
Proof.
  unfold CommentUsecase.truncateString, len.
  destruct (Z.of_nat (String.length s) <=? 100)%Z eqn:Hfit.
  - apply Z.leb_le in Hfit. eauto.
  - apply Z.leb_gt in Hfit. change (100 - 3 <? 0)%Z with false. cbv iota.
    eexists. split; [reflexivity|]. rewrite length_string_app, length_slice_to by lia.
    simpl. lia.
Qed.

(** X21. A notification about a new comment is sent exactly when there is a
    notifier, notifications are enabled, and the settings ask for it: for
    root comments [NotifyOnNewComment], for replies [NotifyOnReply]. It goes
    to "admin" whatever the comment, also for a reply; it is of type
    "comment.pending" for every pending comment, root or reply, and
    otherwise "comment.reply" for a reply and "comment.new" for a root
    comment. Its body is the content cut to at most 100 bytes, and it never
    panics on the cut. *)
Theorem new_comment_notification (u : CommentUsecase.t) (hasNotifier : bool)
  (comment : Comment.t) (settings : CommentSettings.t) :
  (is_Some (CommentUsecase.sendNewCommentNotification u hasNotifier comment settings)
   ↔ hasNotifier = true
     ∧ Config.NotifierEnabled (CommentUsecase.cfg u) = true
     ∧ match Comment.ParentID comment with
       | Some _ => CommentSettings.NotifyOnReply settings
       | None => CommentSettings.NotifyOnNewComment settings
       end = true)
  ∧ ∀ n, CommentUsecase.sendNewCommentNotification u hasNotifier comment settings = Some n →
      NotificationRequest.Recipients n = ["admin"]
      ∧ NotificationRequest.Type_ n
        = (if decide (Comment.Status comment = StatusPending) then "comment.pending"
           else match Comment.ParentID comment with
                | Some _ => "comment.reply"
                | None => "comment.new"
                end)
      ∧ NotificationRequest.Title n
        = (if decide (Comment.Status comment = StatusPending) then "Comment Pending Approval"
           else match Comment.ParentID comment with
                | Some _ => "New Reply to Your Comment"
                | None => "New Comment"
                end)
      ∧ (len (NotificationRequest.Body n) <= 100)%Z
      ∧ ((len (Comment.Content comment) <= 100)%Z →
         NotificationRequest.Body n = Comment.Content comment)
      ∧ NotificationRequest.Data n !! "comment_id" = Some (ObjectID_Hex (Comment.ID comment))
      ∧ NotificationRequest.Data n !! "status" = Some (Comment.Status comment).
Proof.
  unfold CommentUsecase.sendNewCommentNotification.
  destruct (truncate_100 (Comment.Content comment)) as (body & -> & Hlen & Hshort).
  assert (bool_decide (Comment.Status comment = StatusPending)
          = if decide (Comment.Status comment = StatusPending) then true else false) as ->.
  { destruct (decide (Comment.Status comment = StatusPending)) as [Hs|Hs];
      [apply bool_decide_eq_true_2|apply bool_decide_eq_false_2]; exact Hs. }
  assert (bool_decide (Comment.ParentID comment = None)
          = match Comment.ParentID comment with Some _ => false | None => true end) as ->
    by (destruct (Comment.ParentID comment); reflexivity).
  assert (bool_decide (Comment.ParentID comment ≠ None)
          = match Comment.ParentID comment with Some _ => true | None => false end) as ->.
  { destruct (Comment.ParentID comment);
      [apply bool_decide_eq_true_2|apply bool_decide_eq_false_2]; congruence. }
  destruct hasNotifier, (Config.NotifierEnabled (CommentUsecase.cfg u)),
    (Comment.ParentID comment) as [p|], (CommentSettings.NotifyOnReply settings),
    (CommentSettings.NotifyOnNewComment settings),
    (decide (Comment.Status comment = StatusPending)) as [Hs|Hs]; cbn;
    (split; [split; [intros [? Hn]; try discriminate Hn; done
                    |intros (? & ? & ?); try discriminate; eexists; reflexivity]
            |intros n Hn; try discriminate Hn; injection Hn as <-; cbn; done]).
Qed.

(** X22. The author of a moderated comment is told it was rejected only when the
    new status is rejected, with the reason of the request when there is
    one; for every other status, spam and pending included, the author is
    told the comment "has been approved and is now visible". *)
Theorem moderation_notification_says_approved_unless_rejected (u : CommentUsecase.t)
  (id : string) (req : ModerateCommentRequest.t) (moderatorID : string) (w w' : World)
  (moderated : Comment.t) :
  CommentUsecase.ModerateComment u id req moderatorID w = (w', Ok moderated) →
  Config.NotifierEnabled (CommentUsecase.cfg u) = true →
  ∃ n, CommentUsecase.sendModerationNotification u true moderated = Some n
       ∧ NotificationRequest.Type_ n = "comment.moderated"
       ∧ NotificationRequest.Recipients n = [Comment.AuthorID moderated]
       ∧ NotificationRequest.Data n !! "status" = Some (ModerateCommentRequest.Status req)
       ∧ (if decide (ModerateCommentRequest.Status req = StatusRejected)
          then NotificationRequest.Title n = "Your Comment Was Rejected"
               ∧ NotificationRequest.Body n
                 = (if decide (ModerateCommentRequest.RejectionReason req = "")
                    then "Your comment has been rejected."
                    else ("Your comment has been rejected. Reason: "
                          ++ ModerateCommentRequest.RejectionReason req)%string)
          else NotificationRequest.Title n = "Your Comment Was Approved"
               ∧ NotificationRequest.Body n
                 = "Your comment has been approved and is now visible.").
Proof.
  unfold CommentUsecase.ModerateComment. intros E Hen. run_inv.
  destruct x as [oid c]. run_inv.
  match goal with H : CommentUsecase.fetch _ _ = _ |- _ =>
    apply fetch_Ok_inv in H as (Hoid & (before & Hdoc & ->) & ->) end.
  match goal with H : CommentRepository.Update _ _ = _ |- _ =>
    apply Update_inv in H as (-> & _) end.
  unfold CommentUsecase.sendModerationNotification. rewrite Hen. cbn [negb orb].
  destruct (decide (ModerateCommentRequest.Status req = StatusRejected)) as [Hs|Hs].
  - rewrite (bool_decide_eq_true_2 _ Hs). cbn.
    rewrite (bool_decide_eq_true_2 _ Hs).
    destruct (decide (ModerateCommentRequest.RejectionReason req = "")) as [Hr|Hr].
    + rewrite bool_decide_eq_false_2 by (intros Hn; apply Hn; exact Hr).
      eexists. split; [reflexivity|]. cbn. done.
    + rewrite (bool_decide_eq_true_2 _ Hr).
      eexists. split; [reflexivity|]. cbn. done.
  - rewrite (bool_decide_eq_false_2 _ Hs). cbn.
    rewrite (bool_decide_eq_false_2 _ Hs).
    eexists. split; [reflexivity|]. cbn. done.
Qed.

(** ** The HTTP layer *)

Lemma error_is_inv (err : error) (message : string) :
  error_is err message = true → err = Errorf message.
Proof.
  destruct err; simpl; try discriminate. intros Hm. apply bool_decide_eq_true_1 in Hm.
  congruence.
Qed.

(** X23. The answer of [DELETE /comments/:id], case by case: an id that is not
    24 hexadecimal digits and a store that does not answer give an internal
    error, a comment that is not there gives "not found", a comment of
    another author gives "forbidden", also for an admin, since the handler
    never deletes as admin; otherwise the answer is "no content". *)
Theorem delete_endpoint_answers (h : CommentUsecase.t) (id userID : string) (w : World) :
  (CommentHandler.Delete h id userID w).2
  = match ObjectIDFromHex id with
    | None => response_InternalError (ErrorText (Errorf "invalid comment ID"))
    | Some oid =>
        if default false (outages w !! 0%nat)
        then response_InternalError (ErrorText mongo_error)
        else match comments w !! oid with
             | None => response_NotFound (ErrorText (Errorf "comment not found"))
             | Some doc =>
                 if bool_decide (Comment.AuthorID doc ≠ userID)
                 then response_Forbidden
                        (ErrorText (Errorf "you can only delete your own comments"))
                 else if default false (outages w !! 1%nat)
                      then response_InternalError
                             (ErrorText (Errorf_w "failed to delete comment: %w" mongo_error))
                      else response_NoContent
             end
    end.
Proof.
  unfold CommentHandler.Delete.
  pose proof (delete_result h id userID false w) as Hr.
  destruct (CommentUsecase.DeleteComment h id userID false w) as [w' r]. simpl in Hr.
  subst r. destruct (ObjectIDFromHex id) as [oid|]; [|reflexivity].
  destruct (default false (outages w !! 0%nat)); [reflexivity|].
  destruct (comments w !! oid) as [doc|]; [|reflexivity].
  rewrite andb_true_r.
  destruct (bool_decide (Comment.AuthorID doc ≠ userID)); [reflexivity|].
  destruct (default false (outages w !! 1%nat)); reflexivity.
Qed.

(** X24. The answer of [GET /comments/:id], case by case. A comment that is
    stored is returned whatever its status and whether or not it is deleted;
    an id that is not 24 hexadecimal digits is answered as an internal
    error, not as a bad request. *)
Theorem get_endpoint_answers (h : CommentUsecase.t) (id : string) (w : World) :
  (CommentHandler.Get h id w).2
  = match ObjectIDFromHex id with
    | None => response_InternalError (ErrorText (Errorf "invalid comment ID"))
    | Some oid =>
        if default false (outages w !! 0%nat)
        then response_InternalError (ErrorText mongo_error)
        else match comments w !! oid with
             | None => response_NotFound (Text "Comment not found")
             | Some doc => response_OK (decode oid doc)
             end
    end.
Proof.
  unfold CommentHandler.Get. rewrite GetComment_run.
  destruct (ObjectIDFromHex id) as [oid|]; [|reflexivity].
  cbv zeta. rewrite <- head_lookup.
  destruct (default false (head (outages w))); [reflexivity|].
  destruct (comments w !! oid); reflexivity.
Qed.

(** X25. [PUT /comments/:id] edits a comment for its author only, never as
    admin: a comment it returns is the caller's own, is not deleted and has
    the content of the request; and when it answers "forbidden" the comment
    is another author's and nothing has changed. *)
Theorem update_endpoint_is_for_the_author (h : CommentUsecase.t) (id userID : string)
  (req : UpdateCommentRequest.t) (w w' : World) (resp : Response Comment.t) :
  CommentHandler.Update h id userID (Some req) w = (w', resp) →
  (∀ c, resp = response_OK c →
     Comment.AuthorID c = userID
     ∧ Comment.IsDeleted c = false
     ∧ Comment.Content c = UpdateCommentRequest.Content req)
  ∧ (∀ m, resp = response_Forbidden m →
       comments w' = comments w
       ∧ ∃ oid doc, ObjectIDFromHex id = Some oid
                    ∧ comments w !! oid = Some doc
                    ∧ Comment.AuthorID doc ≠ userID).
Proof.
  unfold CommentHandler.Update.
  destruct (CommentUsecase.UpdateComment h id req userID false w) as [w1 [c|e]] eqn:Hrun.
  - intros E. injection E as <- <-. split; [|intros m Hm; discriminate].
    intros c' Hc. injection Hc as <-.
    apply update_ok_inv in Hrun
      as (oid & before & settings & w2 & editedAt & _ & _ & Hauth & Hdel & _ & _ & _
          & Hupdated & _).
    cbv zeta in Hupdated. rewrite andb_true_r in Hauth.
    apply bool_decide_eq_false_1 in Hauth.
    assert (Comment.AuthorID before = userID) as Hown
      by (destruct (decide (Comment.AuthorID before = userID)); [done|contradiction]).
    rewrite Hupdated.
    match goal with |- context [if ?b then _ else _] => destruct b end; cbn; done.
  - destruct (error_is e "comment not found") eqn:Hnf.
    { intros E. injection E as <- <-. split; intros ? Hm; discriminate. }
    destruct (error_is e "you can only edit your own comments") eqn:Hfb.
    2: { intros E. injection E as <- <-. split; intros ? Hm; discriminate. }
    apply error_is_inv in Hfb. subst e.
    intros E. injection E as <- <-. split; [intros ? Hm; discriminate|]. intros m _.
    split.
    { destruct (failed_operations_frame h w w1
                  (Errorf "you can only edit your own comments")) as (_ & Hupd & _).
      eapply Hupd. exact Hrun. }
    unfold CommentUsecase.UpdateComment in Hrun.
    rewrite bind_run, fetch_run in Hrun.
    destruct (ObjectIDFromHex id) as [oid|]; [|discriminate]. cbv zeta in Hrun.
    destruct (default false (head (outages w))); [discriminate|].
    destruct (comments w !! oid) as [doc|] eqn:Hdoc; [|discriminate].
    exists oid, doc. split; [done|]. split; [done|].
    rewrite fail_if_bind_run in Hrun.
    change (Comment.AuthorID (decode oid doc)) with (Comment.AuthorID doc) in Hrun.
    rewrite andb_true_r in Hrun.
    destruct (bool_decide (Comment.AuthorID doc ≠ userID)) eqn:Hauth.
    { apply bool_decide_eq_true_1 in Hauth. exact Hauth. }
    exfalso. rewrite fail_if_bind_run in Hrun.
    destruct (Comment.IsDeleted (decode oid doc)); [discriminate|].
    rewrite bind_run in Hrun. unfold wrap_err at 1 in Hrun.
    destruct (SettingsRepository.GetOrCreate _ _ _) as [w2 [settings|e2]];
      [|discriminate].
    rewrite fail_if_bind_run in Hrun.
    destruct (CommentSettings.MaxCommentLength settings
              <? len (UpdateCommentRequest.Content req))%Z; [discriminate|].
    rewrite bind_run in Hrun. unfold time_Now at 1 in Hrun. rewrite bind_run in Hrun.
    unfold wrap_err at 1 in Hrun.
    match type of Hrun with context [CommentRepository.Update ?c' ?v] =>
      destruct (CommentRepository.Update c' v) as [w3 [c2|e3]] end; discriminate.
Qed.

(** X26. The admin endpoint named [HardDelete] deletes nothing for good: when
    it answers "no content" the comment is still stored, with its content,
    marked as deleted, and the collection holds the same ids as before. *)
Theorem admin_hard_delete_keeps_the_record (h : CommentUsecase.t) (id userID : string)
  (w w' : World) :
  AdminHandler.HardDelete h id userID w = (w', response_NoContent) →
  (∃ (oid : ObjectID) (before after : Comment.t),
     ObjectIDFromHex id = Some oid
     ∧ comments w !! oid = Some before
     ∧ comments w' !! oid = Some after
     ∧ Comment.IsDeleted after = true
     ∧ Comment.DeletedBy after = userID
     ∧ Comment.Content after = Comment.Content before)
  ∧ ∀ k, is_Some (comments w' !! k) ↔ is_Some (comments w !! k).
Proof.
  unfold AdminHandler.HardDelete.
  destruct (CommentUsecase.DeleteComment h id userID true w) as [w1 [[]|e]] eqn:Hrun;
    [|discriminate].
  intros E. injection E as <-.
  apply delete_ok_inv in Hrun as (oid & before & Hoid & Hdoc & _ & _ & Hafter).
  cbv zeta in Hafter.
  set (docs := <[oid := marked_deleted userID (clock w) before]> (comments w)) in *.
  assert (∀ k, is_Some (docs !! k) ↔ is_Some (comments w !! k)) as Hkeys.
  { intros k. unfold docs. rewrite lookup_insert_is_Some'.
    split; [intros [<-|Hk]; [eauto|done]|auto]. }
  assert (∃ t, ∀ k, comments w1 !! k = docs !! k
                    ∨ comments w1 !! k = bumped (-1) t <$> docs !! k) as [t Hlook].
  { destruct (Comment.ParentID before) as [p|].
    - destruct Hafter as [[_ ->]|(_ & -> & _)]; [|exists 0%Z; auto].
      eexists. intros k. rewrite lookup_reply_count_bumped.
      destruct (decide (p = k)); [right|left]; reflexivity.
    - destruct Hafter as [-> _]. exists 0%Z. auto. }
  split.
  - exists oid, before.
    destruct (Hlook oid) as [Ho|Ho]; unfold docs in Ho; rewrite lookup_insert_eq in Ho;
      eexists; (split; [done|]); (split; [done|]); (split; [exact Ho|]); done.
  - intros k. rewrite <- Hkeys.
    destruct (Hlook k) as [->| ->]; [done|apply fmap_is_Some].
Qed.

(** What a [ModerateComment] that returned a comment has done. *)
Lemma moderate_ok_inv (u : CommentUsecase.t) (id : string) (req : ModerateCommentRequest.t)
  (moderatorID : string) (w w' : World) (moderated : Comment.t) :
  CommentUsecase.ModerateComment u id req moderatorID w = (w', Ok moderated) →
  ∃ (oid : ObjectID) (before : Comment.t),
    ObjectIDFromHex id = Some oid
    ∧ comments w !! oid = Some before
    ∧ Comment.Status moderated = ModerateCommentRequest.Status req
    ∧ comments w' = <[oid := bson_set_comment moderated before]> (comments w).
Proof.
  unfold CommentUsecase.ModerateComment. intros E. run_inv.
  destruct x as [oid c]. run_inv.
  match goal with H : CommentUsecase.fetch _ _ = _ |- _ =>
    apply fetch_Ok_inv in H as (Hoid & (before & Hdoc & ->) & ->) end.
  match goal with H : CommentRepository.Update _ _ = _ |- _ =>
    apply Update_inv in H as (-> & _ & _ & Hst) end.
  world_simpl. exists oid, before. split; [done|]. split; [done|]. split.
  - match goal with |- context [if ?b then _ else _] => destruct b end; reflexivity.
  - match type of Hst with context [if ?b then _ else _] => destruct b end;
      simpl in Hst; rewrite Hdoc in Hst; exact Hst.
Qed.

(** X27. [POST /admin/comments/:id/moderate] lets only the statuses approved,
    rejected and spam through: any other status is refused before the
    usecase is called, and a comment it returns has the status asked for,
    one of the three. *)
Theorem moderate_endpoint_validates_status (h : CommentUsecase.t) (id moderatorID : string)
  (req : ModerateCommentRequest.t) (w w' : World) (resp : Response Comment.t) :
  AdminHandler.ModerateComment h id moderatorID (Some req) w = (w', resp) →
  (ModerateCommentRequest.Status req ∉ [StatusApproved; StatusRejected; StatusSpam] →
   w' = w
   ∧ resp = response_BadRequest "invalid_status"
              (Text "Status must be 'approved', 'rejected', or 'spam'"))
  ∧ ∀ c, resp = response_OK c →
      Comment.Status c = ModerateCommentRequest.Status req
      ∧ Comment.Status c ∈ [StatusApproved; StatusRejected; StatusSpam].
Proof.
  unfold AdminHandler.ModerateComment.
  destruct (decide (ModerateCommentRequest.Status req = StatusApproved)) as [Ha|Ha];
    [|destruct (decide (ModerateCommentRequest.Status req = StatusRejected)) as [Hr|Hr];
      [|destruct (decide (ModerateCommentRequest.Status req = StatusSpam)) as [Hs|Hs]]].
  4: { rewrite !bool_decide_eq_true_2 by done. cbn [andb]. intros E. injection E as <- <-.
       split; [done|]. intros c Hc. discriminate. }
  all: assert (bool_decide (ModerateCommentRequest.Status req ≠ StatusApproved)
               && bool_decide (ModerateCommentRequest.Status req ≠ StatusRejected)
               && bool_decide (ModerateCommentRequest.Status req ≠ StatusSpam) = false)
         as -> by (rewrite !andb_false_iff;
                   first [left; left; apply bool_decide_eq_false_2; intros Hn; done
                         |left; right; apply bool_decide_eq_false_2; intros Hn; done
                         |right; apply bool_decide_eq_false_2; intros Hn; done]).
  all: destruct (CommentUsecase.ModerateComment h id req moderatorID w)
         as [w1 [c|e]] eqn:Hrun; intros E; injection E as <- <-;
       (split; [intros Hnot; exfalso; apply Hnot;
                first [rewrite Ha|rewrite Hr|rewrite Hs];
                repeat (first [apply list_elem_of_here|apply list_elem_of_further])|]);
       intros c' Hc; try discriminate; injection Hc as <-;
       apply moderate_ok_inv in Hrun as (? & ? & _ & _ & Hstatus & _);
       (split; [exact Hstatus|]); rewrite Hstatus;
       first [rewrite Ha|rewrite Hr|rewrite Hs];
       repeat (first [apply list_elem_of_here|apply list_elem_of_further]).
Qed.

Lemma moderate_Err_frame (u : CommentUsecase.t) (id : string)
  (req : ModerateCommentRequest.t) (moderatorID : string) (w w' : World) (e : error) :
  CommentUsecase.ModerateComment u id req moderatorID w = (w', Err e) →
  comments w' = comments w.
Proof.
  intros E. destruct (failed_operations_frame u w w' e) as (_ & _ & _ & Hmod & _).
  eapply Hmod. exact E.
Qed.

(** The loop of [BulkModerate], from any state it may be in. *)
Lemma bulk_loop (h : CommentUsecase.t) (req : BulkModerateRequest.t) (moderatorID : string)
  (ids : list string) :
  ∀ (w : World) (n : Z) (failed : list string) (w' : World) (n' : Z)
    (failed' : list string),
    foldl (AdminHandler.bulk_step h req moderatorID) (w, (n, failed)) ids
    = (w', (n', failed')) →
    ∃ f : list string,
      failed' = failed ++ f
      ∧ f `sublist_of` ids
      ∧ ((0 <= n)%Z → (n + Z.of_nat (length ids) <= int_max)%Z →
         (n' + Z.of_nat (length f) = n + Z.of_nat (length ids))%Z)
      ∧ (∀ k, is_Some (comments w' !! k) ↔ is_Some (comments w !! k))
      ∧ (∀ k doc, comments w !! k = Some doc →
           Comment.Status doc = BulkModerateRequest.Status req →
           ∃ doc', comments w' !! k = Some doc'
                   ∧ Comment.Status doc' = BulkModerateRequest.Status req)
      ∧ (∀ id, id ∈ ids → id ∉ f →
           ∃ oid doc, ObjectIDFromHex id = Some oid
                      ∧ comments w' !! oid = Some doc
                      ∧ Comment.Status doc = BulkModerateRequest.Status req).
Proof.
  induction ids as [|id ids IH]; intros w n failed w' n' failed' Hloop.
  - simpl in Hloop. injection Hloop as <- <- <-. exists [].
    rewrite app_nil_r. split; [done|]. split; [done|]. split; [simpl; lia|].
    split; [done|]. split; [eauto|]. intros id Hid. apply elem_of_nil in Hid. done.
  - cbn [foldl] in Hloop. unfold AdminHandler.bulk_step at 2 in Hloop.
    destruct (CommentUsecase.ModerateComment h id _ moderatorID w) as [w1 [c|e]] eqn:Hmod.
    + apply IH in Hloop as (f & Hf & Hsub & Hn & Hkeys & Hkeep & Hdone).
      apply moderate_ok_inv in Hmod as (oid & before & Hoid & Hdoc & Hstatus & Hst).
      cbn [ModerateCommentRequest.Status] in Hstatus.
      exists f. split; [exact Hf|]. split; [apply sublist_cons; exact Hsub|]. split.
      { intros Hn0 Hmax. cbn [length] in *. unfold int_add in Hn.
        rewrite wrap_int_in_range in Hn by (unfold in_int_range, int_min; lia). lia. }
      split.
      { intros k. rewrite Hkeys, Hst, lookup_insert_is_Some'.
        split; [intros [<-|Hk]; [eauto|done]|auto]. }
      split.
      { intros k doc Hk Hs. destruct (decide (oid = k)) as [<-|Hne].
        - apply (Hkeep oid (bson_set_comment c before)).
          + rewrite Hst. apply lookup_insert_eq.
          + exact Hstatus.
        - apply (Hkeep k doc); [|exact Hs]. rewrite Hst, lookup_insert_ne; done. }
      intros id' Hin Hnot. apply elem_of_cons in Hin as [->|Hin]; [|auto].
      destruct (Hkeep oid (bson_set_comment c before)) as (doc' & Hdoc' & Hs').
      { rewrite Hst. apply lookup_insert_eq. }
      { exact Hstatus. }
      eauto.
    + apply IH in Hloop as (f & Hf & Hsub & Hn & Hkeys & Hkeep & Hdone).
      apply moderate_Err_frame in Hmod.
      exists (id :: f). split; [rewrite Hf, <- app_assoc; reflexivity|].
      split; [apply sublist_skip; exact Hsub|]. split.
      { intros Hn0 Hmax. cbn [length] in *. lia. }
      split; [intros k; rewrite Hkeys, Hmod; done|].
      split; [intros k doc Hk; apply Hkeep; rewrite Hmod; exact Hk|].
      intros id' Hin Hnot. apply not_elem_of_cons in Hnot as [Hne Hnot].
      apply elem_of_cons in Hin as [->|Hin]; [done|auto].
Qed.

(** X28. [BulkModerate] answers with the number of comments moderated and the
    ids that failed, in the order of the request: the two counts add up to
    the number of ids. Every id of the request that is not among the failed
    names a stored comment that now has the status of the request, whatever
    that status is: unlike the endpoint for one comment, the bulk endpoint
    does not check that the status is approved, rejected or spam. No
    comment is added or removed. *)
Theorem bulk_moderate_counts_and_sets_any_status (h : CommentUsecase.t)
  (moderatorID : string) (req : BulkModerateRequest.t) (w w' : World)
  (resp : Response BulkModerateResponse.t) :
  AdminHandler.BulkModerate h moderatorID (Some req) w = (w', resp) →
  BulkModerateRequest.CommentIDs req ≠ [] →
  (Z.of_nat (length (BulkModerateRequest.CommentIDs req)) <= int_max)%Z →
  ∃ r : BulkModerateResponse.t,
    resp = response_OK r
    ∧ (BulkModerateResponse.SuccessCount r + BulkModerateResponse.FailedCount r
       = Z.of_nat (length (BulkModerateRequest.CommentIDs req)))%Z
    ∧ BulkModerateResponse.FailedCount r
      = Z.of_nat (length (BulkModerateResponse.FailedIDs r))
    ∧ BulkModerateResponse.FailedIDs r `sublist_of` BulkModerateRequest.CommentIDs req
    ∧ (∀ id, id ∈ BulkModerateRequest.CommentIDs req →
             id ∉ BulkModerateResponse.FailedIDs r →
             ∃ oid doc, ObjectIDFromHex id = Some oid
                        ∧ comments w' !! oid = Some doc
                        ∧ Comment.Status doc = BulkModerateRequest.Status req)
    ∧ (∀ k, is_Some (comments w' !! k) ↔ is_Some (comments w !! k)).
Proof.
  unfold AdminHandler.BulkModerate. intros E Hids Hmax.
  rewrite bool_decide_eq_false_2 in E
    by (intros Hlen; apply Hids; destruct (BulkModerateRequest.CommentIDs req); done).
  destruct (foldl _ _ _) as [w1 [n failed]] eqn:Hloop.
  injection E as <- <-.
  apply bulk_loop in Hloop as (f & Hf & Hsub & Hn & Hkeys & _ & Hdone).
  simpl in Hf. subst failed.
  eexists. split; [reflexivity|]. cbn.
  split; [apply Hn; lia|]. split; [reflexivity|]. done.
Qed.

End More.

(** ** Reactions *)

Lemma bind_run_r {A B : Type} (m : RM A) (k : A → RM B) (s : Store) :
  (m ≫= k) s = match m s with
               | (s1, Ok a) => k a s1
               | (s1, Err e) => (s1, Err e)
               end.
Proof. reflexivity. Qed.

Lemma lift_run {A : Type} (m : M A) (s : Store) :
  lift m s = (set_world (m (world s)).1 s, (m (world s)).2).
Proof. unfold lift. destruct (m (world s)). reflexivity. Qed.

Lemma lift_round_trip_run (s : Store) :
  lift round_trip s
  = (set_world (set_outages (tail (outages (world s))) (world s)) s,
     if default false (head (outages (world s))) then Err mongo_error else Ok tt).
Proof.
  rewrite lift_run. destruct (round_trip (world s)) as [w r] eqn:Hrt.
  apply round_trip_inv in Hrt as [-> ->]. reflexivity.
Qed.

(** The number of reactions of type [t] on the comment [oid]. *)
Lemma group_counts (oid : ObjectID) (docs : list Reaction.t) (t : string) :
  default 0%Z
    (foldr (λ r (groups : gmap string Z),
              <[Reaction.Type_ r := (default 0 (groups !! Reaction.Type_ r) + 1)%Z]> groups)
       ∅ (List.filter (λ r, bool_decide (Reaction.CommentID r = oid)) docs) !! t)
  = Z.of_nat (length (List.filter
                        (λ r, bool_decide (Reaction.CommentID r = oid)
                              && bool_decide (Reaction.Type_ r = t)) docs)).
Proof.
  induction docs as [|r docs IH]; [reflexivity|]. cbn [List.filter].
  destruct (bool_decide (Reaction.CommentID r = oid)); cbn [andb]; [|exact IH].
  cbn [foldr]. destruct (decide (Reaction.Type_ r = t)) as [Ht|Ht].
  - rewrite (bool_decide_eq_true_2 _ Ht). cbn [length]. rewrite Ht, lookup_insert_eq.
    cbn [default from_option id]. rewrite IH. lia.
  - rewrite (bool_decide_eq_false_2 _ Ht). rewrite lookup_insert_ne by done. exact IH.
Qed.

Lemma foldl_insert_lookup (kvs : list (string * Z)) (m0 : gmap string Z) (k : string) :
  NoDup kvs.*1 →
  foldl (λ (m : gmap string Z) (kv : string * Z), <[kv.1 := kv.2]> m) m0 kvs !! k
  = match (list_to_map kvs : gmap string Z) !! k with
    | Some v => Some v
    | None => m0 !! k
    end.
Proof.
  revert m0. induction kvs as [|[k0 v0] kvs IH]; intros m0 Hnodup; [reflexivity|].
  cbn [foldl fmap list_fmap fst] in *. apply NoDup_cons in Hnodup as [Hfresh Hnodup].
  rewrite IH by done. cbn [list_to_map foldr fst snd].
  destruct (decide (k = k0)) as [->|Hne].
  - rewrite (not_elem_of_list_to_map_1 _ _ Hfresh), !lookup_insert_eq. reflexivity.
  - rewrite !lookup_insert_ne by done. reflexivity.
Qed.

Lemma counts_loop (kvs : list (string * Z)) :
  ∀ (m0 : gmap string Z) (l0 d0 : Z),
    l0 = default 0%Z (m0 !! ReactionLike) →
    d0 = default 0%Z (m0 !! ReactionDislike) →
    let m := foldl (λ (m : gmap string Z) (kv : string * Z), <[kv.1 := kv.2]> m) m0 kvs in
    foldl ReactionRepository.counts_step (m0, l0, d0) kvs
    = (m, default 0%Z (m !! ReactionLike), default 0%Z (m !! ReactionDislike)).
Proof.
  induction kvs as [|[k v] kvs IH]; intros m0 l0 d0 Hl Hd; cbv zeta.
  - simpl. congruence.
  - cbn [foldl]. unfold ReactionRepository.counts_step at 2.
    destruct (decide (k = ReactionLike)) as [->|Hlike].
    + apply IH.
      * rewrite lookup_insert_eq. reflexivity.
      * rewrite lookup_insert_ne by discriminate. exact Hd.
    + destruct (decide (k = ReactionDislike)) as [->|Hdislike].
      * apply IH.
        -- rewrite lookup_insert_ne by discriminate. exact Hl.
        -- rewrite lookup_insert_eq. reflexivity.
      * apply IH; rewrite lookup_insert_ne by done; done.
Qed.

Lemma counts_of_groups (m : gmap string Z) :
  foldl ReactionRepository.counts_step (∅, 0%Z, 0%Z) (map_to_list m)
  = (m, default 0%Z (m !! ReactionLike), default 0%Z (m !! ReactionDislike)).
Proof.
  rewrite (counts_loop (map_to_list m) ∅ 0 0) by reflexivity. cbv zeta.
  assert (foldl (λ (m : gmap string Z) (kv : string * Z), <[kv.1 := kv.2]> m) ∅
            (map_to_list m) = m) as ->; [|reflexivity].
  apply map_eq. intros k. rewrite foldl_insert_lookup by apply NoDup_fst_map_to_list.
  rewrite list_to_map_to_list, lookup_empty. destruct (m !! k); reflexivity.
Qed.

(** What [GetReactionCounts] answers, and that it reads only. *)
Lemma GetReactionCounts_Ok_inv (oid : ObjectID) (s s' : Store) (counts : gmap string Z)
  (likeCount dislikeCount : Z) :
  ReactionRepository.GetReactionCounts oid s = (s', Ok (counts, likeCount, dislikeCount)) →
  let count (t : string) :=
    Z.of_nat (length (List.filter
                        (λ r, bool_decide (Reaction.CommentID r = oid)
                              && bool_decide (Reaction.Type_ r = t)) (reactions s))) in
  reactions s' = reactions s
  ∧ comments (world s') = comments (world s)
  ∧ logs (world s') = logs (world s)
  ∧ clock (world s') = clock (world s)
  ∧ (∀ t, default 0%Z (counts !! t) = count t)
  ∧ likeCount = count ReactionLike
  ∧ dislikeCount = count ReactionDislike.
Proof.
  unfold ReactionRepository.GetReactionCounts. rewrite bind_run_r, lift_round_trip_run.
  destruct (default false (head (outages (world s)))); [discriminate|].
  rewrite bind_run_r. unfold get_store at 1. rewrite bind_run_r, lift_round_trip_run.
  cbn [world set_world]. world_simpl.
  destruct (default false (head (tail (outages (world s))))); [discriminate|].
  rewrite bind_run_r.
  destruct (existsb _ _); cbn [fail_if_r]; [discriminate|].
  unfold mret at 1, RM_ret at 1. cbn [reactions set_world].
  unfold ReactionRepository.group_by_type. rewrite counts_of_groups.
  intros E. injection E as <- <- <- <-. cbn [world reactions set_world]. world_simpl.
  repeat split; try reflexivity; intros; apply group_counts.
Qed.

(** The (comment, user) pairs of the documents, in order. *)
Lemma update_first_Some (filter : Reaction.t → bool) (update : Reaction.t → Reaction.t)
  (docs docs' : list Reaction.t) :
  update_first filter update docs = Some docs' →
  ∃ before r after,
    docs = before ++ r :: after
    ∧ docs' = before ++ update r :: after
    ∧ filter r = true
    ∧ List.filter filter before = [].
Proof.
  revert docs'. induction docs as [|r docs IH]; intros docs'; [discriminate|].
  cbn [update_first]. destruct (filter r) eqn:Hr.
  - intros E. injection E as <-. exists [], r, docs. done.
  - destruct (update_first filter update docs) as [l|]; [|discriminate].
    intros E. injection E as <-.
    destruct (IH l eq_refl) as (before & r' & after & -> & -> & Hr' & Hnone).
    exists (r :: before), r', after. repeat split; try done.
    cbn [List.filter]. rewrite Hr. exact Hnone.
Qed.

Lemma update_first_None (filter : Reaction.t → bool) (update : Reaction.t → Reaction.t)
  (docs : list Reaction.t) :
  update_first filter update docs = None → List.filter filter docs = [].
Proof.
  induction docs as [|r docs IH]; [done|]. cbn [update_first List.filter].
  destruct (filter r); [discriminate|].
  destruct (update_first filter update docs); [discriminate|]. auto.
Qed.

Lemma delete_first_split (filter : Reaction.t → bool) (docs : list Reaction.t) :
  (List.filter filter docs = [] ∧ delete_first filter docs = docs)
  ∨ ∃ before r after,
      docs = before ++ r :: after
      ∧ delete_first filter docs = before ++ after
      ∧ filter r = true
      ∧ List.filter filter before = [].
Proof.
  induction docs as [|r docs IH]; [left; done|]. cbn [delete_first List.filter].
  destruct (filter r) eqn:Hr.
  - right. exists [], r, docs. done.
  - destruct IH as [[Hnone Hsame]|(before & r' & after & -> & Hdel & Hr' & Hnone)].
    + left. rewrite Hsame. done.
    + right. exists (r :: before), r', after. rewrite Hdel. repeat split; try done.
      cbn [List.filter]. rewrite Hr. exact Hnone.
Qed.

Lemma filter_nil_not_elem (filter : Reaction.t → bool) (docs : list Reaction.t)
  (r : Reaction.t) :
  List.filter filter docs = [] → r ∈ docs → filter r = false.
Proof.
  intros Hnone Hin. destruct (filter r) eqn:Hr; [|reflexivity].
  assert (In r (List.filter filter docs)) as Hf
    by (apply filter_In; split; [apply list_elem_of_In; exact Hin|exact Hr]).
  rewrite Hnone in Hf. destruct Hf.
Qed.

Lemma by_comment_and_user_pair (oid : ObjectID) (userID : string) (r : Reaction.t) :
  by_comment_and_user oid userID r = true
  ↔ (Reaction.CommentID r, Reaction.UserID r) = (oid, userID).
Proof.
  unfold by_comment_and_user. rewrite andb_true_iff, !bool_decide_eq_true.
  split; [intros [-> ->]; reflexivity|intros E; injection E as -> ->; done].
Qed.

(** What [Upsert] does to the store. *)
Lemma Upsert_inv (reaction : Reaction.t) (s s' : Store) (r : result Reaction.t) :
  ReactionRepository.Upsert reaction s = (s', r) →
  comments (world s') = comments (world s)
  ∧ logs (world s') = logs (world s)
  ∧ settings (world s') = settings (world s)
  ∧ outages (world s') = tail (outages (world s))
  ∧ match r with
    | Err _ => reactions s' = reactions s
    | Ok _ =>
        reactions s'
        = match update_first
                  (by_comment_and_user (Reaction.CommentID reaction)
                     (Reaction.UserID reaction))
                  (λ doc, {| Reaction.ID := Reaction.ID doc;
                             Reaction.CommentID := Reaction.CommentID doc;
                             Reaction.UserID := Reaction.UserID doc;
                             Reaction.Type_ := Reaction.Type_ reaction;
                             Reaction.CreatedAt := clock (world s) |})
                  (reactions s) with
          | Some updated => updated
          | None =>
              reactions s
              ++ [{| Reaction.ID := N.succ (oid_counter (world s));
                     Reaction.CommentID := Reaction.CommentID reaction;
                     Reaction.UserID := Reaction.UserID reaction;
                     Reaction.Type_ := Reaction.Type_ reaction;
                     Reaction.CreatedAt := clock (world s) |}]
          end
    end.
Proof.
  unfold ReactionRepository.Upsert. rewrite bind_run_r, lift_run.
  cbn [time_Now fst snd]. rewrite bind_run_r, lift_round_trip_run.
  cbn [world set_world]. world_simpl.
  destruct (default false (head (outages (world s)))).
  { intros E. injection E as <- <-. done. }
  rewrite bind_run_r. unfold get_store at 1. cbn [reactions set_world].
  destruct (update_first _ _ (reactions s)) as [updated|].
  - intros E. injection E as <- <-. done.
  - rewrite bind_run_r, lift_run. cbn [NewObjectID fst snd world set_world].
    intros E. injection E as <- <-. done.
Qed.

Lemma Delete_inv (userID : string) (oid : ObjectID) (s s' : Store) (r : result unit) :
  ReactionRepository.Delete userID oid s = (s', r) →
  comments (world s') = comments (world s)
  ∧ logs (world s') = logs (world s)
  ∧ clock (world s') = clock (world s)
  ∧ outages (world s') = tail (outages (world s))
  ∧ match r with
    | Err _ => reactions s' = reactions s
    | Ok _ => reactions s' = delete_first (by_comment_and_user oid userID) (reactions s)
    end.
Proof.
  unfold ReactionRepository.Delete. rewrite bind_run_r, lift_round_trip_run.
  destruct (default false (head (outages (world s)))); intros E; injection E as <- <-; done.
Qed.

Lemma UpdateReactionCounts_inv (oid : ObjectID) (likeCount dislikeCount : Z)
  (counts : gmap string Z) (w w' : World) (r : result unit) :
  CommentRepository.UpdateReactionCounts oid likeCount dislikeCount counts w = (w', r) →
  logs w' = logs w
  ∧ match r with
    | Err _ => comments w' = comments w
    | Ok _ =>
        comments w'
        = match comments w !! oid with
          | Some doc =>
              <[oid := Comment.set_UpdatedAt (clock w)
                         (Comment.set_ReactionCounts counts
                            (Comment.set_DislikeCount dislikeCount
                               (Comment.set_LikeCount likeCount doc)))]> (comments w)
          | None => comments w
          end
    end.
Proof.
  unfold CommentRepository.UpdateReactionCounts, comments_UpdateOne, mbind, M_bind, time_Now,
    round_trip, get_world, modify, mret, M_ret, throw.
  destruct w as [docs st k o out l]; simpl.
  destruct out as [|[] rest]; simpl; destruct (docs !! oid) as [doc|]; simpl;
    intros E; injection E as <- <-; done.
Qed.

(** What [updateReactionCounts] does to the store. *)
Lemma updateReactionCounts_inv (oid : ObjectID) (s s' : Store) (r : result unit) :
  ReactionUsecase.updateReactionCounts oid s = (s', r) →
  let count (t : string) :=
    Z.of_nat (length (List.filter
                        (λ r, bool_decide (Reaction.CommentID r = oid)
                              && bool_decide (Reaction.Type_ r = t)) (reactions s))) in
  reactions s' = reactions s
  ∧ logs (world s') = logs (world s)
  ∧ match r with
    | Err _ => comments (world s') = comments (world s)
    | Ok _ =>
        match comments (world s) !! oid with
        | None => comments (world s') = comments (world s)
        | Some doc =>
            ∃ counts updatedAt,
              (∀ t, default 0%Z (counts !! t) = count t)
              ∧ comments (world s')
                = <[oid := Comment.set_UpdatedAt updatedAt
                             (Comment.set_ReactionCounts counts
                                (Comment.set_DislikeCount (count ReactionDislike)
                                   (Comment.set_LikeCount (count ReactionLike) doc)))]>
                    (comments (world s))
        end
    end.
Proof.
  unfold ReactionUsecase.updateReactionCounts. rewrite bind_run_r.
  destruct (ReactionRepository.GetReactionCounts oid s)
    as [s1 [[[counts likeCount] dislikeCount]|e]] eqn:Hget.
  - apply GetReactionCounts_Ok_inv in Hget
      as (Hr & Hc & Hl & Hk & Hcounts & -> & ->).
    rewrite lift_run.
    destruct (CommentRepository.UpdateReactionCounts oid _ _ counts (world s1))
      as [w2 r2] eqn:Hup.
    apply UpdateReactionCounts_inv in Hup as [Hl2 Hc2].
    intros E. injection E as <- <-. cbn [world reactions set_world]. cbv zeta.
    split; [exact Hr|]. split; [congruence|].
    destruct r2 as [[]|e2]; [|congruence].
    rewrite Hc in Hc2. destruct (comments (world s) !! oid) as [doc|]; [|exact Hc2].
    exists counts, (clock (world s1)). split; [exact Hcounts|exact Hc2].
  - intros E. injection E as <- <-. cbv zeta.
    unfold ReactionRepository.GetReactionCounts in Hget.
    rewrite bind_run_r, lift_round_trip_run in Hget.
    destruct (default false (head (outages (world s)))).
    { injection Hget as <- _. done. }
    rewrite bind_run_r in Hget. unfold get_store at 1 in Hget.
    rewrite bind_run_r, lift_round_trip_run in Hget. cbn [world set_world] in Hget.
    world_simpl.
    destruct (default false (head (tail (outages (world s))))).
    { injection Hget as <- _. done. }
    rewrite bind_run_r in Hget.
    destruct (existsb _ _); cbn [fail_if_r] in Hget; [|discriminate].
    injection Hget as <- _. done.
Qed.

Lemma head_filter_skip (filter : Reaction.t → bool) (before rest : list Reaction.t) :
  List.filter filter before = [] →
  head (List.filter filter (before ++ rest)) = head (List.filter filter rest).
Proof. intros Hnone. rewrite List.filter_app, Hnone. reflexivity. Qed.

(** The collection after an upsert of the reaction of [userID] on [oid]. *)
Lemma upserted_reactions (oid : ObjectID) (userID : string) (type : ReactionType)
  (now : Time) (id : ObjectID) (docs : list Reaction.t) :
  let pair (r : Reaction.t) := (Reaction.CommentID r, Reaction.UserID r) in
  let docs' :=
    match update_first (by_comment_and_user oid userID)
            (λ doc, {| Reaction.ID := Reaction.ID doc;
                       Reaction.CommentID := Reaction.CommentID doc;
                       Reaction.UserID := Reaction.UserID doc;
                       Reaction.Type_ := type;
                       Reaction.CreatedAt := now |}) docs with
    | Some updated => updated
    | None => docs ++ [{| Reaction.ID := id;
                          Reaction.CommentID := oid;
                          Reaction.UserID := userID;
                          Reaction.Type_ := type;
                          Reaction.CreatedAt := now |}]
    end in
  (∃ r, head (List.filter (by_comment_and_user oid userID) docs') = Some r
        ∧ Reaction.Type_ r = type)
  ∧ List.filter (λ r, negb (by_comment_and_user oid userID r)) docs'
    = List.filter (λ r, negb (by_comment_and_user oid userID r)) docs
  ∧ (NoDup (pair <$> docs) → NoDup (pair <$> docs')).
Proof.
  intros pair docs'. subst docs'.
  destruct (update_first _ _ docs) as [updated|] eqn:Hup.
  - apply update_first_Some in Hup as (before & r & after & -> & -> & Hr & Hnone).
    assert (by_comment_and_user oid userID
              {| Reaction.ID := Reaction.ID r;
                 Reaction.CommentID := Reaction.CommentID r;
                 Reaction.UserID := Reaction.UserID r;
                 Reaction.Type_ := type;
                 Reaction.CreatedAt := now |} = true) as Hr' by exact Hr.
    split; [|split].
    + rewrite head_filter_skip by exact Hnone. cbn [List.filter]. rewrite Hr'.
      eexists. split; reflexivity.
    + rewrite !List.filter_app. cbn [List.filter]. rewrite Hr, Hr'. reflexivity.
    + rewrite !fmap_app, !fmap_cons. done.
  - apply update_first_None in Hup. split; [|split].
    + rewrite head_filter_skip by exact Hup. cbn [List.filter].
      unfold by_comment_and_user at 1. cbn. rewrite !bool_decide_eq_true_2 by done.
      eexists. split; reflexivity.
    + rewrite List.filter_app. cbn [List.filter]. unfold by_comment_and_user at 2. cbn.
      rewrite !bool_decide_eq_true_2 by done. cbn. apply app_nil_r.
    + intros Hnodup. rewrite fmap_app. apply NoDup_app. split; [exact Hnodup|].
      split; [|apply NoDup_singleton].
      intros p Hp Hp'. apply list_elem_of_singleton in Hp'. subst p.
      apply list_elem_of_fmap in Hp as (r & Hpair & Hin).
      pose proof (filter_nil_not_elem _ _ _ Hup Hin) as Hno.
      assert (by_comment_and_user oid userID r = true) as Hyes
        by (apply by_comment_and_user_pair; symmetry; exact Hpair).
      congruence.
Qed.

(** The collection after the reaction of [userID] on [oid] is deleted. *)
Lemma deleted_reactions (oid : ObjectID) (userID : string) (docs : list Reaction.t) :
  let pair (r : Reaction.t) := (Reaction.CommentID r, Reaction.UserID r) in
  let docs' := delete_first (by_comment_and_user oid userID) docs in
  List.filter (λ r, negb (by_comment_and_user oid userID r)) docs'
  = List.filter (λ r, negb (by_comment_and_user oid userID r)) docs
  ∧ length (List.filter (by_comment_and_user oid userID) docs')
    = pred (length (List.filter (by_comment_and_user oid userID) docs))
  ∧ (NoDup (pair <$> docs) →
     NoDup (pair <$> docs') ∧ List.filter (by_comment_and_user oid userID) docs' = []).
Proof.
  intros pair docs'. subst docs'.
  destruct (delete_first_split (by_comment_and_user oid userID) docs)
    as [[Hnone ->]|(before & r & after & -> & -> & Hr & Hnone)].
  - split; [reflexivity|]. split; [rewrite Hnone; reflexivity|]. done.
  - split; [|split].
    + rewrite !List.filter_app. cbn [List.filter]. rewrite Hr. reflexivity.
    + rewrite !List.filter_app, Hnone. cbn [List.filter]. rewrite Hr. reflexivity.
    + rewrite !fmap_app, fmap_cons. intros Hnodup.
      apply NoDup_app in Hnodup as (Hb & Hdisjoint & Ha).
      apply NoDup_cons in Ha as [Hfresh Ha]. split.
      * apply NoDup_app. split; [exact Hb|]. split; [|exact Ha].
        intros p Hp Hp'. apply (Hdisjoint p Hp). apply list_elem_of_further. exact Hp'.
      * rewrite List.filter_app, Hnone. cbn [app].
        destruct (List.filter (by_comment_and_user oid userID) after) as [|r' l] eqn:Hf;
          [reflexivity|].
        assert (In r' (List.filter (by_comment_and_user oid userID) after)) as Hin
          by (rewrite Hf; left; reflexivity).
        apply filter_In in Hin as [Hin Hr'].
        destruct Hfresh. apply list_elem_of_fmap. exists r'. split.
        -- apply by_comment_and_user_pair in Hr, Hr'. unfold pair. congruence.
        -- apply list_elem_of_In. exact Hin.
Qed.

(** The outcome of [GetUserReaction]. *)
Lemma GetUserReaction_run (commentID userID : string) (s : Store) (oid : ObjectID) :
  ObjectIDFromHex commentID = Some oid →
  head (outages (world s)) ≠ Some true →
  (ReactionUsecase.GetUserReaction commentID userID s).2
  = Ok (Reaction.Type_ <$> head (List.filter (by_comment_and_user oid userID) (reactions s))).
Proof.
  intros Hoid Hup. unfold ReactionUsecase.GetUserReaction. rewrite Hoid.
  unfold ReactionRepository.GetByUserAndComment.
  rewrite !bind_run_r, lift_round_trip_run.
  destruct (head (outages (world s))) as [[]|]; [done| |]; cbn [default];
    rewrite bind_run_r; unfold get_store at 1; cbn [reactions set_world];
    destruct (head (List.filter _ (reactions s))); reflexivity.
Qed.

Lemma lift_GetByID_run (oid : ObjectID) (s : Store) :
  ∃ w1, lift (CommentRepository.GetByID oid) s
        = (set_world w1 s,
           if default false (head (outages (world s))) then Err mongo_error
           else Ok (decode oid <$> comments (world s) !! oid))
        ∧ comments w1 = comments (world s)
        ∧ logs w1 = logs (world s)
        ∧ clock w1 = clock (world s)
        ∧ outages w1 = tail (outages (world s)).
Proof.
  rewrite lift_run. unfold CommentRepository.GetByID, comments_FindOne.
  rewrite bind_run. destruct (round_trip (world s)) as [w1 r] eqn:Hrt.
  apply round_trip_inv in Hrt as [-> ->].
  destruct (default false (head (outages (world s)))); eexists; split; reflexivity || done.
Qed.

Lemma log_err_r_inv (format : string) (m : RM unit) (s s' : Store) (r : result unit) :
  log_err_r format m s = (s', r) →
  r = Ok tt
  ∧ ((∃ x, m s = (s', Ok x))
     ∨ (∃ s1 e, m s = (s1, Err e)
                ∧ s' = set_world (set_logs (logs (world s1) ++ [(format, e)]) (world s1)) s1)).
Proof.
  unfold log_err_r. destruct (m s) as [s1 [x|e]] eqn:Hm; intros E; injection E as <- <-.
  - eauto.
  - split; [done|]. right. eauto.
Qed.

(** The comments after the counts of [oid] were refreshed, or not. *)
Lemma refreshed_counts (oid : ObjectID) (s s' : Store) (r : result unit) :
  log_err_r "Failed to update reaction counts: %v" (ReactionUsecase.updateReactionCounts oid) s
  = (s', r) →
  let count (t : string) :=
    Z.of_nat (length (List.filter
                        (λ r, bool_decide (Reaction.CommentID r = oid)
                              && bool_decide (Reaction.Type_ r = t)) (reactions s))) in
  r = Ok tt
  ∧ reactions s' = reactions s
  ∧ ((logs (world s') ≠ logs (world s) ∧ comments (world s') = comments (world s))
     ∨ (logs (world s') = logs (world s)
        ∧ match comments (world s) !! oid with
          | None => comments (world s') = comments (world s)
          | Some doc =>
              ∃ counts updatedAt,
                (∀ t, default 0%Z (counts !! t) = count t)
                ∧ comments (world s')
                  = <[oid := Comment.set_UpdatedAt updatedAt
                               (Comment.set_ReactionCounts counts
                                  (Comment.set_DislikeCount (count ReactionDislike)
                                     (Comment.set_LikeCount (count ReactionLike) doc)))]>
                      (comments (world s))
          end)).
Proof.
  intros E count. apply log_err_r_inv in E as [-> [[[] Hrun]|(s1 & e & Hrun & ->)]];
    apply updateReactionCounts_inv in Hrun as (Hr & Hl & Hc); fold count in Hc.
  - split; [done|]. split; [exact Hr|]. right. split; [exact Hl|exact Hc].
  - cbn [world reactions set_world]. world_simpl. split; [done|]. split; [exact Hr|].
    left. split; [rewrite Hl; apply snoc_neq|exact Hc].
Qed.

(** X29. [AddReaction] gives the caller exactly one reaction on the
    comment, of the type asked for: it replaces the caller's earlier
    reaction or adds one, leaves the reactions of every other user and
    comment as they were, and keeps a collection with one reaction per user
    and comment that way; [GetUserReaction] then answers with the new type.
    Unless the update of the counters was logged as failed, the comment's
    like count, dislike count and counts per type are then the numbers of
    reactions stored for it, and nothing else of the comment changes but the
    update time. It needs a comment that exists and is not deleted, and an
    [AddReaction] that returns an error changes neither collection. *)
Theorem add_reaction_sets_the_reaction_and_the_counts (commentID : string)
  (reactionType : ReactionType) (userID : string) (s s' : Store) (r : result unit) :
  ReactionUsecase.AddReaction commentID reactionType userID s = (s', r) →
  (is_Err r → reactions s' = reactions s ∧ comments (world s') = comments (world s))
  ∧ (r = Ok tt →
     ∃ (oid : ObjectID) (before : Comment.t),
       let mine := by_comment_and_user oid userID in
       let pair (x : Reaction.t) := (Reaction.CommentID x, Reaction.UserID x) in
       let count (t : string) :=
         Z.of_nat (length (List.filter
                             (λ x, bool_decide (Reaction.CommentID x = oid)
                                   && bool_decide (Reaction.Type_ x = t)) (reactions s'))) in
       ObjectIDFromHex commentID = Some oid
       ∧ comments (world s) !! oid = Some before
       ∧ Comment.IsDeleted before = false
       ∧ (∃ x, head (List.filter mine (reactions s')) = Some x
               ∧ Reaction.Type_ x = reactionType)
       ∧ List.filter (λ x, negb (mine x)) (reactions s')
         = List.filter (λ x, negb (mine x)) (reactions s)
       ∧ (NoDup (pair <$> reactions s) → NoDup (pair <$> reactions s'))
       ∧ (head (outages (world s')) ≠ Some true →
          (ReactionUsecase.GetUserReaction commentID userID s').2 = Ok (Some reactionType))
       ∧ (logs (world s') = logs (world s) →
          ∃ after, comments (world s') !! oid = Some after
                   ∧ Comment.LikeCount after = count ReactionLike
                   ∧ Comment.DislikeCount after = count ReactionDislike
                   ∧ (∀ t, default 0%Z (Comment.ReactionCounts after !! t) = count t)
                   ∧ Comment.set_UpdatedAt (Comment.UpdatedAt before)
                       (Comment.set_ReactionCounts (Comment.ReactionCounts before)
                          (Comment.set_DislikeCount (Comment.DislikeCount before)
                             (Comment.set_LikeCount (Comment.LikeCount before) after)))
                     = before)).
Proof.
  unfold ReactionUsecase.AddReaction.
  destruct (ObjectIDFromHex commentID) as [oid|] eqn:Hoid.
  2: { intros E. injection E as <- <-. split; [done|discriminate]. }
  rewrite bind_run_r.
  destruct (lift_GetByID_run oid s) as (w1 & -> & Hc1 & Hl1 & _ & _).
  destruct (default false (head (outages (world s)))).
  { intros E. injection E as <- <-. split; [done|discriminate]. }
  destruct (comments (world s) !! oid) as [before|] eqn:Hdoc; cbn [fmap option_fmap option_map].
  2: { intros E. injection E as <- <-. split; [done|discriminate]. }
  rewrite bind_run_r.
  change (Comment.IsDeleted (decode oid before)) with (Comment.IsDeleted before).
  destruct (Comment.IsDeleted before) eqn:Hdel; cbn [fail_if_r].
  { intros E. injection E as <- <-. split; [done|discriminate]. }
  unfold mret at 1, RM_ret at 1. rewrite bind_run_r. unfold wrap_err_r at 1.
  match goal with |- context [ReactionRepository.Upsert ?x ?v] =>
    destruct (ReactionRepository.Upsert x v) as [s2 [x2|e2]] eqn:Hup end;
    apply Upsert_inv in Hup as (Hc2 & Hl2 & _ & _ & Hr2);
    cbn [world reactions set_world Reaction.CommentID Reaction.UserID Reaction.Type_] in *.
  2: { intros E. injection E as <- <-. split; [|discriminate]. intros _.
       split; [exact Hr2|congruence]. }
  rewrite bind_run_r.
  destruct (log_err_r _ _ s2) as [s3 r3] eqn:Hlog.
  apply refreshed_counts in Hlog as (-> & Hr3 & Hc3).
  unfold mret, RM_ret. intros E. injection E as <- <-. split; [intros []|]. intros _.
  exists oid, before. cbv zeta.
  destruct (upserted_reactions oid userID reactionType (clock w1)
              (N.succ (oid_counter w1)) (reactions s)) as (Hmine & Hothers & Hnodup).
  rewrite <- Hr2, <- Hr3 in Hmine, Hothers, Hnodup.
  split; [done|]. split; [done|]. split; [done|]. split; [exact Hmine|].
  split; [exact Hothers|]. split; [exact Hnodup|]. split.
  { intros Hup. rewrite (GetUserReaction_run _ _ _ oid Hoid Hup).
    destruct Hmine as (x & -> & <-). reflexivity. }
  intros Hlogs. rewrite Hr3.
  destruct Hc3 as [[Hl3 _]|[_ Hc3]]; [destruct Hl3; congruence|].
  rewrite Hc2, Hc1, Hdoc in Hc3. destruct Hc3 as (counts & updatedAt & Hcounts & ->).
  eexists. split; [apply lookup_insert_eq|]. cbn.
  split; [reflexivity|]. split; [reflexivity|]. split; [exact Hcounts|].
  destruct before; reflexivity.
Qed.

(** X30. [RemoveReaction] deletes one reaction of the caller on the comment
    when there is one, and leaves the reactions of every other user and
    comment as they were; in a collection with one reaction per user and
    comment the caller then has none, and [GetUserReaction] answers with no
    reaction. It does not look at the comment: it succeeds whether or not
    the comment exists or is deleted. Unless the update of the counters was
    logged as failed, a comment that exists then has as like count, dislike
    count and counts per type the numbers of reactions stored for it. A
    [RemoveReaction] that returns an error changes neither collection. *)
Theorem remove_reaction_deletes_the_reaction_and_sets_the_counts (commentID : string)
  (userID : string) (s s' : Store) (r : result unit) :
  ReactionUsecase.RemoveReaction commentID userID s = (s', r) →
  (is_Err r → reactions s' = reactions s ∧ comments (world s') = comments (world s))
  ∧ (r = Ok tt →
     ∃ oid : ObjectID,
       let mine := by_comment_and_user oid userID in
       let pair (x : Reaction.t) := (Reaction.CommentID x, Reaction.UserID x) in
       let count (t : string) :=
         Z.of_nat (length (List.filter
                             (λ x, bool_decide (Reaction.CommentID x = oid)
                                   && bool_decide (Reaction.Type_ x = t)) (reactions s'))) in
       ObjectIDFromHex commentID = Some oid
       ∧ length (List.filter mine (reactions s'))
         = pred (length (List.filter mine (reactions s)))
       ∧ List.filter (λ x, negb (mine x)) (reactions s')
         = List.filter (λ x, negb (mine x)) (reactions s)
       ∧ (NoDup (pair <$> reactions s) →
          NoDup (pair <$> reactions s')
          ∧ List.filter mine (reactions s') = []
          ∧ (head (outages (world s')) ≠ Some true →
             (ReactionUsecase.GetUserReaction commentID userID s').2 = Ok None))
       ∧ (logs (world s') = logs (world s) →
          match comments (world s) !! oid with
          | None => comments (world s') = comments (world s)
          | Some before =>
              ∃ after, comments (world s') !! oid = Some after
                       ∧ Comment.LikeCount after = count ReactionLike
                       ∧ Comment.DislikeCount after = count ReactionDislike
                       ∧ (∀ t, default 0%Z (Comment.ReactionCounts after !! t) = count t)
          end)).
Proof.
  unfold ReactionUsecase.RemoveReaction.
  destruct (ObjectIDFromHex commentID) as [oid|] eqn:Hoid.
  2: { intros E. injection E as <- <-. split; [done|discriminate]. }
  rewrite bind_run_r. unfold wrap_err_r at 1.
  destruct (ReactionRepository.Delete userID oid s) as [s2 [[]|e2]] eqn:Hdelete;
    apply Delete_inv in Hdelete as (Hc2 & Hl2 & _ & _ & Hr2).
  2: { intros E. injection E as <- <-. split; [|discriminate]. intros _. done. }
  rewrite bind_run_r.
  destruct (log_err_r _ _ s2) as [s3 r3] eqn:Hlog.
  apply refreshed_counts in Hlog as (-> & Hr3 & Hc3).
  unfold mret, RM_ret. intros E. injection E as <- <-. split; [intros []|]. intros _.
  exists oid. cbv zeta.
  destruct (deleted_reactions oid userID (reactions s)) as (Hothers & Hlen & Hnodup).
  rewrite <- Hr2, <- Hr3 in Hothers, Hlen, Hnodup.
  split; [done|]. split; [exact Hlen|]. split; [exact Hothers|]. split.
  { intros Hunique. destruct (Hnodup Hunique) as [Hkept Hnone].
    split; [exact Hkept|]. split; [exact Hnone|].
    intros Hup. rewrite (GetUserReaction_run _ _ _ oid Hoid Hup), Hnone. reflexivity. }
  intros Hlogs. rewrite Hr3.
  destruct Hc3 as [[Hl3 _]|[_ Hc3]]; [destruct Hl3; congruence|].
  rewrite Hc2 in Hc3. destruct (comments (world s) !! oid) as [before|]; [|exact Hc3].
  destruct Hc3 as (counts & updatedAt & Hcounts & ->).
  eexists. split; [apply lookup_insert_eq|]. cbn. done.
Qed.

(** ** The further properties on the example data *)

Lemma list_returns_what_was_asked_witness :
  ∃ w' resp,
    CommentUsecase.ListComments default_usecase oversized_page_request "u9" false
      crowded_world = (w', Ok resp)
    ∧ ∀ c, c ∈ ListCommentsResponse.Comments resp →
        Comment.IsDeleted c = false ∧ Comment.ParentID c = None
        ∧ Comment.TenantID c = "shop".
Proof.
  assert (∃ w' resp,
    CommentUsecase.ListComments default_usecase oversized_page_request "u9" false
      crowded_world = (w', Ok resp)) as (w' & resp & Hrun)
    by (eexists _, _; vm_compute; reflexivity).
  exists w', resp. split; [exact Hrun|].
  destruct (list_returns_what_was_asked _ _ _ _ _ _ _ Hrun) as [_ Hall].
  intros c Hc. destruct (Hall c Hc) as (_ & Hdel & Hroot & _ & Htenant & _).
  split; [exact (Hdel eq_refl)|]. split; [exact (Hroot eq_refl)|].
  apply Htenant. discriminate.
Defined.

Lemma list_page_is_bounded_and_ordered_witness :
  ∃ w' resp,
    CommentUsecase.ListComments default_usecase oversized_page_request "u9" false
      crowded_world = (w', Ok resp)
    ∧ (Z.of_nat (length (ListCommentsResponse.Comments resp)) <= 20)%Z.
Proof.
  assert (∃ w' resp,
    CommentUsecase.ListComments default_usecase oversized_page_request "u9" false
      crowded_world = (w', Ok resp)) as (w' & resp & Hrun)
    by (eexists _, _; vm_compute; reflexivity).
  exists w', resp. split; [exact Hrun|].
  destruct (list_page_is_bounded_and_ordered _ _ _ _ _ _ _ Hrun) as [[Hlen _] _].
  exact Hlen.
Defined.

Lemma list_ignores_malformed_parent_witness :
  ∃ w' resp,
    CommentUsecase.ListComments default_usecase malformed_parent_request "m1" true
      thread_world = (w', Ok resp)
    ∧ ListCommentsRequest.ParentID malformed_parent_request ≠ ""
    ∧ ObjectIDFromHex (ListCommentsRequest.ParentID malformed_parent_request) = None
    ∧ ListCommentsResponse.Total resp = 2%Z.
Proof.
  assert (∃ w' resp,
    CommentUsecase.ListComments default_usecase malformed_parent_request "m1" true
      thread_world = (w', Ok resp)) as (w' & resp & Hrun)
    by (eexists _, _; vm_compute; reflexivity).
  assert (ListCommentsRequest.ParentID malformed_parent_request ≠ "") as Hne
    by discriminate.
  exists w', resp. split; [exact Hrun|]. split; [exact Hne|]. split; [reflexivity|].
  destruct (list_ignores_malformed_parent _ _ _ _ _ _ _ Hrun Hne eq_refl) as [_ Htotal].
  rewrite Htotal. vm_compute. reflexivity.
Defined.

Lemma replies_are_approved_children_oldest_first_witness :
  ∃ w' replies total,
    CommentUsecase.GetReplies default_usecase great_product_id 1 20 open_thread_world
    = (w', Ok (replies, total))
    ∧ total = 1%Z
    ∧ ∀ c, c ∈ replies →
        Comment.ParentID c = Some 1%N ∧ Comment.Status c = StatusApproved.
Proof.
  assert (∃ w' replies,
    CommentUsecase.GetReplies default_usecase great_product_id 1 20 open_thread_world
    = (w', Ok (replies, 1%Z))) as (w' & replies & Hrun)
    by (eexists _, _; vm_compute; reflexivity).
  exists w', replies, 1%Z. split; [exact Hrun|]. split; [reflexivity|].
  destruct (replies_are_approved_children_oldest_first _ _ _ _ _ _ _ _ Hrun)
    as (oid & Hoid & _ & Hall & _).
  vm_compute in Hoid. injection Hoid as <-.
  intros c Hc. destruct (Hall c Hc) as (Hp & Hs & _). split; [exact Hp|exact Hs].
Defined.

Lemma pending_queue_is_pending_oldest_first_witness :
  ∃ w' pending total,
    CommentUsecase.GetPendingComments default_usecase "shop" 1 20 shop_world
    = (w', Ok (pending, total))
    ∧ total = 1%Z
    ∧ ∀ c, c ∈ pending → Comment.TenantID c = "shop" ∧ Comment.Status c = StatusPending.
Proof.
  assert (∃ w' pending,
    CommentUsecase.GetPendingComments default_usecase "shop" 1 20 shop_world
    = (w', Ok (pending, 1%Z))) as (w' & pending & Hrun)
    by (eexists _, _; vm_compute; reflexivity).
  exists w', pending, 1%Z. split; [exact Hrun|]. split; [reflexivity|].
  destruct (pending_queue_is_pending_oldest_first _ _ _ _ _ _ _ _ Hrun) as (_ & Hall & _).
  intros c Hc. destruct (Hall c Hc) as (Ht & Hs & _).
  split; [apply Ht; discriminate|exact Hs].
Defined.

Lemma stats_count_the_resource_witness :
  ∃ w' stats,
    CommentUsecase.GetCommentStats default_usecase "shop" "product" "p1" crowded_world
    = (w', Ok stats)
    ∧ CommentStats.TotalComments stats = 21%Z
    ∧ CommentStats.ApprovedCount stats = 21%Z.
Proof.
  assert (∃ w' stats,
    CommentUsecase.GetCommentStats default_usecase "shop" "product" "p1" crowded_world
    = (w', Ok stats)) as (w' & stats & Hrun)
    by (eexists _, _; vm_compute; reflexivity).
  exists w', stats. split; [exact Hrun|].
  destruct (stats_count_the_resource _ _ _ _ _ _ _ Hrun) as (_ & Htotal & Happroved & _).
  rewrite Htotal, Happroved. split; vm_compute; reflexivity.
Defined.

Lemma create_stores_the_comment_witness :
  ∃ w' created,
    CommentUsecase.CreateComment default_usecase thanks_reply_request
      "u2" "Bob" "bob@example.com" "198.51.100.1" "curl" shop_world = (w', Ok created)
    ∧ comments w' !! Comment.ID created = Some created
    ∧ comments w' !! 1%N = Some (bumped 1 (Comment.UpdatedAt created + 1) great_product).
Proof.
  set (run := CommentUsecase.CreateComment default_usecase thanks_reply_request
                "u2" "Bob" "bob@example.com" "198.51.100.1" "curl" shop_world).
  assert (∃ created, run = (run.1, Ok created)) as [created Hrun]
    by (eexists; vm_compute; reflexivity).
  assert (logs run.1 = logs shop_world) as Hlogs by (vm_compute; reflexivity).
  assert (Comment.ParentID created = Some 1%N) as Hparent.
  { assert (run.2 = Ok created) as Hr by (rewrite Hrun; reflexivity).
    vm_compute in Hr. injection Hr as <-. reflexivity. }
  exists run.1, created. split; [exact Hrun|].
  destruct (create_stores_the_comment _ _ _ _ _ _ _ _ _ _ Hrun)
    as (_ & Hstored & _ & Hkeep).
  split; [exact Hstored|].
  destruct (Hkeep 1%N great_product ltac:(vm_compute; reflexivity)) as [Hbumped _].
  rewrite (Hbumped Hlogs), Hparent. reflexivity.
Defined.

Lemma create_respects_settings_witness :
  ∃ w' created settings w1,
    CommentUsecase.CreateComment default_usecase thanks_reply_request
      "u2" "Bob" "bob@example.com" "198.51.100.1" "curl" shop_world = (w', Ok created)
    ∧ SettingsRepository.GetOrCreate "shop" "product" shop_world = (w1, Ok settings)
    ∧ (len (Comment.Content created) <= CommentSettings.MaxCommentLength settings)%Z.
Proof.
  assert (∃ w' created,
    CommentUsecase.CreateComment default_usecase thanks_reply_request
      "u2" "Bob" "bob@example.com" "198.51.100.1" "curl" shop_world = (w', Ok created))
    as (w' & created & Hrun) by (eexists _, _; vm_compute; reflexivity).
  destruct (create_respects_settings _ _ _ _ _ _ _ _ _ _ Hrun)
    as (settings & w1 & Hset & _ & Hlen & _).
  exists w', created, settings, w1. split; [exact Hrun|]. split; [exact Hset|exact Hlen].
Defined.

Lemma create_records_request_and_author_witness :
  ∃ w' created,
    CommentUsecase.CreateComment default_usecase thanks_reply_request
      "u2" "Bob" "bob@example.com" "198.51.100.1" "curl" shop_world = (w', Ok created)
    ∧ Comment.AuthorID created = "u2"
    ∧ Comment.AuthorName created = "Bob"
    ∧ Comment.ReplyCount created = 0%Z.
Proof.
  assert (∃ w' created,
    CommentUsecase.CreateComment default_usecase thanks_reply_request
      "u2" "Bob" "bob@example.com" "198.51.100.1" "curl" shop_world = (w', Ok created))
    as (w' & created & Hrun) by (eexists _, _; vm_compute; reflexivity).
  exists w', created. split; [exact Hrun|].
  destruct (create_records_request_and_author _ _ _ _ _ _ _ _ _ _ Hrun)
    as (_ & (Hid & _ & _ & _ & Hname & _) & (Hcount & _)).
  split; [exact Hid|]. split; [exact Hname|exact Hcount].
Defined.

Lemma failed_operations_change_no_comment_witness :
  ∃ w' e,
    CommentUsecase.CreateComment default_usecase spam_request
      "u2" "Bob" "bob@example.com" "198.51.100.1" "curl" offline_world = (w', Err e)
    ∧ comments w' = comments offline_world.
Proof.
  assert (∃ w' e,
    CommentUsecase.CreateComment default_usecase spam_request
      "u2" "Bob" "bob@example.com" "198.51.100.1" "curl" offline_world = (w', Err e))
    as (w' & e & Hrun) by (eexists _, _; vm_compute; reflexivity).
  exists w', e. split; [exact Hrun|].
  destruct (failed_operations_change_no_comment default_usecase offline_world w' e)
    as (Hcreate & _).
  exact (Hcreate _ _ _ _ _ _ Hrun).
Defined.

Lemma update_changes_only_the_edit_witness :
  ∃ w' updated,
    CommentUsecase.UpdateComment default_usecase great_product_id spam_edit "u1" false
      shop_world = (w', Ok updated)
    ∧ Comment.set_UpdatedAt (Comment.UpdatedAt great_product)
        (Comment.set_Status (Comment.Status great_product)
           (Comment.set_FlaggedWords (Comment.FlaggedWords great_product)
              (Comment.set_IsEdited (Comment.IsEdited great_product)
                 (Comment.set_Attachments (Comment.Attachments great_product)
                    (Comment.set_Content (Comment.Content great_product)
                       (Comment.set_EditHistory (Comment.EditHistory great_product)
                          updated))))))
      = great_product.
Proof.
  assert (∃ w' updated,
    CommentUsecase.UpdateComment default_usecase great_product_id spam_edit "u1" false
      shop_world = (w', Ok updated)) as (w' & updated & Hrun)
    by (eexists _, _; vm_compute; reflexivity).
  exists w', updated. split; [exact Hrun|].
  destruct (update_changes_only_the_edit _ _ _ _ _ _ _ _ Hrun)
    as (oid & before & settings & w1 & Hoid & Hdoc & _ & _ & _ & _ & _ & Hrest).
  vm_compute in Hoid. injection Hoid as <-.
  vm_compute in Hdoc. injection Hdoc as <-.
  exact Hrest.
Defined.

Lemma update_cannot_empty_stored_lists_witness :
  ∃ w' updated stored,
    CommentUsecase.UpdateComment default_usecase great_product_id clean_edit "u1" false
      flagged_world = (w', Ok updated)
    ∧ Comment.FlaggedWords updated = []
    ∧ comments w' !! 1%N = Some stored
    ∧ Comment.FlaggedWords stored = ["scam"].
Proof.
  set (run := CommentUsecase.UpdateComment default_usecase great_product_id clean_edit "u1"
                false flagged_world).
  assert (∃ updated, run = (run.1, Ok updated) ∧ Comment.FlaggedWords updated = [])
    as (updated & Hrun & Hclean) by (eexists; split; vm_compute; reflexivity).
  destruct (update_cannot_empty_stored_lists _ _ _ _ _ _ _ _ Hrun)
    as (oid & before & stored & Hoid & Hdoc & Hstored & _ & _ & Hflagged & _).
  vm_compute in Hoid. injection Hoid as <-.
  assert (Comment.FlaggedWords before = ["scam"]) as Hbefore.
  { vm_compute in Hdoc. injection Hdoc as <-. reflexivity. }
  exists run.1, updated, stored. split; [exact Hrun|]. split; [exact Hclean|].
  split; [exact Hstored|].
  rewrite Hflagged, Hclean, Hbefore. reflexivity.
Defined.

Lemma pin_sets_state_and_unpin_keeps_stored_pinner_witness :
  ∃ w' unpinned stored,
    CommentUsecase.PinComment default_usecase great_product_id false "m2" pinned_world
    = (w', Ok unpinned)
    ∧ Comment.PinnedBy unpinned = ""
    ∧ comments w' !! 1%N = Some stored
    ∧ Comment.IsPinned stored = false
    ∧ Comment.PinnedBy stored = "m1".
Proof.
  assert (∃ w' unpinned,
    CommentUsecase.PinComment default_usecase great_product_id false "m2" pinned_world
    = (w', Ok unpinned)) as (w' & unpinned & Hrun)
    by (eexists _, _; vm_compute; reflexivity).
  destruct (pin_sets_state_and_unpin_keeps_stored_pinner _ _ _ _ _ _ _ Hrun)
    as (oid & before & stored & Hoid & Hdoc & Hstored & _ & _ & Hpin & Hby & _).
  vm_compute in Hoid. injection Hoid as <-.
  assert (Comment.PinnedBy before = "m1") as Hbefore.
  { vm_compute in Hdoc. injection Hdoc as <-. reflexivity. }
  destruct Hby as (Hby & _ & Hkept & _).
  exists w', unpinned, stored. split; [exact Hrun|]. split; [exact Hby|].
  split; [exact Hstored|]. split; [exact Hpin|]. rewrite Hkept. exact Hbefore.
Defined.

Lemma created_comment_is_found_by_its_id_witness :
  ∃ w' created,
    CommentUsecase.CreateComment default_usecase thanks_reply_request
      "u2" "Bob" "bob@example.com" "198.51.100.1" "curl" shop_world = (w', Ok created)
    ∧ ObjectID_Hex (Comment.ID created) = thanks_reply_id
    ∧ (CommentUsecase.GetComment default_usecase thanks_reply_id w').2 = Ok created.
Proof.
  set (run := CommentUsecase.CreateComment default_usecase thanks_reply_request
                "u2" "Bob" "bob@example.com" "198.51.100.1" "curl" shop_world).
  assert (∃ created, run = (run.1, Ok created) ∧ Comment.ID created = 8%N)
    as (created & Hrun & Hid) by (eexists; split; vm_compute; reflexivity).
  assert (head (outages run.1) ≠ Some true) as Hup by (vm_compute; discriminate).
  assert (Comment.ID created < 2 ^ 96)%N as Hsmall by (rewrite Hid; vm_compute; reflexivity).
  assert (ObjectID_Hex (Comment.ID created) = thanks_reply_id) as Hhex
    by (rewrite Hid; vm_compute; reflexivity).
  exists run.1, created. split; [exact Hrun|]. split; [exact Hhex|].
  rewrite <- Hhex.
  exact (created_comment_is_found_by_its_id _ _ _ _ _ _ _ _ _ _ Hrun Hsmall Hup).
Defined.

Lemma reply_then_delete_restores_reply_count_witness :
  ∃ w1 created w2,
    CommentUsecase.CreateComment default_usecase thanks_reply_request
      "u2" "Bob" "bob@example.com" "198.51.100.1" "curl" shop_world = (w1, Ok created)
    ∧ CommentUsecase.DeleteComment default_usecase thanks_reply_id "u2" false w1
      = (w2, Ok tt)
    ∧ ∃ parent, comments w2 !! 1%N = Some parent
                ∧ Comment.ReplyCount parent = Comment.ReplyCount great_product.
Proof.
  set (run := CommentUsecase.CreateComment default_usecase thanks_reply_request
                "u2" "Bob" "bob@example.com" "198.51.100.1" "curl" shop_world).
  assert (∃ created, run = (run.1, Ok created) ∧ Comment.ID created = 8%N)
    as (created & Hrun & Hid) by (eexists; split; vm_compute; reflexivity).
  set (del := CommentUsecase.DeleteComment default_usecase thanks_reply_id "u2" false run.1).
  assert (del = (del.1, Ok tt)) as Hdel by (vm_compute; reflexivity).
  assert (logs run.1 = logs shop_world) as Hl1 by (vm_compute; reflexivity).
  assert (logs del.1 = logs run.1) as Hl2 by (vm_compute; reflexivity).
  assert (ObjectIDFromHex thanks_reply_id = Some (Comment.ID created)) as Hhex
    by (rewrite Hid; vm_compute; reflexivity).
  exists run.1, created, del.1. split; [exact Hrun|]. split; [exact Hdel|].
  destruct (reply_then_delete_restores_reply_count _ _ _ _ _ _ _ _ _ _ _ _ _ _
              Hrun Hhex Hdel Hl1 Hl2) as [Hkeep _].
  destruct (Hkeep 1%N great_product ltac:(vm_compute; reflexivity))
    as (parent & Hparent & Hcount & _).
  exists parent. split; [exact Hparent|exact Hcount].
Defined.

Lemma deleted_comment_is_readable_not_editable_witness :
  ∃ w',
    CommentUsecase.DeleteComment default_usecase thanks_reply_id "u2" false thread_world
    = (w', Ok tt)
    ∧ (∃ c, (CommentUsecase.GetComment default_usecase thanks_reply_id w').2 = Ok c
            ∧ Comment.IsDeleted c = true)
    ∧ is_Err (CommentUsecase.UpdateComment default_usecase thanks_reply_id clean_edit "u2"
                false w').2.
Proof.
  set (del := CommentUsecase.DeleteComment default_usecase thanks_reply_id "u2" false
                thread_world).
  assert (del = (del.1, Ok tt)) as Hdel by (vm_compute; reflexivity).
  assert (head (outages del.1) ≠ Some true) as Hup by (vm_compute; discriminate).
  exists del.1. split; [exact Hdel|].
  destruct (deleted_comment_is_readable_not_editable default_usecase thanks_reply_id "u2"
              false thread_world del.1 Hdel) as [Hget Hupdate].
  split.
  - destruct (Hget Hup) as (c & Hc & Hdeleted & _). exists c. split; [exact Hc|exact Hdeleted].
  - destruct (CommentUsecase.UpdateComment default_usecase thanks_reply_id clean_edit "u2"
                false del.1) as [w2 r] eqn:Hrun.
    destruct (Hupdate _ _ _ _ _ Hrun) as [Herr _]. exact Herr.
Defined.

Lemma settings_are_created_once_with_defaults_witness :
  ∃ s w',
    outages shop_world = []
    ∧ settings shop_world !! ("blog", "post") = None
    ∧ SettingsRepository.GetOrCreate "blog" "post" shop_world = (w', Ok s)
    ∧ CommentSettings.MaxReplyDepth s = 5%Z
    ∧ SettingsRepository.GetOrCreate "blog" "post" w' = (w', Ok s).
Proof.
  assert (settings shop_world !! ("blog", "post") = None) as Hnone
    by (vm_compute; reflexivity).
  destruct (settings_are_created_once_with_defaults "blog" "post" shop_world eq_refl)
    as (s & w' & Hrun & _ & _ & _ & Hdefaults & Hagain).
  rewrite Hnone in Hdefaults.
  exists s, w'. split; [reflexivity|]. split; [exact Hnone|]. split; [exact Hrun|].
  split; [rewrite Hdefaults; reflexivity|exact Hagain].
Defined.

Lemma settings_update_is_partial_witness :
  ∃ w' s,
    SettingsRepository.Update "shop" "product" approval_off shop_world = (w', Ok s)
    ∧ settings w' !! ("shop", "product") = Some s
    ∧ CommentSettings.RequireApproval s = false
    ∧ CommentSettings.MaxCommentLength s = 5000%Z.
Proof.
  assert (∃ w' s,
    SettingsRepository.Update "shop" "product" approval_off shop_world = (w', Ok s))
    as (w' & s & Hrun) by (eexists _, _; vm_compute; reflexivity).
  exists w', s. split; [exact Hrun|].
  destruct (settings_update_is_partial _ _ _ _ _ _ Hrun)
    as (Hstored & _ & _ & _ & base & Hbase & _ & _ & _ & _ & Happroval & _ & _ & _ & _ & _
        & _ & _ & Hlength & _).
  assert (settings shop_world !! ("shop", "product") = Some shop_settings) as Hfound
    by (vm_compute; reflexivity).
  rewrite Hfound in Hbase. subst base.
  split; [exact Hstored|]. split; [exact Happroval|exact Hlength].
Defined.

Lemma first_update_of_settings_disables_comments_witness :
  ∃ w1 s,
    settings shop_world !! ("blog", "post") = None
    ∧ SettingsRequest.CommentsEnabled approval_off ≠ Some true
    ∧ SettingsRepository.Update "blog" "post" approval_off shop_world = (w1, Ok s)
    ∧ head (outages w1) ≠ Some true
    ∧ (CommentUsecase.CreateComment default_usecase blog_request
         "u3" "Cy" "cy@example.com" "198.51.100.2" "curl" w1).2
      = Err (Errorf "comments are disabled for this resource type").
Proof.
  assert (settings shop_world !! (CreateCommentRequest.TenantID blog_request,
                                  CreateCommentRequest.ResourceType blog_request) = None)
    as Hnone by (vm_compute; reflexivity).
  assert (SettingsRequest.CommentsEnabled approval_off ≠ Some true) as Hoff by discriminate.
  set (run := SettingsRepository.Update (CreateCommentRequest.TenantID blog_request)
                (CreateCommentRequest.ResourceType blog_request) approval_off shop_world).
  assert (∃ s, run = (run.1, Ok s)) as [s Hrun] by (eexists; vm_compute; reflexivity).
  assert (head (outages run.1) ≠ Some true) as Hup by (vm_compute; discriminate).
  exists run.1, s. split; [exact Hnone|]. split; [exact Hoff|]. split; [exact Hrun|].
  split; [exact Hup|].
  exact (first_update_of_settings_disables_comments default_usecase approval_off
           blog_request "u3" "Cy" "cy@example.com" "198.51.100.2" "curl" shop_world run.1 s
           Hnone Hoff Hrun Hup).
Defined.

Lemma truncate_fits_the_limit_witness :
  ∃ t, CommentUsecase.truncateString "Great product, would buy again" 10 = Some t
       ∧ (len t <= 10)%Z.
Proof.
  destruct (truncate_fits_the_limit "Great product, would buy again" 10) as [Hfits _].
  destruct (Hfits ltac:(lia)) as (t & Ht & Hlen & _).
  exists t. split; [exact Ht|exact Hlen].
Defined.

Lemma new_comment_notification_witness :
  ∃ n,
    CommentUsecase.sendNewCommentNotification default_usecase true great_product
      shop_settings = Some n
    ∧ NotificationRequest.Type_ n = "comment.pending"
    ∧ NotificationRequest.Recipients n = ["admin"].
Proof.
  destruct (new_comment_notification default_usecase true great_product shop_settings)
    as [Hsent Hwhat].
  destruct (proj2 Hsent) as [n Hn].
  { split; [reflexivity|]. split; reflexivity. }
  exists n. split; [exact Hn|].
  destruct (Hwhat n Hn) as (Hto & Htype & _). split; [exact Htype|exact Hto].
Defined.

Lemma moderation_notification_says_approved_unless_rejected_witness :
  ∃ w' moderated n,
    CommentUsecase.ModerateComment default_usecase great_product_id mark_as_spam "m1"
      shop_world = (w', Ok moderated)
    ∧ Comment.Status moderated = StatusSpam
    ∧ CommentUsecase.sendModerationNotification default_usecase true moderated = Some n
    ∧ NotificationRequest.Title n = "Your Comment Was Approved".
Proof.
  set (run := CommentUsecase.ModerateComment default_usecase great_product_id mark_as_spam
                "m1" shop_world).
  assert (∃ moderated, run = (run.1, Ok moderated) ∧ Comment.Status moderated = StatusSpam)
    as (moderated & Hrun & Hstatus) by (eexists; split; vm_compute; reflexivity).
  destruct (moderation_notification_says_approved_unless_rejected default_usecase
              great_product_id mark_as_spam "m1" shop_world run.1 moderated Hrun eq_refl)
    as (n & Hn & _ & _ & _ & Htitle).
  exists run.1, moderated, n. split; [exact Hrun|]. split; [exact Hstatus|].
  split; [exact Hn|]. exact (proj1 Htitle).
Defined.

Lemma update_endpoint_is_for_the_author_witness :
  ∃ w' m,
    CommentHandler.Update default_usecase great_product_id "u9" (Some spam_edit) shop_world
    = (w', response_Forbidden m)
    ∧ comments w' = comments shop_world.
Proof.
  assert (∃ w' m,
    CommentHandler.Update default_usecase great_product_id "u9" (Some spam_edit) shop_world
    = (w', response_Forbidden m)) as (w' & m & Hrun)
    by (eexists _, _; vm_compute; reflexivity).
  exists w', m. split; [exact Hrun|].
  destruct (update_endpoint_is_for_the_author _ _ _ _ _ _ _ Hrun) as [_ Hforbidden].
  destruct (Hforbidden m eq_refl) as [Hsame _]. exact Hsame.
Defined.

Lemma admin_hard_delete_keeps_the_record_witness :
  ∃ w' after,
    AdminHandler.HardDelete default_usecase great_product_id "m1" shop_world
    = (w', response_NoContent)
    ∧ comments w' !! 1%N = Some after
    ∧ Comment.IsDeleted after = true
    ∧ Comment.Content after = "Great product!".
Proof.
  assert (∃ w',
    AdminHandler.HardDelete default_usecase great_product_id "m1" shop_world
    = (w', response_NoContent)) as (w' & Hrun) by (eexists; vm_compute; reflexivity).
  destruct (admin_hard_delete_keeps_the_record _ _ _ _ _ Hrun)
    as [(oid & before & after & Hoid & Hdoc & Hafter & Hdeleted & _ & Hcontent) _].
  vm_compute in Hoid. injection Hoid as <-.
  vm_compute in Hdoc. injection Hdoc as <-.
  exists w', after. split; [exact Hrun|]. split; [exact Hafter|].
  split; [exact Hdeleted|exact Hcontent].
Defined.

Lemma moderate_endpoint_validates_status_witness :
  ∃ w' resp,
    AdminHandler.ModerateComment default_usecase great_product_id "m1" (Some archive)
      shop_world = (w', resp)
    ∧ w' = shop_world
    ∧ resp = response_BadRequest "invalid_status"
               (Text "Status must be 'approved', 'rejected', or 'spam'").
Proof.
  destruct (AdminHandler.ModerateComment default_usecase great_product_id "m1"
              (Some archive) shop_world) as [w' resp] eqn:Hrun.
  exists w', resp. split; [reflexivity|].
  destruct (moderate_endpoint_validates_status _ _ _ _ _ _ _ Hrun) as [Hrefused _].
  apply Hrefused. intros Hin.
  repeat (apply elem_of_cons in Hin as [Hin|Hin]; [discriminate Hin|]).
  apply elem_of_nil in Hin. exact Hin.
Defined.

Lemma bulk_moderate_counts_and_sets_any_status_witness :
  ∃ w' r doc,
    AdminHandler.BulkModerate default_usecase "m1" (Some bulk_archive) shop_world
    = (w', response_OK r)
    ∧ BulkModerateResponse.SuccessCount r = 1%Z
    ∧ BulkModerateResponse.FailedIDs r = ["17"]
    ∧ comments w' !! 1%N = Some doc
    ∧ Comment.Status doc = "archived".
Proof.
  set (run := AdminHandler.BulkModerate default_usecase "m1" (Some bulk_archive) shop_world).
  assert (run = (run.1, response_OK {| BulkModerateResponse.SuccessCount := 1;
                                       BulkModerateResponse.FailedCount := 1;
                                       BulkModerateResponse.FailedIDs := ["17"] |}))
    as Hrun by (vm_compute; reflexivity).
  assert (BulkModerateRequest.CommentIDs bulk_archive ≠ []) as Hids by discriminate.
  destruct (bulk_moderate_counts_and_sets_any_status _ _ _ _ _ _ Hrun Hids
              ltac:(vm_compute; discriminate))
    as (r & Hr & _ & _ & _ & Hdone & _).
  injection Hr as <-.
  destruct (Hdone great_product_id) as (oid & doc & Hoid & Hdoc & Hstatus).
  { apply list_elem_of_here. }
  { cbn [BulkModerateResponse.FailedIDs]. intros Hin.
    apply list_elem_of_singleton in Hin. discriminate Hin. }
  vm_compute in Hoid. injection Hoid as <-.
  eexists run.1, _, doc. split; [exact Hrun|]. split; [reflexivity|].
  split; [reflexivity|]. split; [exact Hdoc|exact Hstatus].
Defined.

Lemma add_reaction_sets_the_reaction_and_the_counts_witness :
  ∃ s' after,
    ReactionUsecase.AddReaction great_product_id ReactionLike "u2" shop_store = (s', Ok tt)
    ∧ comments (world s') !! 1%N = Some after
    ∧ Comment.LikeCount after = 1%Z
    ∧ (ReactionUsecase.GetUserReaction great_product_id "u2" s').2 = Ok (Some ReactionLike).
Proof.
  set (run := ReactionUsecase.AddReaction great_product_id ReactionLike "u2" shop_store).
  assert (run = (run.1, Ok tt)) as Hrun by (vm_compute; reflexivity).
  assert (head (outages (world run.1)) ≠ Some true) as Hup by (vm_compute; discriminate).
  assert (logs (world run.1) = logs (world shop_store)) as Hlogs
    by (vm_compute; reflexivity).
  destruct (add_reaction_sets_the_reaction_and_the_counts great_product_id ReactionLike
              "u2" shop_store run.1 (Ok tt) Hrun) as [_ Hok].
  destruct (Hok eq_refl)
    as (oid & before & Hoid & _ & _ & _ & _ & _ & Hmine & Hcounts).
  vm_compute in Hoid. injection Hoid as <-.
  destruct (Hcounts Hlogs) as (after & Hafter & Hlike & _).
  exists run.1, after. split; [exact Hrun|]. split; [exact Hafter|].
  split; [rewrite Hlike; vm_compute; reflexivity|exact (Hmine Hup)].
Defined.

Lemma remove_reaction_deletes_the_reaction_and_sets_the_counts_witness :
  ∃ s' after,
    ReactionUsecase.RemoveReaction great_product_id "u2" liked_store = (s', Ok tt)
    ∧ reactions s' = []
    ∧ comments (world s') !! 1%N = Some after
    ∧ Comment.LikeCount after = 0%Z.
Proof.
  set (run := ReactionUsecase.RemoveReaction great_product_id "u2" liked_store).
  assert (run = (run.1, Ok tt)) as Hrun by (vm_compute; reflexivity).
  assert (logs (world run.1) = logs (world liked_store)) as Hlogs
    by (vm_compute; reflexivity).
  destruct (remove_reaction_deletes_the_reaction_and_sets_the_counts great_product_id "u2"
              liked_store run.1 (Ok tt) Hrun) as [_ Hok].
  destruct (Hok eq_refl) as (oid & Hoid & _ & _ & _ & Hcounts).
  vm_compute in Hoid. injection Hoid as <-.
  specialize (Hcounts Hlogs).
  assert (∃ before, comments (world liked_store) !! 1%N = Some before) as [before Hbefore]
    by (eexists; vm_compute; reflexivity).
  rewrite Hbefore in Hcounts. destruct Hcounts as (after & Hafter & Hlike & _).
  exists run.1, after. split; [exact Hrun|]. split; [vm_compute; reflexivity|].
  split; [exact Hafter|]. rewrite Hlike. vm_compute. reflexivity.
Defined.
